(** * MCC 172 host driver (src/lib/mcc172.c): a shallow embedding

    The development follows the C file top to bottom: constants, the framing
    codec ([_parse_buffer], [_create_frame]), the SPI transaction
    ([_spi_transfer]), the sample conversion ([_a_in_read_scan_data]), the
    producer thread ([_scan_thread]) and the public API.

    Machine integers are [Z] with the wrap-around written out, bytes are
    [Byte.byte], C [double]s are the kernel's binary64 floats, the device
    table [_devices] is a finite map from addresses to device records, and
    everything outside the file (the SPI bus, the EEPROM, the clock, the
    allocator, pthreads) is an explicit script of outcomes carried by the
    state. *)

From Stdlib Require Import ZArith Lia Bool List String.
From Stdlib Require Import PrimFloat Uint63 FloatOps SpecFloat.
From Stdlib.Strings Require Import Byte.
From stdpp Require Import base option list gmap.

Local Open Scope Z_scope.

(** ** Machine integers and bytes *)

Module MachineInt.

Definition wrap (w : Z) (z : Z) : Z := z mod 2 ^ w.

Definition u8 : Z -> Z := wrap 8.
Definition u16 : Z -> Z := wrap 16.
Definition u32 : Z -> Z := wrap 32.

(** Conversion of a 32-bit pattern to [int32_t] (two's complement). *)
Definition s32 (z : Z) : Z :=
  let r := u32 z in if r <? 2 ^ 31 then r else r - 2 ^ 32.

Definition byte_val (b : byte) : Z := Z.of_N (Byte.to_N b).

(** The cast [(uint8_t)z]. *)
Definition byte_of_Z (z : Z) : byte :=
  default x00 (Byte.of_N (Z.to_N (u8 z))).

(** [ptr[i]] on a buffer held as a list; a read past the end of the list
    (outside the allocation in C) yields 0. *)
Definition byte_at (ptr : list byte) (i : Z) : byte :=
  default x00 (ptr !! Z.to_nat i).

(** [p == NULL] for a pointer held as an option. *)
Definition is_null {A} (p : option A) : bool :=
  match p with None => true | Some _ => false end.

(** A little-endian [uint16_t] from its two bytes. *)
Definition le16 (lo hi : byte) : Z := byte_val lo + 256 * byte_val hi.

(** [memcpy(&dst[at], src, n)]. *)
Definition memcpy {A} (dst : list A) (at_ : Z) (src : list A) (n : Z) : list A :=
  list_inserts (Z.to_nat at_) (take (Z.to_nat n) src) dst.

End MachineInt.
Import MachineInt.

(** ** Constants of mcc172.c *)

Definition MAX_CODE : Z := 8388607.
Definition MIN_CODE : Z := -8388608.
Definition NUM_CHANNELS : Z := 2.
Definition MAX_SAMPLE_RATE : Z := 51200.

Definition CMD_AINSCANSTART : Z := 0x11.
Definition CMD_AINSCANSTATUS : Z := 0x12.
Definition CMD_AINSCANDATA : Z := 0x13.
Definition CMD_AINSCANSTOP : Z := 0x14.
Definition CMD_AINCLOCKCONFIG_R : Z := 0x15.
Definition CMD_AINCLOCKCONFIG_W : Z := 0x16.
Definition CMD_TRIGGERCONFIG_R : Z := 0x17.
Definition CMD_TRIGGERCONFIG_W : Z := 0x18.
Definition CMD_BLINK : Z := 0x40.
Definition CMD_ID : Z := 0x41.
Definition CMD_RESET : Z := 0x42.
Definition CMD_IEPECONFIG_R : Z := 0x43.
Definition CMD_IEPECONFIG_W : Z := 0x44.
Definition CMD_TESTSIGNAL_R : Z := 0x45.
Definition CMD_TESTSIGNAL_W : Z := 0x46.

Definition MAX_TX_DATA_SIZE : Z := 256.
Definition MSG_START : Z := 0xDB.

Definition MSG_TX_INDEX_START : Z := 0.
Definition MSG_TX_INDEX_COMMAND : Z := 1.
Definition MSG_TX_INDEX_COUNT_LOW : Z := 2.
Definition MSG_TX_INDEX_COUNT_HIGH : Z := 3.
Definition MSG_TX_INDEX_DATA : Z := 4.
Definition MSG_TX_HEADER_SIZE : Z := 4.

Definition MSG_RX_INDEX_START : Z := 0.
Definition MSG_RX_INDEX_COMMAND : Z := 1.
Definition MSG_RX_INDEX_STATUS : Z := 2.
Definition MSG_RX_INDEX_COUNT_LOW : Z := 3.
Definition MSG_RX_INDEX_COUNT_HIGH : Z := 4.
Definition MSG_RX_INDEX_DATA : Z := 5.
Definition MSG_RX_HEADER_SIZE : Z := 5.

Definition MAX_SPI_TRANSFER : Z := 4096.
Definition SAMPLE_SIZE_BYTES : Z := 3.
Definition MAX_SAMPLES_READ : Z :=
  (MAX_SPI_TRANSFER - MSG_RX_HEADER_SIZE) / SAMPLE_SIZE_BYTES.

Definition FW_RES_SUCCESS : Z := 0x00.
Definition FW_RES_BAD_PROTOCOL : Z := 0x01.
Definition FW_RES_BAD_PARAMETER : Z := 0x02.
Definition FW_RES_BUSY : Z := 0x03.
Definition FW_RES_NOT_READY : Z := 0x04.
Definition FW_RES_TIMEOUT : Z := 0x05.
Definition FW_RES_OTHER_ERROR : Z := 0x06.

Definition MAX_SCAN_BUFFER_SIZE_SAMPLES : Z := 16 * 1024 * 1024.

Definition COUNT_NORMALIZE (x c : Z) : Z := (x / c) * c.
Definition MIN (a b : Z) : Z := if a <? b then a else b.
Definition MAX (a b : Z) : Z := if a >? b then a else b.

(** The result codes of daqhats.h, as an enumeration. *)
Inductive ResultCode : Type :=
  | RESULT_SUCCESS
  | RESULT_BAD_PARAMETER
  | RESULT_BUSY
  | RESULT_TIMEOUT
  | RESULT_LOCK_TIMEOUT
  | RESULT_INVALID_DEVICE
  | RESULT_RESOURCE_UNAVAIL
  | RESULT_UNDEFINED.

#[global] Instance ResultCode_eq_dec : EqDecision ResultCode.
Proof. solve_decision. Defined.

(** ** Framing codec *)

Module Framing.

(** The locals of [_parse_buffer]. *)
Record parse_vars : Type := mk_parse_vars {
  parse_state : Z;
  found_frame : bool;
  data_count : Z;
  data_index : Z;
  _remaining : Z;
  _frame_length : Z;
  _frame_start : Z
}.

Definition parse_init : parse_vars :=
  {| parse_state := 0; found_frame := false; data_count := 0;
     data_index := 0; _remaining := 0; _frame_length := 0;
     _frame_start := 0 |}.

(** The body of the [for] loop: one [switch (parse_state)] on [ptr[index]]. *)
Definition parse_step (ptr : list byte) (index : Z) (v : parse_vars)
  : parse_vars :=
  let b := byte_val (byte_at ptr index) in
  match parse_state v with
  | 0 => (* looking for start *)
      if MSG_START =? b then
        {| parse_state := parse_state v + 1; found_frame := found_frame v;
           data_count := 0; data_index := 0;
           _remaining := _remaining v; _frame_length := _frame_length v;
           _frame_start := index |}
      else v
  | 1 | 2 => (* command, status *)
      {| parse_state := parse_state v + 1; found_frame := found_frame v;
         data_count := data_count v; data_index := data_index v;
         _remaining := _remaining v; _frame_length := _frame_length v;
         _frame_start := _frame_start v |}
  | 3 => (* count low *)
      {| parse_state := parse_state v + 1; found_frame := found_frame v;
         data_count := b; data_index := data_index v;
         _remaining := _remaining v; _frame_length := _frame_length v;
         _frame_start := _frame_start v |}
  | 4 => (* count high *)
      let dc := Z.lor (data_count v) (u16 (Z.shiftl b 8)) in
      if dc =? 0 then
        {| parse_state := 6; found_frame := true;
           data_count := dc; data_index := data_index v;
           _remaining := 0; _frame_length := MSG_RX_HEADER_SIZE;
           _frame_start := _frame_start v |}
      else
        {| parse_state := parse_state v + 1; found_frame := found_frame v;
           data_count := dc; data_index := data_index v;
           _remaining := dc; _frame_length := _frame_length v;
           _frame_start := _frame_start v |}
  | 5 => (* data *)
      let rem := u16 (_remaining v - 1) in
      let di := u16 (data_index v + 1) in
      if di >=? data_count v then
        {| parse_state := parse_state v + 1; found_frame := true;
           data_count := data_count v; data_index := di;
           _remaining := rem;
           _frame_length := u16 (data_count v + MSG_RX_HEADER_SIZE);
           _frame_start := _frame_start v |}
      else
        {| parse_state := parse_state v; found_frame := found_frame v;
           data_count := data_count v; data_index := di;
           _remaining := rem; _frame_length := _frame_length v;
           _frame_start := _frame_start v |}
  | 6 => (* message is complete *) v
  | _ =>
      {| parse_state := 0; found_frame := found_frame v;
         data_count := data_count v; data_index := data_index v;
         _remaining := _remaining v; _frame_length := _frame_length v;
         _frame_start := _frame_start v |}
  end.

(** [for (index = ...; (index < length) && !found_frame; index++)], with
    [todo = length - index] iterations left before [index] reaches
    [length]. *)
Fixpoint parse_loop (ptr : list byte) (todo : nat) (index : Z)
    (v : parse_vars) : parse_vars :=
  match todo with
  | O => v
  | S todo' =>
      if found_frame v then v
      else parse_loop ptr todo' (index + 1) (parse_step ptr index v)
  end.

(** What [_parse_buffer] hands back: its return value and the three
    out-parameters. *)
Record parse_result : Type := mk_parse_result {
  found : bool;
  frame_start : Z;
  frame_length : Z;
  remaining : Z
}.

Definition _parse_buffer (buffer : list byte) (length : Z) : parse_result :=
  let v := parse_loop buffer (Z.to_nat length) 0 parse_init in
  {| found := found_frame v; frame_start := _frame_start v;
     frame_length := _frame_length v; remaining := _remaining v |}.

(** [_create_frame]: the value returned and the buffer after the call. *)
Definition _create_frame (buffer : list byte) (command : byte) (count : Z)
    (data : list byte) : Z * list byte :=
  if count >? MAX_TX_DATA_SIZE then (0, buffer)
  else
    let buffer := <[Z.to_nat MSG_TX_INDEX_START := byte_of_Z MSG_START]> buffer in
    let buffer := <[Z.to_nat MSG_TX_INDEX_COMMAND := command]> buffer in
    let buffer := <[Z.to_nat MSG_TX_INDEX_COUNT_LOW := byte_of_Z count]> buffer in
    let buffer :=
      <[Z.to_nat MSG_TX_INDEX_COUNT_HIGH := byte_of_Z (Z.shiftr count 8)]> buffer in
    let buffer :=
      if count >? 0 then memcpy buffer MSG_TX_INDEX_DATA data count
      else buffer in
    (MSG_TX_HEADER_SIZE + count, buffer).

End Framing.
Import Framing.

Example parse_empty_reply :
  _parse_buffer [xdb; x12; x00; x00; x00; xff] 6
  = {| found := true; frame_start := 0; frame_length := 5; remaining := 0 |}.
Proof. reflexivity. Qed.

Example create_frame_two :
  _create_frame (replicate 6 x00) x13 2 [x05; x00]
  = (6, [xdb; x13; x02; x00; x05; x00]).
Proof. reflexivity. Qed.

(** ** C doubles *)

Module Double.

(** [(double)z] for an integer that fits 63 bits. *)
Definition of_Z (z : Z) : float :=
  if z <? 0 then PrimFloat.opp (PrimFloat.of_uint63 (Uint63.of_Z (- z)))
  else PrimFloat.of_uint63 (Uint63.of_Z z).

(** Conversion of a double to an integer type: truncation toward zero.
    C leaves NaN, infinities and out-of-range values undefined; they are
    mapped to what the mantissa and exponent give, or 0. *)
Definition to_Z (f : float) : Z :=
  match Prim2SF f with
  | S754_finite s m e =>
      let v := if e >=? 0 then Z.pos m * 2 ^ e else Z.pos m / 2 ^ (- e) in
      if s then - v else v
  | _ => 0
  end.

End Double.

Definition RANGE_MIN : float := (-5.0)%float.
Definition RANGE_MAX : float := (5.0)%float.
Definition LSB_SIZE : float :=
  ((RANGE_MAX - RANGE_MIN) / Double.of_Z (MAX_CODE + 1))%float.
Definition VOLTAGE_MIN : float := RANGE_MIN.
Definition VOLTAGE_MAX : float := (RANGE_MAX - LSB_SIZE)%float.

(** [struct MCC172DeviceInfo mcc172_device_info]. *)
Record MCC172DeviceInfo : Type := {
  NUM_AI_CHANNELS : Z;
  AI_MIN_CODE : Z;
  AI_MAX_CODE : Z;
  AI_MIN_VOLTAGE : float;
  AI_MAX_VOLTAGE : float;
  AI_MIN_RANGE : float;
  AI_MAX_RANGE : float
}.

Definition mcc172_device_info : MCC172DeviceInfo :=
  {| NUM_AI_CHANNELS := NUM_CHANNELS;
     AI_MIN_CODE := MIN_CODE;
     AI_MAX_CODE := MAX_CODE;
     AI_MIN_VOLTAGE := VOLTAGE_MIN;
     AI_MAX_VOLTAGE := VOLTAGE_MAX;
     AI_MIN_RANGE := RANGE_MIN;
     AI_MAX_RANGE := RANGE_MAX |}.

(** ** Constants the file takes from daqhats.h and util.h, and [SIZE_MAX],
    the largest [size_t] of the target, from stdint.h

    Their values are not part of mcc172.c; the driver is stated over any
    assignment of them. *)
Class DaqhatsH : Type := {
  SIZE_MAX : Z;
  MAX_NUMBER_HATS : Z;
  HAT_ID_MCC_172 : Z;
  MSEC : Z;
  OPTS_NOSCALEDATA : Z;
  OPTS_NOCALIBRATEDATA : Z;
  OPTS_EXTTRIGGER : Z;
  OPTS_CONTINUOUS : Z;
  STATUS_HW_OVERRUN : Z;
  STATUS_BUFFER_OVERRUN : Z;
  STATUS_TRIGGERED : Z;
  STATUS_RUNNING : Z;
  TRIG_ACTIVE_LOW : Z
}.

(** ** Device records *)

(** [struct mcc172FactoryData]. *)
Module Factory.
Record mcc172FactoryData : Type := mk_factory_data {
  serial : string;
  cal_date : string;
  slopes : list float;
  offsets : list float
}.
End Factory.
Abbreviation mcc172FactoryData := Factory.mcc172FactoryData.

(** [struct mcc172ScanThreadInfo]. [scan_buffer] is a pointer in C: the
    block it points to is held as its contents, [scan_buffer], a map from an
    index to the sample stored there, and its size in bytes,
    [scan_buffer_bytes], the size that was passed to [calloc]. [calloc]
    gives the empty map, read as 0.0 everywhere. [handle] is 0 when no
    thread was created. *)
Module Scan.

Record mcc172ScanThreadInfo : Type := mk_scan_info {
  handle : Z;
  scan_buffer : gmap Z float;
  buffer_size : Z;
  write_index : Z;
  read_index : Z;
  samples_transferred : Z;
  buffer_depth : Z;
  read_threshold : Z;
  options : Z;
  hw_overrun : bool;
  buffer_overrun : bool;
  thread_running : bool;
  stop_thread : bool;
  triggered : bool;
  scan_running : bool;
  channel_count : Z;
  channel_index : Z;
  channels : list Z;
  slopes : list float;
  offsets : list float;
  scan_buffer_bytes : Z
}.

(** [calloc(sizeof(struct mcc172ScanThreadInfo), 1)]. *)
Definition zeroed : mcc172ScanThreadInfo :=
  mk_scan_info 0 ∅ 0 0 0 0 0 0 0 false false false false false false 0 0
    (replicate (Z.to_nat NUM_CHANNELS) 0)
    (replicate (Z.to_nat NUM_CHANNELS) 0%float)
    (replicate (Z.to_nat NUM_CHANNELS) 0%float) 0.

(** Field assignments [info->f = x]. *)
Definition set_handle (x : Z) (i : mcc172ScanThreadInfo)
  : mcc172ScanThreadInfo :=
  mk_scan_info x (scan_buffer i) (buffer_size i) (write_index i)
    (read_index i) (samples_transferred i) (buffer_depth i)
    (read_threshold i) (options i) (hw_overrun i) (buffer_overrun i)
    (thread_running i) (stop_thread i) (triggered i) (scan_running i)
    (channel_count i) (channel_index i) (channels i) (slopes i)
    (offsets i)
    (scan_buffer_bytes i).

Definition set_scan_buffer (x : gmap Z float) (i : mcc172ScanThreadInfo)
  : mcc172ScanThreadInfo :=
  mk_scan_info (handle i) x (buffer_size i) (write_index i) (read_index i)
    (samples_transferred i) (buffer_depth i) (read_threshold i)
    (options i) (hw_overrun i) (buffer_overrun i) (thread_running i)
    (stop_thread i) (triggered i) (scan_running i) (channel_count i)
    (channel_index i) (channels i) (slopes i) (offsets i)
    (scan_buffer_bytes i).

Definition set_buffer_size (x : Z) (i : mcc172ScanThreadInfo)
  : mcc172ScanThreadInfo :=
  mk_scan_info (handle i) (scan_buffer i) x (write_index i) (read_index i)
    (samples_transferred i) (buffer_depth i) (read_threshold i)
    (options i) (hw_overrun i) (buffer_overrun i) (thread_running i)
    (stop_thread i) (triggered i) (scan_running i) (channel_count i)
    (channel_index i) (channels i) (slopes i) (offsets i)
    (scan_buffer_bytes i).

Definition set_write_index (x : Z) (i : mcc172ScanThreadInfo)
  : mcc172ScanThreadInfo :=
  mk_scan_info (handle i) (scan_buffer i) (buffer_size i) x (read_index i)
    (samples_transferred i) (buffer_depth i) (read_threshold i)
    (options i) (hw_overrun i) (buffer_overrun i) (thread_running i)
    (stop_thread i) (triggered i) (scan_running i) (channel_count i)
    (channel_index i) (channels i) (slopes i) (offsets i)
    (scan_buffer_bytes i).

Definition set_read_index (x : Z) (i : mcc172ScanThreadInfo)
  : mcc172ScanThreadInfo :=
  mk_scan_info (handle i) (scan_buffer i) (buffer_size i) (write_index i)
    x (samples_transferred i) (buffer_depth i) (read_threshold i)
    (options i) (hw_overrun i) (buffer_overrun i) (thread_running i)
    (stop_thread i) (triggered i) (scan_running i) (channel_count i)
    (channel_index i) (channels i) (slopes i) (offsets i)
    (scan_buffer_bytes i).

Definition set_samples_transferred (x : Z) (i : mcc172ScanThreadInfo)
  : mcc172ScanThreadInfo :=
  mk_scan_info (handle i) (scan_buffer i) (buffer_size i) (write_index i)
    (read_index i) x (buffer_depth i) (read_threshold i) (options i)
    (hw_overrun i) (buffer_overrun i) (thread_running i) (stop_thread i)
    (triggered i) (scan_running i) (channel_count i) (channel_index i)
    (channels i) (slopes i) (offsets i)
    (scan_buffer_bytes i).

Definition set_buffer_depth (x : Z) (i : mcc172ScanThreadInfo)
  : mcc172ScanThreadInfo :=
  mk_scan_info (handle i) (scan_buffer i) (buffer_size i) (write_index i)
    (read_index i) (samples_transferred i) x (read_threshold i)
    (options i) (hw_overrun i) (buffer_overrun i) (thread_running i)
    (stop_thread i) (triggered i) (scan_running i) (channel_count i)
    (channel_index i) (channels i) (slopes i) (offsets i)
    (scan_buffer_bytes i).

Definition set_read_threshold (x : Z) (i : mcc172ScanThreadInfo)
  : mcc172ScanThreadInfo :=
  mk_scan_info (handle i) (scan_buffer i) (buffer_size i) (write_index i)
    (read_index i) (samples_transferred i) (buffer_depth i) x (options i)
    (hw_overrun i) (buffer_overrun i) (thread_running i) (stop_thread i)
    (triggered i) (scan_running i) (channel_count i) (channel_index i)
    (channels i) (slopes i) (offsets i)
    (scan_buffer_bytes i).

Definition set_options (x : Z) (i : mcc172ScanThreadInfo)
  : mcc172ScanThreadInfo :=
  mk_scan_info (handle i) (scan_buffer i) (buffer_size i) (write_index i)
    (read_index i) (samples_transferred i) (buffer_depth i)
    (read_threshold i) x (hw_overrun i) (buffer_overrun i)
    (thread_running i) (stop_thread i) (triggered i) (scan_running i)
    (channel_count i) (channel_index i) (channels i) (slopes i)
    (offsets i)
    (scan_buffer_bytes i).

Definition set_hw_overrun (x : bool) (i : mcc172ScanThreadInfo)
  : mcc172ScanThreadInfo :=
  mk_scan_info (handle i) (scan_buffer i) (buffer_size i) (write_index i)
    (read_index i) (samples_transferred i) (buffer_depth i)
    (read_threshold i) (options i) x (buffer_overrun i) (thread_running i)
    (stop_thread i) (triggered i) (scan_running i) (channel_count i)
    (channel_index i) (channels i) (slopes i) (offsets i)
    (scan_buffer_bytes i).

Definition set_buffer_overrun (x : bool) (i : mcc172ScanThreadInfo)
  : mcc172ScanThreadInfo :=
  mk_scan_info (handle i) (scan_buffer i) (buffer_size i) (write_index i)
    (read_index i) (samples_transferred i) (buffer_depth i)
    (read_threshold i) (options i) (hw_overrun i) x (thread_running i)
    (stop_thread i) (triggered i) (scan_running i) (channel_count i)
    (channel_index i) (channels i) (slopes i) (offsets i)
    (scan_buffer_bytes i).

Definition set_thread_running (x : bool) (i : mcc172ScanThreadInfo)
  : mcc172ScanThreadInfo :=
  mk_scan_info (handle i) (scan_buffer i) (buffer_size i) (write_index i)
    (read_index i) (samples_transferred i) (buffer_depth i)
    (read_threshold i) (options i) (hw_overrun i) (buffer_overrun i) x
    (stop_thread i) (triggered i) (scan_running i) (channel_count i)
    (channel_index i) (channels i) (slopes i) (offsets i)
    (scan_buffer_bytes i).

Definition set_stop_thread (x : bool) (i : mcc172ScanThreadInfo)
  : mcc172ScanThreadInfo :=
  mk_scan_info (handle i) (scan_buffer i) (buffer_size i) (write_index i)
    (read_index i) (samples_transferred i) (buffer_depth i)
    (read_threshold i) (options i) (hw_overrun i) (buffer_overrun i)
    (thread_running i) x (triggered i) (scan_running i) (channel_count i)
    (channel_index i) (channels i) (slopes i) (offsets i)
    (scan_buffer_bytes i).

Definition set_triggered (x : bool) (i : mcc172ScanThreadInfo)
  : mcc172ScanThreadInfo :=
  mk_scan_info (handle i) (scan_buffer i) (buffer_size i) (write_index i)
    (read_index i) (samples_transferred i) (buffer_depth i)
    (read_threshold i) (options i) (hw_overrun i) (buffer_overrun i)
    (thread_running i) (stop_thread i) x (scan_running i)
    (channel_count i) (channel_index i) (channels i) (slopes i)
    (offsets i)
    (scan_buffer_bytes i).

Definition set_scan_running (x : bool) (i : mcc172ScanThreadInfo)
  : mcc172ScanThreadInfo :=
  mk_scan_info (handle i) (scan_buffer i) (buffer_size i) (write_index i)
    (read_index i) (samples_transferred i) (buffer_depth i)
    (read_threshold i) (options i) (hw_overrun i) (buffer_overrun i)
    (thread_running i) (stop_thread i) (triggered i) x (channel_count i)
    (channel_index i) (channels i) (slopes i) (offsets i)
    (scan_buffer_bytes i).

Definition set_channel_count (x : Z) (i : mcc172ScanThreadInfo)
  : mcc172ScanThreadInfo :=
  mk_scan_info (handle i) (scan_buffer i) (buffer_size i) (write_index i)
    (read_index i) (samples_transferred i) (buffer_depth i)
    (read_threshold i) (options i) (hw_overrun i) (buffer_overrun i)
    (thread_running i) (stop_thread i) (triggered i) (scan_running i) x
    (channel_index i) (channels i) (slopes i) (offsets i)
    (scan_buffer_bytes i).

Definition set_channel_index (x : Z) (i : mcc172ScanThreadInfo)
  : mcc172ScanThreadInfo :=
  mk_scan_info (handle i) (scan_buffer i) (buffer_size i) (write_index i)
    (read_index i) (samples_transferred i) (buffer_depth i)
    (read_threshold i) (options i) (hw_overrun i) (buffer_overrun i)
    (thread_running i) (stop_thread i) (triggered i) (scan_running i)
    (channel_count i) x (channels i) (slopes i) (offsets i)
    (scan_buffer_bytes i).

Definition set_channels (x : list Z) (i : mcc172ScanThreadInfo)
  : mcc172ScanThreadInfo :=
  mk_scan_info (handle i) (scan_buffer i) (buffer_size i) (write_index i)
    (read_index i) (samples_transferred i) (buffer_depth i)
    (read_threshold i) (options i) (hw_overrun i) (buffer_overrun i)
    (thread_running i) (stop_thread i) (triggered i) (scan_running i)
    (channel_count i) (channel_index i) x (slopes i) (offsets i)
    (scan_buffer_bytes i).

Definition set_slopes (x : list float) (i : mcc172ScanThreadInfo)
  : mcc172ScanThreadInfo :=
  mk_scan_info (handle i) (scan_buffer i) (buffer_size i) (write_index i)
    (read_index i) (samples_transferred i) (buffer_depth i)
    (read_threshold i) (options i) (hw_overrun i) (buffer_overrun i)
    (thread_running i) (stop_thread i) (triggered i) (scan_running i)
    (channel_count i) (channel_index i) (channels i) x (offsets i)
    (scan_buffer_bytes i).

Definition set_offsets (x : list float) (i : mcc172ScanThreadInfo)
  : mcc172ScanThreadInfo :=
  mk_scan_info (handle i) (scan_buffer i) (buffer_size i) (write_index i)
    (read_index i) (samples_transferred i) (buffer_depth i)
    (read_threshold i) (options i) (hw_overrun i) (buffer_overrun i)
    (thread_running i) (stop_thread i) (triggered i) (scan_running i)
    (channel_count i) (channel_index i) (channels i) (slopes i) x
    (scan_buffer_bytes i).

(** The size of the block that [scan_buffer] points to. *)
Definition set_scan_buffer_bytes (x : Z) (i : mcc172ScanThreadInfo)
  : mcc172ScanThreadInfo :=
  mk_scan_info (handle i) (scan_buffer i) (buffer_size i) (write_index i)
    (read_index i) (samples_transferred i) (buffer_depth i)
    (read_threshold i) (options i) (hw_overrun i) (buffer_overrun i)
    (thread_running i) (stop_thread i) (triggered i) (scan_running i)
    (channel_count i) (channel_index i) (channels i) (slopes i)
    (offsets i) x.

(** [scan_buffer[i]] and [scan_buffer[i] = x]. *)
Definition ring_get (buf : gmap Z float) (i : Z) : float :=
  default 0%float (buf !! i).

Definition float_at (l : list float) (i : Z) : float :=
  default 0%float (l !! Z.to_nat i).

End Scan.
Import Scan.

(** [struct mcc172Device]; [scan_info] is [None] for the NULL pointer. *)
Record mcc172Device : Type := mk_device {
  handle_count : Z;
  fw_version : Z;
  spi_fd : Z;
  trigger_source : Z;
  trigger_mode : Z;
  factory_data : mcc172FactoryData;
  scan_info : option mcc172ScanThreadInfo
}.

Definition set_handle_count (x : Z) (d : mcc172Device) : mcc172Device :=
  mk_device x (fw_version d) (spi_fd d) (trigger_source d) (trigger_mode d)
    (factory_data d) (scan_info d).

Definition set_fw_version (x : Z) (d : mcc172Device) : mcc172Device :=
  mk_device (handle_count d) x (spi_fd d) (trigger_source d) (trigger_mode d)
    (factory_data d) (scan_info d).

Definition set_spi_fd (x : Z) (d : mcc172Device) : mcc172Device :=
  mk_device (handle_count d) (fw_version d) x (trigger_source d)
    (trigger_mode d) (factory_data d) (scan_info d).

Definition set_trigger_source (x : Z) (d : mcc172Device) : mcc172Device :=
  mk_device (handle_count d) (fw_version d) (spi_fd d) x (trigger_mode d)
    (factory_data d) (scan_info d).

Definition set_trigger_mode (x : Z) (d : mcc172Device) : mcc172Device :=
  mk_device (handle_count d) (fw_version d) (spi_fd d) (trigger_source d) x
    (factory_data d) (scan_info d).

Definition set_factory_data (x : mcc172FactoryData) (d : mcc172Device)
  : mcc172Device :=
  mk_device (handle_count d) (fw_version d) (spi_fd d) (trigger_source d)
    (trigger_mode d) x (scan_info d).

Definition set_scan_info (x : option mcc172ScanThreadInfo) (d : mcc172Device)
  : mcc172Device :=
  mk_device (handle_count d) (fw_version d) (spi_fd d) (trigger_source d)
    (trigger_mode d) (factory_data d) x.

(** ** The world around the driver *)

(** A cJSON node: its type, [valuestring], [valuedouble], its key [string]
    and its children (the [child]/[next] chain). *)
Inductive cJSON_type : Type :=
  | cJSON_False | cJSON_True | cJSON_NULL | cJSON_Number | cJSON_String
  | cJSON_Array | cJSON_Object.

#[global] Instance cJSON_type_eq_dec : EqDecision cJSON_type.
Proof. solve_decision. Defined.

#[warnings="-register-all"] Inductive cJSON : Type :=
  | cJSON_node (type : cJSON_type) (valuestring : option string)
      (valuedouble : float) (name : option string) (child : list cJSON).

(** Everything one [_spi_transfer] meets on the bus, in the order the
    function asks for it. A ready poll is the ioctl's return value, the byte
    clocked into [rx_buffer[0]] and the elapsed time [diff] read after it; a
    body read is the ioctl's return value, the bytes clocked in after the
    ready byte and the elapsed time. *)
Record SpiEnv : Type := {
  lock_fd : Z;
  rd_mode_ret : Z;
  rd_mode : Z;
  wr_mode_ret : Z;
  send_ret : Z;
  ready_polls : list (Z * byte * Z);
  body_reads : list (Z * list byte * Z)
}.

(** The producer thread of a scan: not yet scheduled, inside its loop with
    the locals of [_scan_thread], or returned. *)
Record ThreadLocals : Type := {
  done : bool;
  sleep_us : Z;
  status_count : Z;
  scaled : bool;
  calibrated : bool
}.

Inductive ThreadPc : Type :=
  | ThreadEntry
  | ThreadLoop (l : ThreadLocals)
  | ThreadExit.

(** The outcomes of the calls that leave the file, each list in call order:
    SPI transactions, [calloc]/[malloc] (true: memory was returned),
    [open(spi_device)], [pthread_attr_init], [pthread_create] (return value
    and thread handle), [_difftime_us] as read by [mcc172_a_in_scan_read],
    and how many steps the producer thread takes during each [usleep] of the
    reader. [eeprom] is what [_hat_info] finds for an address (product id
    and custom data), [cJSON_Parse] the parser's answer. [fptoui32] is what
    the target's conversion of a double to [uint32_t] yields for a value
    that does not fit the type, where C leaves the conversion undefined. *)
Record Environment : Type := {
  spi_bus : list SpiEnv;
  heap : list bool;
  spidev : list Z;
  pthread_attr : list Z;
  pthread_new : list (Z * Z);
  monotonic : list Z;
  scheduler : list nat;
  eeprom : Z -> option (Z * list byte);
  cJSON_Parse : option (list byte) -> option cJSON;
  fptoui32 : float -> Z
}.

(** The file's variables [_devices] and [_mcc172_lib_initialized], the
    threads it started, and the environment. *)
Record World : Type := mk_world {
  _devices : gmap Z mcc172Device;
  _mcc172_lib_initialized : bool;
  threads : gmap Z ThreadPc;
  env : Environment
}.

Definition set_devices (x : gmap Z mcc172Device) (w : World) : World :=
  mk_world x (_mcc172_lib_initialized w) (threads w) (env w).

Definition set_initialized (x : bool) (w : World) : World :=
  mk_world (_devices w) x (threads w) (env w).

Definition set_threads (x : gmap Z ThreadPc) (w : World) : World :=
  mk_world (_devices w) (_mcc172_lib_initialized w) x (env w).

Definition set_env (x : Environment) (w : World) : World :=
  mk_world (_devices w) (_mcc172_lib_initialized w) (threads w) x.

(** ** The monad of driver code: state, and no result when the environment
    script does not say what happens next. *)

Definition M (A : Type) : Type := World -> option (A * World).

Definition ret {A} (a : A) : M A := fun w => Some (a, w).

Definition bind {A B} (m : M A) (k : A -> M B) : M B :=
  fun w => match m w with
           | Some (a, w') => k a w'
           | None => None
           end.

Definition get : M World := fun w => Some (w, w).
Definition modify (f : World -> World) : M unit := fun w => Some (tt, f w).
Definition undefined {A} : M A := fun _ => None.

Declare Scope driver_scope.
Delimit Scope driver_scope with driver.
Notation "x <- m ;; k" := (bind m (fun x => k))
  (at level 100, m at next level, right associativity) : driver_scope.
Notation "m ;;; k" := (bind m (fun _ => k))
  (at level 100, right associativity) : driver_scope.
Local Open Scope driver_scope.

Definition set_spi_bus (x : list SpiEnv) (e : Environment) : Environment :=
  {| spi_bus := x; heap := heap e; spidev := spidev e;
     pthread_attr := pthread_attr e; pthread_new := pthread_new e;
     monotonic := monotonic e; scheduler := scheduler e;
     eeprom := eeprom e; cJSON_Parse := cJSON_Parse e;
     fptoui32 := fptoui32 e |}.

Definition set_heap (x : list bool) (e : Environment) : Environment :=
  {| spi_bus := spi_bus e; heap := x; spidev := spidev e;
     pthread_attr := pthread_attr e; pthread_new := pthread_new e;
     monotonic := monotonic e; scheduler := scheduler e;
     eeprom := eeprom e; cJSON_Parse := cJSON_Parse e;
     fptoui32 := fptoui32 e |}.

Definition set_spidev (x : list Z) (e : Environment) : Environment :=
  {| spi_bus := spi_bus e; heap := heap e; spidev := x;
     pthread_attr := pthread_attr e; pthread_new := pthread_new e;
     monotonic := monotonic e; scheduler := scheduler e;
     eeprom := eeprom e; cJSON_Parse := cJSON_Parse e;
     fptoui32 := fptoui32 e |}.

Definition set_pthread_attr (x : list Z) (e : Environment) : Environment :=
  {| spi_bus := spi_bus e; heap := heap e; spidev := spidev e;
     pthread_attr := x; pthread_new := pthread_new e;
     monotonic := monotonic e; scheduler := scheduler e;
     eeprom := eeprom e; cJSON_Parse := cJSON_Parse e;
     fptoui32 := fptoui32 e |}.

Definition set_pthread_new (x : list (Z * Z)) (e : Environment)
  : Environment :=
  {| spi_bus := spi_bus e; heap := heap e; spidev := spidev e;
     pthread_attr := pthread_attr e; pthread_new := x;
     monotonic := monotonic e; scheduler := scheduler e;
     eeprom := eeprom e; cJSON_Parse := cJSON_Parse e;
     fptoui32 := fptoui32 e |}.

Definition set_monotonic (x : list Z) (e : Environment) : Environment :=
  {| spi_bus := spi_bus e; heap := heap e; spidev := spidev e;
     pthread_attr := pthread_attr e; pthread_new := pthread_new e;
     monotonic := x; scheduler := scheduler e;
     eeprom := eeprom e; cJSON_Parse := cJSON_Parse e;
     fptoui32 := fptoui32 e |}.

Definition set_scheduler (x : list nat) (e : Environment) : Environment :=
  {| spi_bus := spi_bus e; heap := heap e; spidev := spidev e;
     pthread_attr := pthread_attr e; pthread_new := pthread_new e;
     monotonic := monotonic e; scheduler := x;
     eeprom := eeprom e; cJSON_Parse := cJSON_Parse e;
     fptoui32 := fptoui32 e |}.

(** Taking the next outcome from a script; no result once it is used up. *)
Definition pop {A} (script : Environment -> list A)
    (rest : list A -> Environment -> Environment) : M A :=
  fun w =>
    match script (env w) with
    | x :: xs => Some (x, set_env (rest xs (env w)) w)
    | [] => None
    end.

Definition next_spi : M SpiEnv := pop spi_bus set_spi_bus.
Definition calloc : M bool := pop heap set_heap.
Definition open_spidev : M Z := pop spidev set_spidev.
Definition pthread_attr_init : M Z := pop pthread_attr set_pthread_attr.
Definition pthread_create : M (Z * Z) := pop pthread_new set_pthread_new.
Definition _difftime_us : M Z := pop monotonic set_monotonic.
Definition next_schedule : M nat := pop scheduler set_scheduler.

Definition _hat_info (address : Z) : M (option (Z * list byte)) :=
  fun w => Some (eeprom (env w) address, w).

(** Reading and writing [_devices[address]]. *)
Definition device (address : Z) : M (option mcc172Device) :=
  fun w => Some (_devices w !! address, w).

Definition store_device (address : Z) (d : mcc172Device) : M unit :=
  modify (fun w => set_devices (<[address := d]> (_devices w)) w).

Definition clear_device (address : Z) : M unit :=
  modify (fun w => set_devices (delete address (_devices w)) w).

(** ** The driver *)

Section Driver.

Context `{H : DaqhatsH}.

(** [spi_mode = SPI_MODE_1]: mode 1 (CPOL=0, CPHA=1). *)
Definition spi_mode : Z := 1.

(** *** [_check_addr] *)
Definition _check_addr (address : Z) (w : World) : bool :=
  if (address >=? MAX_NUMBER_HATS)
     || negb (_mcc172_lib_initialized w)
     || match _devices w !! address with
        | None => true
        | Some d => spi_fd d <? 0
        end
  then false
  else true.

(** *** [_spi_transfer] *)

(** The ready-poll loop: [do { ... } while (!got_reply && !timeout)] over
    the polls the bus answers; the result is [got_reply] and [rx_buffer]. *)
Fixpoint ready_poll (polls : list (Z * byte * Z)) (rx_buffer : list byte)
    (reply_timeout_us : Z) : option (bool * list byte) :=
  match polls with
  | [] => None
  | (ioctl_ret, b, diff) :: rest =>
      let rx_buffer :=
        if ioctl_ret >=? 1 then <[0%nat := b]> rx_buffer else rx_buffer in
      let got_reply :=
        (ioctl_ret >=? 1) && negb (byte_val (byte_at rx_buffer 0) =? 0) in
      let timeout := diff >? reply_timeout_us in
      if negb got_reply && negb timeout
      then ready_poll rest rx_buffer reply_timeout_us
      else Some (got_reply, rx_buffer)
  end.

(** The body-read loop; the result is [got_reply], [rx_buffer] and
    [frame_start]. *)
Fixpoint body_read (reads : list (Z * list byte * Z)) (rx_buffer : list byte)
    (read_amount reply_timeout_us fs : Z) : option (bool * list byte * Z) :=
  match reads with
  | [] => None
  | (ioctl_ret, bytes, diff) :: rest =>
      let rx_buffer :=
        if ioctl_ret >=? 1 then memcpy rx_buffer 1 bytes read_amount
        else rx_buffer in
      let pr := _parse_buffer rx_buffer (u16 (read_amount + 1)) in
      let got_reply := (ioctl_ret >=? 1) && found pr in
      let fs := if ioctl_ret >=? 1 then frame_start pr else fs in
      let timeout := diff >? reply_timeout_us in
      if negb got_reply && negb timeout
      then body_read rest rx_buffer read_amount reply_timeout_us fs
      else Some (got_reply, rx_buffer, fs)
  end.

(** How far a transaction gets on the bus: it returns early with a result
    code, or a reply frame was found in [rx_buffer] at [frame_start]. *)
Inductive Exchange : Type :=
  | Aborted (r : ResultCode)
  | FrameFound (tx_buffer rx_buffer : list byte) (fs : Z).

(** From [_create_frame] to the test of [got_reply]. *)
Definition spi_exchange (e : SpiEnv) (command : byte)
    (tx_data : option (list byte)) (tx_data_count rx_data_count : Z)
    (reply_timeout_us : Z) : option Exchange :=
  let tx_buffer_size := u16 (MSG_TX_HEADER_SIZE + tx_data_count) in
  let rx_buffer_size := u16 (MSG_RX_HEADER_SIZE + rx_data_count + 5) in
  let tx_buffer := replicate (Z.to_nat tx_buffer_size) x00 in
  let rx_buffer := replicate (Z.to_nat rx_buffer_size) x00 in
  let tx_buffer :=
    snd (_create_frame tx_buffer command tx_data_count (default [] tx_data)) in
  if lock_fd e <? 0 then Some (Aborted RESULT_LOCK_TIMEOUT)
  else if rd_mode_ret e =? -1 then Some (Aborted RESULT_UNDEFINED)
  else if negb (rd_mode e =? spi_mode) && (wr_mode_ret e =? -1)
  then Some (Aborted RESULT_UNDEFINED)
  else if send_ret e <? 1 then Some (Aborted RESULT_UNDEFINED)
  else
    let read_amount := u16 (rx_data_count + MSG_RX_HEADER_SIZE) in
    match ready_poll (ready_polls e) rx_buffer reply_timeout_us with
    | None => None
    | Some (false, _) => Some (Aborted RESULT_TIMEOUT)
    | Some (true, rx_buffer) =>
        match body_read (body_reads e) rx_buffer read_amount
                reply_timeout_us 0 with
        | None => None
        | Some (false, _, _) => Some (Aborted RESULT_TIMEOUT)
        | Some (true, rx_buffer, fs) =>
            Some (FrameFound tx_buffer rx_buffer fs)
        end
    end.

(** The [if]/[switch] on the reply: the result code and the caller's
    [rx_data] afterwards. *)
Definition reply_result (tx_buffer rx_buffer : list byte) (fs : Z)
    (rx_data : option (list byte)) (rx_data_count : Z)
    : ResultCode * option (list byte) :=
  if byte_val (byte_at rx_buffer (fs + MSG_RX_INDEX_COMMAND))
     =? byte_val (byte_at tx_buffer MSG_TX_INDEX_COMMAND)
  then
    let status := byte_val (byte_at rx_buffer (fs + MSG_RX_INDEX_STATUS)) in
    if status =? FW_RES_SUCCESS then
      (RESULT_SUCCESS,
       if rx_data_count >? 0
       then (fun d => memcpy d 0
                        (drop (Z.to_nat (fs + MSG_RX_INDEX_DATA)) rx_buffer)
                        rx_data_count) <$> rx_data
       else rx_data)
    else if status =? FW_RES_BAD_PARAMETER then (RESULT_BAD_PARAMETER, rx_data)
    else if status =? FW_RES_TIMEOUT then (RESULT_TIMEOUT, rx_data)
    else if status =? FW_RES_BUSY then (RESULT_BUSY, rx_data)
    else (RESULT_UNDEFINED, rx_data)
  else (RESULT_BAD_PARAMETER, rx_data).

(** [_spi_transfer]: the result code and [rx_data] after the call. The
    dummy bytes clocked out of [temp_buffer] do not reach the result and are
    left out; the three [calloc]s and the bus are taken from the
    environment. *)
Definition _spi_transfer (address : Z) (command : byte)
    (tx_data : option (list byte)) (tx_data_count : Z)
    (rx_data : option (list byte)) (rx_data_count : Z)
    (reply_timeout_us retry_us : Z) : M (ResultCode * option (list byte)) :=
  w <- get ;;
  if negb (_check_addr address w)
     || (negb (tx_data_count =? 0) && is_null tx_data)
     || (negb (rx_data_count =? 0) && is_null rx_data)
  then ret (RESULT_BAD_PARAMETER, rx_data)
  else
    tx_ok <- calloc ;;
    rx_ok <- calloc ;;
    temp_ok <- calloc ;;
    if negb tx_ok || negb rx_ok || negb temp_ok
    then ret (RESULT_RESOURCE_UNAVAIL, rx_data)
    else
      e <- next_spi ;;
      match spi_exchange e command tx_data tx_data_count rx_data_count
              reply_timeout_us with
      | None => undefined
      | Some (Aborted r) => ret (r, rx_data)
      | Some (FrameFound tx_buffer rx_buffer fs) =>
          ret (reply_result tx_buffer rx_buffer fs rx_data rx_data_count)
      end.

(** *** Factory data *)

Definition SERIAL_SIZE : Z := 8 + 1.
Definition CAL_DATE_SIZE : Z := 10 + 1.

(** [strncpy(dst, src, n)] into a field of [n] characters. *)
Definition strncpy (src : string) (n : Z) : string :=
  String.substring 0 (Z.to_nat n) src.

Definition _set_defaults (data : mcc172FactoryData) : mcc172FactoryData :=
  Factory.mk_factory_data "00000000" "1970-01-01"
    (replicate (Z.to_nat NUM_CHANNELS) 1%float)
    (replicate (Z.to_nat NUM_CHANNELS) 0%float).

Definition node_type (n : cJSON) : cJSON_type :=
  match n with cJSON_node t _ _ _ _ => t end.
Definition node_valuestring (n : cJSON) : option string :=
  match n with cJSON_node _ v _ _ _ => v end.
Definition node_valuedouble (n : cJSON) : float :=
  match n with cJSON_node _ _ d _ _ => d end.
Definition node_child (n : cJSON) : list cJSON :=
  match n with cJSON_node _ _ _ _ c => c end.

(** [!strcmp(node->string, key)]. *)
Definition named (n : cJSON) (key : string) : bool :=
  match n with
  | cJSON_node _ _ _ (Some s) _ => String.eqb s key
  | cJSON_node _ _ _ None _ => false
  end.

(** The [while (subchild)] loop over an array: the coefficients stored and
    the final [index]. *)
Definition read_coefficients (items : list cJSON) (arr : list float)
    : list float * Z :=
  fold_left
    (fun '(arr, index) subchild =>
       if bool_decide (node_type subchild = cJSON_Number)
          && (index <? NUM_CHANNELS)
       then (<[Z.to_nat index := node_valuedouble subchild]> arr, index + 1)
       else (arr, index))
    items (arr, 0).

(** The locals [got_serial], [got_date], [got_slopes], [got_offsets]. *)
Record Got : Type := {
  got_serial : bool;
  got_date : bool;
  got_slopes : bool;
  got_offsets : bool
}.

(** One round of the [while (calchild)] loop. *)
Definition parse_calchild (st : mcc172FactoryData * Got) (calchild : cJSON)
    : mcc172FactoryData * Got :=
  let '(data, g) := st in
  if named calchild "date"
     && bool_decide (node_type calchild = cJSON_String)
     && negb (is_null (node_valuestring calchild))
  then
    (Factory.mk_factory_data (Factory.serial data)
       (strncpy (default EmptyString (node_valuestring calchild))
          CAL_DATE_SIZE)
       (Factory.slopes data) (Factory.offsets data),
     {| got_serial := got_serial g; got_date := true;
        got_slopes := got_slopes g; got_offsets := got_offsets g |})
  else if named calchild "slopes"
          && bool_decide (node_type calchild = cJSON_Array)
  then
    let '(arr, index) :=
      read_coefficients (node_child calchild) (Factory.slopes data) in
    (Factory.mk_factory_data (Factory.serial data) (Factory.cal_date data)
       arr (Factory.offsets data),
     {| got_serial := got_serial g; got_date := got_date g;
        got_slopes := if index =? NUM_CHANNELS then true else got_slopes g;
        got_offsets := got_offsets g |})
  else if named calchild "offsets"
          && bool_decide (node_type calchild = cJSON_Array)
  then
    let '(arr, index) :=
      read_coefficients (node_child calchild) (Factory.offsets data) in
    (Factory.mk_factory_data (Factory.serial data) (Factory.cal_date data)
       (Factory.slopes data) arr,
     {| got_serial := got_serial g; got_date := got_date g;
        got_slopes := got_slopes g;
        got_offsets := if index =? NUM_CHANNELS then true else got_offsets g |})
  else st.

(** One round of the [while (child)] loop. *)
Definition parse_child (st : mcc172FactoryData * Got) (child : cJSON)
    : mcc172FactoryData * Got :=
  let '(data, g) := st in
  if named child "serial"
     && bool_decide (node_type child = cJSON_String)
     && negb (is_null (node_valuestring child))
  then
    (Factory.mk_factory_data
       (strncpy (default EmptyString (node_valuestring child)) SERIAL_SIZE)
       (Factory.cal_date data) (Factory.slopes data) (Factory.offsets data),
     {| got_serial := true; got_date := got_date g;
        got_slopes := got_slopes g; got_offsets := got_offsets g |})
  else if named child "calibration"
          && bool_decide (node_type child = cJSON_Object)
  then fold_left parse_calchild (node_child child) st
  else st.

(** [_parse_factory_data]: the value returned and [*data] afterwards. *)
Definition _parse_factory_data (root : cJSON) (data : mcc172FactoryData)
    : Z * mcc172FactoryData :=
  if negb (bool_decide (node_type root = cJSON_Object))
     || bool_decide (node_child root = [])
  then (0, data)
  else
    let '(data, g) :=
      fold_left parse_child (node_child root)
        (data, {| got_serial := false; got_date := false;
                  got_slopes := false; got_offsets := false |}) in
    if got_serial g && got_date g && got_slopes g && got_offsets g
    then (1, data)
    else (0, data).

Definition _mcc172_lib_init : M unit :=
  modify (fun w =>
    if _mcc172_lib_initialized w then w
    else set_initialized true (set_devices ∅ w)).

(** *** [mcc172_open] *)

(** [calloc(1, sizeof(struct mcc172Device))]. *)
Definition zeroed_device : mcc172Device :=
  mk_device 0 0 0 0 0
    (Factory.mk_factory_data EmptyString EmptyString
       (replicate (Z.to_nat NUM_CHANNELS) 0%float)
       (replicate (Z.to_nat NUM_CHANNELS) 0%float))
    None.

(** Reading the EEPROM at the head of the first-open branch: the result
    code it returns with, or [custom_size] and [custom_data]. *)
Definition read_eeprom (address : Z)
    : M (ResultCode + Z * option (list byte)) :=
  info <- _hat_info address ;;
  match info with
  | Some (id, custom) =>
      if id =? HAT_ID_MCC_172 then
        ok <- calloc ;;
        ret (inr (u16 (Z.of_nat (length custom)),
                  if ok then Some custom else None))
      else ret (inl RESULT_INVALID_DEVICE)
  | None =>
      (* no EEPROM info was found *)
      ret (inr (0, None))
  end.

(** The first-open branch ([_devices[address] == NULL]) of [mcc172_open]:
    [Some r] when the branch returns [r], [None] when it falls through to
    the ID handshake. The GPIO lines it drives and the warnings it prints
    are not part of the state; a NULL from the unchecked [calloc] of the
    device record has no defined result. *)
Definition open_first (address : Z) : M (option ResultCode) :=
  r <- read_eeprom address ;;
  match r with
  | inl err => ret (Some err)
  | inr (custom_size, custom_data) =>
      ok <- calloc ;;
      if negb ok then undefined
      else
        let dev := set_handle_count 1 (set_scan_info None zeroed_device) in
        store_device address dev ;;;
        fd <- open_spidev ;;
        let dev := set_spi_fd fd dev in
        if fd <? 0 then
          clear_device address ;;;
          ret (Some RESULT_RESOURCE_UNAVAIL)
        else
          w <- get ;;
          let data :=
            if custom_size >? 0 then
              match cJSON_Parse (env w) custom_data with
              | None => _set_defaults (factory_data dev)
              | Some root =>
                  let '(parsed, data) :=
                    _parse_factory_data root (factory_data dev) in
                  if parsed =? 0 then _set_defaults data else data
              end
            else _set_defaults (factory_data dev) in
          store_device address (set_factory_data data dev) ;;;
          ret None
  end.

(** The [do ... while ((ret != RESULT_SUCCESS) && (attempts < 2))] loop and
    the statements after it, with [todo = 2 - attempts] rounds left.
    [id_data] is three [uint16_t] (uninitialised in C, zero here); the
    transfer fills the first two. *)
Fixpoint id_handshake (address : Z) (todo : nat) : M ResultCode :=
  match todo with
  | O =>
      (* _syslog("open"); *)
      ret RESULT_SUCCESS
  | S todo' =>
      r <- _spi_transfer address (byte_of_Z CMD_ID) None 0
             (Some (replicate 6 x00)) (2 * 2) (20 * MSEC) 10 ;;
      let '(result, id_data) := r in
      if bool_decide (result = RESULT_SUCCESS) then
        let id_data := default [] id_data in
        if le16 (byte_at id_data 0) (byte_at id_data 1) =? HAT_ID_MCC_172
        then
          d <- device address ;;
          match d with
          | Some dev =>
              store_device address
                (set_fw_version
                   (le16 (byte_at id_data 2) (byte_at id_data 3)) dev)
          | None => ret tt
          end ;;;
          ret RESULT_SUCCESS
        else
          clear_device address ;;;
          ret RESULT_INVALID_DEVICE
      else id_handshake address todo'
  end.

Definition mcc172_open (address : Z) : M ResultCode :=
  _mcc172_lib_init ;;;
  if address >=? MAX_NUMBER_HATS then ret RESULT_BAD_PARAMETER
  else
    d <- device address ;;
    early <-
      match d with
      | None => open_first address
      | Some dev =>
          store_device address
            (set_handle_count (u16 (handle_count dev + 1)) dev) ;;;
          ret None
      end ;;
    match early with
    | Some r => ret r
    | None => id_handshake address 2
    end.

(** *** [mcc172_open_for_update] *)

(** Its copy of the first-open branch. [cJSON_Parse]'s answer is passed to
    [_parse_factory_data] unchecked: a NULL root has no defined result. *)
Definition open_first_for_update (address : Z) : M ResultCode :=
  r <- read_eeprom address ;;
  match r with
  | inl err => ret err
  | inr (custom_size, custom_data) =>
      ok <- calloc ;;
      if negb ok then undefined
      else
        let dev := set_handle_count 1 (set_scan_info None zeroed_device) in
        store_device address dev ;;;
        fd <- open_spidev ;;
        let dev := set_spi_fd fd dev in
        if fd <? 0 then
          clear_device address ;;;
          ret RESULT_RESOURCE_UNAVAIL
        else
          w <- get ;;
          if custom_size >? 0 then
            match cJSON_Parse (env w) custom_data with
            | None => undefined
            | Some root =>
                let '(parsed, data) :=
                  _parse_factory_data root (factory_data dev) in
                store_device address
                  (set_factory_data
                     (if parsed =? 0 then _set_defaults data else data) dev) ;;;
                ret RESULT_SUCCESS
            end
          else
            store_device address
              (set_factory_data (_set_defaults (factory_data dev)) dev) ;;;
            ret RESULT_SUCCESS
  end.

Definition mcc172_open_for_update (address : Z) : M ResultCode :=
  _mcc172_lib_init ;;;
  if address >=? MAX_NUMBER_HATS then ret RESULT_BAD_PARAMETER
  else
    result <- mcc172_open address ;;
    if bool_decide (result = RESULT_SUCCESS) then ret result
    else
      d <- device address ;;
      match d with
      | None => open_first_for_update address
      | Some dev =>
          store_device address
            (set_handle_count (u16 (handle_count dev + 1)) dev) ;;;
          ret RESULT_SUCCESS
      end.

(** *** Access to [_devices[address]] and its scan session

    A NULL pointer followed by the C code has no defined result. *)
Definition the_device (address : Z) : M mcc172Device :=
  fun w => match _devices w !! address with
           | Some dev => Some (dev, w)
           | None => None
           end.

Definition the_info (address : Z) : M mcc172ScanThreadInfo :=
  dev <- the_device address ;;
  match scan_info dev with
  | Some info => ret info
  | None => undefined
  end.

Definition update_info (address : Z)
    (f : mcc172ScanThreadInfo -> mcc172ScanThreadInfo) : M unit :=
  dev <- the_device address ;;
  match scan_info dev with
  | Some info => store_device address (set_scan_info (Some (f info)) dev)
  | None => undefined
  end.

(** *** Configuration *)

Definition mcc172_calibration_coefficient_write (address channel : Z)
    (slope offset : float) : M ResultCode :=
  w <- get ;;
  if negb (_check_addr address w) || (channel >=? NUM_CHANNELS)
  then ret RESULT_BAD_PARAMETER
  else
    dev <- the_device address ;;
    if negb (is_null (scan_info dev)) then ret RESULT_BUSY
    else
      let data := factory_data dev in
      store_device address
        (set_factory_data
           (Factory.mk_factory_data (Factory.serial data)
              (Factory.cal_date data)
              (<[Z.to_nat channel := slope]> (Factory.slopes data))
              (<[Z.to_nat channel := offset]> (Factory.offsets data)))
           dev) ;;;
      ret RESULT_SUCCESS.

Definition mcc172_IEPE_config_write (address channel config : Z)
    : M ResultCode :=
  w <- get ;;
  if negb (_check_addr address w) || (channel >=? NUM_CHANNELS)
     || (config >? 1)
  then ret RESULT_BAD_PARAMETER
  else
    dev <- the_device address ;;
    (* don't allow changing while scan is running *)
    if negb (is_null (scan_info dev)) then ret RESULT_BUSY
    else
      (* read the existing config *)
      r <- _spi_transfer address (byte_of_Z CMD_IEPECONFIG_R) None 0
             (Some [x00]) 1 (20 * MSEC) 0 ;;
      let '(result, rx) := r in
      if negb (bool_decide (result = RESULT_SUCCESS)) then ret result
      else
        let buffer := byte_val (byte_at (default [] rx) 0) in
        let buffer :=
          if config =? 0
          then u8 (Z.land buffer (Z.lnot (Z.shiftl 1 channel)))
          else u8 (Z.lor buffer (Z.shiftl 1 channel)) in
        (* write the configuration to the device *)
        r <- _spi_transfer address (byte_of_Z CMD_IEPECONFIG_W)
               (Some [byte_of_Z buffer]) 1 None 0 (20 * MSEC) 0 ;;
        ret (fst r).

Definition mcc172_a_in_clock_config_write (address clock_source : Z)
    (sample_rate_per_channel : float) : M ResultCode :=
  w <- get ;;
  if negb (_check_addr address w) || (clock_source >? 1)
  then ret RESULT_BAD_PARAMETER
  else
    dev <- the_device address ;;
    (* don't allow changing while scan is running *)
    if negb (is_null (scan_info dev)) then ret RESULT_BUSY
    else
      (* set the sample rate to one supported by the device *)
      let divisor :=
        (Double.of_Z MAX_SAMPLE_RATE / sample_rate_per_channel + 0.5)%float in
      let divisor :=
        if (divisor <? 1.0)%float then 1.0%float
        else if (256.0 <? divisor)%float then 256.0%float
        else divisor in
      let buffer :=
        [byte_of_Z clock_source;
         byte_of_Z (Double.to_Z (divisor - 1)%float)] in
      r <- _spi_transfer address (byte_of_Z CMD_AINCLOCKCONFIG_W)
             (Some buffer) 2 None 0 (20 * MSEC) 0 ;;
      ret (fst r).

(** The three out-parameters are options: [None] for a NULL pointer,
    [Some] with the pointee otherwise. *)
Definition mcc172_a_in_clock_config_read (address : Z)
    (clock_source : option Z) (sample_rate : option float)
    (synced : option Z)
    : M (ResultCode * (option Z * option float * option Z)) :=
  w <- get ;;
  if negb (_check_addr address w) || is_null clock_source
     || is_null sample_rate || is_null synced
  then ret (RESULT_BAD_PARAMETER, (clock_source, sample_rate, synced))
  else
    r <- _spi_transfer address (byte_of_Z CMD_AINCLOCKCONFIG_R) None 0
           (Some [x00; x00]) 2 (20 * MSEC) 0 ;;
    let '(result, rx) := r in
    if negb (bool_decide (result = RESULT_SUCCESS))
    then ret (result, (clock_source, sample_rate, synced))
    else
      let buffer := default [] rx in
      let b0 := byte_val (byte_at buffer 0) in
      let b1 := byte_val (byte_at buffer 1) in
      ret (RESULT_SUCCESS,
           (Some (Z.land b0 0x03),
            Some (Double.of_Z MAX_SAMPLE_RATE / (Double.of_Z b1 + 1))%float,
            Some (Z.land (Z.shiftr b0 7) 0x01))).

Definition mcc172_trigger_config (address source mode : Z) : M ResultCode :=
  w <- get ;;
  if negb (_check_addr address w) || (source >? 2)
     || (mode >? TRIG_ACTIVE_LOW)
  then ret RESULT_BAD_PARAMETER
  else
    dev <- the_device address ;;
    (* don't allow changing while scan is running *)
    if negb (is_null (scan_info dev)) then ret RESULT_BUSY
    else
      (* Write the config *)
      let buffer := u8 (Z.lor (Z.shiftl mode 2) source) in
      store_device address
        (set_trigger_mode mode (set_trigger_source source dev)) ;;;
      r <- _spi_transfer address (byte_of_Z CMD_TRIGGERCONFIG_W)
             (Some [byte_of_Z buffer]) 1 None 0 (20 * MSEC) 0 ;;
      ret (fst r).

Definition mcc172_a_in_scan_stop (address : Z) : M ResultCode :=
  w <- get ;;
  if negb (_check_addr address w) then ret RESULT_BAD_PARAMETER
  else
    r <- _spi_transfer address (byte_of_Z CMD_AINSCANSTOP) None 0 None 0
           (20 * MSEC) 0 ;;
    ret (fst r).

(** *** [_a_in_read_scan_data] *)

(** The 24-bit sample at [ptr[0..2]] as the [int32_t] [value]. *)
Definition sample_value (b0 b1 b2 : byte) : Z :=
  if negb (Z.land (byte_val b0) 0x80 =? 0) then
    s32 (Z.lor (Z.lor (Z.lor 0xFF000000 (u32 (Z.shiftl (byte_val b0) 16)))
                  (u32 (Z.shiftl (byte_val b1) 8)))
           (byte_val b2))
  else
    s32 (Z.lor (Z.lor (Z.lor 0x00000000 (u32 (Z.shiftl (byte_val b0) 16)))
                  (u32 (Z.shiftl (byte_val b1) 8)))
           (byte_val b2)).

(** What is stored in [buffer[count]] for [value]: the conversion to
    double, the calibration and the scaling. *)
Definition sample_output (scaled calibrated : bool) (slope offset : float)
    (value : Z) : float :=
  let x := Double.of_Z value in
  let x := if calibrated then (x * slope + offset)%float else x in
  if scaled then (x * LSB_SIZE)%float else x.

(** The [for (count = 0; count < sample_count; count++)] loop, with
    [todo = sample_count - count] rounds left; [buffer] is the ring index
    that [buffer[0]] points to. *)
Fixpoint read_samples (ptr : list byte) (todo : nat) (count : Z)
    (scaled calibrated : bool) (buffer : Z) (info : mcc172ScanThreadInfo)
    : mcc172ScanThreadInfo :=
  match todo with
  | O => info
  | S todo' =>
      let value :=
        sample_value (byte_at ptr 0) (byte_at ptr 1) (byte_at ptr 2) in
      let x :=
        sample_output scaled calibrated
          (float_at (slopes info) (channel_index info))
          (float_at (offsets info) (channel_index info)) value in
      let info :=
        set_scan_buffer (<[buffer + count := x]> (scan_buffer info)) info in
      let index := u8 (channel_index info + 1) in
      let info :=
        set_channel_index
          (if index >=? channel_count info then 0 else index) info in
      read_samples (drop (Z.to_nat SAMPLE_SIZE_BYTES) ptr) todo'
        (u16 (count + 1)) scaled calibrated buffer info
  end.

Definition _a_in_read_scan_data (address sample_count : Z)
    (scaled calibrated : bool) (buffer : option Z) : M ResultCode :=
  w <- get ;;
  if negb (_check_addr address w) || is_null buffer
  then ret RESULT_BAD_PARAMETER
  else
    ok <- calloc ;;
    if negb ok then ret RESULT_RESOURCE_UNAVAIL
    else
      (* send the read scan data command *)
      let n := sample_count * SAMPLE_SIZE_BYTES in
      r <- _spi_transfer address (byte_of_Z CMD_AINSCANDATA)
             (Some [byte_of_Z sample_count;
                    byte_of_Z (Z.shiftr sample_count 8)]) 2
             (Some (replicate (Z.to_nat n) x00)) (u16 n) (40 * MSEC) 1 ;;
      let '(ret_, rx_data) := r in
      if negb (bool_decide (ret_ = RESULT_SUCCESS)) then ret ret_
      else
        update_info address
          (read_samples (default [] rx_data) (Z.to_nat sample_count) 0
             scaled calibrated (default 0 buffer)) ;;;
        ret RESULT_SUCCESS.

(** *** [_scan_thread] *)

Definition MIN_SLEEP_US : Z := 200.
Definition TRIG_SLEEP_US : Z := 1000.

Definition thread_pc (address : Z) : M (option ThreadPc) :=
  fun w => Some (threads w !! address, w).

Definition set_thread_pc (address : Z) (pc : ThreadPc) : M unit :=
  modify (fun w => set_threads (<[address := pc]> (threads w)) w).

(** From the entry of [_scan_thread] to the head of its loop: the locals,
    or [None] when the thread returns at once. *)
Definition scan_thread_entry (address : Z) : M (option ThreadLocals) :=
  w <- get ;;
  if negb (_check_addr address w)
     || match _devices w !! address with
        | Some dev => is_null (scan_info dev)
        | None => true
        end
  then ret None
  else
    update_info address
      (fun info => set_hw_overrun false (set_thread_running true info)) ;;;
    info <- the_info address ;;
    ret (Some {| done := false; sleep_us := MIN_SLEEP_US; status_count := 0;
                 scaled := Z.land (options info) OPTS_NOSCALEDATA =? 0;
                 calibrated :=
                   Z.land (options info) OPTS_NOCALIBRATEDATA =? 0 |}).

(** "determine how much data to read". *)
Definition choose_read_count (scan_running : bool)
    (available_samples max_read_now read_threshold : Z) : Z :=
  if negb scan_running
     || (available_samples >=? read_threshold)
     || (available_samples >? max_read_now)
  then
    let read_count := available_samples in
    let read_count :=
      if max_read_now <? read_count then max_read_now else read_count in
    if read_count >? MAX_SAMPLES_READ then MAX_SAMPLES_READ else read_count
  else 0.

(** The bookkeeping after a successful [_a_in_read_scan_data]: the session
    afterwards, and whether [done] was set. *)
Definition commit_read (read_count : Z) (info : mcc172ScanThreadInfo)
    : mcc172ScanThreadInfo * bool :=
  let wi := u32 (write_index info + read_count) in
  let info :=
    set_write_index (if wi >=? buffer_size info then 0 else wi) info in
  let info := set_buffer_depth (u32 (buffer_depth info + read_count)) info in
  let overrun := buffer_depth info >? buffer_size info in
  let info :=
    if overrun
    then set_scan_running false (set_buffer_overrun true info)
    else info in
  (set_samples_transferred (u32 (samples_transferred info + read_count)) info,
   overrun).

(** "adaptive sleep time to minimize processor usage". *)
Definition adapt_sleep (status_count sleep_us : Z) : Z :=
  if status_count >? 4 then u32 (sleep_us * 2)
  else if status_count <? 1 then
    let sleep_us := sleep_us / 2 in
    if sleep_us <? MIN_SLEEP_US then MIN_SLEEP_US else sleep_us
  else sleep_us.

(** One round of [while (!info->stop_thread && !done)]. [rx_buffer] is
    uninitialised in C and zero here. *)
Definition scan_thread_round (address : Z) (l : ThreadLocals)
    : M ThreadLocals :=
  r <- _spi_transfer address (byte_of_Z CMD_AINSCANSTATUS) None 0
         (Some (replicate 5 x00)) 5 (1 * MSEC) 20 ;;
  let '(result, rx) := r in
  if negb (bool_decide (result = RESULT_SUCCESS)) then ret l
  else
    let rx_buffer := default [] rx in
    let b := fun i => byte_val (byte_at rx_buffer i) in
    let available_samples := u16 (Z.shiftl (b 2) 8 + b 1) in
    let max_read_now := u16 (Z.shiftl (b 4) 8 + b 3) in
    let scan_running_ := Z.land (b 0) 0x01 =? 0x01 in
    update_info address
      (fun info =>
         set_triggered (Z.land (b 0) 0x04 =? 0x04)
           (set_hw_overrun (Z.land (b 0) 0x02 =? 0x02) info)) ;;;
    let status_count_ := u32 (status_count l + 1) in
    info <- the_info address ;;
    if hw_overrun info then
      update_info address (set_scan_running false) ;;;
      ret {| done := true; sleep_us := sleep_us l;
             status_count := status_count_;
             scaled := scaled l; calibrated := calibrated l |}
    else if negb (triggered info) then
      (* waiting for trigger, use a longer sleep time *)
      ret {| done := done l; sleep_us := TRIG_SLEEP_US;
             status_count := status_count_;
             scaled := scaled l; calibrated := calibrated l |}
    else
      let read_count :=
        choose_read_count scan_running_ available_samples max_read_now
          (read_threshold info) in
      after <-
        (if read_count >? 0 then
           (* handle wrap at end of buffer *)
           let space := u32 (buffer_size info - write_index info) in
           let read_count :=
             if space <? read_count then u16 space else read_count in
           error <- _a_in_read_scan_data address read_count (scaled l)
                      (calibrated l) (Some (write_index info)) ;;
           overrun <-
             (if bool_decide (error = RESULT_SUCCESS) then
                info <- the_info address ;;
                let '(info, overrun) := commit_read read_count info in
                update_info address (fun _ => info) ;;;
                ret overrun
              else ret false) ;;
           ret (read_count, done l || overrun,
                adapt_sleep status_count_ (sleep_us l), 0)
         else ret (read_count, done l, sleep_us l, status_count_)) ;;
      let '(read_count, done_, sleep_us_, status_count_) := after in
      let finished := negb scan_running_ && (available_samples =? read_count) in
      (if finished then update_info address (set_scan_running false)
       else ret tt) ;;;
      ret {| done := done_ || finished; sleep_us := sleep_us_;
             status_count := status_count_;
             scaled := scaled l; calibrated := calibrated l |}.

(** The statements after the loop. *)
Definition scan_thread_exit (address : Z) : M unit :=
  info <- the_info address ;;
  (if scan_running info then
     r <- mcc172_a_in_scan_stop address ;; ret tt
   else ret tt) ;;;
  update_info address (set_thread_running false).

(** One scheduling step of the producer thread of [address]: its entry, one
    test of the loop condition followed by a round or by the exit, or
    nothing when there is no thread or it has returned. *)
Definition scan_thread_step (address : Z) : M unit :=
  pc <- thread_pc address ;;
  match pc with
  | None | Some ThreadExit => ret tt
  | Some ThreadEntry =>
      l <- scan_thread_entry address ;;
      set_thread_pc address
        (match l with Some l => ThreadLoop l | None => ThreadExit end)
  | Some (ThreadLoop l) =>
      info <- the_info address ;;
      if negb (stop_thread info) && negb (done l) then
        l <- scan_thread_round address l ;;
        set_thread_pc address (ThreadLoop l)
      else
        scan_thread_exit address ;;;
        set_thread_pc address ThreadExit
  end.

Fixpoint scan_thread_steps (n : nat) (address : Z) : M unit :=
  match n with
  | O => ret tt
  | S n' => scan_thread_step address ;;; scan_thread_steps n' address
  end.

(** [_scan_thread] run from its entry until it returns, in at most [steps]
    scheduling steps. *)
Fixpoint run_to_exit (steps : nat) (address : Z) : M unit :=
  match steps with
  | O => undefined
  | S steps' =>
      scan_thread_step address ;;;
      pc <- thread_pc address ;;
      match pc with
      | Some ThreadExit => ret tt
      | _ => run_to_exit steps' address
      end
  end.

Definition _scan_thread (steps : nat) (address : Z) : M unit :=
  set_thread_pc address ThreadEntry ;;;
  run_to_exit steps address.

(** *** [mcc172_a_in_scan_start] *)

(** [free(info); dev->scan_info = NULL;] *)
Definition drop_session (address : Z) : M unit :=
  dev <- the_device address ;;
  store_device address (set_scan_info None dev).

(** The [for (channel = 0; channel < NUM_CHANNELS; channel++)] loop: the
    session with the channel list and coefficients saved, and
    [num_channels]. *)
Definition snapshot_channels (channel_mask : Z) (data : mcc172FactoryData)
    (info : mcc172ScanThreadInfo) : mcc172ScanThreadInfo * Z :=
  fold_left
    (fun '(info, num_channels) channel =>
       if negb (Z.land channel_mask (Z.shiftl 1 channel) =? 0) then
         let n := Z.to_nat num_channels in
         (set_offsets
            (<[n := float_at (Factory.offsets data) channel]> (offsets info))
            (set_slopes
               (<[n := float_at (Factory.slopes data) channel]> (slopes info))
               (set_channels (<[n := channel]> (channels info)) info)),
          u8 (num_channels + 1))
       else (info, num_channels))
    (seqZ 0 NUM_CHANNELS) (info, 0).

(** "Read the clock config, wait until in sync": the [do ... while
    (synced == 0)] loop, returning the last [result] and
    [sample_rate_per_channel]. Every round that loops again takes one
    transaction from the bus, so [rounds] is only the recursion's measure. *)
Fixpoint wait_for_sync (rounds : nat) (address : Z)
    : M (ResultCode * float) :=
  match rounds with
  | O => undefined
  | S rounds' =>
      r <- mcc172_a_in_clock_config_read address (Some 0) (Some 0%float)
             (Some 0) ;;
      let '(result, (_, sample_rate, synced)) := r in
      let sample_rate_per_channel := default 0%float sample_rate in
      if negb (bool_decide (result = RESULT_SUCCESS))
      then ret (result, sample_rate_per_channel)
      else if default 0 synced =? 0 then
        (* usleep(100000); *)
        wait_for_sync rounds' address
      else ret (RESULT_SUCCESS, sample_rate_per_channel)
  end.

(** [sizeof(double)], and a value of type [size_t]: the byte count
    [info->buffer_size * sizeof(double)] that the ring is allocated with is
    computed in [size_t] and wraps at [SIZE_MAX + 1]. *)
Definition sizeof_double : Z := 8.

Definition size_t (z : Z) : Z := z mod (SIZE_MAX + 1).

(** "Calculate the buffer size". *)
Definition scan_buffer_size (options samples_per_channel : Z)
    (sample_rate_per_channel : float) (num_channels : Z) : Z :=
  let size :=
    if negb (Z.land options OPTS_CONTINUOUS =? 0) then
      let size :=
        if (sample_rate_per_channel <=? 1024.0)%float then 1000
        else if (sample_rate_per_channel <=? 10240.0)%float then 10000
        else 100000 in
      if size <? samples_per_channel then samples_per_channel else size
    else samples_per_channel in
  u32 (size * num_channels).

(** "Set the device read threshold based on the scan rate". *)
Definition scan_read_threshold (sample_rate_per_channel : float)
    (channel_count : Z) : Z :=
  let t := u16 (Double.to_Z (sample_rate_per_channel / 10)%float) in
  let t := if t >? MAX_SAMPLES_READ then MAX_SAMPLES_READ else t in
  let t := u16 (COUNT_NORMALIZE t channel_count) in
  if t =? 0 then channel_count else t.

Definition mcc172_a_in_scan_start (address channel_mask
    samples_per_channel options : Z) : M ResultCode :=
  w <- get ;;
  if negb (_check_addr address w)
     || (channel_mask =? 0)
     || (channel_mask >=? Z.shiftl 1 NUM_CHANNELS)
     || ((samples_per_channel =? 0)
         && (Z.land options OPTS_CONTINUOUS =? 0))
  then ret RESULT_BAD_PARAMETER
  else
    dev <- the_device address ;;
    if negb (is_null (scan_info dev)) then
      (* scan already running? *)
      ret RESULT_BUSY
    else
      ok <- calloc ;;
      if negb ok then ret RESULT_RESOURCE_UNAVAIL
      else
        let info := set_options (u16 options) Scan.zeroed in
        let '(info, num_channels) :=
          snapshot_channels channel_mask (factory_data dev) info in
        let info :=
          set_channel_index 0 (set_channel_count num_channels info) in
        store_device address (set_scan_info (Some info) dev) ;;;
        (* Read the clock config, wait until in sync *)
        w <- get ;;
        sync <- wait_for_sync (S (length (spi_bus (env w)))) address ;;
        let '(result, sample_rate_per_channel) := sync in
        if negb (bool_decide (result = RESULT_SUCCESS)) then
          drop_session address ;;;
          ret result
        else
          (* Calculate the buffer size *)
          update_info address
            (set_buffer_size
               (scan_buffer_size options samples_per_channel
                  sample_rate_per_channel num_channels)) ;;;
          (* allocate the buffer *)
          ok <- calloc ;;
          if negb ok then
            drop_session address ;;;
            ret RESULT_RESOURCE_UNAVAIL
          else
            update_info address
              (fun info =>
                 set_read_threshold
                   (scan_read_threshold sample_rate_per_channel
                      (channel_count info))
                   (set_scan_buffer_bytes
                      (size_t (buffer_size info * sizeof_double))
                      (set_scan_buffer ∅ info))) ;;;
            attr <- pthread_attr_init ;;
            if negb (attr =? 0) then
              drop_session address ;;;
              ret RESULT_RESOURCE_UNAVAIL
            else
              (* Start the scan *)
              let channel_mask :=
                if negb (Z.land options OPTS_EXTTRIGGER =? 0)
                then u8 (Z.lor channel_mask 0x04)
                else channel_mask in
              let scan_count :=
                if negb (Z.land options OPTS_CONTINUOUS =? 0) then 0
                else samples_per_channel in
              let buffer :=
                [byte_of_Z scan_count;
                 byte_of_Z (Z.shiftr scan_count 8);
                 byte_of_Z (Z.shiftr scan_count 16);
                 byte_of_Z (Z.shiftr scan_count 24);
                 byte_of_Z channel_mask] in
              r <- _spi_transfer address (byte_of_Z CMD_AINSCANSTART)
                     (Some buffer) 5 None 0 (20 * MSEC) 0 ;;
              if negb (bool_decide (fst r = RESULT_SUCCESS)) then
                drop_session address ;;;
                ret (fst r)
              else
                (* create the scan data thread *)
                ok <- calloc ;;
                if negb ok then undefined
                else
                  created <- pthread_create ;;
                  let '(result, thread) := created in
                  if negb (result =? 0) then
                    mcc172_a_in_scan_stop address ;;;
                    drop_session address ;;;
                    ret RESULT_RESOURCE_UNAVAIL
                  else
                    set_thread_pc address ThreadEntry ;;;
                    update_info address
                      (fun info =>
                         set_scan_running true (set_handle thread info)) ;;;
                    ret RESULT_SUCCESS.

(** *** [mcc172_a_in_scan_read] *)

(** [(uint32_t)x]: the truncation toward zero when that fits the type. C
    leaves every other conversion undefined (a value out of range, an
    infinity, NaN); the result is then what the target gives, a [uint32_t]
    taken from the environment. *)
Definition double_to_u32 (e : Environment) (x : float) : Z :=
  if ((-1) <? x)%float && (x <? 4294967296)%float then Double.to_Z x
  else u32 (fptoui32 e x).

(** [&scan_buffer[i]], [n] samples. *)
Definition ring_slice (buf : gmap Z float) (i n : Z) : list float :=
  (fun k => ring_get buf k) <$> seqZ i n.

(** The locals that the [do ... while] loop of the reader carries. *)
Record ReadLocals : Type := {
  samples_to_read : Z;
  samples_read : Z;
  timed_out : bool;
  error : bool;
  stat : Z;
  user_buffer : option (list float)
}.

(** The copy out of the ring inside the loop ([info->buffer_depth >=
    info->channel_count]): the locals and the session afterwards. A copy
    through a NULL [buffer] has no defined result. *)
Definition read_chunk (l : ReadLocals) (info : mcc172ScanThreadInfo)
    : option (ReadLocals * mcc172ScanThreadInfo) :=
  (* read in increments of the number of channels in the scan *)
  let current_read := MIN (buffer_depth info) (samples_to_read l) in
  let current_read := COUNT_NORMALIZE current_read (channel_count info) in
  (* check for a wrap at the end of the scan buffer *)
  let max_read := u32 (buffer_size info - read_index info) in
  match user_buffer l with
  | None => None
  | Some buffer =>
      let '(buffer, samples_read_, read_index_) :=
        if max_read <? current_read then
          (* when wrapping, perform two copies *)
          let buffer :=
            memcpy buffer (samples_read l)
              (ring_slice (scan_buffer info) (read_index info) max_read)
              max_read in
          let samples_read_ := u32 (samples_read l + max_read) in
          let buffer :=
            memcpy buffer samples_read_
              (ring_slice (scan_buffer info) 0 (current_read - max_read))
              (current_read - max_read) in
          (buffer, u32 (samples_read_ + (current_read - max_read)),
           u32 (current_read - max_read))
        else
          let buffer :=
            memcpy buffer (samples_read l)
              (ring_slice (scan_buffer info) (read_index info) current_read)
              current_read in
          let ri := u32 (read_index info + current_read) in
          (buffer, u32 (samples_read l + current_read),
           if ri >=? buffer_size info then 0 else ri) in
      Some ({| samples_to_read := u32 (samples_to_read l - current_read);
               samples_read := samples_read_;
               timed_out := timed_out l; error := error l; stat := stat l;
               user_buffer := Some buffer |},
            set_buffer_depth (u32 (buffer_depth info - current_read))
              (set_read_index read_index_ info))
  end.

(** The [do ... while] loop. During [usleep(100)] the producer thread takes
    as many steps as the scheduler grants it; every round takes one entry of
    the schedule, so [rounds] is only the recursion's measure. *)
Fixpoint read_loop (rounds : nat) (address : Z) (no_timeout : bool)
    (timeout_us : Z) (l : ReadLocals) : M ReadLocals :=
  match rounds with
  | O => undefined
  | S rounds' =>
      info <- the_info address ;;
      l <- (if buffer_depth info >=? channel_count info then
              match read_chunk l info with
              | None => undefined
              | Some (l, info) =>
                  update_info address (fun _ => info) ;;; ret l
              end
            else ret l) ;;
      (* usleep(100); *)
      n <- next_schedule ;;
      scan_thread_steps n address ;;;
      timed_out_ <-
        (if negb no_timeout then
           t <- _difftime_us ;; ret (t >=? timeout_us)
         else ret (timed_out l)) ;;
      info <- the_info address ;;
      let stat_ :=
        if hw_overrun info then Z.lor (stat l) STATUS_HW_OVERRUN
        else stat l in
      let stat_ :=
        if buffer_overrun info then Z.lor stat_ STATUS_BUFFER_OVERRUN
        else stat_ in
      let l :=
        {| samples_to_read := samples_to_read l;
           samples_read := samples_read l;
           timed_out := timed_out_;
           error := error l || hw_overrun info || buffer_overrun info;
           stat := stat_; user_buffer := user_buffer l |} in
      if (samples_to_read l >? 0) && negb (error l)
         && (if negb (thread_running info) then buffer_depth info >? 0
             else true)
         && negb (timed_out l)
      then read_loop rounds' address no_timeout timeout_us l
      else ret l
  end.

(** What the caller finds behind [status], [buffer] and
    [samples_read_per_channel] after the call. *)
Record ReadOut : Type := {
  out_status : option Z;
  out_buffer : option (list float);
  out_samples_read_per_channel : option Z
}.

Definition mcc172_a_in_scan_read (address : Z) (status : option Z)
    (samples_per_channel : Z) (timeout : float)
    (buffer : option (list float)) (buffer_size_samples : Z)
    (samples_read_per_channel : option Z) : M (ResultCode * ReadOut) :=
  w <- get ;;
  if negb (_check_addr address w)
     || is_null status
     || ((samples_per_channel >? 0)
         && (is_null buffer || (buffer_size_samples =? 0)))
  then ret (RESULT_BAD_PARAMETER,
            {| out_status := status; out_buffer := buffer;
               out_samples_read_per_channel := samples_read_per_channel |})
  else
    let no_timeout := (timeout <? 0.0)%float in
    let timeout_us :=
      if no_timeout then 0
      else double_to_u32 (env w) (timeout * 1e6)%float in
    dev <- the_device address ;;
    match scan_info dev with
    | None =>
        (* scan not running? *)
        ret (RESULT_RESOURCE_UNAVAIL,
             {| out_status := Some 0; out_buffer := buffer;
                out_samples_read_per_channel :=
                  (fun _ => 0) <$> samples_read_per_channel |})
    | Some info =>
        (* Determine how many samples to read *)
        let samples_to_read_ :=
          if samples_per_channel =? -1 then
            (* return all available, ignore timeout *)
            buffer_depth info
          else u32 (samples_per_channel * channel_count info) in
        let samples_to_read_ :=
          if buffer_size_samples <? samples_to_read_
          then COUNT_NORMALIZE buffer_size_samples (channel_count info)
          else samples_to_read_ in
        let l0 :=
          {| samples_to_read := samples_to_read_; samples_read := 0;
             timed_out := false; error := false; stat := 0;
             user_buffer := buffer |} in
        w <- get ;;
        l <- (if negb (samples_to_read_ =? 0) then
                read_loop (S (length (scheduler (env w)))) address
                  no_timeout timeout_us l0
              else ret l0) ;;
        info <- the_info address ;;
        let stat_ :=
          if samples_to_read_ =? 0 then
            (* just update status *)
            let s :=
              if hw_overrun info then Z.lor (stat l) STATUS_HW_OVERRUN
              else stat l in
            if buffer_overrun info then Z.lor s STATUS_BUFFER_OVERRUN else s
          else stat l in
        let stat_ :=
          if triggered info then Z.lor stat_ STATUS_TRIGGERED else stat_ in
        let stat_ :=
          if scan_running info then Z.lor stat_ STATUS_RUNNING else stat_ in
        let out :=
          {| out_status := Some (u16 stat_);
             out_buffer := user_buffer l;
             out_samples_read_per_channel :=
               (fun _ =>
                  if samples_to_read_ =? 0 then 0
                  else samples_read l / channel_count info)
                 <$> samples_read_per_channel |} in
        if negb no_timeout && (0.0 <? timeout)%float && timed_out l
           && (samples_to_read l >? 0)
        then ret (RESULT_TIMEOUT, out)
        else ret (RESULT_SUCCESS, out)
    end.

(** *** The rest of the public API *)

Definition mcc172_is_open (address : Z) : M Z :=
  w <- get ;;
  if (address >=? MAX_NUMBER_HATS) || is_null (_devices w !! address)
  then ret 0
  else ret 1.

(** [pthread_join(handle, NULL)] as [mcc172_a_in_scan_cleanup] calls it,
    with [stop_thread] set: the producer thread runs until it returns. A
    thread that has not been scheduled yet takes its entry and one test of
    the loop condition, a thread inside its loop takes that test alone, so
    two scheduling steps are all it is given. *)
Definition pthread_join (address : Z) : M unit := run_to_exit 2 address.

Definition mcc172_a_in_scan_cleanup (address : Z) : M ResultCode :=
  w <- get ;;
  if negb (_check_addr address w) then ret RESULT_BAD_PARAMETER
  else
    dev <- the_device address ;;
    match scan_info dev with
    | Some info =>
        (if negb (handle info =? 0) then
           (* If the thread is running then tell it to stop and wait for
              it. *)
           update_info address (set_stop_thread true) ;;;
           pthread_join address ;;;
           update_info address (set_handle 0)
         else ret tt) ;;;
        (* free(scan_buffer); free(scan_info); *)
        drop_session address
    | None => ret tt
    end ;;;
    ret RESULT_SUCCESS.

Definition mcc172_close (address : Z) : M ResultCode :=
  w <- get ;;
  if negb (_check_addr address w) then ret RESULT_BAD_PARAMETER
  else
    mcc172_a_in_scan_cleanup address ;;;
    dev <- the_device address ;;
    let dev := set_handle_count (u16 (handle_count dev - 1)) dev in
    store_device address dev ;;;
    (if handle_count dev =? 0 then
       (* close(spi_fd); free(_devices[address]); *)
       clear_device address
     else ret tt) ;;;
    ret RESULT_SUCCESS.

Definition mcc172_blink_led (address count : Z) : M ResultCode :=
  w <- get ;;
  if negb (_check_addr address w) then ret RESULT_BAD_PARAMETER
  else
    (* send command *)
    r <- _spi_transfer address (byte_of_Z CMD_BLINK) (Some [byte_of_Z count])
           1 None 0 (20 * MSEC) 0 ;;
    ret (fst r).

Definition mcc172_firmware_version (address : Z) (version : option Z)
    : M (ResultCode * option Z) :=
  w <- get ;;
  if negb (_check_addr address w) then ret (RESULT_BAD_PARAMETER, version)
  else
    dev <- the_device address ;;
    ret (RESULT_SUCCESS, (fun _ => fw_version dev) <$> version).

Definition mcc172_reset (address : Z) : M ResultCode :=
  w <- get ;;
  if negb (_check_addr address w) then ret RESULT_BAD_PARAMETER
  else
    (* send reset command *)
    r <- _spi_transfer address (byte_of_Z CMD_RESET) None 0 None 0
           (20 * MSEC) 0 ;;
    ret (fst r).

Definition mcc172_info : MCC172DeviceInfo := mcc172_device_info.

(** [strcpy(buffer, field)] out of a character array of [n] elements. A
    field that [strncpy] filled to its last element holds no terminator; the
    copy then runs past the array and has no defined result. *)
Definition strcpy_field (field : string) (n : Z) : M string :=
  if Z.of_nat (String.length field) <? n then ret field else undefined.

Definition mcc172_serial (address : Z) (buffer : option string)
    : M (ResultCode * option string) :=
  w <- get ;;
  if negb (_check_addr address w) || is_null buffer
  then ret (RESULT_BAD_PARAMETER, buffer)
  else
    dev <- the_device address ;;
    s <- strcpy_field (Factory.serial (factory_data dev)) SERIAL_SIZE ;;
    ret (RESULT_SUCCESS, Some s).

Definition mcc172_calibration_date (address : Z) (buffer : option string)
    : M (ResultCode * option string) :=
  w <- get ;;
  if negb (_check_addr address w) || is_null buffer
  then ret (RESULT_BAD_PARAMETER, buffer)
  else
    dev <- the_device address ;;
    s <- strcpy_field (Factory.cal_date (factory_data dev)) CAL_DATE_SIZE ;;
    ret (RESULT_SUCCESS, Some s).

Definition mcc172_calibration_coefficient_read (address channel : Z)
    (slope offset : option float)
    : M (ResultCode * (option float * option float)) :=
  w <- get ;;
  if negb (_check_addr address w) || (channel >=? NUM_CHANNELS)
     || is_null slope || is_null offset
  then ret (RESULT_BAD_PARAMETER, (slope, offset))
  else
    dev <- the_device address ;;
    ret (RESULT_SUCCESS,
         (Some (float_at (Factory.slopes (factory_data dev)) channel),
          Some (float_at (Factory.offsets (factory_data dev)) channel))).

Definition mcc172_IEPE_config_read (address channel : Z) (config : option Z)
    : M (ResultCode * option Z) :=
  w <- get ;;
  if negb (_check_addr address w) || (channel >=? NUM_CHANNELS)
     || is_null config
  then ret (RESULT_BAD_PARAMETER, config)
  else
    (* read the configuration from the device *)
    r <- _spi_transfer address (byte_of_Z CMD_IEPECONFIG_R) None 0
           (Some [x00]) 1 (20 * MSEC) 0 ;;
    let '(result, rx) := r in
    if bool_decide (result = RESULT_SUCCESS) then
      let buffer := byte_val (byte_at (default [] rx) 0) in
      ret (result, Some (Z.land (Z.shiftr buffer channel) 0x01))
    else ret (result, config).

Definition mcc172_a_in_scan_buffer_size (address : Z)
    (buffer_size_samples : option Z) : M (ResultCode * option Z) :=
  w <- get ;;
  if negb (_check_addr address w) || is_null buffer_size_samples
  then ret (RESULT_BAD_PARAMETER, buffer_size_samples)
  else
    dev <- the_device address ;;
    match scan_info dev with
    | None => ret (RESULT_RESOURCE_UNAVAIL, buffer_size_samples)
    | Some info => ret (RESULT_SUCCESS, Some (buffer_size info))
    end.

Definition mcc172_a_in_scan_channel_count (address : Z) : M Z :=
  w <- get ;;
  if negb (_check_addr address w) then ret 0
  else
    dev <- the_device address ;;
    match scan_info dev with
    | None => ret 0
    | Some info => ret (channel_count info)
    end.

(** The status word and [*samples_per_channel] after the call. The division
    by a zero [channel_count] has no defined result. *)
Definition mcc172_a_in_scan_status (address : Z) (status : option Z)
    (samples_per_channel : option Z)
    : M (ResultCode * (option Z * option Z)) :=
  w <- get ;;
  if negb (_check_addr address w) || is_null status
  then ret (RESULT_BAD_PARAMETER, (status, samples_per_channel))
  else
    dev <- the_device address ;;
    match scan_info dev with
    | None =>
        (* scan not running? *)
        ret (RESULT_RESOURCE_UNAVAIL,
             (Some 0, (fun _ => 0) <$> samples_per_channel))
    | Some info =>
        depth <-
          match samples_per_channel with
          | Some _ =>
              if channel_count info =? 0 then undefined
              else ret (Some (buffer_depth info / channel_count info))
          | None => ret None
          end ;;
        let stat := 0 in
        let stat :=
          if hw_overrun info then Z.lor stat STATUS_HW_OVERRUN else stat in
        let stat :=
          if buffer_overrun info then Z.lor stat STATUS_BUFFER_OVERRUN
          else stat in
        let stat :=
          if triggered info then Z.lor stat STATUS_TRIGGERED else stat in
        let stat :=
          if scan_running info then Z.lor stat STATUS_RUNNING else stat in
        ret (RESULT_SUCCESS, (Some (u16 stat), depth))
    end.

Definition mcc172_test_signals_read (address : Z)
    (clock sync trigger : option Z)
    : M (ResultCode * (option Z * option Z * option Z)) :=
  w <- get ;;
  if negb (_check_addr address w) || is_null clock || is_null sync
     || is_null trigger
  then ret (RESULT_BAD_PARAMETER, (clock, sync, trigger))
  else
    (* send the command *)
    r <- _spi_transfer address (byte_of_Z CMD_TESTSIGNAL_R) None 0
           (Some [x00]) 1 (20 * MSEC) 0 ;;
    let '(result, rx) := r in
    if bool_decide (result = RESULT_SUCCESS) then
      let buffer := byte_val (byte_at (default [] rx) 0) in
      ret (result,
           (Some (Z.land buffer 0x01),
            Some (Z.land (Z.shiftr buffer 1) 0x01),
            Some (Z.land (Z.shiftr buffer 2) 0x01)))
    else ret (result, (clock, sync, trigger)).

Definition mcc172_test_signals_write (address mode clock sync : Z)
    : M ResultCode :=
  w <- get ;;
  if negb (_check_addr address w) then ret RESULT_BAD_PARAMETER
  else
    (* send the command *)
    let buffer := 0 in
    let buffer := if mode >? 0 then u8 (Z.lor buffer 0x01) else buffer in
    let buffer := if clock >? 0 then u8 (Z.lor buffer 0x02) else buffer in
    let buffer := if sync >? 0 then u8 (Z.lor buffer 0x04) else buffer in
    r <- _spi_transfer address (byte_of_Z CMD_TESTSIGNAL_W)
           (Some [byte_of_Z buffer]) 1 None 0 (20 * MSEC) 0 ;;
    ret (fst r).

End Driver.

(** * Properties *)

(** ** Bytes and bit patterns *)

Lemma byte_val_range (b : byte) : 0 <= byte_val b < 256.
Proof.
  unfold byte_val. pose proof (Byte.to_N_bounded b). lia.
Qed.

Lemma byte_val_of_Z (z : Z) : byte_val (byte_of_Z z) = z mod 256.
Proof.
  unfold byte_of_Z, byte_val, u8, wrap.
  change (2 ^ 8) with 256.
  pose proof (Z.mod_pos_bound z 256 ltac:(lia)) as Hr.
  destruct (Byte.of_N (Z.to_N (z mod 256))) as [b|] eqn:E; simpl.
  - apply Byte.to_of_N in E. rewrite E. lia.
  - apply Byte.of_N_None_iff in E. lia.
Qed.


(** A value below [2^n] and a multiple of [2^n] share no bit. *)
Lemma land_low_shiftl (a b n : Z) :
  0 <= n -> 0 <= a < 2 ^ n -> Z.land a (Z.shiftl b n) = 0.
Proof.
  intros Hn Ha. apply Z.bits_inj'. intros k Hk.
  rewrite Z.land_spec, Z.bits_0.
  destruct (Z.lt_ge_cases k n) as [Hlt|Hge].
  - rewrite Z.shiftl_spec_low by assumption. apply andb_false_r.
  - assert (Z.testbit a k = false) as ->; [|reflexivity].
    destruct (Z.eq_dec a 0) as [->|Hne]; [apply Z.bits_0|].
    apply Z.bits_above_log2; [lia|].
    apply Z.log2_lt_pow2; [lia|].
    assert (2 ^ n <= 2 ^ k) by (apply Z.pow_le_mono_r; lia). lia.
Qed.

Lemma lor_low_shiftl (a b n : Z) :
  0 <= n -> 0 <= a < 2 ^ n -> Z.lor a (Z.shiftl b n) = a + b * 2 ^ n.
Proof.
  intros Hn Ha. rewrite <- Z.add_nocarry_lor by (apply land_low_shiftl; lia).
  rewrite Z.shiftl_mul_pow2 by lia. reflexivity.
Qed.

Lemma le16_range (lo hi : byte) : 0 <= le16 lo hi < 65536.
Proof.
  unfold le16. pose proof (byte_val_range lo). pose proof (byte_val_range hi).
  lia.
Qed.

(** The count assembled in state 4 of the scanner is the little-endian
    value of the two count bytes. *)
Lemma count_lor_le16 (lo hi : byte) :
  Z.lor (byte_val lo) (u16 (Z.shiftl (byte_val hi) 8)) = le16 lo hi.
Proof.
  pose proof (byte_val_range lo). pose proof (byte_val_range hi).
  unfold u16, wrap, le16.
  rewrite (Z.shiftl_mul_pow2 (byte_val hi) 8) by lia.
  rewrite Z.mod_small by (change (2 ^ 8) with 256; change (2 ^ 16) with 65536; lia).
  rewrite <- (Z.shiftl_mul_pow2 (byte_val hi) 8) by lia.
  rewrite lor_low_shiftl by (change (2 ^ 8) with 256; lia).
  change (2 ^ 8) with 256. lia.
Qed.

(** ** The frame scanner *)

Section Scanner.

Variable ptr : list byte.

(** The count field of a frame that starts at [fs]. *)
Definition count_field (fs : Z) : Z :=
  le16 (byte_at ptr (fs + MSG_RX_INDEX_COUNT_LOW))
       (byte_at ptr (fs + MSG_RX_INDEX_COUNT_HIGH)).

(** What a reported frame satisfies with respect to the bytes consumed so
    far ([bound] of them). *)
Definition frame_ok (bound : Z) (v : parse_vars) : Prop :=
  0 <= _frame_start v
  /\ _frame_start v + _frame_length v <= bound
  /\ byte_val (byte_at ptr (_frame_start v)) = MSG_START
  /\ _frame_length v = MSG_RX_HEADER_SIZE + count_field (_frame_start v).

Definition started (v : parse_vars) : Prop :=
  0 <= _frame_start v /\ byte_val (byte_at ptr (_frame_start v)) = MSG_START.

(** The loop invariant before the byte at [index] is consumed. *)
Definition scanning (index : Z) (v : parse_vars) : Prop :=
  match parse_state v with
  | 0 => True
  | 1 => started v /\ _frame_start v = index - 1 /\ data_index v = 0
  | 2 => started v /\ _frame_start v = index - 2 /\ data_index v = 0
  | 3 => started v /\ _frame_start v = index - 3 /\ data_index v = 0
  | 4 =>
      started v /\ _frame_start v = index - 4 /\ data_index v = 0
      /\ data_count v
         = byte_val (byte_at ptr (_frame_start v + MSG_RX_INDEX_COUNT_LOW))
  | 5 =>
      started v
      /\ _frame_start v + MSG_RX_HEADER_SIZE + data_index v = index
      /\ data_count v = count_field (_frame_start v)
      /\ 0 <= data_index v < data_count v
  | _ => False
  end.

Definition scan_inv (index : Z) (v : parse_vars) : Prop :=
  if found_frame v then frame_ok index v else scanning index v.

Lemma frame_ok_mono (a b : Z) (v : parse_vars) :
  a <= b -> frame_ok a v -> frame_ok b v.
Proof. unfold frame_ok. intros ? (? & ? & ? & ?). repeat split; auto; lia. Qed.

Lemma parse_step_inv (index : Z) (v : parse_vars) :
  0 <= index < 65535 ->
  found_frame v = false ->
  scanning index v ->
  scan_inv (index + 1) (parse_step ptr index v).
Proof.
  intros Hi Hnf Hs. unfold scanning in Hs. unfold parse_step.
  destruct (parse_state v) as [|p|p] eqn:Hst; [| |contradiction].
  - (* looking for start *)
    destruct (MSG_START =? byte_val (byte_at ptr index)) eqn:Hb.
    + apply Z.eqb_eq in Hb.
      unfold scan_inv, scanning, started; cbn. rewrite Hnf.
      repeat split; auto; lia.
    + unfold scan_inv, scanning. rewrite Hnf, Hst. exact I.
  - do 3 (try destruct p as [p|p|]); try contradiction.
    + (* 5: data *)
      destruct Hs as ((Hfs & Hdb) & Hidx & Hdc & Hdi).
      pose proof (le16_range (byte_at ptr (_frame_start v + MSG_RX_INDEX_COUNT_LOW))
                    (byte_at ptr (_frame_start v + MSG_RX_INDEX_COUNT_HIGH))) as Hc.
      fold (count_field (_frame_start v)) in Hc.
      unfold MSG_RX_HEADER_SIZE in *.
      assert (Hu : u16 (data_index v + 1) = data_index v + 1).
      { unfold u16, wrap. apply Z.mod_small. change (2 ^ 16) with 65536. lia. }
      rewrite Hu.
      destruct (data_index v + 1 >=? data_count v) eqn:Hge.
      * apply Z.geb_le in Hge.
        unfold scan_inv, frame_ok, MSG_RX_HEADER_SIZE; cbn.
        assert (Hfl : u16 (data_count v + 5) = data_count v + 5).
        { unfold u16, wrap. apply Z.mod_small. change (2 ^ 16) with 65536. lia. }
        rewrite Hfl. repeat split; auto; lia.
      * rewrite Z.geb_leb in Hge. apply Z.leb_gt in Hge.
        unfold scan_inv, scanning, started, MSG_RX_HEADER_SIZE; cbn.
        rewrite ?Hnf, ?Hst. repeat split; auto; lia.
    + (* 3: count low *)
      destruct Hs as ((Hfs & Hdb) & Hidx & Hdi).
      unfold scan_inv, scanning, started, MSG_RX_INDEX_COUNT_LOW; cbn.
      rewrite ?Hnf, ?Hst; cbn. repeat split; auto; try lia.
      f_equal. f_equal. lia.
    + (* 4: count high *)
      destruct Hs as ((Hfs & Hdb) & Hidx & Hdi & Hdc).
      assert (Hcount :
        Z.lor (data_count v) (u16 (Z.shiftl (byte_val (byte_at ptr index)) 8))
        = count_field (_frame_start v)).
      { rewrite Hdc. unfold count_field.
        replace (_frame_start v + MSG_RX_INDEX_COUNT_HIGH) with index
          by (unfold MSG_RX_INDEX_COUNT_HIGH; lia).
        apply count_lor_le16. }
      rewrite Hcount.
      pose proof (le16_range (byte_at ptr (_frame_start v + MSG_RX_INDEX_COUNT_LOW))
                    (byte_at ptr (_frame_start v + MSG_RX_INDEX_COUNT_HIGH))) as Hc.
      fold (count_field (_frame_start v)) in Hc.
      destruct (count_field (_frame_start v) =? 0) eqn:Hz.
      * apply Z.eqb_eq in Hz.
        unfold scan_inv, frame_ok, MSG_RX_HEADER_SIZE; cbn.
        rewrite Hz. repeat split; auto; lia.
      * apply Z.eqb_neq in Hz.
        unfold scan_inv, scanning, started, MSG_RX_HEADER_SIZE; cbn.
        rewrite ?Hnf, ?Hst; cbn. repeat split; auto; lia.
    + (* 2: status *)
      destruct Hs as ((Hfs & Hdb) & Hidx & Hdi).
      unfold scan_inv, scanning, started; cbn.
      rewrite ?Hnf, ?Hst; cbn. repeat split; auto; lia.
    + (* 1: command *)
      destruct Hs as ((Hfs & Hdb) & Hidx & Hdi).
      unfold scan_inv, scanning, started; cbn.
      rewrite ?Hnf, ?Hst; cbn. repeat split; auto; lia.
Qed.

Lemma parse_loop_inv (todo : nat) :
  forall (index : Z) (v : parse_vars),
    0 <= index -> index + Z.of_nat todo <= 65535 ->
    scan_inv index v ->
    scan_inv (index + Z.of_nat todo) (parse_loop ptr todo index v).
Proof.
  induction todo as [|todo IH]; intros index v Hi Hb Hinv.
  - rewrite Z.add_0_r. exact Hinv.
  - cbn [parse_loop]. destruct (found_frame v) eqn:Hf.
    + unfold scan_inv in *. rewrite Hf in *.
      eapply frame_ok_mono; [|exact Hinv]. lia.
    + replace (index + Z.of_nat (S todo)) with (index + 1 + Z.of_nat todo) by lia.
      apply IH; [lia|lia|].
      apply parse_step_inv; [lia|exact Hf|].
      unfold scan_inv in Hinv. rewrite Hf in Hinv. exact Hinv.
Qed.

End Scanner.

(** C10. Whenever [_parse_buffer] reports a frame, the frame lies inside
    the scanned region ([frame_start + frame_length <= length]), the byte at
    [frame_start] is the start byte 0xDB, and [frame_length] is the 5-byte
    header plus the little-endian count field of that frame. [length] is a
    [uint16_t]. *)
Theorem parse_buffer_frame_inside (buffer : list byte) (length : Z) :
  0 <= length <= 65535 ->
  found (_parse_buffer buffer length) = true ->
  let r := _parse_buffer buffer length in
  0 <= frame_start r
  /\ frame_start r + frame_length r <= length
  /\ byte_val (byte_at buffer (frame_start r)) = MSG_START
  /\ frame_length r
     = MSG_RX_HEADER_SIZE
       + le16 (byte_at buffer (frame_start r + MSG_RX_INDEX_COUNT_LOW))
              (byte_at buffer (frame_start r + MSG_RX_INDEX_COUNT_HIGH)).
Proof.
  intros Hlen Hfound r.
  pose proof (parse_loop_inv buffer (Z.to_nat length) 0 parse_init) as Hinv.
  rewrite Z2Nat.id in Hinv by lia.
  specialize (Hinv ltac:(lia) ltac:(lia) I).
  unfold scan_inv in Hinv. unfold _parse_buffer in Hfound. cbn in Hfound.
  rewrite Hfound in Hinv. exact Hinv.
Qed.

Lemma parse_buffer_frame_inside_witness :
  found (_parse_buffer [x00; xdb; x12; x00; x02; x00; x0a; x0b; xff] 9) = true
  /\ frame_start (_parse_buffer [x00; xdb; x12; x00; x02; x00; x0a; x0b; xff] 9)
     + frame_length (_parse_buffer [x00; xdb; x12; x00; x02; x00; x0a; x0b; xff] 9)
     <= 9.
Proof.
  split; [reflexivity|].
  apply (parse_buffer_frame_inside
           [x00; xdb; x12; x00; x02; x00; x0a; x0b; xff] 9);
    [lia|reflexivity].
Defined.

(** ** A reply frame in the buffer is found *)

Section Located.

Variable ptr : list byte.

(** The data state: with payload bytes still to come and at least that
    many bytes left to scan, the loop ends in the found state. *)
Lemma parse_loop_data (k : nat) :
  forall (todo : nat) (index : Z) (v : parse_vars),
    parse_state v = 5 -> found_frame v = false ->
    0 <= data_index v -> data_count v + MSG_RX_HEADER_SIZE <= 65535 ->
    Z.of_nat (S k) = data_count v - data_index v ->
    (S k <= todo)%nat ->
    let v' := parse_loop ptr todo index v in
    found_frame v' = true
    /\ _frame_start v' = _frame_start v
    /\ _frame_length v' = data_count v + MSG_RX_HEADER_SIZE.
Proof.
  unfold MSG_RX_HEADER_SIZE.
  induction k as [|k IH]; intros todo index v Hst Hnf Hdi Hdc Hk Htodo;
    (destruct todo as [|todo]; [lia|]); cbn [parse_loop];
    rewrite Hnf; unfold parse_step; rewrite Hst;
    assert (Hu : u16 (data_index v + 1) = data_index v + 1)
      by (unfold u16, wrap; apply Z.mod_small;
          change (2 ^ 16) with 65536; lia);
    rewrite Hu.
  - assert (Hge : (data_index v + 1 >=? data_count v) = true)
      by (rewrite Z.geb_leb; apply Z.leb_le; lia).
    rewrite Hge.
    assert (Hfl : u16 (data_count v + MSG_RX_HEADER_SIZE) = data_count v + 5)
      by (unfold u16, wrap, MSG_RX_HEADER_SIZE; apply Z.mod_small;
          change (2 ^ 16) with 65536; lia).
    rewrite Hfl. destruct todo; cbn; auto.
  - assert (Hge : (data_index v + 1 >=? data_count v) = false)
      by (rewrite Z.geb_leb; apply Z.leb_gt; lia).
    rewrite Hge.
    match goal with
    | |- context [parse_loop ptr todo ?i ?w] =>
        pose proof (IH todo i w) as IH'
    end.
    cbn in IH'. apply IH'; auto; lia.
Qed.

Lemma parse_loop_next (todo : nat) (index : Z) (v : parse_vars) :
  found_frame v = false ->
  parse_loop ptr (S todo) index v
  = parse_loop ptr todo (index + 1) (parse_step ptr index v).
Proof. intros Hnf. cbn [parse_loop]. rewrite Hnf. reflexivity. Qed.

(** Bytes other than the start byte are passed over in the search state. *)
Lemma parse_loop_skip (n : nat) :
  forall (todo : nat) (index : Z),
    (forall i, index <= i < index + Z.of_nat n ->
               byte_val (byte_at ptr i) <> MSG_START) ->
    parse_loop ptr (n + todo) index parse_init
    = parse_loop ptr todo (index + Z.of_nat n) parse_init.
Proof.
  induction n as [|n IH]; intros todo index Hgarbage.
  - rewrite Z.add_0_r. reflexivity.
  - change (S n + todo)%nat with (S (n + todo)).
    rewrite parse_loop_next by reflexivity.
    assert (Hstep : parse_step ptr index parse_init = parse_init).
    { unfold parse_step, parse_init; cbn [parse_state].
      destruct (Z.eqb_spec MSG_START (byte_val (byte_at ptr index)))
        as [Heq|]; [|reflexivity].
      exfalso. apply (Hgarbage index); [lia|]. symmetry. exact Heq. }
    rewrite Hstep, IH by (intros i Hi; apply Hgarbage; lia).
    f_equal. lia.
Qed.

Lemma parse_start (k : Z) :
  byte_val (byte_at ptr k) = MSG_START ->
  parse_step ptr k parse_init
  = {| parse_state := 1; found_frame := false; data_count := 0;
       data_index := 0; _remaining := 0; _frame_length := 0;
       _frame_start := k |}.
Proof.
  intros Hdb. unfold parse_step, parse_init; cbn [parse_state].
  rewrite Hdb, Z.eqb_refl. reflexivity.
Qed.

(** The scanner's variables after the five header bytes of a frame at
    offset [k]. *)
Lemma parse_header (k : Z) :
  byte_val (byte_at ptr k) = MSG_START ->
  let count := count_field ptr k in
  parse_step ptr (k + 1 + 1 + 1 + 1)
    (parse_step ptr (k + 1 + 1 + 1)
       (parse_step ptr (k + 1 + 1)
          (parse_step ptr (k + 1) (parse_step ptr k parse_init))))
  = if count =? 0
    then {| parse_state := 6; found_frame := true; data_count := count;
            data_index := 0; _remaining := 0;
            _frame_length := MSG_RX_HEADER_SIZE; _frame_start := k |}
    else {| parse_state := 5; found_frame := false; data_count := count;
            data_index := 0; _remaining := count;
            _frame_length := 0; _frame_start := k |}.
Proof.
  intros Hdb count. rewrite (parse_start k Hdb).
  change (parse_step ptr (k + 1 + 1 + 1) _) with
    {| parse_state := 4; found_frame := false;
       data_count := byte_val (byte_at ptr (k + 1 + 1 + 1));
       data_index := 0; _remaining := 0; _frame_length := 0;
       _frame_start := k |}.
  unfold parse_step; cbn [parse_state data_count found_frame data_index
    _remaining _frame_length _frame_start].
  rewrite (count_lor_le16 (byte_at ptr (k + 1 + 1 + 1))
             (byte_at ptr (k + 1 + 1 + 1 + 1))).
  assert (Hcount : le16 (byte_at ptr (k + 1 + 1 + 1))
                     (byte_at ptr (k + 1 + 1 + 1 + 1)) = count).
  { subst count. unfold count_field, MSG_RX_INDEX_COUNT_LOW,
      MSG_RX_INDEX_COUNT_HIGH.
    replace (k + 1 + 1 + 1 + 1) with (k + 4) by lia.
    replace (k + 1 + 1 + 1) with (k + 3) by lia. reflexivity. }
  rewrite Hcount. destruct (count =? 0); reflexivity.
Qed.

Lemma parse_loop_header (todo : nat) (k : Z) :
  byte_val (byte_at ptr k) = MSG_START ->
  parse_loop ptr (S (S (S (S (S todo))))) k parse_init
  = parse_loop ptr todo (k + 1 + 1 + 1 + 1 + 1)
      (parse_step ptr (k + 1 + 1 + 1 + 1)
         (parse_step ptr (k + 1 + 1 + 1)
            (parse_step ptr (k + 1 + 1)
               (parse_step ptr (k + 1) (parse_step ptr k parse_init))))).
Proof.
  intros Hdb. rewrite parse_loop_next by reflexivity.
  rewrite (parse_start k Hdb).
  do 4 (rewrite parse_loop_next by reflexivity). reflexivity.
Qed.

(** A frame in the inbound layout at offset [k], after bytes that hold no
    start byte, is found, whatever follows it. *)
Lemma parse_buffer_locates_at (k length : Z) :
  0 <= k ->
  (forall i, 0 <= i < k -> byte_val (byte_at ptr i) <> MSG_START) ->
  byte_val (byte_at ptr k) = MSG_START ->
  k + MSG_RX_HEADER_SIZE + count_field ptr k <= length <= 65535 ->
  _parse_buffer ptr length
  = {| found := true; frame_start := k;
       frame_length := MSG_RX_HEADER_SIZE + count_field ptr k;
       remaining := remaining (_parse_buffer ptr length) |}.
Proof.
  intros Hk Hgarbage Hdb Hlen.
  pose proof (le16_range (byte_at ptr (k + MSG_RX_INDEX_COUNT_LOW))
                (byte_at ptr (k + MSG_RX_INDEX_COUNT_HIGH))) as Hc.
  fold (count_field ptr k) in Hc.
  unfold _parse_buffer.
  unfold MSG_RX_HEADER_SIZE in *.
  replace (Z.to_nat length)
    with (Z.to_nat k + S (S (S (S (S (Z.to_nat (length - k - 5)))))))%nat
    by lia.
  rewrite parse_loop_skip by (intros i Hi; apply Hgarbage; lia).
  rewrite Z.add_0_l, Z2Nat.id by lia.
  set (todo := Z.to_nat (length - k - 5)).
  rewrite (parse_loop_header todo k Hdb), (parse_header k Hdb).
  destruct (count_field ptr k =? 0) eqn:Hz.
  - apply Z.eqb_eq in Hz. rewrite Hz. destruct todo; reflexivity.
  - apply Z.eqb_neq in Hz.
    match goal with
    | |- context [parse_loop ptr todo ?i ?w] =>
        pose proof (parse_loop_data (Z.to_nat (count_field ptr k) - 1)
                      todo i w) as Hd;
        set (v' := parse_loop ptr todo i w) in *
    end.
    cbn in Hd.
    assert (Htodo : (S (Z.to_nat (count_field ptr k) - 1) <= todo)%nat)
      by (subst todo; lia).
    unfold MSG_RX_HEADER_SIZE in Hd.
    specialize (Hd eq_refl eq_refl ltac:(lia) ltac:(lia) ltac:(lia) Htodo).
    destruct Hd as (Hf & Hs & Hl).
    cbn [remaining]. rewrite Hf, Hs, Hl. f_equal. lia.
Qed.

(** The same at offset 0. *)
Lemma parse_buffer_locates (length : Z) :
  byte_val (byte_at ptr 0) = MSG_START ->
  MSG_RX_HEADER_SIZE + count_field ptr 0 <= length <= 65535 ->
  _parse_buffer ptr length
  = {| found := true; frame_start := 0;
       frame_length := MSG_RX_HEADER_SIZE + count_field ptr 0;
       remaining := remaining (_parse_buffer ptr length) |}.
Proof.
  intros Hdb Hlen. apply parse_buffer_locates_at; auto; lia.
Qed.

End Located.

(** ** Encoder and scanner together *)

(** The frame [_spi_transfer] clocks out for a command and payload: the
    first [tx_count] bytes of the zeroed [tx_buffer] after [_create_frame]. *)
Definition tx_frame (command : byte) (payload : list byte) : list byte :=
  let count := Z.of_nat (length payload) in
  let created :=
    _create_frame (replicate (Z.to_nat (MSG_TX_HEADER_SIZE + count)) x00)
      command count payload in
  take (Z.to_nat (fst created)) (snd created).

(** The command byte and the payload of the frame that a scan reports. *)
Definition frame_command (stream : list byte) (r : parse_result) : byte :=
  byte_at stream (frame_start r + MSG_RX_INDEX_COMMAND).

Definition frame_payload (stream : list byte) (r : parse_result)
    : list byte :=
  take (Z.to_nat (frame_length r - MSG_RX_HEADER_SIZE))
    (drop (Z.to_nat (frame_start r + MSG_RX_INDEX_DATA)) stream).

(** Scanning [stream] locates at offset 0 a frame with command [C] and
    payload [P]. *)
Definition round_trip (stream : list byte) (C : byte) (P : list byte)
    : Prop :=
  let r := _parse_buffer stream (Z.of_nat (length stream)) in
  found r = true
  /\ frame_start r = 0
  /\ frame_command stream r = C
  /\ frame_payload stream r = P.

(** A frame with the status byte of the inbound layout put in after the
    command byte. *)
Definition with_status (status : byte) (frame : list byte) : list byte :=
  take (Z.to_nat MSG_RX_INDEX_STATUS) frame
  ++ status :: drop (Z.to_nat MSG_RX_INDEX_STATUS) frame.

Example tx_frame_status : tx_frame x12 [] = [xdb; x12; x00; x00].
Proof. reflexivity. Qed.

Lemma tx_frame_bytes (C : byte) (P : list byte) :
  Z.of_nat (length P) <= MAX_TX_DATA_SIZE ->
  tx_frame C P
  = [byte_of_Z MSG_START; C; byte_of_Z (Z.of_nat (length P));
     byte_of_Z (Z.shiftr (Z.of_nat (length P)) 8)] ++ P.
Proof.
  intros Hlen. unfold tx_frame, _create_frame, MAX_TX_DATA_SIZE in *.
  set (n := Z.of_nat (length P)) in *.
  assert (Hgt : (n >? 256) = false) by (rewrite Z.gtb_ltb; apply Z.ltb_ge; lia).
  rewrite Hgt. cbn [fst snd]. unfold MSG_TX_HEADER_SIZE.
  replace (Z.to_nat (4 + n)) with (S (S (S (S (length P))))) by lia.
  cbn [replicate].
  change (Z.to_nat MSG_TX_INDEX_START) with 0%nat.
  change (Z.to_nat MSG_TX_INDEX_COMMAND) with 1%nat.
  change (Z.to_nat MSG_TX_INDEX_COUNT_LOW) with 2%nat.
  change (Z.to_nat MSG_TX_INDEX_COUNT_HIGH) with 3%nat.
  simpl insert.
  destruct (n >? 0) eqn:Hpos.
  - unfold memcpy, MSG_TX_INDEX_DATA.
    change (Z.to_nat 4) with 4%nat.
    rewrite !list_inserts_cons.
    replace (Z.to_nat n) with (length P) by lia.
    rewrite firstn_all.
    rewrite <- (app_nil_r (replicate (length P) x00)).
    rewrite list_inserts_0_r by (rewrite length_replicate; reflexivity).
    rewrite app_nil_r.
    rewrite firstn_all2; [reflexivity|]. cbn. lia.
  - rewrite Z.gtb_ltb in Hpos. apply Z.ltb_ge in Hpos.
    assert (length P = 0%nat) as HP by lia.
    destruct P; [|discriminate]. reflexivity.
Qed.

(** C1, as stated, at the status poll of the producer (command 0x12, no
    payload): the frame the encoder builds has a 4-byte header and the
    scanner, which expects the 5-byte inbound header, reports no frame. *)
Lemma tx_frame_not_located :
  tx_frame (byte_of_Z CMD_AINSCANSTATUS) [] = [xdb; x12; x00; x00]
  /\ found (_parse_buffer (tx_frame (byte_of_Z CMD_AINSCANSTATUS) [])
              (Z.of_nat (length (tx_frame (byte_of_Z CMD_AINSCANSTATUS) []))))
     = false
  /\ ~ round_trip (tx_frame (byte_of_Z CMD_AINSCANSTATUS) [])
         (byte_of_Z CMD_AINSCANSTATUS) [].
Proof.
  repeat split.
  unfold round_trip. intros (Hfound & _). vm_compute in Hfound. discriminate.
Qed.

(** C1, amended. For every command [C], status byte [S] and payload [P] of
    at most 256 bytes, the encoder's frame with the status byte put in after
    the command byte (the inbound layout), followed by any noise that keeps
    the length within a [uint16_t], is located by the scanner at offset 0
    with frame length 5 + |P|, command byte [C] and payload [P]. *)
Theorem reply_frame_round_trip (C S : byte) (P noise : list byte) :
  Z.of_nat (length P) <= MAX_TX_DATA_SIZE ->
  MSG_RX_HEADER_SIZE + Z.of_nat (length P) + Z.of_nat (length noise) <= 65535 ->
  let stream := with_status S (tx_frame C P) ++ noise in
  round_trip stream C P
  /\ frame_length (_parse_buffer stream (Z.of_nat (length stream)))
     = MSG_RX_HEADER_SIZE + Z.of_nat (length P).
Proof.
  intros HP Hlen stream.
  assert (Hstream :
    stream = [byte_of_Z MSG_START; C; S; byte_of_Z (Z.of_nat (length P));
              byte_of_Z (Z.shiftr (Z.of_nat (length P)) 8)]
             ++ P ++ noise).
  { subst stream. rewrite tx_frame_bytes by assumption. reflexivity. }
  unfold MAX_TX_DATA_SIZE, MSG_RX_HEADER_SIZE in *.
  set (n := Z.of_nat (length P)) in *.
  assert (Hcount : count_field stream 0 = n).
  { unfold count_field, le16.
    assert (byte_at stream (0 + MSG_RX_INDEX_COUNT_LOW) = byte_of_Z n) as ->
      by (rewrite Hstream; reflexivity).
    assert (byte_at stream (0 + MSG_RX_INDEX_COUNT_HIGH)
            = byte_of_Z (Z.shiftr n 8)) as ->
      by (rewrite Hstream; reflexivity).
    rewrite !byte_val_of_Z. rewrite Z.shiftr_div_pow2 by lia.
    change (2 ^ 8) with 256.
    rewrite (Z.mod_small (n / 256) 256)
      by (split; [apply Z.div_pos; lia | apply Z.div_lt_upper_bound; lia]).
    pose proof (Z.div_mod n 256 ltac:(lia)). lia. }
  assert (Hsize : Z.of_nat (length stream) = 5 + n + Z.of_nat (length noise)).
  { rewrite Hstream. rewrite !length_app. cbn [length]. lia. }
  pose proof (parse_buffer_locates stream (Z.of_nat (length stream))) as Hloc.
  rewrite Hcount in Hloc. unfold MSG_RX_HEADER_SIZE in Hloc.
  specialize (Hloc ltac:(rewrite Hstream; reflexivity) ltac:(lia)).
  unfold round_trip, frame_command, frame_payload.
  rewrite Hloc. cbn [found frame_start frame_length].
  repeat split.
  - rewrite Hstream. reflexivity.
  - unfold MSG_RX_HEADER_SIZE, MSG_RX_INDEX_DATA.
    replace (Z.to_nat (5 + n - 5)) with (length P) by lia.
    rewrite Hstream. change (Z.to_nat (0 + 5)) with 5%nat. cbn [app drop].
    rewrite drop_0, take_app_length. reflexivity.
Qed.

Lemma reply_frame_round_trip_witness :
  round_trip [xdb; x13; x00; x03; x00; x01; x02; x03; xff; xff] x13
    [x01; x02; x03].
Proof.
  apply (reply_frame_round_trip x13 x00 [x01; x02; x03] [xff; xff]);
    vm_compute; discriminate.
Defined.

Lemma byte_at_app_l (pre l : list byte) (i : Z) :
  0 <= i < Z.of_nat (length pre) -> byte_at (pre ++ l) i = byte_at pre i.
Proof.
  intros Hi. unfold byte_at. rewrite lookup_app_l by lia. reflexivity.
Qed.

Lemma byte_at_app_r (pre l : list byte) (j : Z) :
  0 <= j -> byte_at (pre ++ l) (Z.of_nat (length pre) + j) = byte_at l j.
Proof.
  intros Hj. unfold byte_at. rewrite lookup_app_r by lia.
  do 2 f_equal. lia.
Qed.

(** Resynchronisation. After garbage that holds no start byte, a reply
    frame (inbound layout) followed by any noise is located at the first
    0xDB, with its command and payload. *)
Theorem reply_frame_resync (garbage : list byte) (C S : byte)
    (P noise : list byte) :
  Forall (fun b => byte_val b <> MSG_START) garbage ->
  Z.of_nat (length P) <= MAX_TX_DATA_SIZE ->
  Z.of_nat (length garbage) + MSG_RX_HEADER_SIZE + Z.of_nat (length P)
  + Z.of_nat (length noise) <= 65535 ->
  let stream := garbage ++ with_status S (tx_frame C P) ++ noise in
  let r := _parse_buffer stream (Z.of_nat (length stream)) in
  found r = true
  /\ frame_start r = Z.of_nat (length garbage)
  /\ frame_length r = MSG_RX_HEADER_SIZE + Z.of_nat (length P)
  /\ frame_command stream r = C
  /\ frame_payload stream r = P.
Proof.
  intros Hgarbage HP Hlen stream r.
  set (frame := [byte_of_Z MSG_START; C; S; byte_of_Z (Z.of_nat (length P));
                 byte_of_Z (Z.shiftr (Z.of_nat (length P)) 8)]
                ++ P ++ noise).
  assert (Hstream : stream = garbage ++ frame).
  { subst stream frame. rewrite tx_frame_bytes by assumption. reflexivity. }
  unfold MAX_TX_DATA_SIZE, MSG_RX_HEADER_SIZE in *.
  set (n := Z.of_nat (length P)) in *.
  set (k := Z.of_nat (length garbage)) in *.
  assert (Hat : forall j, 0 <= j -> byte_at stream (k + j) = byte_at frame j)
    by (intros j Hj; rewrite Hstream; apply byte_at_app_r; exact Hj).
  assert (Hcount : count_field stream k = n).
  { unfold count_field, le16, MSG_RX_INDEX_COUNT_LOW, MSG_RX_INDEX_COUNT_HIGH.
    rewrite !Hat by lia.
    change (byte_at frame 3) with (byte_of_Z n).
    change (byte_at frame 4) with (byte_of_Z (Z.shiftr n 8)).
    rewrite !byte_val_of_Z. rewrite Z.shiftr_div_pow2 by lia.
    change (2 ^ 8) with 256.
    rewrite (Z.mod_small (n / 256) 256)
      by (split; [apply Z.div_pos; lia | apply Z.div_lt_upper_bound; lia]).
    pose proof (Z.div_mod n 256 ltac:(lia)). lia. }
  assert (Hsize : Z.of_nat (length stream)
                  = k + 5 + n + Z.of_nat (length noise)).
  { rewrite Hstream. subst frame. rewrite !length_app. cbn [length]. lia. }
  pose proof (parse_buffer_locates_at stream k (Z.of_nat (length stream)))
    as Hloc.
  rewrite Hcount in Hloc. unfold MSG_RX_HEADER_SIZE in Hloc.
  assert (Hr : r = {| found := true; frame_start := k; frame_length := 5 + n;
                      remaining := remaining r |}).
  { apply Hloc; [lia| | |lia].
    - intros i Hi. rewrite Hstream, byte_at_app_l by lia.
      unfold byte_at.
      destruct (garbage !! Z.to_nat i) as [b|] eqn:Hb.
      + exact (proj1 (Forall_lookup _ _) Hgarbage _ _ Hb).
      + apply lookup_ge_None in Hb. lia.
    - rewrite <- (Z.add_0_r k), Hat by lia. reflexivity. }
  unfold frame_command, frame_payload.
  rewrite Hr. cbn [found frame_start frame_length].
  repeat split.
  - unfold MSG_RX_INDEX_COMMAND. rewrite Hat by lia. reflexivity.
  - unfold MSG_RX_HEADER_SIZE, MSG_RX_INDEX_DATA.
    replace (Z.to_nat (5 + n - 5)) with (length P) by lia.
    replace (Z.to_nat (k + 5)) with (length garbage + 5)%nat by lia.
    rewrite Hstream, drop_app_add'; [|reflexivity].
    subst frame. cbn [app drop]. rewrite drop_0, take_app_length.
    reflexivity.
Qed.

Lemma reply_frame_resync_witness :
  frame_start
    (_parse_buffer [x00; xff; x01; xdb; x13; x00; x03; x00; x01; x02; x03;
                    xff; xff] 13)
  = 3.
Proof.
  apply (reply_frame_resync [x00; xff; x01] x13 x00 [x01; x02; x03]
           [xff; xff]).
  - repeat constructor; vm_compute; discriminate.
  - vm_compute; discriminate.
  - vm_compute; discriminate.
Defined.

(** ** Sample conversion *)

Lemma lor_low_mul (a b n : Z) :
  0 <= n -> 0 <= a < 2 ^ n -> Z.lor (b * 2 ^ n) a = b * 2 ^ n + a.
Proof.
  intros Hn Ha. rewrite Z.lor_comm, <- Z.shiftl_mul_pow2 by lia.
  rewrite lor_low_shiftl by lia. rewrite Z.shiftl_mul_pow2 by lia. lia.
Qed.

(** The bit pattern assembled from a top byte [h] and the three sample
    bytes. *)
Lemma lor_sample_bytes (h x0 x1 x2 : Z) :
  0 <= x0 < 256 -> 0 <= x1 < 256 -> 0 <= x2 < 256 ->
  Z.lor (Z.lor (Z.lor (h * 2 ^ 24) (Z.shiftl x0 16)) (Z.shiftl x1 8)) x2
  = h * 2 ^ 24 + x0 * 65536 + x1 * 256 + x2.
Proof.
  intros H0 H1 H2.
  rewrite !Z.shiftl_mul_pow2 by lia.
  rewrite (lor_low_mul (x0 * 2 ^ 16) h 24)
    by (change (2 ^ 16) with 65536; change (2 ^ 24) with 16777216; lia).
  replace (h * 2 ^ 24 + x0 * 2 ^ 16) with ((h * 2 ^ 8 + x0) * 2 ^ 16)
    by (change (2 ^ 8) with 256; change (2 ^ 16) with 65536;
        change (2 ^ 24) with 16777216; lia).
  rewrite (lor_low_mul (x1 * 2 ^ 8) (h * 2 ^ 8 + x0) 16)
    by (change (2 ^ 8) with 256; change (2 ^ 16) with 65536; lia).
  replace ((h * 2 ^ 8 + x0) * 2 ^ 16 + x1 * 2 ^ 8)
    with (((h * 2 ^ 8 + x0) * 2 ^ 8 + x1) * 2 ^ 8)
    by (change (2 ^ 8) with 256; change (2 ^ 16) with 65536; lia).
  rewrite (lor_low_mul x2 _ 8) by (change (2 ^ 8) with 256; lia).
  change (2 ^ 8) with 256. change (2 ^ 24) with 16777216. lia.
Qed.

Lemma byte_sign_bit (b : byte) :
  (Z.land (byte_val b) 0x80 =? 0) = (byte_val b <? 128).
Proof. destruct b; reflexivity. Qed.

Lemma u32_small (z : Z) : 0 <= z < 4294967296 -> u32 z = z.
Proof. intros Hz. unfold u32, wrap. apply Z.mod_small. exact Hz. Qed.

(** C7. The 24-bit-to-signed conversion of [_a_in_read_scan_data] maps the
    sample bytes [(b0, b1, b2)] to the two's-complement sign extension of
    the 24-bit value [b0 * 65536 + b1 * 256 + b2]; in particular
    (0x80,0x00,0x00) gives -8388608, (0x7F,0xFF,0xFF) gives 8388607 and
    (0x00,0x00,0x01) gives 1. *)
Theorem sample_value_sign_extension (b0 b1 b2 : byte) :
  let v24 := byte_val b0 * 65536 + byte_val b1 * 256 + byte_val b2 in
  sample_value b0 b1 b2 = (if v24 <? 2 ^ 23 then v24 else v24 - 2 ^ 24)
  /\ sample_value x80 x00 x00 = -8388608
  /\ sample_value x7f xff xff = 8388607
  /\ sample_value x00 x00 x01 = 1.
Proof.
  intros v24. split; [|repeat split; reflexivity].
  pose proof (byte_val_range b0) as H0.
  pose proof (byte_val_range b1) as H1.
  pose proof (byte_val_range b2) as H2.
  unfold sample_value. rewrite byte_sign_bit.
  rewrite !u32_small
    by (rewrite Z.shiftl_mul_pow2 by lia;
        first [change (2 ^ 16) with 65536 | change (2 ^ 8) with 256]; lia).
  change (2 ^ 23) with 8388608. change (2 ^ 24) with 16777216.
  destruct (byte_val b0 <? 128) eqn:Hsign; cbn [negb].
  - apply Z.ltb_lt in Hsign.
    change 0x00000000 with (0 * 2 ^ 24).
    rewrite lor_sample_bytes by assumption.
    unfold s32. rewrite u32_small by (change (2 ^ 24) with 16777216; lia).
    change (2 ^ 31) with 2147483648. change (2 ^ 24) with 16777216.
    assert (Hlt : v24 < 8388608) by (subst v24; lia).
    replace (0 * 16777216 + byte_val b0 * 65536 + byte_val b1 * 256
             + byte_val b2) with v24 by (subst v24; lia).
    destruct (v24 <? 2147483648) eqn:E1; [|apply Z.ltb_ge in E1; lia].
    destruct (v24 <? 8388608) eqn:E2; [reflexivity|apply Z.ltb_ge in E2; lia].
  - apply Z.ltb_ge in Hsign.
    change 0xFF000000 with (255 * 2 ^ 24).
    rewrite lor_sample_bytes by assumption.
    unfold s32. rewrite u32_small by (change (2 ^ 24) with 16777216; lia).
    change (2 ^ 31) with 2147483648. change (2 ^ 24) with 16777216.
    change (2 ^ 32) with 4294967296.
    assert (Hge : 8388608 <= v24 < 16777216) by (subst v24; lia).
    replace (255 * 16777216 + byte_val b0 * 65536 + byte_val b1 * 256
             + byte_val b2) with (4278190080 + v24) by (subst v24; lia).
    destruct (4278190080 + v24 <? 2147483648) eqn:E1;
      [apply Z.ltb_lt in E1; lia|].
    destruct (v24 <? 8388608) eqn:E2; [apply Z.ltb_lt in E2; lia|lia].
Qed.

(** ** Concrete inputs

    The header constants as the daqhats library defines them, a device
    opened at address 0, and a bus on which the device answers each
    transaction at once with a given reply. They serve to run the driver on
    explicit inputs. *)

Definition sample_header : DaqhatsH :=
  {| SIZE_MAX := 4294967295;
     MAX_NUMBER_HATS := 8; HAT_ID_MCC_172 := 0x0145; MSEC := 1000;
     OPTS_NOSCALEDATA := 0x0001; OPTS_NOCALIBRATEDATA := 0x0002;
     OPTS_EXTTRIGGER := 0x0008; OPTS_CONTINUOUS := 0x0010;
     STATUS_HW_OVERRUN := 0x0001; STATUS_BUFFER_OVERRUN := 0x0002;
     STATUS_TRIGGERED := 0x0004; STATUS_RUNNING := 0x0008;
     TRIG_ACTIVE_LOW := 3 |}.

Definition quiet_env : Environment :=
  {| spi_bus := []; heap := replicate 64 true; spidev := [3];
     pthread_attr := [0]; pthread_new := [(0, 1)]; monotonic := [];
     scheduler := []; eeprom := fun _ => None;
     cJSON_Parse := fun _ => None; fptoui32 := fun _ => 0 |}.

(** The device is ready at the first poll and [bytes] is what it clocks
    out. *)
Definition answers (bytes : list byte) : SpiEnv :=
  {| lock_fd := 3; rd_mode_ret := 0; rd_mode := 1; wr_mode_ret := 0;
     send_ret := 1;
     ready_polls := [(1, byte_at bytes 0, 0)];
     body_reads := [(1, drop 1 bytes, 0)] |}.

(** The device never becomes ready: every poll reads 0 until the reply
    timeout has passed. *)
Definition silent : SpiEnv :=
  {| lock_fd := 3; rd_mode_ret := 0; rd_mode := 1; wr_mode_ret := 0;
     send_ret := 1;
     ready_polls := [(1, x00, 10); (1, x00, 100000)];
     body_reads := [] |}.

Definition open_device : mcc172Device :=
  set_spi_fd 3 (set_handle_count 1
    (set_factory_data (_set_defaults (factory_data zeroed_device))
       zeroed_device)).

Definition open_world (bus : list SpiEnv) : World :=
  {| _devices := {[ 0 := open_device ]}; _mcc172_lib_initialized := true;
     threads := ∅; env := set_spi_bus bus quiet_env |}.

(** A session as [mcc172_a_in_scan_start] leaves it for both channels in
    continuous mode at 51.2 kS/s, and the device holding it. *)
Definition sample_session : mcc172ScanThreadInfo :=
  set_scan_running true (set_handle 1
    (set_read_threshold 1362 (set_scan_buffer_bytes 1600000
      (set_buffer_size 200000
        (set_channel_count 2 (set_channels [0; 1]
          (set_slopes [1%float; 1%float]
            (set_options 16 Scan.zeroed)))))))).

Definition scanning_world (info : mcc172ScanThreadInfo) (bus : list SpiEnv)
    : World :=
  {| _devices := {[ 0 := set_scan_info (Some info) open_device ]};
     _mcc172_lib_initialized := true;
     threads := {[ 0 := ThreadEntry ]};
     env := set_spi_bus bus quiet_env |}.

Example start_gives_sample_session :
  (fun '(r, w) => (r, scan_info <$> _devices w !! 0))
    <$> mcc172_a_in_scan_start (H := sample_header) 0 3 0 16
          (open_world [answers [xdb; x15; x00; x02; x00; x80; x00];
                       answers [xdb; x11; x00; x00; x00]])
  = Some (RESULT_SUCCESS, Some (Some sample_session)).
Proof. vm_compute. reflexivity. Qed.

(** ** Sample scaling *)

(** The code's [LSB_SIZE] is 10 / 2^23: the full range over [MAX_CODE + 1]
    codes, half the codes the converter has. *)
Lemma LSB_SIZE_value : LSB_SIZE = (10 / 8388608)%float.
Proof. reflexivity. Qed.

(** What [_a_in_read_scan_data] stores, by the two flags, in terms of the
    code's [LSB_SIZE]. *)
Lemma sample_output_cases (slope offset : float) (raw : Z) :
  sample_output true true slope offset raw
  = ((Double.of_Z raw * slope + offset) * LSB_SIZE)%float
  /\ sample_output false true slope offset raw
     = (Double.of_Z raw * slope + offset)%float
  /\ sample_output true false slope offset raw
     = (Double.of_Z raw * LSB_SIZE)%float
  /\ sample_output false false slope offset raw = Double.of_Z raw.
Proof. repeat split. Qed.

(** C6, on the code. With [NOCALIBRATEDATA] set and scaling on, the minimum
    code -8388608 (bytes 0x80,0x00,0x00) is stored as -10.0 and code 1 as
    10 / 2^23, while the device information of the same file gives -5.0 as
    the voltage of the minimum code and the claim's [LSB_SIZE] of 10 / 2^24
    gives -5.0 and 10 / 2^24. *)
Theorem sample_output_lsb_divergence (slope offset : float) :
  sample_output true false slope offset (sample_value x80 x00 x00)
  = (-10)%float
  /\ sample_output true false slope offset (sample_value x00 x00 x01)
     = (10 / 8388608)%float
  /\ AI_MIN_CODE mcc172_device_info = sample_value x80 x00 x00
  /\ AI_MIN_VOLTAGE mcc172_device_info = (-5)%float
  /\ (Double.of_Z (sample_value x80 x00 x00) * (10 / 16777216))%float
     = (-5)%float.
Proof. repeat split. Qed.

(** ** The reply of a transaction *)

Section Transfer.

Context `{H : DaqhatsH}.

(** The transmit buffer of a transaction holds the command at
    [MSG_TX_INDEX_COMMAND] whenever the payload fits a frame. *)
Lemma tx_buffer_command (command : byte) (tx_data_count : Z)
    (data : list byte) :
  0 <= tx_data_count <= MAX_TX_DATA_SIZE ->
  byte_at
    (snd (_create_frame
            (replicate (Z.to_nat (u16 (MSG_TX_HEADER_SIZE + tx_data_count)))
               x00)
            command tx_data_count data))
    MSG_TX_INDEX_COMMAND
  = command.
Proof.
  unfold MAX_TX_DATA_SIZE, MSG_TX_HEADER_SIZE, MSG_TX_INDEX_COMMAND.
  intros Hn. unfold _create_frame, MAX_TX_DATA_SIZE.
  assert (Hgt : (tx_data_count >? 256) = false)
    by (rewrite Z.gtb_ltb; apply Z.ltb_ge; lia).
  rewrite Hgt. cbn [snd].
  assert (Hu : u16 (4 + tx_data_count) = 4 + tx_data_count)
    by (unfold u16, wrap; apply Z.mod_small; change (2 ^ 16) with 65536; lia).
  rewrite Hu.
  replace (Z.to_nat (4 + tx_data_count))
    with (S (S (S (S (Z.to_nat tx_data_count))))) by lia.
  cbn [replicate].
  change (Z.to_nat MSG_TX_INDEX_START) with 0%nat.
  change (Z.to_nat MSG_TX_INDEX_COMMAND) with 1%nat.
  change (Z.to_nat MSG_TX_INDEX_COUNT_LOW) with 2%nat.
  change (Z.to_nat MSG_TX_INDEX_COUNT_HIGH) with 3%nat.
  simpl insert.
  destruct (tx_data_count >? 0); [|reflexivity].
  unfold memcpy, MSG_TX_INDEX_DATA. change (Z.to_nat 4) with 4%nat.
  rewrite !list_inserts_cons. reflexivity.
Qed.


(** A transaction that passes the parameter check, gets its three buffers
    and finds a reply frame returns what [reply_result] says, and leaves the
    device table as it was. *)
Lemma spi_transfer_found (address : Z) (command : byte)
    (tx_data : option (list byte)) (tx_data_count : Z)
    (rx_data : option (list byte)) (rx_data_count : Z)
    (reply_timeout_us retry_us : Z) (w : World) (e : SpiEnv)
    (bus : list SpiEnv) (heap' : list bool)
    (tx_buffer rx_buffer : list byte) (fs : Z) :
  _check_addr address w = true ->
  (tx_data_count <> 0 -> tx_data <> None) ->
  (rx_data_count <> 0 -> rx_data <> None) ->
  heap (env w) = true :: true :: true :: heap' ->
  spi_bus (env w) = e :: bus ->
  spi_exchange e command tx_data tx_data_count rx_data_count
    reply_timeout_us = Some (FrameFound tx_buffer rx_buffer fs) ->
  _spi_transfer address command tx_data tx_data_count rx_data rx_data_count
    reply_timeout_us retry_us w
  = Some (reply_result tx_buffer rx_buffer fs rx_data rx_data_count,
          set_env (set_spi_bus bus (set_heap heap' (env w))) w).
Proof.
  intros Hcheck Htx Hrx Hheap Hbus Hfound.
  unfold _spi_transfer, bind, get. rewrite Hcheck. cbn [negb orb].
  assert (Et : (negb (tx_data_count =? 0) && is_null tx_data) = false).
  { destruct (Z.eqb_spec tx_data_count 0) as [|Hne]; [reflexivity|].
    destruct tx_data; [reflexivity|]. exfalso. apply (Htx Hne). reflexivity. }
  assert (Er : (negb (rx_data_count =? 0) && is_null rx_data) = false).
  { destruct (Z.eqb_spec rx_data_count 0) as [|Hne]; [reflexivity|].
    destruct rx_data; [reflexivity|]. exfalso. apply (Hrx Hne). reflexivity. }
  rewrite Et, Er. cbn [orb].
  unfold calloc, next_spi, pop. rewrite Hheap. cbn. rewrite Hbus.
  rewrite Hfound. unfold ret. f_equal.
Qed.

End Transfer.



(** ** Configuration while a scan is active *)

(** C3, as stated, for [mcc172_trigger_config] with source 3 on a device
    with an active scan: the parameter check comes before the scan check and
    the call returns BadParameter, not Busy. *)
Lemma trigger_config_invalid_not_busy :
  fst <$> mcc172_trigger_config (H := sample_header) 0 3 0
            (scanning_world sample_session [])
  = Some RESULT_BAD_PARAMETER.
Proof. reflexivity. Qed.

(** C3, amended. On an open device whose scan session pointer is non-null,
    each of [mcc172_a_in_clock_config_write], [mcc172_IEPE_config_write],
    [mcc172_trigger_config], [mcc172_calibration_coefficient_write] and
    [mcc172_a_in_scan_start] returns Busy when its arguments pass its
    parameter validation and BadParameter when they do not; in both cases
    the whole state, the device configuration included, is unchanged and
    nothing is sent on the bus. *)
Theorem config_rejected_while_scanning `{H : DaqhatsH} (address : Z)
    (w : World) (dev : mcc172Device) :
  _check_addr address w = true ->
  _devices w !! address = Some dev ->
  scan_info dev <> None ->
  (forall clock_source rate,
     mcc172_a_in_clock_config_write address clock_source rate w
     = Some (if clock_source >? 1 then RESULT_BAD_PARAMETER
             else RESULT_BUSY, w))
  /\ (forall channel config,
        mcc172_IEPE_config_write address channel config w
        = Some (if (channel >=? NUM_CHANNELS) || (config >? 1)
                then RESULT_BAD_PARAMETER else RESULT_BUSY, w))
  /\ (forall source mode,
        mcc172_trigger_config address source mode w
        = Some (if (source >? 2) || (mode >? TRIG_ACTIVE_LOW)
                then RESULT_BAD_PARAMETER else RESULT_BUSY, w))
  /\ (forall channel slope offset,
        mcc172_calibration_coefficient_write address channel slope offset w
        = Some (if channel >=? NUM_CHANNELS then RESULT_BAD_PARAMETER
                else RESULT_BUSY, w))
  /\ (forall channel_mask samples_per_channel options,
        mcc172_a_in_scan_start address channel_mask samples_per_channel
          options w
        = Some (if (channel_mask =? 0)
                   || (channel_mask >=? Z.shiftl 1 NUM_CHANNELS)
                   || ((samples_per_channel =? 0)
                       && (Z.land options OPTS_CONTINUOUS =? 0))
                then RESULT_BAD_PARAMETER else RESULT_BUSY, w)).
Proof.
  intros Hcheck Hdev Hscan.
  assert (Hnull : is_null (scan_info dev) = false)
    by (destruct (scan_info dev); [reflexivity|contradiction]).
  repeat split.
  - intros clock_source rate.
    unfold mcc172_a_in_clock_config_write, bind, get. rewrite Hcheck.
    cbn [negb orb]. destruct (clock_source >? 1); [reflexivity|].
    unfold the_device. rewrite Hdev, Hnull. reflexivity.
  - intros channel config.
    unfold mcc172_IEPE_config_write, bind, get. rewrite Hcheck.
    cbn [negb orb].
    destruct ((channel >=? NUM_CHANNELS) || (config >? 1)); [reflexivity|].
    unfold the_device. rewrite Hdev, Hnull. reflexivity.
  - intros source mode.
    unfold mcc172_trigger_config, bind, get. rewrite Hcheck.
    cbn [negb orb].
    destruct ((source >? 2) || (mode >? TRIG_ACTIVE_LOW)); [reflexivity|].
    unfold the_device. rewrite Hdev, Hnull. reflexivity.
  - intros channel slope offset.
    unfold mcc172_calibration_coefficient_write, bind, get. rewrite Hcheck.
    cbn [negb orb]. destruct (channel >=? NUM_CHANNELS); [reflexivity|].
    unfold the_device. rewrite Hdev, Hnull. reflexivity.
  - intros channel_mask samples_per_channel opts.
    unfold mcc172_a_in_scan_start, bind, get. rewrite Hcheck.
    cbn [negb orb].
    destruct ((channel_mask =? 0)
              || (channel_mask >=? Z.shiftl 1 NUM_CHANNELS)
              || ((samples_per_channel =? 0)
                  && (Z.land opts OPTS_CONTINUOUS =? 0)));
      [reflexivity|].
    unfold the_device. rewrite Hdev, Hnull. reflexivity.
Qed.

Lemma config_rejected_while_scanning_witness :
  mcc172_trigger_config (H := sample_header) 0 1 0
    (scanning_world sample_session [])
  = Some (RESULT_BUSY, scanning_world sample_session [])
  /\ mcc172_a_in_scan_start (H := sample_header) 0 3 0 16
       (scanning_world sample_session [])
     = Some (RESULT_BUSY, scanning_world sample_session []).
Proof.
  destruct (config_rejected_while_scanning (H := sample_header) 0
              (scanning_world sample_session [])
              (set_scan_info (Some sample_session) open_device))
    as (_ & _ & Htrig & _ & Hstart).
  - reflexivity.
  - reflexivity.
  - discriminate.
  - split; [exact (Htrig 1 0)|exact (Hstart 3 0 16)].
Defined.

(** ** Opening a device *)

(** No device is open yet; the EEPROM holds no information. *)
Definition closed_world (bus : list SpiEnv) : World :=
  {| _devices := ∅; _mcc172_lib_initialized := false; threads := ∅;
     env := set_spi_bus bus quiet_env |}.

Section Handshake.

Context `{H : DaqhatsH}.

(** The handshake loop never hands a failed transfer to the caller: what
    it returns is Success or InvalidDevice. *)
Lemma id_handshake_results (todo : nat) :
  forall (address : Z) (w w' : World) (r : ResultCode),
    id_handshake address todo w = Some (r, w') ->
    r = RESULT_SUCCESS \/ r = RESULT_INVALID_DEVICE.
Proof.
  induction todo as [|todo IH]; intros address w w' r Hrun.
  - cbn in Hrun. inversion Hrun. left. reflexivity.
  - cbn [id_handshake] in Hrun. unfold bind at 1 in Hrun.
    destruct (_spi_transfer _ _ _ _ _ _ _ _ w) as [[[result id_data] w1]|];
      [|discriminate].
    destruct (bool_decide (result = RESULT_SUCCESS)).
    + destruct (le16 _ _ =? HAT_ID_MCC_172).
      * unfold bind, ret, device, store_device, modify in Hrun.
        destruct (_devices w1 !! address); inversion Hrun; left; reflexivity.
      * unfold bind, ret, clear_device, modify in Hrun. inversion Hrun.
        right. reflexivity.
    + eapply IH. exact Hrun.
Qed.

(** When both ID transfers fail, the loop is left and Success is
    returned. *)
Lemma id_handshake_after_two_failures (address : Z) (w w1 w2 : World)
    (r1 r2 : ResultCode) (d1 d2 : option (list byte)) :
  _spi_transfer address (byte_of_Z CMD_ID) None 0 (Some (replicate 6 x00))
    (2 * 2) (20 * MSEC) 10 w = Some ((r1, d1), w1) ->
  r1 <> RESULT_SUCCESS ->
  _spi_transfer address (byte_of_Z CMD_ID) None 0 (Some (replicate 6 x00))
    (2 * 2) (20 * MSEC) 10 w1 = Some ((r2, d2), w2) ->
  r2 <> RESULT_SUCCESS ->
  id_handshake address 2 w = Some (RESULT_SUCCESS, w2).
Proof.
  intros H1 Hr1 H2 Hr2. cbn [id_handshake]. unfold bind at 1. rewrite H1.
  rewrite bool_decide_eq_false_2 by exact Hr1.
  unfold bind at 1. rewrite H2.
  rewrite bool_decide_eq_false_2 by exact Hr2. reflexivity.
Qed.

End Handshake.

(** C5, on the code. A device that never answers the ID command: both
    attempts of the handshake end in Timeout, and [mcc172_open] still
    returns Success, leaving the device registered with one handle and
    firmware version 0. *)
Theorem open_succeeds_without_id_reply :
  (fun '(r, w) =>
     (r, (fun d => (handle_count d, fw_version d)) <$> _devices w !! 0,
      spi_bus (env w)))
    <$> mcc172_open (H := sample_header) 0 (closed_world [silent; silent])
  = Some (RESULT_SUCCESS, Some (1, 0), [])
  /\ fst <$> _spi_transfer (H := sample_header) 0 (byte_of_Z CMD_ID) None 0
               (Some (replicate 6 x00)) 4 20000 10 (open_world [silent])
     = Some (RESULT_TIMEOUT, Some (replicate 6 x00))
  /\ fst <$> mcc172_open_for_update (H := sample_header) 0
               (closed_world [silent; silent])
     = Some RESULT_SUCCESS.
Proof. vm_compute. repeat split. Qed.

(** ** What the environment calls leave untouched *)

(** The part of the world that belongs to the driver: the device table, the
    initialisation flag and the threads. *)
Definition same_driver_state (w w' : World) : Prop :=
  _devices w' = _devices w
  /\ _mcc172_lib_initialized w' = _mcc172_lib_initialized w
  /\ threads w' = threads w.

Lemma same_driver_state_refl (w : World) : same_driver_state w w.
Proof. repeat split. Qed.

Lemma same_driver_state_trans (w1 w2 w3 : World) :
  same_driver_state w1 w2 -> same_driver_state w2 w3 ->
  same_driver_state w1 w3.
Proof.
  unfold same_driver_state. intros (? & ? & ?) (? & ? & ?).
  repeat split; congruence.
Qed.

Lemma pop_same_state {A} (script : Environment -> list A)
    (rest : list A -> Environment -> Environment) (w w' : World) (x : A) :
  pop script rest w = Some (x, w') -> same_driver_state w w'.
Proof.
  unfold pop. destruct (script (env w)); [discriminate|].
  intros Hp. inversion Hp. repeat split.
Qed.

(** Running driver code one bind at a time. *)
Ltac run_bind_as Hrun a w1 E :=
  unfold bind at 1 in Hrun; cbv beta in Hrun;
  match type of Hrun with
  | match ?x with _ => _ end = _ =>
      destruct x as [[a w1]|] eqn:E; [|discriminate Hrun]
  end.

Ltac run_bind Hrun :=
  let a := fresh "a" in
  let w1 := fresh "w" in
  let E := fresh "E" in
  run_bind_as Hrun a w1 E.

Tactic Notation "run" hyp(Hrun) "as" ident(a) ident(w) ident(E) :=
  run_bind_as Hrun a w E.

Section Frames.

Context `{H : DaqhatsH}.

Lemma check_addr_same_state (address : Z) (w w' : World) :
  same_driver_state w w' -> _check_addr address w' = _check_addr address w.
Proof.
  intros (Hd & Hi & _). unfold _check_addr. rewrite Hd, Hi. reflexivity.
Qed.

Lemma spi_transfer_same_state (address : Z) (command : byte)
    (tx_data : option (list byte)) (tx_data_count : Z)
    (rx_data : option (list byte)) (rx_data_count : Z)
    (reply_timeout_us retry_us : Z) (w w' : World)
    (r : ResultCode * option (list byte)) :
  _spi_transfer address command tx_data tx_data_count rx_data rx_data_count
    reply_timeout_us retry_us w = Some (r, w') ->
  same_driver_state w w'.
Proof.
  unfold _spi_transfer. intros Hrun. unfold bind at 1, get in Hrun.
  destruct (negb (_check_addr address w) || _ || _).
  - inversion Hrun. apply same_driver_state_refl.
  - run_bind Hrun. run_bind Hrun. run_bind Hrun.
    apply pop_same_state in E, E0, E1.
    assert (Hs : same_driver_state w w2)
      by (eapply same_driver_state_trans; [exact E|];
          eapply same_driver_state_trans; [exact E0|exact E1]).
    destruct (negb a || negb a0 || negb a1).
    + inversion Hrun; subst. exact Hs.
    + run_bind Hrun. apply pop_same_state in E2.
      assert (Hs' : same_driver_state w w3)
        by (eapply same_driver_state_trans; [exact Hs|exact E2]).
      destruct (spi_exchange _ _ _ _ _ _) as [[res|txb rxb fs]|];
        [| |discriminate]; inversion Hrun; subst; exact Hs'.
Qed.

Lemma clock_config_read_same_state (address : Z) (clock_source : option Z)
    (sample_rate : option float) (synced : option Z) (w w' : World)
    (r : ResultCode * (option Z * option float * option Z)) :
  mcc172_a_in_clock_config_read address clock_source sample_rate synced w
  = Some (r, w') ->
  same_driver_state w w'.
Proof.
  unfold mcc172_a_in_clock_config_read. intros Hrun.
  unfold bind at 1, get in Hrun.
  destruct (negb (_check_addr address w) || _ || _ || _).
  - inversion Hrun. apply same_driver_state_refl.
  - run_bind Hrun. apply spi_transfer_same_state in E.
    destruct a as [result rx].
    destruct (negb (bool_decide (result = RESULT_SUCCESS)));
      inversion Hrun; subst; exact E.
Qed.

Lemma wait_for_sync_same_state (rounds : nat) :
  forall (address : Z) (w w' : World) (r : ResultCode * float),
    wait_for_sync rounds address w = Some (r, w') -> same_driver_state w w'.
Proof.
  induction rounds as [|rounds IH]; intros address w w' r Hrun;
    [discriminate|].
  cbn [wait_for_sync] in Hrun. run_bind Hrun.
  apply clock_config_read_same_state in E.
  destruct a as [result [[cs rate] synced]].
  destruct (negb (bool_decide (result = RESULT_SUCCESS))).
  - inversion Hrun; subst. exact E.
  - destruct (default 0 synced =? 0).
    + eapply same_driver_state_trans; [exact E|]. eapply IH. exact Hrun.
    + inversion Hrun; subst. exact E.
Qed.

(** [update_info] rewrites the session of the device and nothing else. *)
Lemma update_info_spec (address : Z)
    (f : mcc172ScanThreadInfo -> mcc172ScanThreadInfo) (w w' : World)
    (u : unit) :
  update_info address f w = Some (u, w') ->
  exists dev info,
    _devices w !! address = Some dev /\ scan_info dev = Some info
    /\ w' = set_devices
              (<[address := set_scan_info (Some (f info)) dev]> (_devices w))
              w.
Proof.
  unfold update_info, bind, the_device, store_device, modify, undefined.
  destruct (_devices w !! address) as [dev|]; [|discriminate].
  destruct (scan_info dev) as [info|] eqn:Hinfo; [|discriminate].
  intros Hrun. inversion Hrun. exists dev, info. auto.
Qed.

End Frames.

Section BufferSize.

Context `{H : DaqhatsH}.

(** The per-channel size the buffer is computed from: the requested count in
    finite mode, and the larger of the rate's floor and the requested count
    in continuous mode. *)
Definition per_channel_size (opts samples_per_channel : Z) (rate : float)
    : Z :=
  let floor :=
    if (rate <=? 1024)%float then 1000
    else if (rate <=? 10240)%float then 10000
    else 100000 in
  if Z.land opts OPTS_CONTINUOUS =? 0 then samples_per_channel
  else Z.max floor samples_per_channel.

Lemma scan_buffer_size_formula (opts samples_per_channel : Z) (rate : float)
    (num_channels : Z) :
  scan_buffer_size opts samples_per_channel rate num_channels
  = u32 (per_channel_size opts samples_per_channel rate * num_channels).
Proof.
  unfold scan_buffer_size, per_channel_size.
  destruct (Z.land opts OPTS_CONTINUOUS =? 0); cbn [negb]; [reflexivity|].
  f_equal. f_equal.
  destruct (rate <=? 1024)%float; [|destruct (rate <=? 10240)%float];
    match goal with
    | |- (if ?a <? ?b then _ else _) = _ =>
        destruct (Z.ltb_spec a b); lia
    end.
Qed.

Lemma snapshot_channel_count (channel_mask : Z) (data : mcc172FactoryData)
    (info : mcc172ScanThreadInfo) :
  channel_count (fst (snapshot_channels channel_mask data info))
  = channel_count info
  /\ buffer_size (fst (snapshot_channels channel_mask data info))
     = buffer_size info
  /\ 0 <= snd (snapshot_channels channel_mask data info) <= NUM_CHANNELS.
Proof.
  unfold snapshot_channels.
  change (seqZ 0 NUM_CHANNELS) with [0; 1]. cbn [fold_left].
  destruct (negb (Z.land channel_mask (Z.shiftl 1 0) =? 0));
    destruct (negb (Z.land channel_mask (Z.shiftl 1 1) =? 0));
    cbn; repeat split; unfold NUM_CHANNELS; try lia;
    vm_compute; discriminate.
Qed.

(** The device at [address] holds the session [info]. *)
Definition has_session (address : Z) (w : World)
    (info : mcc172ScanThreadInfo) : Prop :=
  exists dev, _devices w !! address = Some dev /\ scan_info dev = Some info.

Lemma has_session_same_devices (address : Z) (w w' : World)
    (info : mcc172ScanThreadInfo) :
  _devices w' = _devices w ->
  has_session address w info -> has_session address w' info.
Proof. intros Hd (dev & Hdev & Hinfo). exists dev. rewrite Hd. auto. Qed.

Lemma has_session_update (address : Z)
    (f : mcc172ScanThreadInfo -> mcc172ScanThreadInfo) (w w' : World)
    (u : unit) (info : mcc172ScanThreadInfo) :
  has_session address w info ->
  update_info address f w = Some (u, w') ->
  has_session address w' (f info).
Proof.
  intros (dev & Hdev & Hinfo) Hup.
  apply update_info_spec in Hup.
  destruct Hup as (dev' & info' & Hdev' & Hinfo' & ->).
  rewrite Hdev in Hdev'. inversion Hdev'; subst dev'.
  rewrite Hinfo in Hinfo'. inversion Hinfo'; subst info'.
  exists (set_scan_info (Some (f info)) dev). cbn.
  rewrite lookup_insert_eq. auto.
Qed.

(** A branch that returns another result code cannot be the one taken. *)
Ltac wrong_branch Hrun :=
  exfalso; repeat run_bind Hrun; unfold ret in Hrun; inversion Hrun;
  try discriminate; try congruence.

(** The size formula. After a successful [mcc172_a_in_scan_start], with
    [rate] the sample rate that the clock configuration read of the call
    reported when it found the clock in sync: [buffer_size] equals
    [samples_per_channel * channel_count] in finite mode and
    [max(floor, samples_per_channel) * channel_count] in continuous mode
    (floor 1000 for rate <= 1024, 10000 for rate <= 10240, 100000
    otherwise) whenever that product fits the 32-bit field, and the size is
    within 16 Mi samples when the product is. *)
Theorem scan_start_buffer_size (address channel_mask samples_per_channel
    opts : Z) (w w' : World) :
  mcc172_a_in_scan_start address channel_mask samples_per_channel opts w
  = Some (RESULT_SUCCESS, w') ->
  exists (dev0 dev : mcc172Device) (info0 info : mcc172ScanThreadInfo)
         (heap' : list bool) (rate : float) (w1 : World),
    _devices w !! address = Some dev0
    /\ heap (env w) = true :: heap'
    /\ (let w0 :=
          set_devices
            (<[address := set_scan_info (Some info0) dev0]> (_devices w))
            (set_env (set_heap heap' (env w)) w) in
        wait_for_sync (S (length (spi_bus (env w0)))) address w0
        = Some ((RESULT_SUCCESS, rate), w1))
    /\ _devices w' !! address = Some dev
    /\ scan_info dev = Some info
    /\ 0 <= channel_count info <= NUM_CHANNELS
    /\ let product :=
         per_channel_size opts samples_per_channel rate
         * channel_count info in
       (0 <= product < 2 ^ 32 -> buffer_size info = product)
       /\ (0 <= product <= MAX_SCAN_BUFFER_SIZE_SAMPLES ->
           buffer_size info <= MAX_SCAN_BUFFER_SIZE_SAMPLES).
Proof.
  intros Hrun. unfold mcc172_a_in_scan_start in Hrun.
  unfold bind at 1, get in Hrun.
  destruct (negb (_check_addr address w) || _ || _ || _); [discriminate|].
  run Hrun as d wa E.
  unfold the_device in E. destruct (_devices w !! address) as [dev0|] eqn:Hdev0;
    [|discriminate]. inversion E; subst d wa; clear E.
  destruct (negb (is_null (scan_info dev0))); [discriminate|].
  run Hrun as ok wa E.
  destruct ok; cbn [negb] in Hrun; [|discriminate].
  unfold calloc, pop in E.
  destruct (heap (env w)) as [|b heap'] eqn:Hheap; [discriminate|].
  inversion E; subst b wa; clear E.
  destruct (snapshot_channels channel_mask (factory_data dev0)
              (set_options (u16 opts) Scan.zeroed)) as [info0' n] eqn:Hsnap.
  pose proof (snapshot_channel_count channel_mask (factory_data dev0)
                (set_options (u16 opts) Scan.zeroed)) as (_ & _ & Hn).
  rewrite Hsnap in Hn. cbn [snd] in Hn.
  set (info0 := set_channel_index 0 (set_channel_count n info0')) in *.
  run Hrun as u wa E. unfold store_device, modify in E.
  inversion E; subst u wa; clear E.
  unfold bind at 1 in Hrun.
  run Hrun as sync w1 Hsync. destruct sync as [result rate].
  destruct (bool_decide_reflect (result = RESULT_SUCCESS)) as [->|Hne];
    cbn [negb] in Hrun; [|wrong_branch Hrun].
  assert (S0 : has_session address w1 info0).
  { apply wait_for_sync_same_state in Hsync. destruct Hsync as (Hd & _).
    exists (set_scan_info (Some info0) dev0). rewrite Hd. cbn.
    rewrite lookup_insert_eq. auto. }
  run Hrun as u w2 E. pose proof (has_session_update _ _ _ _ _ _ S0 E) as S1.
  clear E.
  run Hrun as ok w3 E. apply pop_same_state in E. destruct E as (Hd & _).
  destruct ok; cbn [negb] in Hrun; [|wrong_branch Hrun].
  apply (has_session_same_devices _ _ _ _ Hd) in S1. clear Hd.
  run Hrun as u' w4 E. pose proof (has_session_update _ _ _ _ _ _ S1 E) as S2.
  clear E.
  run Hrun as attr w5 E. apply pop_same_state in E. destruct E as (Hd & _).
  destruct (negb (attr =? 0)); [wrong_branch Hrun|].
  apply (has_session_same_devices _ _ _ _ Hd) in S2. clear Hd.
  run Hrun as r w6 E. apply spi_transfer_same_state in E.
  destruct E as (Hd & _).
  destruct (negb (bool_decide (r.1 = RESULT_SUCCESS))) eqn:Hr.
  { exfalso. repeat run_bind Hrun. unfold ret in Hrun. inversion Hrun.
    match goal with
    | Heq : r.1 = RESULT_SUCCESS |- _ =>
        rewrite Heq in Hr;
        rewrite bool_decide_eq_true_2 in Hr by reflexivity
    end.
    discriminate. }
  apply (has_session_same_devices _ _ _ _ Hd) in S2. clear Hd.
  run Hrun as ok w7 E. apply pop_same_state in E. destruct E as (Hd & _).
  destruct ok; cbn [negb] in Hrun; [|discriminate].
  apply (has_session_same_devices _ _ _ _ Hd) in S2. clear Hd.
  run Hrun as created w8 E. apply pop_same_state in E.
  destruct E as (Hd & _).
  destruct created as [created thread].
  destruct (negb (created =? 0)); [wrong_branch Hrun|].
  apply (has_session_same_devices _ _ _ _ Hd) in S2. clear Hd.
  run Hrun as u'' w9 E. unfold set_thread_pc, modify in E.
  inversion E; subst u'' w9; clear E.
  run Hrun as u'' w9 E.
  apply (has_session_same_devices address w8
           (set_threads (<[address:=ThreadEntry]> (threads w8)) w8) _ eq_refl)
    in S2.
  pose proof (has_session_update _ _ _ _ _ _ S2 E) as S3.
  unfold ret in Hrun. inversion Hrun; subst w9. clear Hrun E.
  destruct S3 as (dev & Hdev & Hinfo).
  match type of Hinfo with scan_info dev = Some ?i => set (info := i) in * end.
  exists dev0, dev, info0, info, heap', rate, w1.
  assert (Hcc : channel_count info = n) by reflexivity.
  assert (Hbs : buffer_size info
                = scan_buffer_size opts samples_per_channel rate n)
    by reflexivity.
  rewrite Hcc, Hbs, scan_buffer_size_formula.
  repeat split; auto; try lia.
  - intros Hfit. apply u32_small. change (2 ^ 32) with 4294967296 in Hfit.
    exact Hfit.
  - intros Hfit. rewrite u32_small;
      unfold MAX_SCAN_BUFFER_SIZE_SAMPLES in *; lia.
Qed.

End BufferSize.

(** The bus of a scan start on an idle device: the clock configuration
    read reports sync at the full rate, and the start command succeeds. *)
Definition start_bus : list SpiEnv :=
  [answers [xdb; x15; x00; x02; x00; x80; x00];
   answers [xdb; x11; x00; x00; x00]].

(** C4. A finite scan of 16 Mi + 1 samples on one channel starts
    successfully with a buffer of 16 Mi + 1 samples, above the bound of
    16 Mi samples: the file defines [MAX_SCAN_BUFFER_SIZE_SAMPLES] for that
    bound and never compares the size with it. *)
Lemma scan_start_buffer_unbounded :
  (fun '(r, w) => (r, buffer_size <$> (_devices w !! 0 ≫= scan_info)))
    <$> mcc172_a_in_scan_start (H := sample_header) 0 1 16777217 0
          (open_world start_bus)
  = Some (RESULT_SUCCESS, Some 16777217)
  /\ MAX_SCAN_BUFFER_SIZE_SAMPLES < 16777217.
Proof. vm_compute. repeat split. Qed.

(** The size is a [uint32_t]: a finite scan of 2^31 samples on both
    channels starts with a buffer size of 0. *)
Example scan_start_buffer_wraps :
  (fun '(r, w) => (r, buffer_size <$> (_devices w !! 0 ≫= scan_info)))
    <$> mcc172_a_in_scan_start (H := sample_header) 0 3 2147483648 0
          (open_world start_bus)
  = Some (RESULT_SUCCESS, Some 0).
Proof. vm_compute. reflexivity. Qed.

Lemma scan_start_buffer_size_witness :
  exists w' dev info rate,
    mcc172_a_in_scan_start (H := sample_header) 0 3 0 16
      (open_world start_bus) = Some (RESULT_SUCCESS, w')
    /\ _devices w' !! 0 = Some dev
    /\ scan_info dev = Some info
    /\ (0 <= per_channel_size (H := sample_header) 16 0 rate
              * channel_count info < 2 ^ 32 ->
        buffer_size info
        = per_channel_size (H := sample_header) 16 0 rate
          * channel_count info).
Proof.
  assert (Hfst : fst <$> mcc172_a_in_scan_start (H := sample_header) 0 3 0 16
                           (open_world start_bus)
                 = Some RESULT_SUCCESS) by (vm_compute; reflexivity).
  destruct (mcc172_a_in_scan_start (H := sample_header) 0 3 0 16
              (open_world start_bus)) as [[r w']|] eqn:Hrun;
    [|discriminate Hfst].
  cbn in Hfst. inversion Hfst; subst r.
  destruct (scan_start_buffer_size (H := sample_header) 0 3 0 16
              (open_world start_bus) w' Hrun)
    as (dev0 & dev & info0 & info & heap' & rate & w1 & _ & _ & _ & Hdev
        & Hinfo & _ & Hsize & _).
  exists w', dev, info, rate. auto.
Defined.

(** ** The producer's bookkeeping *)

Section Producer.

Context `{H : DaqhatsH}.

Lemma has_session_unique (address : Z) (w : World)
    (info1 info2 : mcc172ScanThreadInfo) :
  has_session address w info1 -> has_session address w info2 ->
  info1 = info2.
Proof.
  intros (d1 & Hd1 & Hi1) (d2 & Hd2 & Hi2). congruence.
Qed.

Lemma the_info_session (address : Z) (w w' : World)
    (info : mcc172ScanThreadInfo) :
  the_info address w = Some (info, w') ->
  w' = w /\ has_session address w info.
Proof.
  unfold the_info, bind, the_device, undefined, ret.
  destruct (_devices w !! address) as [dev|] eqn:Hdev; [|discriminate].
  destruct (scan_info dev) as [i|] eqn:Hi; [|discriminate].
  intros Hr. inversion Hr; subst. split; [reflexivity|].
  exists dev. auto.
Qed.

(** The fields of the session that the conversion loop leaves alone. *)
Definition same_counters (a b : mcc172ScanThreadInfo) : Prop :=
  buffer_size b = buffer_size a
  /\ buffer_depth b = buffer_depth a
  /\ write_index b = write_index a
  /\ buffer_overrun b = buffer_overrun a
  /\ scan_running b = scan_running a
  /\ stop_thread b = stop_thread a.

Lemma same_counters_refl (a : mcc172ScanThreadInfo) : same_counters a a.
Proof. repeat split. Qed.

Lemma same_counters_trans (a b c : mcc172ScanThreadInfo) :
  same_counters a b -> same_counters b c -> same_counters a c.
Proof.
  unfold same_counters. intros (? & ? & ? & ? & ? & ?) (? & ? & ? & ? & ? & ?).
  repeat split; congruence.
Qed.

Lemma read_samples_counters (todo : nat) :
  forall (ptr : list byte) (count : Z) (scaled calibrated : bool)
         (buffer : Z) (info : mcc172ScanThreadInfo),
    same_counters info
      (read_samples ptr todo count scaled calibrated buffer info).
Proof.
  induction todo as [|todo IH]; intros; cbn [read_samples].
  - apply same_counters_refl.
  - eapply same_counters_trans; [|apply IH]. repeat split.
Qed.

(** [_a_in_read_scan_data] changes the session only through the conversion
    loop. *)
Lemma read_scan_data_session (address sample_count : Z)
    (scaled calibrated : bool) (buffer : option Z) (w w' : World)
    (r : ResultCode) (info : mcc172ScanThreadInfo) :
  has_session address w info ->
  _a_in_read_scan_data address sample_count scaled calibrated buffer w
  = Some (r, w') ->
  exists info', has_session address w' info' /\ same_counters info info'
                /\ threads w' = threads w.
Proof.
  intros Hs Hrun. unfold _a_in_read_scan_data in Hrun.
  unfold bind at 1, get in Hrun.
  destruct (negb (_check_addr address w) || is_null buffer).
  { inversion Hrun; subst. exists info.
    auto using same_counters_refl. }
  run Hrun as ok w1 E. apply pop_same_state in E.
  destruct E as (Hd1 & _ & Ht1).
  apply (has_session_same_devices _ _ _ _ Hd1) in Hs.
  destruct ok; cbn [negb] in Hrun.
  2:{ inversion Hrun; subst. exists info.
      auto using same_counters_refl. }
  run Hrun as rr w2 E. apply spi_transfer_same_state in E.
  destruct E as (Hd2 & _ & Ht2).
  apply (has_session_same_devices _ _ _ _ Hd2) in Hs.
  destruct rr as [ret_ rx_data].
  destruct (negb (bool_decide (ret_ = RESULT_SUCCESS))).
  { inversion Hrun; subst. exists info.
    split; [exact Hs|]. split; [apply same_counters_refl|congruence]. }
  run Hrun as u w3 E.
  pose proof (has_session_update _ _ _ _ _ _ Hs E) as Hs'.
  apply update_info_spec in E. destruct E as (? & ? & _ & _ & ->).
  inversion Hrun; subst.
  eexists. split; [exact Hs'|]. split; [apply read_samples_counters|].
  cbn. congruence.
Qed.

Lemma commit_read_spec (read_count : Z) (info : mcc172ScanThreadInfo) :
  let info' := fst (commit_read read_count info) in
  buffer_size info' = buffer_size info
  /\ stop_thread info' = stop_thread info
  /\ buffer_depth info' = u32 (buffer_depth info + read_count)
  /\ snd (commit_read read_count info)
     = (buffer_depth info' >? buffer_size info')
  /\ (snd (commit_read read_count info) = true ->
      buffer_overrun info' = true /\ scan_running info' = false).
Proof.
  unfold commit_read. cbn.
  destruct (u32 (buffer_depth info + read_count) >? buffer_size info) eqn:E;
    cbn; rewrite ?E; repeat split; congruence.
Qed.

(** What one round of the producer loop does to the session: the ring size
    and the stop request stay, and either the depth is unchanged (nothing
    was written) or the round ended with the overrun test of the write. *)
Lemma scan_thread_round_session (address : Z) (l l' : ThreadLocals)
    (w w' : World) (info : mcc172ScanThreadInfo) :
  has_session address w info ->
  scan_thread_round address l w = Some (l', w') ->
  exists info',
    has_session address w' info'
    /\ threads w' = threads w
    /\ buffer_size info' = buffer_size info
    /\ stop_thread info' = stop_thread info
    /\ (buffer_depth info' = buffer_depth info
        \/ ((buffer_depth info' >? buffer_size info') = true ->
            buffer_overrun info' = true /\ scan_running info' = false
            /\ done l' = true)).
Proof.
  intros Hs Hrun. unfold scan_thread_round in Hrun.
  run Hrun as r w1 E. apply spi_transfer_same_state in E.
  destruct E as (Hd1 & _ & Ht1).
  apply (has_session_same_devices _ _ _ _ Hd1) in Hs.
  destruct r as [result rx].
  destruct (negb (bool_decide (result = RESULT_SUCCESS))).
  { inversion Hrun; subst. exists info. repeat split; auto. }
  run Hrun as u w2 E.
  pose proof (has_session_update _ _ _ _ _ _ Hs E) as Hs2.
  assert (Ht2 : threads w2 = threads w1)
    by (apply update_info_spec in E; destruct E as (? & ? & _ & _ & ->);
        reflexivity).
  clear E.
  match type of Hs2 with
  | has_session _ _ ?i => remember i as info2 eqn:Hinfo2
  end.
  assert (C2 : same_counters info info2) by (subst info2; repeat split).
  clear Hinfo2 Hs.
  run Hrun as i w3 E. apply the_info_session in E. destruct E as (-> & Hi).
  pose proof (has_session_unique _ _ _ _ Hi Hs2) as ->. clear Hi.
  destruct C2 as (Hsize & Hdepth & _ & _ & _ & Hstop).
  destruct (hw_overrun info2).
  { run Hrun as u' w4 E.
    pose proof (has_session_update _ _ _ _ _ _ Hs2 E) as Hs3.
    apply update_info_spec in E. destruct E as (? & ? & _ & _ & ->).
    inversion Hrun; subst. eexists. split; [exact Hs3|].
    cbn. repeat split; try congruence. left. congruence. }
  destruct (negb (triggered info2)).
  { inversion Hrun; subst. exists info2.
    repeat split; try congruence. left. congruence. }
  remember (choose_read_count _ _ _ _) as rc eqn:Hrc. clear Hrc.
  run Hrun as after w4 E.
  assert (Hafter :
    exists info4,
      has_session address w4 info4 /\ threads w4 = threads w2
      /\ buffer_size info4 = buffer_size info2
      /\ stop_thread info4 = stop_thread info2
      /\ (buffer_depth info4 = buffer_depth info2
          \/ ((buffer_depth info4 >? buffer_size info4) = true ->
              buffer_overrun info4 = true /\ scan_running info4 = false
              /\ after.1.1.2 = true))).
  { destruct (rc >? 0).
    - remember (if _ <? rc then _ else rc) as rc' eqn:Hrc'. clear Hrc'.
      run E as err w5 E1.
      destruct (read_scan_data_session _ _ _ _ _ _ _ _ _ Hs2 E1)
        as (info3 & Hs3 & C3 & Ht3).
      destruct C3 as (Hsize3 & Hdepth3 & _ & _ & _ & Hstop3).
      clear E1.
      run E as overrun w6 E2.
      inversion E; subst after w6; clear E. cbn [fst snd].
      destruct (bool_decide (err = RESULT_SUCCESS)).
      + run E2 as i w7 E3. apply the_info_session in E3.
        destruct E3 as (-> & Hi).
        pose proof (has_session_unique _ _ _ _ Hi Hs3) as ->. clear Hi.
        pose proof (commit_read_spec rc' info3) as Hc.
        destruct (commit_read rc' info3) as [info4 ov]. cbn [fst snd] in Hc.
        destruct Hc as (Hsize4 & Hstop4 & Hdepth4 & Hov & Hflags).
        run E2 as u' w7 E3.
        pose proof (has_session_update _ _ _ _ _ _ Hs3 E3) as Hs4.
        apply update_info_spec in E3. destruct E3 as (? & ? & _ & _ & ->).
        inversion E2; subst overrun w4; clear E2.
        exists info4. split; [exact Hs4|]. cbn.
        repeat split; try congruence.
        right. intros Hgt. rewrite <- Hov in Hgt.
        destruct (Hflags Hgt) as (? & ?). subst ov.
        repeat split; auto. rewrite Hgt. apply orb_true_r.
      + inversion E2; subst overrun w4; clear E2.
        exists info3. repeat split; try congruence. left. congruence.
    - inversion E; subst after w4; clear E.
      exists info2. repeat split; auto. }
  clear E.
  destruct Hafter as (info4 & Hs4 & Ht4 & Hsize4 & Hstop4 & Hcase).
  destruct after as [[[rc_ done_] sleep_] count_]. cbn [fst snd] in Hcase.
  destruct (negb _ && (_ =? rc_)).
  - run Hrun as u' w5 E.
    pose proof (has_session_update _ _ _ _ _ _ Hs4 E) as Hs5.
    apply update_info_spec in E. destruct E as (? & ? & _ & _ & ->).
    inversion Hrun; subst. eexists. split; [exact Hs5|]. cbn.
    repeat split; try congruence.
    destruct Hcase as [Hsame|Hover]; [left; congruence|].
    right. intros Hgt. destruct (Hover Hgt) as (? & ? & ?).
    repeat split; auto. apply orb_true_r.
  - run Hrun as u' w5 E. inversion E; subst u' w5; clear E.
    inversion Hrun; subst. exists info4.
    repeat split; try congruence.
    destruct Hcase as [Hsame|Hover]; [left; congruence|].
    right. intros Hgt. destruct (Hover Hgt) as (? & ? & ->).
    repeat split; auto.
Qed.

Lemma the_info_run (address : Z) (w : World)
    (info : mcc172ScanThreadInfo) :
  has_session address w info -> the_info address w = Some (info, w).
Proof.
  intros (dev & Hdev & Hinfo).
  unfold the_info, bind, the_device. rewrite Hdev, Hinfo. reflexivity.
Qed.

Lemma update_info_run (address : Z)
    (f : mcc172ScanThreadInfo -> mcc172ScanThreadInfo) (w : World)
    (info : mcc172ScanThreadInfo) :
  has_session address w info ->
  exists w', update_info address f w = Some (tt, w')
             /\ threads w' = threads w.
Proof.
  intros (dev & Hdev & Hinfo).
  unfold update_info, bind, the_device, store_device, modify.
  rewrite Hdev, Hinfo. eexists. split; reflexivity.
Qed.

(** Once [done] is set and the device scan is marked stopped, the next
    scheduling step of the thread leaves the loop and the thread returns. *)
Lemma scan_thread_step_exits (address : Z) (l : ThreadLocals) (w : World)
    (info : mcc172ScanThreadInfo) :
  threads w !! address = Some (ThreadLoop l) ->
  has_session address w info ->
  done l = true -> scan_running info = false ->
  exists w', scan_thread_step address w = Some (tt, w')
             /\ threads w' !! address = Some ThreadExit.
Proof.
  intros Hpc Hs Hdone Hstopped.
  unfold scan_thread_step. unfold bind at 1, thread_pc. rewrite Hpc.
  unfold bind at 1. rewrite (the_info_run _ _ _ Hs).
  rewrite Hdone, andb_false_r.
  unfold scan_thread_exit. unfold bind at 1, bind at 1.
  rewrite (the_info_run _ _ _ Hs), Hstopped.
  unfold bind at 1, ret.
  destruct (update_info_run address (set_thread_running false) w info Hs)
    as (w1 & Hup & Ht).
  rewrite Hup. unfold set_thread_pc, modify.
  eexists. split; [reflexivity|]. cbn. apply lookup_insert_eq.
Qed.

End Producer.

(** C8. In every scheduling step of the producer loop that writes samples
    into the ring (the step changes [buffer_depth]): if the resulting
    [buffer_depth] exceeds [buffer_size], the session has
    [buffer_overrun = true] and [scan_running = false] and the loop
    terminates, the thread's next step being its return; otherwise
    [buffer_depth <= buffer_size] holds after the write. *)
Theorem producer_write_overrun `{H : DaqhatsH} (address : Z)
    (l : ThreadLocals) (w w' : World) (info info' : mcc172ScanThreadInfo) :
  threads w !! address = Some (ThreadLoop l) ->
  has_session address w info ->
  scan_thread_step address w = Some (tt, w') ->
  has_session address w' info' ->
  buffer_depth info' <> buffer_depth info ->
  ((buffer_depth info' >? buffer_size info') = true ->
   buffer_overrun info' = true
   /\ scan_running info' = false
   /\ exists w'', scan_thread_step address w' = Some (tt, w'')
                  /\ threads w'' !! address = Some ThreadExit)
  /\ ((buffer_depth info' >? buffer_size info') = false ->
      buffer_depth info' <= buffer_size info').
Proof.
  intros Hpc Hs Hstep Hs' Hwrote.
  split; [|intros Hle; rewrite Z.gtb_ltb in Hle; apply Z.ltb_ge in Hle;
           exact Hle].
  intros Hgt.
  unfold scan_thread_step in Hstep.
  unfold bind at 1, thread_pc in Hstep. rewrite Hpc in Hstep.
  unfold bind at 1 in Hstep. rewrite (the_info_run _ _ _ Hs) in Hstep.
  destruct (negb (stop_thread info) && negb (done l)).
  - run Hstep as l' w1 E.
    destruct (scan_thread_round_session _ _ _ _ _ _ Hs E)
      as (info1 & Hs1 & Ht1 & Hsize & Hstop & Hcase).
    unfold set_thread_pc, modify in Hstep. inversion Hstep; subst w'.
    assert (info' = info1) as ->.
    { eapply has_session_unique; [exact Hs'|].
      apply (has_session_same_devices address w1); [reflexivity|exact Hs1]. }
    destruct Hcase as [Hsame|Hover]; [contradiction|].
    destruct (Hover Hgt) as (Hov & Hrun' & Hdone).
    repeat split; auto.
    eapply scan_thread_step_exits; eauto.
    cbn. apply lookup_insert_eq.
  - exfalso. run Hstep as u w1 E.
    unfold scan_thread_exit in E.
    unfold bind at 1 in E. rewrite (the_info_run _ _ _ Hs) in E.
    run E as u' w2 E1.
    assert (Hs2 : has_session address w2 info).
    { destruct (scan_running info).
      - run E1 as r w3 E2. inversion E1; subst.
        unfold mcc172_a_in_scan_stop in E2.
        unfold bind at 1, get in E2.
        destruct (negb (_check_addr address w)).
        + inversion E2; subst. exact Hs.
        + run E2 as rr w4 E3. apply spi_transfer_same_state in E3.
          destruct E3 as (Hd & _). inversion E2; subst.
          apply (has_session_same_devices _ _ _ _ Hd). exact Hs.
      - inversion E1; subst. exact Hs. }
    pose proof (has_session_update _ _ _ _ _ _ Hs2 E) as Hs3.
    unfold set_thread_pc, modify in Hstep. inversion Hstep; subst w'.
    assert (info' = set_thread_running false info) as ->.
    { eapply has_session_unique; [exact Hs'|].
      apply (has_session_same_devices address w1); [reflexivity|exact Hs3]. }
    apply Hwrote. reflexivity.
Qed.

(** A ring of 4 samples holding 3 unread ones, and a device that has
    finished its scan with 2 samples left to fetch. *)
Definition nearly_full_world : World :=
  {| _devices :=
       {[ 0 := set_scan_info
                 (Some (set_triggered true (set_thread_running true
                          (set_buffer_depth 3
                             (set_buffer_size 4 sample_session)))))
                 open_device ]};
     _mcc172_lib_initialized := true;
     threads :=
       {[ 0 := ThreadLoop {| done := false; sleep_us := 200;
                             status_count := 0; scaled := true;
                             calibrated := true |} ]};
     env :=
       set_spi_bus
         [answers [xdb; x12; x00; x05; x00; x04; x02; x00; x02; x00];
          answers [xdb; x13; x00; x06; x00;
                   x00; x00; x01; x00; x00; x02]]
         quiet_env |}.

Lemma producer_write_overrun_witness :
  exists w' info',
    scan_thread_step (H := sample_header) 0 nearly_full_world
    = Some (tt, w')
    /\ has_session 0 w' info'
    /\ buffer_depth info' = 5
    /\ buffer_size info' = 4
    /\ buffer_overrun info' = true
    /\ scan_running info' = false.
Proof.
  assert (Hc :
    (fun '(_, w) =>
       (fun i => (buffer_depth i, buffer_size i))
         <$> (_devices w !! 0 ≫= scan_info))
      <$> scan_thread_step (H := sample_header) 0 nearly_full_world
    = Some (Some (5, 4))) by (vm_compute; reflexivity).
  destruct (scan_thread_step (H := sample_header) 0 nearly_full_world)
    as [[[] w']|] eqn:Hstep; [|discriminate Hc].
  cbn in Hc.
  destruct (_devices w' !! 0) as [dev|] eqn:Hdev; [|discriminate Hc].
  cbn in Hc.
  destruct (scan_info dev) as [info'|] eqn:Hinfo; [|discriminate Hc].
  cbn in Hc. inversion Hc as [[Hdepth Hsize]].
  assert (Hs' : has_session 0 w' info') by (exists dev; auto).
  destruct (producer_write_overrun (H := sample_header) 0
              {| done := false; sleep_us := 200; status_count := 0;
                 scaled := true; calibrated := true |}
              nearly_full_world w'
              (set_triggered true (set_thread_running true
                 (set_buffer_depth 3 (set_buffer_size 4 sample_session))))
              info')
    as (Hover & _).
  - reflexivity.
  - eexists. split; reflexivity.
  - exact Hstep.
  - exact Hs'.
  - rewrite Hdepth. discriminate.
  - destruct Hover as (Hov & Hrun & _).
    + rewrite Hdepth, Hsize. reflexivity.
    + exists w', info'. auto 10.
Defined.

(** ** Reading the ring *)

(** An active two-channel scan whose ring holds three unread samples, a
    producer thread that is not scheduled while the reader waits, and a
    clock that reads 100 us after the first round of the reader and 1 s
    after the second. *)
Definition odd_depth_world : World :=
  {| _devices :=
       {[ 0 := set_scan_info
                 (Some (set_triggered true (set_thread_running true
                          (set_buffer_depth 3 (set_write_index 3
                             (set_scan_buffer
                                (<[0 := 1%float]> (<[1 := 2%float]>
                                   (<[2 := 3%float]> ∅)))
                                sample_session))))))
                 open_device ]};
     _mcc172_lib_initialized := true;
     threads :=
       {[ 0 := ThreadLoop {| done := false; sleep_us := 200;
                             status_count := 0; scaled := true;
                             calibrated := true |} ]};
     env := set_scheduler [0%nat; 0%nat]
              (set_monotonic [100; 1000000] quiet_env) |}.

(** C9, on the code. [mcc172_a_in_scan_read] called with
    [samples_per_channel = -1] and a timeout of 1 s while the ring holds 3
    samples of a two-channel scan: it copies one sample per channel, keeps
    waiting for the odd sample until the deadline and returns Timeout, with
    status RUNNING | TRIGGERED. With a timeout of 0 the same call returns
    Success. *)
Theorem scan_read_all_available_times_out :
  (fun '(r, out, w) =>
     (r, out_status out, out_samples_read_per_channel out,
      take 3 <$> out_buffer out,
      buffer_depth <$> (_devices w !! 0 ≫= scan_info)))
    <$> mcc172_a_in_scan_read (H := sample_header) 0 (Some 0) (-1) 1%float
          (Some (replicate 10 0%float)) 10 (Some 0) odd_depth_world
  = Some (RESULT_TIMEOUT, Some 12, Some 1,
          Some [1%float; 2%float; 0%float], Some 1)
  /\ (fun '(r, out, w) => (r, out_samples_read_per_channel out))
       <$> mcc172_a_in_scan_read (H := sample_header) 0 (Some 0) (-1) 0%float
             (Some (replicate 10 0%float)) 10 (Some 0) odd_depth_world
     = Some (RESULT_SUCCESS, Some 1).
Proof. vm_compute. repeat split. Qed.

(** Without a positive timeout ([timeout <= 0], or not a number) the reader
    never returns Timeout. *)
Lemma scan_read_without_deadline `{H : DaqhatsH} (address : Z)
    (status : option Z) (samples_per_channel : Z) (timeout : float)
    (buffer : option (list float)) (buffer_size_samples : Z)
    (samples_read_per_channel : option Z) (w w' : World) (r : ResultCode)
    (out : ReadOut) :
  (0 <? timeout)%float = false ->
  mcc172_a_in_scan_read address status samples_per_channel timeout buffer
    buffer_size_samples samples_read_per_channel w = Some ((r, out), w') ->
  r <> RESULT_TIMEOUT.
Proof.
  intros Hdeadline Hrun. unfold mcc172_a_in_scan_read in Hrun.
  unfold bind at 1, get in Hrun.
  destruct (negb (_check_addr address w) || _ || _).
  { inversion Hrun. discriminate. }
  run Hrun as dev w1 E. clear E.
  destruct (scan_info dev) as [info|].
  2:{ inversion Hrun. discriminate. }
  unfold bind at 1 in Hrun.
  run Hrun as l w2 E. clear E.
  run Hrun as info' w3 E. clear E.
  rewrite Hdeadline, andb_false_r in Hrun. cbn in Hrun.
  inversion Hrun. discriminate.
Qed.

Lemma scan_read_without_deadline_witness :
  (0 <? 0)%float = false
  /\ fst <$> (fst <$> mcc172_a_in_scan_read (H := sample_header) 0 (Some 0)
                        (-1) 0%float (Some (replicate 10 0%float)) 10
                        (Some 0) odd_depth_world)
     <> Some RESULT_TIMEOUT.
Proof.
  split; [reflexivity|].
  destruct (mcc172_a_in_scan_read (H := sample_header) 0 (Some 0) (-1)
              0%float (Some (replicate 10 0%float)) 10 (Some 0)
              odd_depth_world) as [[[r out] w']|] eqn:Hrun;
    [|discriminate].
  cbn. intros Heq. inversion Heq as [Hr].
  exact (scan_read_without_deadline (H := sample_header) 0 (Some 0) (-1)
           0%float (Some (replicate 10 0%float)) 10 (Some 0) odd_depth_world
           w' r out eq_refl Hrun Hr).
Defined.

Lemma id_handshake_results_witness :
  exists r w',
    id_handshake (H := sample_header) 0 2 (open_world [silent; silent])
    = Some (r, w')
    /\ (r = RESULT_SUCCESS \/ r = RESULT_INVALID_DEVICE).
Proof.
  destruct (id_handshake (H := sample_header) 0 2
              (open_world [silent; silent])) as [[r w']|] eqn:Hrun.
  - exists r, w'. split; [reflexivity|].
    exact (id_handshake_results (H := sample_header) 2 0
             (open_world [silent; silent]) w' r Hrun).
  - vm_compute in Hrun. discriminate.
Defined.

(** ** The scanner on buffers that hold no complete frame *)

(** A buffer whose first [length] bytes hold no start byte 0xDB (the empty
    buffer included) yields no frame, and the three out-parameters are 0. *)
Theorem parse_buffer_without_start_byte (buffer : list byte) (length : Z) :
  (forall i, 0 <= i < length -> byte_val (byte_at buffer i) <> MSG_START) ->
  _parse_buffer buffer length
  = {| found := false; frame_start := 0; frame_length := 0; remaining := 0 |}.
Proof.
  intros Hnone. unfold _parse_buffer.
  pose proof (parse_loop_skip buffer (Z.to_nat length) 0 0) as Hskip.
  rewrite Nat.add_0_r in Hskip. rewrite Hskip; [reflexivity|].
  intros i Hi. apply Hnone. lia.
Qed.

Lemma parse_buffer_without_start_byte_witness :
  _parse_buffer [x00; xff; x12] 3
  = {| found := false; frame_start := 0; frame_length := 0; remaining := 0 |}.
Proof.
  apply parse_buffer_without_start_byte.
  intros i Hi.
  assert (Hcases : i = 0 \/ i = 1 \/ i = 2) by lia.
  destruct Hcases as [->|[->| ->]]; vm_compute; discriminate.
Defined.

Section Truncated.

Variable ptr : list byte.

(** The data state when the buffer ends before the payload does: every byte
    left is counted off [_remaining] and no frame is reported. *)
Lemma parse_loop_data_short (todo : nat) :
  forall (index : Z) (v : parse_vars),
    parse_state v = 5 -> found_frame v = false ->
    0 <= data_index v -> data_count v <= 65535 ->
    _remaining v = data_count v - data_index v ->
    data_index v + Z.of_nat todo < data_count v ->
    let v' := parse_loop ptr todo index v in
    found_frame v' = false
    /\ _frame_start v' = _frame_start v
    /\ _frame_length v' = _frame_length v
    /\ _remaining v' = _remaining v - Z.of_nat todo.
Proof.
  induction todo as [|todo IH]; intros index v Hst Hnf Hdi Hdc Hrem Hshort.
  - cbn. repeat split; auto; lia.
  - cbn [parse_loop]. rewrite Hnf. unfold parse_step. rewrite Hst.
    assert (Hu : u16 (data_index v + 1) = data_index v + 1)
      by (unfold u16, wrap; apply Z.mod_small;
          change (2 ^ 16) with 65536; lia).
    assert (Hr : u16 (_remaining v - 1) = _remaining v - 1)
      by (unfold u16, wrap; apply Z.mod_small;
          change (2 ^ 16) with 65536; lia).
    rewrite Hu, Hr.
    assert (Hge : (data_index v + 1 >=? data_count v) = false)
      by (rewrite Z.geb_leb; apply Z.leb_gt; lia).
    rewrite Hge.
    match goal with
    | |- context [parse_loop ptr todo ?i ?w] =>
        pose proof (IH i w) as IH'
    end.
    cbn in IH'.
    specialize (IH' eq_refl Hnf ltac:(lia) Hdc ltac:(lia) ltac:(lia)).
    destruct IH' as (Hf & Hs & Hl & Hm).
    repeat split; auto. rewrite Hm. lia.
Qed.

End Truncated.

(** The scanner on a frame that the end of the buffer cuts short. *)
Lemma parse_buffer_truncated (ptr : list byte) (k length : Z) :
  0 <= k ->
  (forall i, 0 <= i < k -> byte_val (byte_at ptr i) <> MSG_START) ->
  byte_val (byte_at ptr k) = MSG_START ->
  k + MSG_RX_HEADER_SIZE <= length
  < k + MSG_RX_HEADER_SIZE + count_field ptr k ->
  length <= 65535 ->
  _parse_buffer ptr length
  = {| found := false; frame_start := k; frame_length := 0;
       remaining := k + MSG_RX_HEADER_SIZE + count_field ptr k - length |}.
Proof.
  intros Hk Hgarbage Hdb Hlen Hu16.
  pose proof (le16_range (byte_at ptr (k + MSG_RX_INDEX_COUNT_LOW))
                (byte_at ptr (k + MSG_RX_INDEX_COUNT_HIGH))) as Hc.
  fold (count_field ptr k) in Hc.
  unfold _parse_buffer. unfold MSG_RX_HEADER_SIZE in *.
  replace (Z.to_nat length)
    with (Z.to_nat k + S (S (S (S (S (Z.to_nat (length - k - 5)))))))%nat
    by lia.
  rewrite parse_loop_skip by (intros i Hi; apply Hgarbage; lia).
  rewrite Z.add_0_l, Z2Nat.id by lia.
  set (todo := Z.to_nat (length - k - 5)).
  rewrite (parse_loop_header ptr todo k Hdb), (parse_header ptr k Hdb).
  destruct (count_field ptr k =? 0) eqn:Hz; [apply Z.eqb_eq in Hz; lia|].
  match goal with
  | |- context [parse_loop ptr todo ?i ?w] =>
      pose proof (parse_loop_data_short ptr todo i w) as Hd;
      set (v' := parse_loop ptr todo i w) in *
  end.
  cbn in Hd.
  specialize (Hd eq_refl eq_refl ltac:(lia) ltac:(lia) ltac:(lia)
                ltac:(subst todo; lia)).
  destruct Hd as (Hf & Hs & Hl & Hm).
  rewrite Hf, Hs, Hl, Hm. f_equal. subst todo. lia.
Qed.

(** A frame whose header is complete but whose payload is cut short by the
    end of the buffer is not reported: [_parse_buffer] returns false, with
    [frame_start] at the frame's 0xDB and [remaining] the number of payload
    bytes that are still missing. *)
Theorem parse_buffer_truncated_frame (ptr : list byte) (k length : Z) :
  0 <= k ->
  (forall i, 0 <= i < k -> byte_val (byte_at ptr i) <> MSG_START) ->
  byte_val (byte_at ptr k) = MSG_START ->
  k + MSG_RX_HEADER_SIZE <= length
  < k + MSG_RX_HEADER_SIZE + count_field ptr k ->
  length <= 65535 ->
  _parse_buffer ptr length
  = {| found := false; frame_start := k; frame_length := 0;
       remaining := k + MSG_RX_HEADER_SIZE + count_field ptr k - length |}.
Proof. apply parse_buffer_truncated. Qed.

Lemma parse_buffer_truncated_frame_witness :
  _parse_buffer [x00; xdb; x13; x00; x04; x00; x0a] 7
  = {| found := false; frame_start := 1; frame_length := 0; remaining := 3 |}.
Proof.
  apply (parse_buffer_truncated_frame
           [x00; xdb; x13; x00; x04; x00; x0a] 1 7).
  - lia.
  - intros i Hi. assert (i = 0) as -> by lia. vm_compute. discriminate.
  - reflexivity.
  - vm_compute. split; [discriminate|reflexivity].
  - lia.
Defined.

(** The encoder's own frame does not come back. For every command [C] and
    payload [P] of at most 256 bytes, scanning the frame that
    [_create_frame] builds does not locate a frame with command [C] and
    payload [P] at offset 0: the scanner takes the outbound count bytes for
    the inbound status and count, and either reports no frame or reports a
    payload of another length than [P]. With a non-empty payload this holds
    whatever bytes follow the frame; with an empty one, when nothing
    follows. *)
Theorem tx_frame_never_round_trips (C : byte) (P noise : list byte) :
  Z.of_nat (length P) <= MAX_TX_DATA_SIZE ->
  Z.of_nat (length (tx_frame C P ++ noise)) <= 65535 ->
  P <> [] \/ noise = [] ->
  ~ round_trip (tx_frame C P ++ noise) C P.
Proof.
  intros HP Hlen Hcase (Hfound & _ & _ & Hpayload).
  rewrite tx_frame_bytes in * by exact HP.
  unfold MAX_TX_DATA_SIZE in HP.
  destruct P as [|p0 P'].
  - destruct Hcase as [Hne| ->]; [congruence|].
    vm_compute in Hfound. discriminate.
  - clear Hcase.
    set (n := Z.of_nat (length (p0 :: P'))) in *.
    set (stream := ([byte_of_Z MSG_START; C; byte_of_Z n;
                     byte_of_Z (Z.shiftr n 8)] ++ p0 :: P') ++ noise) in *.
    assert (Hn : n = 1 + Z.of_nat (length P')) by (subst n; cbn [length]; lia).
    assert (Hsize : Z.of_nat (length stream)
                    = 5 + Z.of_nat (length P') + Z.of_nat (length noise)).
    { subst stream. rewrite !length_app. cbn [length]. lia. }
    assert (Hcount : count_field stream 0
                     = n / 256 + 256 * byte_val p0).
    { unfold count_field, le16.
      assert (byte_at stream (0 + MSG_RX_INDEX_COUNT_LOW)
              = byte_of_Z (Z.shiftr n 8)) as -> by reflexivity.
      assert (byte_at stream (0 + MSG_RX_INDEX_COUNT_HIGH) = p0) as ->
        by reflexivity.
      rewrite byte_val_of_Z, Z.shiftr_div_pow2 by lia.
      change (2 ^ 8) with 256.
      rewrite Z.mod_small; [reflexivity|].
      split; [apply Z.div_pos; lia|apply Z.div_lt_upper_bound; lia]. }
    pose proof (byte_val_range p0) as Hp0.
    assert (Hdb : byte_val (byte_at stream 0) = MSG_START) by reflexivity.
    destruct (Z.le_gt_cases
                (MSG_RX_HEADER_SIZE + count_field stream 0)
                (Z.of_nat (length stream))) as [Hfits|Hshort].
    + pose proof (parse_buffer_locates stream (Z.of_nat (length stream))
                    Hdb ltac:(lia)) as Hloc.
      unfold frame_payload in Hpayload. rewrite Hloc in Hpayload.
      cbn [frame_length frame_start] in Hpayload.
      apply (f_equal (@length byte)) in Hpayload.
      rewrite length_take, length_drop in Hpayload.
      unfold MSG_RX_HEADER_SIZE, MSG_RX_INDEX_DATA in *.
      cbn [length] in Hpayload.
      assert (Hq : (n / 256 = 0 /\ n < 256) \/ (n / 256 = 1 /\ n = 256)).
      { destruct (Z.eq_dec n 256) as [Heq|Hne].
        - right. rewrite Heq. split; reflexivity.
        - left. split; [apply Z.div_small|]; lia. }
      lia.
    + rewrite (parse_buffer_truncated stream 0 (Z.of_nat (length stream)))
        in Hfound; [discriminate|lia| |exact Hdb| |lia].
      * intros i Hi. lia.
      * unfold MSG_RX_HEADER_SIZE in *. lia.
Qed.

(** The IEPE configuration write of the driver, command 0x40 with the
    payload byte 0: the scanner reports a frame of five bytes with an empty
    payload. *)
Lemma tx_frame_never_round_trips_witness :
  found (_parse_buffer (tx_frame x40 [x00]) 5) = true
  /\ frame_length (_parse_buffer (tx_frame x40 [x00]) 5) = 5
  /\ ~ round_trip (tx_frame x40 [x00] ++ []) x40 [x00].
Proof.
  split; [reflexivity|]. split; [reflexivity|].
  apply (tx_frame_never_round_trips x40 [x00] []).
  - vm_compute. discriminate.
  - vm_compute. discriminate.
  - left. discriminate.
Defined.


(** ** What a transaction leaves alone, and what it delivers *)

Section Reply.

Context `{H : DaqhatsH}.

Lemma reply_result_failure (tx_buffer rx_buffer : list byte) (fs : Z)
    (rx_data : option (list byte)) (rx_data_count : Z) :
  fst (reply_result tx_buffer rx_buffer fs rx_data rx_data_count)
  <> RESULT_SUCCESS ->
  snd (reply_result tx_buffer rx_buffer fs rx_data rx_data_count) = rx_data.
Proof.
  unfold reply_result.
  repeat match goal with
         | |- context [if ?c then _ else _] => destruct c
         end; cbn; intros Hne; solve [reflexivity | contradiction].
Qed.

End Reply.

(** Whatever happens on the bus, [_spi_transfer] changes neither the device
    table nor the initialisation flag nor the threads, and it writes the
    caller's [rx_data] only when it returns Success: on every other result
    the buffer is as it was passed in. *)
Theorem spi_transfer_failure_keeps_rx_data `{H : DaqhatsH} (address : Z)
    (command : byte) (tx_data : option (list byte)) (tx_data_count : Z)
    (rx_data : option (list byte)) (rx_data_count : Z)
    (reply_timeout_us retry_us : Z) (w w' : World) (r : ResultCode)
    (rx_data' : option (list byte)) :
  _spi_transfer address command tx_data tx_data_count rx_data rx_data_count
    reply_timeout_us retry_us w = Some ((r, rx_data'), w') ->
  same_driver_state w w' /\ (r <> RESULT_SUCCESS -> rx_data' = rx_data).
Proof.
  intros Hrun. split; [exact (spi_transfer_same_state _ _ _ _ _ _ _ _ _ _ _ Hrun)|].
  unfold _spi_transfer in Hrun. unfold bind at 1, get in Hrun.
  destruct (negb (_check_addr address w) || _ || _).
  { inversion Hrun. reflexivity. }
  run Hrun as a1 w1 E1. run Hrun as a2 w2 E2. run Hrun as a3 w3 E3.
  destruct (negb a1 || negb a2 || negb a3).
  { inversion Hrun. reflexivity. }
  run Hrun as e w4 E4.
  destruct (spi_exchange _ _ _ _ _ _) as [[res|txb rxb fs]|];
    [| |discriminate].
  - inversion Hrun. reflexivity.
  - unfold ret in Hrun. inversion Hrun as [[Hres Hw]].
    intros Hne.
    pose proof (reply_result_failure txb rxb fs rx_data rx_data_count) as Hf.
    rewrite Hres in Hf. cbn in Hf. auto.
Qed.

Lemma spi_transfer_failure_keeps_rx_data_witness :
  exists w',
    _spi_transfer (H := sample_header) 0 (byte_of_Z CMD_ID) None 0
      (Some (replicate 6 x00)) 4 20000 10 (open_world [silent])
    = Some ((RESULT_TIMEOUT, Some (replicate 6 x00)), w')
    /\ same_driver_state (open_world [silent]) w'.
Proof.
  destruct (_spi_transfer (H := sample_header) 0 (byte_of_Z CMD_ID) None 0
              (Some (replicate 6 x00)) 4 20000 10 (open_world [silent]))
    as [[[r rx] w']|] eqn:Hrun; [|vm_compute in Hrun; discriminate].
  destruct (spi_transfer_failure_keeps_rx_data (H := sample_header) _ _ _ _
              _ _ _ _ _ _ _ _ Hrun) as (Hsame & Hrx).
  assert (Hr : r = RESULT_TIMEOUT).
  { vm_compute in Hrun. inversion Hrun. reflexivity. }
  subst r. rewrite Hrx by discriminate.
  exists w'. split; [reflexivity|exact Hsame].
Defined.

(** A reply in the inbound layout: start byte, command, status, the
    little-endian payload count and the payload. *)
Definition reply_frame (command status : byte) (payload : list byte)
    : list byte :=
  let n := Z.of_nat (length payload) in
  [byte_of_Z MSG_START; command; status; byte_of_Z n;
   byte_of_Z (Z.shiftr n 8)] ++ payload.

Lemma inserts_prefix (K : list byte) (m : nat) :
  (length K <= m)%nat ->
  list_inserts 0 K (replicate m x00) = K ++ replicate (m - length K) x00.
Proof.
  intros Hle. replace m with (length K + (m - length K))%nat at 1 by lia.
  rewrite replicate_add. apply list_inserts_0_r.
  rewrite length_replicate. reflexivity.
Qed.

(** [rx_buffer] after the ready byte 0xDB and the body read of a reply. *)
Lemma rx_buffer_after_reply (command status : byte) (P noise : list byte) :
  exists rest,
    memcpy
      (<[0%nat := byte_of_Z MSG_START]>
         (replicate (Z.to_nat (Z.of_nat (length P) + 10)) x00))
      1 (drop 1 (reply_frame command status P ++ noise))
      (Z.of_nat (length P) + 5)
    = reply_frame command status P ++ rest.
Proof.
  unfold memcpy, reply_frame.
  replace (Z.to_nat (Z.of_nat (length P) + 10)) with (S (length P + 9)) by lia.
  replace (Z.to_nat (Z.of_nat (length P) + 5))
    with (S (S (S (S (length P + 1))))) by lia.
  change (Z.to_nat 1) with 1%nat.
  cbn [replicate app drop]. simpl insert.
  rewrite list_inserts_cons. cbn [take].
  rewrite take_app_add.
  match goal with
  | |- context [list_inserts 0 ?K (replicate ?m x00)] =>
      rewrite (inserts_prefix K m)
        by (cbn [length]; rewrite length_app, length_take; lia);
      exists (take 1 noise ++ replicate (m - length K) x00)
  end.
  cbn [app]. do 5 f_equal. rewrite <- app_assoc. reflexivity.
Qed.

Lemma count_bytes_le16 (n : Z) :
  0 <= n <= 65535 ->
  le16 (byte_of_Z n) (byte_of_Z (Z.shiftr n 8)) = n.
Proof.
  intros Hn. unfold le16. rewrite !byte_val_of_Z.
  rewrite Z.shiftr_div_pow2 by lia. change (2 ^ 8) with 256.
  rewrite (Z.mod_small (n / 256) 256)
    by (split; [apply Z.div_pos; lia | apply Z.div_lt_upper_bound; lia]).
  pose proof (Z.div_mod n 256 ltac:(lia)). lia.
Qed.

(** What [_spi_transfer] does with a reply frame of status 0 that is
    there at the first poll. *)
Lemma spi_transfer_payload `{H : DaqhatsH} (address : Z)
    (command : byte) (tx_data : option (list byte)) (tx_data_count : Z)
    (d P noise : list byte) (reply_timeout_us retry_us : Z) (w : World)
    (bus : list SpiEnv) (heap' : list bool) :
  _check_addr address w = true ->
  0 <= tx_data_count <= MAX_TX_DATA_SIZE ->
  (tx_data_count <> 0 -> tx_data <> None) ->
  length d = length P ->
  Z.of_nat (length P) <= 65525 ->
  heap (env w) = true :: true :: true :: heap' ->
  spi_bus (env w)
  = answers (reply_frame command (byte_of_Z FW_RES_SUCCESS) P ++ noise)
    :: bus ->
  _spi_transfer address command tx_data tx_data_count (Some d)
    (Z.of_nat (length P)) reply_timeout_us retry_us w
  = Some ((RESULT_SUCCESS, Some P),
          set_env (set_spi_bus bus (set_heap heap' (env w))) w).
Proof.
  intros Hcheck Htxc Htx Hd HP Hheap Hbus.
  set (n := Z.of_nat (length P)) in *.
  set (reply := reply_frame command (byte_of_Z FW_RES_SUCCESS) P) in *.
  destruct (rx_buffer_after_reply command (byte_of_Z FW_RES_SUCCESS) P noise)
    as (rest & Hrx).
  fold reply n in Hrx.
  set (tx_buffer :=
         snd (_create_frame
                (replicate (Z.to_nat (u16 (MSG_TX_HEADER_SIZE + tx_data_count)))
                   x00)
                command tx_data_count (default [] tx_data))).
  assert (Hu10 : u16 (MSG_RX_HEADER_SIZE + n + 5) = n + 10)
    by (unfold u16, wrap, MSG_RX_HEADER_SIZE; rewrite Z.mod_small;
        change (2 ^ 16) with 65536; lia).
  assert (Hu5 : u16 (n + MSG_RX_HEADER_SIZE) = n + 5)
    by (unfold u16, wrap, MSG_RX_HEADER_SIZE; rewrite Z.mod_small;
        change (2 ^ 16) with 65536; lia).
  assert (Hu6 : u16 (n + 5 + 1) = n + 6)
    by (unfold u16, wrap; rewrite Z.mod_small;
        change (2 ^ 16) with 65536; lia).
  assert (Hfound :
    spi_exchange
      (answers (reply ++ noise)) command tx_data tx_data_count n
      reply_timeout_us
    = Some (FrameFound tx_buffer (reply ++ rest) 0)).
  { unfold spi_exchange. fold tx_buffer. cbn [answers lock_fd rd_mode_ret
      rd_mode wr_mode_ret send_ret ready_polls body_reads].
    change (3 <? 0) with false. change (0 =? -1) with false.
    change (1 =? spi_mode) with true. change (1 <? 1) with false.
    cbn [negb andb]. rewrite Hu10, Hu5.
    cbn [ready_poll]. change (1 >=? 1) with true. cbn [andb].
    assert (Hb0 : byte_at (reply ++ noise) 0 = byte_of_Z MSG_START)
      by reflexivity.
    rewrite Hb0.
    assert (Hready :
      byte_at (<[0%nat := byte_of_Z MSG_START]>
                 (replicate (Z.to_nat (n + 10)) x00)) 0
      = byte_of_Z MSG_START).
    { replace (Z.to_nat (n + 10)) with (S (length P + 9)) by lia.
      reflexivity. }
    rewrite Hready.
    change (byte_val (byte_of_Z MSG_START) =? 0) with false.
    cbn [negb andb]. cbn [body_read].
    change (1 >=? 1) with true. cbn [andb]. rewrite Hrx, Hu6.
    assert (Hcount : count_field (reply ++ rest) 0 = n).
    { unfold count_field.
      change (byte_at (reply ++ rest) (0 + MSG_RX_INDEX_COUNT_LOW))
        with (byte_of_Z n).
      change (byte_at (reply ++ rest) (0 + MSG_RX_INDEX_COUNT_HIGH))
        with (byte_of_Z (Z.shiftr n 8)).
      apply count_bytes_le16. lia. }
    pose proof (parse_buffer_locates (reply ++ rest) (n + 6)) as Hloc.
    rewrite Hcount in Hloc. unfold MSG_RX_HEADER_SIZE in Hloc.
    specialize (Hloc eq_refl ltac:(lia)).
    rewrite Hloc. cbn [found frame_start negb andb]. reflexivity. }
  rewrite (spi_transfer_found address command tx_data tx_data_count (Some d)
             n reply_timeout_us retry_us w _ bus heap' _ _ _
             Hcheck Htx ltac:(discriminate) Hheap Hbus Hfound).
  f_equal. f_equal.
  unfold reply_result.
  assert (Hcmd : byte_at tx_buffer MSG_TX_INDEX_COMMAND = command)
    by (apply tx_buffer_command; exact Htxc).
  rewrite Hcmd.
  change (byte_at (reply ++ rest) (0 + MSG_RX_INDEX_COMMAND)) with command.
  rewrite Z.eqb_refl.
  change (byte_at (reply ++ rest) (0 + MSG_RX_INDEX_STATUS))
    with (byte_of_Z FW_RES_SUCCESS).
  change (byte_val (byte_of_Z FW_RES_SUCCESS) =? FW_RES_SUCCESS) with true.
  cbn iota. f_equal.
  destruct (n >? 0) eqn:Hpos.
  - cbn [fmap option_fmap option_map]. f_equal. unfold memcpy.
    change (Z.to_nat (0 + MSG_RX_INDEX_DATA)) with 5%nat.
    change (Z.to_nat 0) with 0%nat.
    replace (drop 5 (reply ++ rest)) with (P ++ rest) by reflexivity.
    replace (Z.to_nat n) with (length P) by lia.
    rewrite take_app_length.
    rewrite <- (app_nil_r d), list_inserts_0_r by (symmetry; exact Hd).
    apply app_nil_r.
  - rewrite Z.gtb_ltb in Hpos. apply Z.ltb_ge in Hpos.
    assert (length P = 0%nat) as HP0 by lia.
    destruct P; [|discriminate]. destruct d; [reflexivity|discriminate].
Qed.

(** Reception end to end. On an open device, when the three buffers are
    allocated and the device answers the command at once with a reply frame
    that carries status 0 and a payload [P] of [rx_data_count] bytes,
    followed by anything, [_spi_transfer] returns Success and the caller's
    [rx_data] holds exactly [P]. *)
Theorem spi_transfer_delivers_payload `{H : DaqhatsH} (address : Z)
    (command : byte) (tx_data : option (list byte)) (tx_data_count : Z)
    (d P noise : list byte) (reply_timeout_us retry_us : Z) (w : World)
    (bus : list SpiEnv) (heap' : list bool) :
  _check_addr address w = true ->
  0 <= tx_data_count <= MAX_TX_DATA_SIZE ->
  (tx_data_count <> 0 -> tx_data <> None) ->
  length d = length P ->
  Z.of_nat (length P) <= 65525 ->
  heap (env w) = true :: true :: true :: heap' ->
  spi_bus (env w)
  = answers (reply_frame command (byte_of_Z FW_RES_SUCCESS) P ++ noise)
    :: bus ->
  _spi_transfer address command tx_data tx_data_count (Some d)
    (Z.of_nat (length P)) reply_timeout_us retry_us w
  = Some ((RESULT_SUCCESS, Some P),
          set_env (set_spi_bus bus (set_heap heap' (env w))) w).
Proof. apply spi_transfer_payload. Qed.

Lemma spi_transfer_delivers_payload_witness :
  _spi_transfer (H := sample_header) 0 x13 (Some [x02; x00]) 2
    (Some [x00; x00; x00]) 3 40000 1
    (open_world [answers [xdb; x13; x00; x03; x00; x0a; x0b; x0c; xff]])
  = Some ((RESULT_SUCCESS, Some [x0a; x0b; x0c]),
          set_env (set_spi_bus [] (set_heap (replicate 61 true) quiet_env))
            (open_world
               [answers [xdb; x13; x00; x03; x00; x0a; x0b; x0c; xff]])).
Proof.
  apply (spi_transfer_delivers_payload (H := sample_header) 0 x13
           (Some [x02; x00]) 2 [x00; x00; x00] [x0a; x0b; x0c] [xff]
           40000 1).
  - reflexivity.
  - vm_compute. split; discriminate.
  - intros _. discriminate.
  - reflexivity.
  - vm_compute. discriminate.
  - reflexivity.
  - reflexivity.
Defined.

(** ** The factory data of the EEPROM *)

(** The document that [_parse_factory_data] expects, as cJSON hands it
    over: an object with a "serial" string and a "calibration" object that
    holds a "date" string and the arrays "slopes" and "offsets". *)
Definition number (x : float) : cJSON :=
  cJSON_node cJSON_Number None x None [].

Definition factory_document (serial date : string)
    (slopes offsets : list float) : cJSON :=
  cJSON_node cJSON_Object None 0%float None
    [cJSON_node cJSON_String (Some serial) 0%float (Some "serial"%string) [];
     cJSON_node cJSON_Object None 0%float (Some "calibration"%string)
       [cJSON_node cJSON_String (Some date) 0%float (Some "date"%string) [];
        cJSON_node cJSON_Array None 0%float (Some "slopes"%string)
          (number <$> slopes);
        cJSON_node cJSON_Array None 0%float (Some "offsets"%string)
          (number <$> offsets)]].

(** Once [index] has reached [NUM_CHANNELS] the rest of an array is passed
    over. *)
Lemma read_coefficients_full (items : list cJSON) (arr : list float) :
  fold_left
    (fun '(arr, index) subchild =>
       if bool_decide (node_type subchild = cJSON_Number)
          && (index <? NUM_CHANNELS)
       then (<[Z.to_nat index := node_valuedouble subchild]> arr, index + 1)
       else (arr, index))
    items (arr, NUM_CHANNELS)
  = (arr, NUM_CHANNELS).
Proof.
  induction items as [|item items IH]; [reflexivity|].
  cbn [fold_left]. rewrite Z.ltb_irrefl, andb_false_r. exact IH.
Qed.

Lemma read_coefficients_numbers (vals : list float) (x y : float) :
  read_coefficients (number <$> vals) [x; y]
  = match vals with
    | [] => ([x; y], 0)
    | [a] => ([a; y], 1)
    | a :: b :: _ => ([a; b], NUM_CHANNELS)
    end.
Proof.
  destruct vals as [|a [|b more]]; try reflexivity.
  unfold read_coefficients. cbn [fmap list_fmap fold_left].
  apply (read_coefficients_full (number <$> more) [a; b]).
Qed.

(** What [_parse_factory_data] makes of the expected document. *)
Lemma parse_factory_document_result (s d : string) (ss os : list float)
    (data : mcc172FactoryData) :
  length (Factory.slopes data) = Z.to_nat NUM_CHANNELS ->
  length (Factory.offsets data) = Z.to_nat NUM_CHANNELS ->
  let r := _parse_factory_data (factory_document s d ss os) data in
  (forall a b ms c e mo,
     ss = a :: b :: ms -> os = c :: e :: mo ->
     r = (1, Factory.mk_factory_data (strncpy s SERIAL_SIZE)
               (strncpy d CAL_DATE_SIZE) [a; b] [c; e]))
  /\ ((length ss < 2)%nat \/ (length os < 2)%nat -> fst r = 0).
Proof.
  intros Hs Ho r.
  destruct data as [s0 d0 sl ol]. cbn in Hs, Ho.
  destruct sl as [|x [|y [|? ?]]]; try discriminate.
  destruct ol as [|x' [|y' [|? ?]]]; try discriminate.
  assert (Hr :
    r = (let '(arr_s, n_s) := read_coefficients (number <$> ss) [x; y] in
         let '(arr_o, n_o) := read_coefficients (number <$> os) [x'; y'] in
         (if (n_s =? NUM_CHANNELS) && (n_o =? NUM_CHANNELS) then 1 else 0,
          Factory.mk_factory_data (strncpy s SERIAL_SIZE)
            (strncpy d CAL_DATE_SIZE) arr_s arr_o))).
  { subst r. unfold _parse_factory_data, factory_document.
    cbn -[read_coefficients].
    repeat (first
              [ rewrite bool_decide_eq_true_2 by reflexivity
              | match goal with
                | |- context [read_coefficients ?a ?b] =>
                    destruct (read_coefficients a b) as [? ?]
                end ];
            cbn -[read_coefficients]).
    repeat match goal with
           | |- context [?i =? NUM_CHANNELS] => destruct (i =? NUM_CHANNELS)
           end; reflexivity. }
  rewrite Hr, !read_coefficients_numbers. split.
  - intros a b ms c e mo -> ->. reflexivity.
  - intros [Hshort|Hshort].
    + destruct ss as [|a [|b ms]]; cbn in Hshort; try lia;
        destruct os as [|c [|e mo]]; reflexivity.
    + destruct os as [|c [|e mo]]; cbn in Hshort; try lia;
        destruct ss as [|a [|b ms]]; reflexivity.
Qed.

(** A document with at least [NUM_CHANNELS] numbers in each array is
    accepted (the result is 1) and decoded: the serial number and the date
    cut to the size of their fields, and the first two slopes and offsets;
    further numbers are ignored. A document with fewer than two numbers in
    one of the arrays is rejected (the result is 0). *)
Theorem parse_factory_data_document (s d : string) (ss os : list float)
    (data : mcc172FactoryData) :
  length (Factory.slopes data) = Z.to_nat NUM_CHANNELS ->
  length (Factory.offsets data) = Z.to_nat NUM_CHANNELS ->
  let r := _parse_factory_data (factory_document s d ss os) data in
  (forall a b ms c e mo,
     ss = a :: b :: ms -> os = c :: e :: mo ->
     r = (1, Factory.mk_factory_data (strncpy s SERIAL_SIZE)
               (strncpy d CAL_DATE_SIZE) [a; b] [c; e]))
  /\ ((length ss < 2)%nat \/ (length os < 2)%nat -> fst r = 0).
Proof. apply parse_factory_document_result. Qed.

Lemma parse_factory_data_document_witness :
  _parse_factory_data
    (factory_document "01234567" "2019-03-18" [1.5%float; 0.5%float]
       [0.25%float; (-0.25)%float])
    (factory_data zeroed_device)
  = (1, Factory.mk_factory_data "01234567" "2019-03-18"
          [1.5%float; 0.5%float] [0.25%float; (-0.25)%float]).
Proof.
  destruct (parse_factory_data_document "01234567" "2019-03-18"
              [1.5%float; 0.5%float] [0.25%float; (-0.25)%float]
              (factory_data zeroed_device) eq_refl eq_refl) as (Hok & _).
  exact (Hok _ _ _ _ _ _ eq_refl eq_refl).
Defined.

Lemma parse_calchild_got_serial (st : mcc172FactoryData * Got)
    (calchild : cJSON) :
  got_serial (snd (parse_calchild st calchild)) = got_serial (snd st).
Proof.
  unfold parse_calchild. destruct st as [data g].
  repeat match goal with
         | |- context [if ?c then _ else _] => destruct c
         | |- context [read_coefficients ?a ?b] =>
             destruct (read_coefficients a b) as [? ?]
         end; reflexivity.
Qed.

Lemma fold_calchild_got_serial (items : list cJSON) :
  forall st : mcc172FactoryData * Got,
    got_serial (snd (fold_left parse_calchild items st)) = got_serial (snd st).
Proof.
  induction items as [|item items IH]; intros st; [reflexivity|].
  cbn [fold_left]. rewrite IH. apply parse_calchild_got_serial.
Qed.

Lemma parse_child_without_serial (st : mcc172FactoryData * Got)
    (child : cJSON) :
  named child "serial" = false ->
  got_serial (snd (parse_child st child)) = got_serial (snd st).
Proof.
  intros Hname. unfold parse_child. destruct st as [data g].
  rewrite Hname. cbn [andb].
  destruct (named child "calibration" && _); [|reflexivity].
  apply fold_calchild_got_serial.
Qed.

Lemma parse_child_without_calibration (st : mcc172FactoryData * Got)
    (child : cJSON) :
  named child "calibration" = false ->
  got_date (snd (parse_child st child)) = got_date (snd st).
Proof.
  intros Hname. unfold parse_child. destruct st as [data g].
  rewrite Hname. cbn [andb].
  destruct (named child "serial" && _ && _); reflexivity.
Qed.

(** A missing key. When the root has no member named "serial", or no
    member named "calibration", [_parse_factory_data] returns 0, whatever
    else the document holds. *)
Theorem parse_factory_data_missing_key (root : cJSON)
    (data : mcc172FactoryData) :
  Forall (fun child => named child "serial" = false) (node_child root)
  \/ Forall (fun child => named child "calibration" = false)
       (node_child root) ->
  fst (_parse_factory_data root data) = 0.
Proof.
  intros Hmissing. unfold _parse_factory_data.
  destruct (negb _ || _); [reflexivity|].
  set (g0 := {| got_serial := false; got_date := false;
                got_slopes := false; got_offsets := false |}).
  assert (Hgot : forall st,
    got_serial (snd (fold_left parse_child (node_child root) st))
    = got_serial (snd st)
    \/ got_date (snd (fold_left parse_child (node_child root) st))
       = got_date (snd st)).
  { destruct Hmissing as [Hall|Hall]; [intros st; left|intros st; right];
      revert st;
      induction Hall as [|child children Hname _ IH]; intros st;
      try reflexivity; cbn [fold_left]; rewrite IH.
    - apply parse_child_without_serial. exact Hname.
    - apply parse_child_without_calibration. exact Hname. }
  specialize (Hgot (data, g0)).
  destruct (fold_left parse_child (node_child root) (data, g0)) as [data' g].
  cbn [snd] in Hgot.
  destruct Hgot as [-> | ->]; [reflexivity|].
  destruct (got_serial g); reflexivity.
Qed.

Lemma parse_factory_data_missing_key_witness :
  fst (_parse_factory_data
         (cJSON_node cJSON_Object None 0%float None
            [cJSON_node cJSON_String (Some "01234567"%string) 0%float
               (Some "serial"%string) []])
         (factory_data zeroed_device))
  = 0.
Proof.
  apply parse_factory_data_missing_key. right.
  repeat constructor.
Defined.

(** ** Opening and closing *)

(** The coefficient arrays of a factory data record have [NUM_CHANNELS]
    elements each, as the C arrays do. *)
Definition coefficient_arrays (data : mcc172FactoryData) : Prop :=
  length (Factory.slopes data) = Z.to_nat NUM_CHANNELS
  /\ length (Factory.offsets data) = Z.to_nat NUM_CHANNELS.

(** The device table as [mcc172_open] sees it after [_mcc172_lib_init]. *)
Definition devices_at_open (w : World) : gmap Z mcc172Device :=
  if _mcc172_lib_initialized w then _devices w else ∅.

Section Open.

Context `{H : DaqhatsH}.

Lemma read_coefficients_length (items : list cJSON) (arr : list float) :
  length (fst (read_coefficients items arr)) = length arr.
Proof.
  unfold read_coefficients. generalize 0 as index. revert arr.
  induction items as [|item items IH]; intros arr index; [reflexivity|].
  cbn [fold_left].
  destruct (bool_decide (node_type item = cJSON_Number)
            && (index <? NUM_CHANNELS)).
  - rewrite IH. apply length_insert.
  - apply IH.
Qed.

Lemma parse_calchild_arrays (st : mcc172FactoryData * Got) (c : cJSON) :
  coefficient_arrays (fst st) ->
  coefficient_arrays (fst (parse_calchild st c)).
Proof.
  destruct st as [data g]. intros (Hs & Ho). unfold parse_calchild.
  destruct (named c "date" && _ && _); [split; assumption|].
  destruct (named c "slopes" && _).
  { pose proof (read_coefficients_length (node_child c) (Factory.slopes data))
      as Hlen.
    destruct (read_coefficients _ _) as [arr index]. cbn in *.
    split; cbn; congruence. }
  destruct (named c "offsets" && _); [|split; assumption].
  pose proof (read_coefficients_length (node_child c) (Factory.offsets data))
    as Hlen.
  destruct (read_coefficients _ _) as [arr index]. cbn in *.
  split; cbn; congruence.
Qed.

Lemma parse_child_arrays (st : mcc172FactoryData * Got) (c : cJSON) :
  coefficient_arrays (fst st) ->
  coefficient_arrays (fst (parse_child st c)).
Proof.
  destruct st as [data g]. intros Harr. unfold parse_child.
  destruct (named c "serial" && _ && _); [exact Harr|].
  destruct (named c "calibration" && _); [|exact Harr].
  assert (Hfold : forall st,
            coefficient_arrays (fst st) ->
            coefficient_arrays (fst (fold_left parse_calchild (node_child c) st))).
  { induction (node_child c) as [|item items IH]; intros st Hst; [exact Hst|].
    cbn [fold_left]. apply IH. apply parse_calchild_arrays. exact Hst. }
  apply Hfold. exact Harr.
Qed.

Lemma parse_factory_data_arrays (root : cJSON) (data : mcc172FactoryData) :
  coefficient_arrays data ->
  coefficient_arrays (snd (_parse_factory_data root data)).
Proof.
  intros Harr. unfold _parse_factory_data.
  destruct (negb _ || _); [exact Harr|].
  set (g0 := {| got_serial := false; got_date := false;
                got_slopes := false; got_offsets := false |}).
  assert (Hfold : coefficient_arrays
                    (fst (fold_left parse_child (node_child root) (data, g0)))).
  { assert (Hall : forall st,
              coefficient_arrays (fst st) ->
              coefficient_arrays
                (fst (fold_left parse_child (node_child root) st))).
    { induction (node_child root) as [|item items IH]; intros st Hst;
        [exact Hst|].
      cbn [fold_left]. apply IH. apply parse_child_arrays. exact Hst. }
    apply Hall. exact Harr. }
  destruct (fold_left parse_child (node_child root) (data, g0)) as [data' g].
  destruct (got_serial g && got_date g && got_slopes g && got_offsets g);
    exact Hfold.
Qed.

Lemma read_eeprom_same_state (address : Z) (w w' : World)
    (r : ResultCode + Z * option (list byte)) :
  read_eeprom address w = Some (r, w') ->
  same_driver_state w w' /\ (forall err, r = inl err -> err = RESULT_INVALID_DEVICE).
Proof.
  unfold read_eeprom, bind, _hat_info. intros Hrun.
  destruct (eeprom (env w) address) as [[id custom]|].
  - destruct (id =? HAT_ID_MCC_172).
    + destruct (calloc w) as [[ok w1]|] eqn:E; [|discriminate].
      apply pop_same_state in E. inversion Hrun; subst.
      split; [exact E|]. intros err Herr. discriminate.
    + inversion Hrun; subst. split; [apply same_driver_state_refl|].
      intros err Herr. inversion Herr. reflexivity.
  - inversion Hrun; subst. split; [apply same_driver_state_refl|].
    intros err Herr. discriminate.
Qed.

(** The first-open branch: it returns InvalidDevice with the table
    untouched, or ResourceUnavail with no entry for the address, or it
    registers a device with one handle, no scan, the descriptor that
    [open] gave and complete factory data. *)
Lemma open_first_effect (address : Z) (w w' : World)
    (res : option ResultCode) :
  open_first address w = Some (res, w') ->
  _mcc172_lib_initialized w' = _mcc172_lib_initialized w
  /\ threads w' = threads w
  /\ match res with
     | Some err =>
         (err = RESULT_INVALID_DEVICE /\ _devices w' = _devices w)
         \/ (err = RESULT_RESOURCE_UNAVAIL
             /\ _devices w' = delete address (_devices w))
     | None =>
         exists dev,
           _devices w' = <[address := dev]> (_devices w)
           /\ handle_count dev = 1 /\ fw_version dev = 0
           /\ 0 <= spi_fd dev /\ scan_info dev = None
           /\ coefficient_arrays (factory_data dev)
     end.
Proof.
  unfold open_first. intros Hrun.
  run Hrun as r w1 E. apply read_eeprom_same_state in E.
  destruct E as ((Hd1 & Hi1 & Ht1) & Herr).
  destruct r as [err|[custom_size custom_data]].
  { inversion Hrun; subst. split; [exact Hi1|]. split; [exact Ht1|].
    left. split; [apply Herr; reflexivity|exact Hd1]. }
  run Hrun as ok w2 E. apply pop_same_state in E.
  destruct E as (Hd2 & Hi2 & Ht2).
  destruct ok; cbn [negb] in Hrun; [|discriminate].
  run Hrun as u w3 E. unfold store_device, modify in E.
  inversion E; subst u w3; clear E.
  run Hrun as fd w4 E. apply pop_same_state in E.
  destruct E as (Hd4 & Hi4 & Ht4). cbn in Hd4, Hi4, Ht4.
  destruct (fd <? 0) eqn:Hfd.
  { run Hrun as u w5 E. unfold clear_device, modify in E.
    inversion E; subst u w5; clear E. inversion Hrun; subst.
    cbn. split; [congruence|]. split; [congruence|].
    right. split; [reflexivity|].
    rewrite Hd4. cbn. rewrite delete_insert_eq. congruence. }
  apply Z.ltb_ge in Hfd.
  unfold bind at 1, get in Hrun.
  run Hrun as u w5 E. unfold store_device, modify in E.
  inversion E; subst u w5; clear E. inversion Hrun; subst.
  cbn. split; [congruence|]. split; [congruence|].
  eexists. split.
  { rewrite Hd4. cbn. rewrite insert_insert_eq, Hd2, Hd1. reflexivity. }
  cbn. repeat split; auto;
    destruct (custom_size >? 0); try reflexivity;
    destruct (cJSON_Parse (env w4) custom_data) as [root|]; try reflexivity;
    pose proof (parse_factory_data_arrays root
                  (factory_data
                     (set_spi_fd fd
                        (set_handle_count 1 (set_scan_info None zeroed_device))))
                  (conj eq_refl eq_refl)) as Harr;
    destruct (_parse_factory_data root _) as [parsed data];
    destruct (parsed =? 0); try reflexivity; apply Harr.
Qed.

(** The handshake either leaves the table as it is, or stores the firmware
    version in the device, or (on a foreign product id) removes the device. *)
Lemma id_handshake_effect (todo : nat) :
  forall (address : Z) (w w' : World) (r : ResultCode),
    id_handshake address todo w = Some (r, w') ->
    _mcc172_lib_initialized w' = _mcc172_lib_initialized w
    /\ threads w' = threads w
    /\ ((r = RESULT_SUCCESS
         /\ (_devices w' = _devices w
             \/ exists dev v,
                  _devices w !! address = Some dev
                  /\ _devices w' = <[address := set_fw_version v dev]>
                                     (_devices w)))
        \/ (r = RESULT_INVALID_DEVICE
            /\ _devices w' = delete address (_devices w))).
Proof.
  induction todo as [|todo IH]; intros address w w' r Hrun.
  - cbn in Hrun. inversion Hrun; subst.
    split; [reflexivity|]. split; [reflexivity|]. left. auto.
  - cbn [id_handshake] in Hrun.
    run Hrun as rr w1 E. apply spi_transfer_same_state in E.
    destruct E as (Hd1 & Hi1 & Ht1). destruct rr as [result id_data].
    destruct (bool_decide (result = RESULT_SUCCESS)).
    + destruct (le16 _ _ =? HAT_ID_MCC_172).
      * run Hrun as d w2 E. unfold device in E.
        inversion E; subst d w2; clear E.
        destruct (_devices w1 !! address) as [dev|] eqn:Hdev.
        -- run Hrun as u w2 E. unfold store_device, modify in E.
           inversion E; subst u w2; clear E.
           inversion Hrun; subst. cbn.
           split; [congruence|]. split; [congruence|].
           left. split; [reflexivity|]. right.
           eexists dev, _. rewrite <- Hd1. split; [exact Hdev|reflexivity].
        -- run Hrun as u w2 E. inversion E; subst u w2; clear E.
           inversion Hrun; subst.
           split; [congruence|]. split; [congruence|]. left. auto.
      * run Hrun as u w2 E. unfold clear_device, modify in E.
        inversion E; subst u w2; clear E. inversion Hrun; subst.
        cbn. split; [congruence|]. split; [congruence|].
        right. split; congruence.
    + apply IH in Hrun. destruct Hrun as (Hi & Ht & Hcase).
      split; [congruence|]. split; [congruence|].
      destruct Hcase as [(-> & [Hsame|(dev & v & Hdev & Hnew)])|(-> & Hdel)].
      * left. split; [reflexivity|]. left. congruence.
      * left. split; [reflexivity|]. right. exists dev, v.
        rewrite <- Hd1. auto.
      * right. split; congruence.
Qed.

End Open.

Section OpenResult.

Context `{H : DaqhatsH}.

Lemma set_fw_version_same (dev : mcc172Device) :
  set_fw_version (fw_version dev) dev = dev.
Proof. destruct dev. reflexivity. Qed.

(** After a successful handshake the device is the one that was there, up
    to its firmware version, and the other addresses are as before. *)
Lemma id_handshake_success (todo : nat) (address : Z) (w w' : World)
    (dev : mcc172Device) :
  id_handshake address todo w = Some (RESULT_SUCCESS, w') ->
  _devices w !! address = Some dev ->
  _mcc172_lib_initialized w' = _mcc172_lib_initialized w
  /\ (exists v, _devices w' !! address = Some (set_fw_version v dev))
  /\ (forall a, a <> address -> _devices w' !! a = _devices w !! a).
Proof.
  intros Hrun Hdev. apply id_handshake_effect in Hrun.
  destruct Hrun as (Hi & _ & [(_ & Hcase)|(Hr & _)]); [|discriminate].
  split; [exact Hi|].
  destruct Hcase as [Hsame|(dev0 & v & Hdev0 & Hnew)].
  - rewrite Hsame. split; [|auto].
    exists (fw_version dev). rewrite set_fw_version_same. exact Hdev.
  - rewrite Hnew. rewrite Hdev in Hdev0. inversion Hdev0; subst dev0.
    split.
    + exists v. apply lookup_insert_eq.
    + intros a Ha. apply lookup_insert_ne. congruence.
Qed.

End OpenResult.

(** What a successful [mcc172_open] leaves at the address. *)
Lemma mcc172_open_success `{H : DaqhatsH} (address : Z) (w w' : World) :
  mcc172_open address w = Some (RESULT_SUCCESS, w') ->
  address < MAX_NUMBER_HATS
  /\ _mcc172_lib_initialized w' = true
  /\ exists dev',
       _devices w' !! address = Some dev'
       /\ (forall a, a <> address ->
                     _devices w' !! a = devices_at_open w !! a)
       /\ match devices_at_open w !! address with
          | Some dev =>
              handle_count dev' = u16 (handle_count dev + 1)
              /\ spi_fd dev' = spi_fd dev
              /\ factory_data dev' = factory_data dev
              /\ scan_info dev' = scan_info dev
          | None =>
              handle_count dev' = 1 /\ 0 <= spi_fd dev'
              /\ scan_info dev' = None
              /\ coefficient_arrays (factory_data dev')
          end.
Proof.
  intros Hrun. unfold mcc172_open in Hrun.
  run Hrun as u w0 E. unfold _mcc172_lib_init, modify in E.
  assert (Hw0 : w0 = if _mcc172_lib_initialized w then w
                     else set_initialized true (set_devices ∅ w))
    by (inversion E; reflexivity).
  clear E.
  assert (Hinit : _mcc172_lib_initialized w0 = true)
    by (subst w0; destruct (_mcc172_lib_initialized w) eqn:Hi;
        [exact Hi|reflexivity]).
  assert (Hdevs : _devices w0 = devices_at_open w)
    by (subst w0; unfold devices_at_open;
        destruct (_mcc172_lib_initialized w); reflexivity).
  clear Hw0.
  destruct (address >=? MAX_NUMBER_HATS) eqn:Haddr; [discriminate|].
  rewrite Z.geb_leb in Haddr. apply Z.leb_gt in Haddr.
  split; [exact Haddr|].
  run Hrun as d w1 E. unfold device in E. inversion E; subst d w1; clear E.
  rewrite <- Hdevs.
  run Hrun as early w2 E.
  destruct (_devices w0 !! address) as [dev|] eqn:Hdev.
  - (* a further open *)
    run E as u' w3 E'. unfold store_device, modify in E'.
    inversion E'; subst u' w3; clear E'. inversion E; subst early w2; clear E.
    destruct (id_handshake_success 2 address _ w'
                (set_handle_count (u16 (handle_count dev + 1)) dev) Hrun)
      as (Hi & (v & Hdev') & Hothers).
    { cbn. apply lookup_insert_eq. }
    cbn in Hi, Hothers. split; [congruence|].
    eexists. split; [exact Hdev'|]. split.
    + intros a Ha. rewrite (Hothers a Ha). apply lookup_insert_ne. congruence.
    + repeat split.
  - (* the first open *)
    apply open_first_effect in E. destruct E as (Hi2 & _ & Hcase).
    destruct early as [err|].
    { inversion Hrun; subst err.
      destruct Hcase as [(Hne & _)|(Hne & _)]; discriminate. }
    destruct Hcase as (dev1 & Hd2 & Hcount & _ & Hfd & Hscan & Harr).
    destruct (id_handshake_success 2 address w2 w' dev1 Hrun)
      as (Hi & (v & Hdev') & Hothers).
    { rewrite Hd2. apply lookup_insert_eq. }
    split; [congruence|].
    eexists. split; [exact Hdev'|]. split.
    + intros a Ha. rewrite (Hothers a Ha), Hd2.
      apply lookup_insert_ne. congruence.
    + cbn. split; [exact Hcount|]. split; [exact Hfd|].
      split; [exact Hscan|exact Harr].
Qed.

(** The device that a successful [mcc172_open] leaves at the address. The
    library is initialised and the address is valid. On a first open the
    device has one handle, no scan session, the descriptor [open] returned
    (not negative) and factory data with both coefficient arrays; on a later
    open the handle count is one more (modulo 2^16) and the descriptor, the
    factory data and the scan session are those of the device that was
    open. No other address changes. *)
Theorem open_success_registers_device `{H : DaqhatsH} (address : Z)
    (w w' : World) :
  mcc172_open address w = Some (RESULT_SUCCESS, w') ->
  address < MAX_NUMBER_HATS
  /\ _mcc172_lib_initialized w' = true
  /\ exists dev',
       _devices w' !! address = Some dev'
       /\ (forall a, a <> address ->
                     _devices w' !! a = devices_at_open w !! a)
       /\ match devices_at_open w !! address with
          | Some dev =>
              handle_count dev' = u16 (handle_count dev + 1)
              /\ spi_fd dev' = spi_fd dev
              /\ factory_data dev' = factory_data dev
              /\ scan_info dev' = scan_info dev
          | None =>
              handle_count dev' = 1 /\ 0 <= spi_fd dev'
              /\ scan_info dev' = None
              /\ coefficient_arrays (factory_data dev')
          end.
Proof. apply mcc172_open_success. Qed.

Lemma open_success_registers_device_witness :
  exists w' dev',
    mcc172_open (H := sample_header) 0 (closed_world [silent; silent])
    = Some (RESULT_SUCCESS, w')
    /\ _devices w' !! 0 = Some dev'
    /\ handle_count dev' = 1 /\ scan_info dev' = None.
Proof.
  destruct (mcc172_open (H := sample_header) 0 (closed_world [silent; silent]))
    as [[r w']|] eqn:Hrun; [|vm_compute in Hrun; discriminate].
  assert (Hr : r = RESULT_SUCCESS)
    by (vm_compute in Hrun; inversion Hrun; reflexivity).
  subst r.
  destruct (open_success_registers_device (H := sample_header) 0 _ w' Hrun)
    as (_ & _ & dev' & Hdev' & _ & Hcase).
  change (devices_at_open (closed_world [silent; silent]) !! 0)
    with (@None mcc172Device) in Hcase.
  destruct Hcase as (Hcount & _ & Hscan & _).
  exists w', dev'. auto.
Defined.

(** ** What the producer thread leaves alone *)

(** Two worlds that differ, as far as the driver's variables go, at most in
    the scan session of the device at [address] and in the threads. *)
Definition session_frame (address : Z) (w w' : World) : Prop :=
  _mcc172_lib_initialized w' = _mcc172_lib_initialized w
  /\ (forall a, a <> address -> _devices w' !! a = _devices w !! a)
  /\ (set_scan_info None <$> _devices w' !! address)
     = (set_scan_info None <$> _devices w !! address)
  /\ (forall a, a <> address -> threads w' !! a = threads w !! a).

(** Every run of [m] relates the world before to the world after by [R]. *)
Definition preserves {A} (R : World -> World -> Prop) (m : M A) : Prop :=
  forall w a w', m w = Some (a, w') -> R w w'.

Section Frame.

Context `{H : DaqhatsH}.

Variable address : Z.

Lemma session_frame_refl (w : World) : session_frame address w w.
Proof. repeat split. Qed.

Lemma session_frame_trans (w1 w2 w3 : World) :
  session_frame address w1 w2 -> session_frame address w2 w3 ->
  session_frame address w1 w3.
Proof.
  intros (Hi1 & Ho1 & Ha1 & Ht1) (Hi2 & Ho2 & Ha2 & Ht2).
  split; [congruence|]. split; [|split].
  - intros a Ha. rewrite Ho2, Ho1 by exact Ha. reflexivity.
  - congruence.
  - intros a Ha. rewrite Ht2, Ht1 by exact Ha. reflexivity.
Qed.

Lemma same_state_frame (w w' : World) :
  same_driver_state w w' -> session_frame address w w'.
Proof.
  intros (Hd & Hi & Ht). split; [exact Hi|]. rewrite Hd, Ht.
  repeat split.
Qed.

Lemma frame_ret {A} (a : A) : preserves (session_frame address) (ret a).
Proof. intros w a' w' Hr. inversion Hr. apply session_frame_refl. Qed.

Lemma frame_undefined {A} :
  preserves (session_frame address) (@undefined A).
Proof. intros w a w' Hr. discriminate. Qed.

Lemma frame_bind {A B} (m : M A) (k : A -> M B) :
  preserves (session_frame address) m ->
  (forall a, preserves (session_frame address) (k a)) ->
  preserves (session_frame address) (bind m k).
Proof.
  intros Hm Hk w b w' Hrun. unfold bind in Hrun.
  destruct (m w) as [[a w1]|] eqn:E; [|discriminate].
  eapply session_frame_trans; [exact (Hm _ _ _ E)|exact (Hk _ _ _ _ Hrun)].
Qed.

Lemma frame_get : preserves (session_frame address) get.
Proof. intros w a w' Hr. inversion Hr. apply session_frame_refl. Qed.

Lemma frame_pop {A} (script : Environment -> list A)
    (rest : list A -> Environment -> Environment) :
  preserves (session_frame address) (pop script rest).
Proof.
  intros w a w' Hr. apply same_state_frame. eapply pop_same_state. exact Hr.
Qed.

Lemma frame_spi_transfer (command : byte) (tx_data : option (list byte))
    (tx_data_count : Z) (rx_data : option (list byte)) (rx_data_count : Z)
    (reply_timeout_us retry_us : Z) :
  preserves (session_frame address)
    (_spi_transfer address command tx_data tx_data_count rx_data
       rx_data_count reply_timeout_us retry_us).
Proof.
  intros w a w' Hr. apply same_state_frame.
  eapply spi_transfer_same_state. exact Hr.
Qed.

Lemma frame_the_info : preserves (session_frame address) (the_info address).
Proof.
  intros w a w' Hr. apply the_info_session in Hr. destruct Hr as (-> & _).
  apply session_frame_refl.
Qed.

Lemma frame_the_device :
  preserves (session_frame address) (the_device address).
Proof.
  intros w a w' Hr. unfold the_device in Hr.
  destruct (_devices w !! address); inversion Hr. apply session_frame_refl.
Qed.

Lemma frame_update_info (f : mcc172ScanThreadInfo -> mcc172ScanThreadInfo) :
  preserves (session_frame address) (update_info address f).
Proof.
  intros w u w' Hr. apply update_info_spec in Hr.
  destruct Hr as (dev & info & Hdev & Hinfo & ->).
  split; [reflexivity|]. cbn. split; [|split].
  - intros a Ha. apply lookup_insert_ne. congruence.
  - rewrite lookup_insert_eq, Hdev. reflexivity.
  - reflexivity.
Qed.

Lemma frame_set_thread_pc (pc : ThreadPc) :
  preserves (session_frame address) (set_thread_pc address pc).
Proof.
  intros w u w' Hr. unfold set_thread_pc, modify in Hr. inversion Hr.
  repeat split. intros a Ha. cbn. apply lookup_insert_ne. congruence.
Qed.

Lemma frame_thread_pc : preserves (session_frame address) (thread_pc address).
Proof. intros w u w' Hr. inversion Hr. apply session_frame_refl. Qed.

Lemma frame_drop_session :
  preserves (session_frame address) (drop_session address).
Proof.
  intros w u w' Hr. unfold drop_session, bind, the_device in Hr.
  destruct (_devices w !! address) as [dev|] eqn:Hdev; [|discriminate].
  unfold store_device, modify in Hr. inversion Hr.
  split; [reflexivity|]. cbn. split; [|split].
  - intros a Ha. apply lookup_insert_ne. congruence.
  - rewrite lookup_insert_eq, Hdev. reflexivity.
  - reflexivity.
Qed.

(** One rule of the frame per construct of driver code. *)
Ltac frame :=
  repeat first
    [ apply frame_ret | apply frame_undefined | apply frame_get
    | apply frame_pop | apply frame_spi_transfer | apply frame_the_info
    | apply frame_the_device | apply frame_update_info
    | apply frame_set_thread_pc | apply frame_thread_pc
    | apply frame_drop_session
    | assumption
    | apply frame_bind; [|intros ?]
    | match goal with
      | |- preserves _ (if ?c then _ else _) => destruct c
      | |- preserves _ (match ?x with _ => _ end) => destruct x
      end ].

Lemma frame_scan_stop :
  preserves (session_frame address) (mcc172_a_in_scan_stop address).
Proof. unfold mcc172_a_in_scan_stop. frame. Qed.

Lemma frame_read_scan_data (sample_count : Z) (scaled calibrated : bool)
    (buffer : option Z) :
  preserves (session_frame address)
    (_a_in_read_scan_data address sample_count scaled calibrated buffer).
Proof. unfold _a_in_read_scan_data, calloc. frame. Qed.

Lemma frame_scan_thread_round (l : ThreadLocals) :
  preserves (session_frame address) (scan_thread_round address l).
Proof.
  pose proof frame_read_scan_data. unfold scan_thread_round. frame.
Qed.

Lemma frame_scan_thread_entry :
  preserves (session_frame address) (scan_thread_entry address).
Proof. unfold scan_thread_entry. frame. Qed.

Lemma frame_scan_thread_exit :
  preserves (session_frame address) (scan_thread_exit address).
Proof. pose proof frame_scan_stop. unfold scan_thread_exit. frame. Qed.

Lemma frame_scan_thread_step :
  preserves (session_frame address) (scan_thread_step address).
Proof.
  pose proof frame_scan_thread_round. pose proof frame_scan_thread_entry.
  pose proof frame_scan_thread_exit. unfold scan_thread_step. frame.
Qed.

Lemma frame_scan_thread_steps (n : nat) :
  preserves (session_frame address) (scan_thread_steps n address).
Proof.
  pose proof frame_scan_thread_step.
  induction n as [|n IH]; cbn [scan_thread_steps]; frame.
Qed.

Lemma frame_run_to_exit (steps : nat) :
  preserves (session_frame address) (run_to_exit steps address).
Proof.
  pose proof frame_scan_thread_step.
  induction steps as [|steps IH]; cbn [run_to_exit]; frame.
Qed.

End Frame.

(** The frame rules, for use outside the section. *)
Ltac session_frame :=
  repeat first
    [ apply frame_ret | apply frame_undefined | apply frame_get
    | apply frame_pop | apply frame_spi_transfer | apply frame_the_info
    | apply frame_the_device | apply frame_update_info
    | apply frame_set_thread_pc | apply frame_thread_pc
    | apply frame_drop_session | apply frame_scan_stop
    | apply frame_read_scan_data | apply frame_scan_thread_step
    | apply frame_scan_thread_steps | apply frame_run_to_exit
    | assumption
    | apply frame_bind; [|intros ?]
    | match goal with
      | |- preserves _ (if ?c then _ else _) => destruct c
      | |- preserves _ (match ?x with _ => _ end) => destruct x
      end ].

(** The producer thread works on its scan session alone. Whatever number of
    scheduling steps the thread of [address] takes, the library flag, every
    other device, the threads of other addresses and, of the device itself,
    the handle count, the firmware version, the SPI descriptor, the trigger
    settings and the factory data are as before. *)
Theorem scan_thread_touches_only_session `{H : DaqhatsH} (address : Z)
    (n : nat) (w w' : World) :
  scan_thread_steps n address w = Some (tt, w') ->
  session_frame address w w'.
Proof. intros Hrun. exact (frame_scan_thread_steps address n _ _ _ Hrun). Qed.

Lemma scan_thread_touches_only_session_witness :
  exists w',
    scan_thread_steps (H := sample_header) 1 0 nearly_full_world
    = Some (tt, w')
    /\ session_frame 0 nearly_full_world w'.
Proof.
  destruct (scan_thread_steps (H := sample_header) 1 0 nearly_full_world)
    as [[[] w']|] eqn:Hrun; [|vm_compute in Hrun; discriminate].
  exists w'. split; [reflexivity|].
  exact (scan_thread_touches_only_session (H := sample_header) 0 1 _ _ Hrun).
Defined.

(** ** Ending a scan and closing a device *)

Section Close.

Context `{H : DaqhatsH}.

Lemma frame_scan_cleanup (address : Z) :
  preserves (session_frame address) (mcc172_a_in_scan_cleanup address).
Proof. unfold mcc172_a_in_scan_cleanup, pthread_join. session_frame. Qed.

Lemma scan_info_none_eta (dev : mcc172Device) :
  scan_info dev = None -> set_scan_info None dev = dev.
Proof. destruct dev. cbn. intros ->. reflexivity. Qed.

Lemma run_to_exit_pc (steps : nat) :
  forall (address : Z) (w w' : World) (u : unit),
    run_to_exit steps address w = Some (u, w') ->
    threads w' !! address = Some ThreadExit.
Proof.
  induction steps as [|steps IH]; intros address w w' u Hrun;
    [discriminate|].
  cbn [run_to_exit] in Hrun. run Hrun as u1 w1 E. clear E.
  run Hrun as pc w2 E. unfold thread_pc in E. inversion E; subst pc w2.
  destruct (threads w1 !! address) as [[|l|]|] eqn:Hpc;
    try (eapply IH; exact Hrun).
  inversion Hrun; subst. exact Hpc.
Qed.

(** [mcc172_a_in_scan_cleanup] on a valid address: Success, the device
    without a scan session and otherwise as it was; when a thread had been
    created it has returned. *)
Lemma scan_cleanup_effect (address : Z) (w w' : World) (r : ResultCode)
    (dev : mcc172Device) :
  _check_addr address w = true ->
  _devices w !! address = Some dev ->
  mcc172_a_in_scan_cleanup address w = Some (r, w') ->
  r = RESULT_SUCCESS
  /\ session_frame address w w'
  /\ _devices w' !! address = Some (set_scan_info None dev)
  /\ (forall info, scan_info dev = Some info -> handle info <> 0 ->
                   threads w' !! address = Some ThreadExit).
Proof.
  intros Hcheck Hdev Hrun.
  pose proof (frame_scan_cleanup address _ _ _ Hrun) as Hframe.
  unfold mcc172_a_in_scan_cleanup in Hrun.
  unfold bind at 1, get in Hrun. rewrite Hcheck in Hrun. cbn [negb] in Hrun.
  run Hrun as d w1 E. unfold the_device in E. rewrite Hdev in E.
  inversion E; subst d w1; clear E.
  run Hrun as u w2 E. inversion Hrun; subst r w2; clear Hrun.
  split; [reflexivity|]. split; [exact Hframe|].
  assert (Hlast : (exists dev', _devices w' !! address = Some dev'
                                /\ scan_info dev' = None)
                  /\ (forall info, scan_info dev = Some info ->
                                   handle info <> 0 ->
                                   threads w' !! address = Some ThreadExit)).
  { destruct (scan_info dev) as [info|] eqn:Hinfo.
    - run E as u1 w3 E1. split.
      + unfold drop_session, bind, the_device in E.
        destruct (_devices w3 !! address) as [d3|]; [|discriminate].
        unfold store_device, modify in E. inversion E; subst.
        eexists. cbn. rewrite lookup_insert_eq. split; reflexivity.
      + intros info' Hinfo' Hhandle. inversion Hinfo'; subst info'.
        assert (Ht : threads w' = threads w3).
        { unfold drop_session, bind, the_device in E.
          destruct (_devices w3 !! address) as [d3|]; [|discriminate].
          unfold store_device, modify in E. inversion E; subst. reflexivity. }
        rewrite Ht.
        destruct (Z.eqb_spec (handle info) 0) as [|_]; [contradiction|].
        cbn [negb] in E1.
        run E1 as u2 w4 E2. run E1 as u3 w5 E3.
        apply update_info_spec in E1.
        destruct E1 as (? & ? & _ & _ & ->). cbn.
        eapply run_to_exit_pc. exact E3.
    - inversion E; subst. split; [|discriminate].
      exists dev. auto. }
  destruct Hlast as ((dev' & Hdev' & Hnone) & Hthread).
  split; [|exact Hthread].
  destruct Hframe as (_ & _ & Hsame & _).
  rewrite Hdev', Hdev in Hsame. cbn [fmap option_fmap option_map] in Hsame.
  rewrite Hdev'. rewrite <- (scan_info_none_eta dev' Hnone). exact Hsame.
Qed.

(** [mcc172_close] on a valid address: the scan session is freed, one handle
    is released, and the device is removed when that was the last one. *)
Lemma close_effect (address : Z) (w w' : World) (r : ResultCode)
    (dev : mcc172Device) :
  _check_addr address w = true ->
  _devices w !! address = Some dev ->
  mcc172_close address w = Some (r, w') ->
  r = RESULT_SUCCESS
  /\ _mcc172_lib_initialized w' = _mcc172_lib_initialized w
  /\ (forall a, a <> address -> _devices w' !! a = _devices w !! a)
  /\ _devices w' !! address
     = if u16 (handle_count dev - 1) =? 0 then None
       else Some (set_handle_count (u16 (handle_count dev - 1))
                    (set_scan_info None dev)).
Proof.
  intros Hcheck Hdev Hrun. unfold mcc172_close in Hrun.
  unfold bind at 1, get in Hrun. rewrite Hcheck in Hrun. cbn [negb] in Hrun.
  run Hrun as r1 w1 E.
  destruct (scan_cleanup_effect address w w1 r1 dev Hcheck Hdev E)
    as (_ & (Hi & Hothers & _ & _) & Hdev1 & _).
  clear E.
  run Hrun as d w2 E. unfold the_device in E. rewrite Hdev1 in E.
  inversion E; subst d w2; clear E.
  run Hrun as u w2 E. unfold store_device, modify in E.
  inversion E; subst u w2; clear E.
  run Hrun as u w2 E. inversion Hrun; subst r w2; clear Hrun.
  split; [reflexivity|]. cbn [handle_count set_handle_count] in E.
  destruct (u16 (handle_count (set_scan_info None dev) - 1) =? 0) eqn:Hz;
    cbn [handle_count set_scan_info] in Hz; rewrite Hz.
  - unfold clear_device, modify in E. inversion E; subst. cbn.
    split; [exact Hi|]. split.
    + intros a Ha. rewrite lookup_delete_ne, lookup_insert_ne by congruence.
      apply Hothers. exact Ha.
    + apply lookup_delete_eq.
  - inversion E; subst. cbn. split; [exact Hi|]. split.
    + intros a Ha. rewrite lookup_insert_ne by congruence.
      apply Hothers. exact Ha.
    + apply lookup_insert_eq.
Qed.

(** With no scan session there is no thread to wait for, and
    [mcc172_close] returns. *)
Lemma close_idle_returns (address : Z) (w : World) (dev : mcc172Device) :
  _check_addr address w = true ->
  _devices w !! address = Some dev ->
  scan_info dev = None ->
  exists w', mcc172_close address w = Some (RESULT_SUCCESS, w').
Proof.
  intros Hcheck Hdev Hscan. unfold mcc172_close.
  unfold bind at 1, get. rewrite Hcheck. cbn [negb].
  unfold mcc172_a_in_scan_cleanup.
  unfold bind at 1, bind at 1, get. rewrite Hcheck. cbn [negb].
  unfold bind at 1, the_device at 1. rewrite Hdev, Hscan.
  unfold bind at 1, ret at 1. unfold ret at 1.
  unfold bind at 1, the_device. rewrite Hdev.
  unfold bind at 1, store_device, modify.
  unfold bind at 1.
  destruct (handle_count _ =? 0); unfold clear_device, modify, ret;
    eexists; reflexivity.
Qed.

End Close.

Lemma check_addr_true `{H : DaqhatsH} (address : Z) (w : World) :
  _check_addr address w = true
  <-> address < MAX_NUMBER_HATS
      /\ _mcc172_lib_initialized w = true
      /\ exists dev, _devices w !! address = Some dev /\ 0 <= spi_fd dev.
Proof.
  unfold _check_addr.
  destruct (Z.geb_spec address MAX_NUMBER_HATS) as [Hge|Hlt]; cbn [orb].
  { split; [discriminate|]. intros (? & _). lia. }
  destruct (_mcc172_lib_initialized w); cbn [negb orb].
  2:{ split; [discriminate|]. intros (_ & ? & _). discriminate. }
  destruct (_devices w !! address) as [dev|].
  2:{ split; [discriminate|]. intros (_ & _ & ? & ? & _). discriminate. }
  destruct (Z.ltb_spec (spi_fd dev) 0) as [Hneg|Hpos].
  - split; [discriminate|]. intros (_ & _ & dev' & Heq & ?).
    inversion Heq; subst. lia.
  - split; [|reflexivity]. intros _. repeat split; auto. exists dev. auto.
Qed.

(** [mcc172_a_in_scan_cleanup] ends the scan. On a valid address it returns
    Success; the device is left without a scan session and otherwise as it
    was; a thread that had been created has returned; and from then on
    [mcc172_a_in_scan_channel_count] returns 0 and [mcc172_a_in_scan_status]
    returns ResourceUnavail with a status word of 0 and a depth of 0. *)
Theorem scan_cleanup_frees_session `{H : DaqhatsH} (address : Z)
    (w w' : World) (r : ResultCode) (dev : mcc172Device) :
  _check_addr address w = true ->
  _devices w !! address = Some dev ->
  mcc172_a_in_scan_cleanup address w = Some (r, w') ->
  r = RESULT_SUCCESS
  /\ _devices w' !! address = Some (set_scan_info None dev)
  /\ (forall info, scan_info dev = Some info -> handle info <> 0 ->
                   threads w' !! address = Some ThreadExit)
  /\ mcc172_a_in_scan_channel_count address w' = Some (0, w')
  /\ (forall status samples_per_channel,
        mcc172_a_in_scan_status address (Some status) samples_per_channel w'
        = Some ((RESULT_RESOURCE_UNAVAIL,
                 (Some 0, (fun _ => 0) <$> samples_per_channel)), w')).
Proof.
  intros Hcheck Hdev Hrun.
  destruct (scan_cleanup_effect address w w' r dev Hcheck Hdev Hrun)
    as (Hr & (Hi & _) & Hdev' & Hthread).
  assert (Hcheck' : _check_addr address w' = true).
  { apply check_addr_true in Hcheck.
    destruct Hcheck as (Ha & Hinit & dev0 & Hdev0 & Hfd).
    rewrite Hdev in Hdev0. inversion Hdev0; subst dev0.
    apply check_addr_true. split; [exact Ha|]. split; [congruence|].
    exists (set_scan_info None dev). auto. }
  repeat split; auto.
  - unfold mcc172_a_in_scan_channel_count, bind, get, the_device.
    rewrite Hcheck'. cbn. rewrite Hdev'. reflexivity.
  - intros status samples_per_channel.
    unfold mcc172_a_in_scan_status, bind, get, the_device.
    rewrite Hcheck'. cbn. rewrite Hdev'. reflexivity.
Qed.

Lemma scan_cleanup_frees_session_witness :
  exists w',
    mcc172_a_in_scan_cleanup (H := sample_header) 0
      (scanning_world sample_session [answers [xdb; x14; x00; x00; x00]])
    = Some (RESULT_SUCCESS, w')
    /\ _devices w' !! 0 = Some open_device
    /\ threads w' !! 0 = Some ThreadExit.
Proof.
  destruct (mcc172_a_in_scan_cleanup (H := sample_header) 0
              (scanning_world sample_session
                 [answers [xdb; x14; x00; x00; x00]]))
    as [[r w']|] eqn:Hrun; [|vm_compute in Hrun; discriminate].
  destruct (scan_cleanup_frees_session (H := sample_header) 0
              (scanning_world sample_session
                 [answers [xdb; x14; x00; x00; x00]]) w' r
              (set_scan_info (Some sample_session) open_device)
              eq_refl eq_refl Hrun) as (-> & Hdev' & Hthread & _).
  exists w'. split; [reflexivity|]. split; [exact Hdev'|].
  apply (Hthread sample_session eq_refl). discriminate.
Defined.

(** [mcc172_close] on a valid address always returns Success when it
    returns: it frees the scan session whatever the number of handles,
    releases one handle, and removes the device when the count reaches 0,
    after which [mcc172_is_open] reports 0; no other address changes. With
    no scan session on the device the call does return. *)
Theorem close_releases_handle_and_scan `{H : DaqhatsH} (address : Z)
    (w : World) (dev : mcc172Device) :
  _check_addr address w = true ->
  _devices w !! address = Some dev ->
  let count := u16 (handle_count dev - 1) in
  (forall r w',
     mcc172_close address w = Some (r, w') ->
     r = RESULT_SUCCESS
     /\ (forall a, a <> address -> _devices w' !! a = _devices w !! a)
     /\ _devices w' !! address
        = (if count =? 0 then None
           else Some (set_handle_count count (set_scan_info None dev)))
     /\ mcc172_is_open address w'
        = Some (if count =? 0 then 0 else 1, w'))
  /\ (scan_info dev = None ->
      exists w', mcc172_close address w = Some (RESULT_SUCCESS, w')).
Proof.
  intros Hcheck Hdev count. split.
  - intros r w' Hrun.
    destruct (close_effect address w w' r dev Hcheck Hdev Hrun)
      as (Hr & _ & Hothers & Hdev').
    fold count in Hdev'.
    repeat split; auto.
    apply check_addr_true in Hcheck. destruct Hcheck as (Ha & _).
    unfold mcc172_is_open, bind, get. rewrite Hdev'.
    assert (Hlt : (address >=? MAX_NUMBER_HATS) = false)
      by (rewrite Z.geb_leb; apply Z.leb_gt; exact Ha).
    rewrite Hlt. destruct (count =? 0); reflexivity.
  - apply close_idle_returns; assumption.
Qed.

Lemma close_releases_handle_and_scan_witness :
  exists w',
    mcc172_close (H := sample_header) 0 (open_world [])
    = Some (RESULT_SUCCESS, w')
    /\ mcc172_is_open (H := sample_header) 0 w' = Some (0, w').
Proof.
  destruct (close_releases_handle_and_scan (H := sample_header) 0
              (open_world []) open_device eq_refl eq_refl)
    as (Heffect & Hruns).
  destruct (Hruns eq_refl) as (w' & Hrun).
  exists w'. split; [exact Hrun|].
  destruct (Heffect _ _ Hrun) as (_ & _ & _ & Hopen). exact Hopen.
Defined.

(** A failed [mcc172_open] leaves nothing behind. The only failures are
    BadParameter for an address out of range, and InvalidDevice or
    ResourceUnavail, after which no device is registered at the address:
    this holds also when the address was open before and the ID reply
    names another product. The transaction errors of the handshake
    (Timeout, LockTimeout, Undefined, ...) are never returned. *)
Theorem open_failure_leaves_closed `{H : DaqhatsH} (address : Z)
    (w w' : World) (r : ResultCode) :
  mcc172_open address w = Some (r, w') ->
  r <> RESULT_SUCCESS ->
  (r = RESULT_BAD_PARAMETER /\ MAX_NUMBER_HATS <= address)
  \/ ((r = RESULT_INVALID_DEVICE \/ r = RESULT_RESOURCE_UNAVAIL)
      /\ address < MAX_NUMBER_HATS
      /\ _devices w' !! address = None).
Proof.
  intros Hrun Hfail. unfold mcc172_open in Hrun.
  run Hrun as u w0 E. clear E.
  destruct (Z.geb_spec address MAX_NUMBER_HATS) as [Hge|Hlt].
  { inversion Hrun; subst. left. split; [reflexivity|lia]. }
  right.
  run Hrun as d w1 E. unfold device in E. inversion E; subst d w1; clear E.
  run Hrun as early w2 E.
  destruct (_devices w0 !! address) as [dev|] eqn:Hdev.
  - run E as u' w3 E'. unfold store_device, modify in E'.
    inversion E'; subst u' w3; clear E'. inversion E; subst early w2; clear E.
    apply id_handshake_effect in Hrun.
    destruct Hrun as (_ & _ & [(Hr & _)|(Hr & Hdel)]); [contradiction|].
    split; [left; exact Hr|]. split; [exact Hlt|].
    rewrite Hdel. apply lookup_delete_eq.
  - apply open_first_effect in E. destruct E as (_ & _ & Hcase).
    destruct early as [err|].
    + inversion Hrun; subst err w2.
      destruct Hcase as [(Hr & Hsame)|(Hr & Hdel)].
      * split; [left; exact Hr|]. split; [exact Hlt|]. congruence.
      * split; [right; exact Hr|]. split; [exact Hlt|].
        rewrite Hdel. apply lookup_delete_eq.
    + apply id_handshake_effect in Hrun.
      destruct Hrun as (_ & _ & [(Hr & _)|(Hr & Hdel)]); [contradiction|].
      split; [left; exact Hr|]. split; [exact Hlt|].
      rewrite Hdel. apply lookup_delete_eq.
Qed.

(** The SPI device cannot be opened. *)
Definition no_spidev_world : World :=
  {| _devices := ∅; _mcc172_lib_initialized := false; threads := ∅;
     env := set_spidev [-1] quiet_env |}.

Lemma open_failure_leaves_closed_witness :
  exists w',
    mcc172_open (H := sample_header) 0 no_spidev_world
    = Some (RESULT_RESOURCE_UNAVAIL, w')
    /\ _devices w' !! 0 = None.
Proof.
  destruct (mcc172_open (H := sample_header) 0 no_spidev_world)
    as [[r w']|] eqn:Hrun; [|vm_compute in Hrun; discriminate].
  assert (Hr : r = RESULT_RESOURCE_UNAVAIL)
    by (vm_compute in Hrun; inversion Hrun; reflexivity).
  subst r. exists w'. split; [reflexivity|].
  destruct (open_failure_leaves_closed (H := sample_header) 0
              no_spidev_world w' RESULT_RESOURCE_UNAVAIL Hrun
              ltac:(discriminate))
    as [(Hbad & _)|(_ & _ & Hclosed)]; [discriminate|exact Hclosed].
Defined.

(** Open and close are balanced. After a successful [mcc172_open],
    [mcc172_close] returns Success and puts the handle count back: an
    address that was closed is closed again, and a device that was open
    (with no scan in progress) has the number of handles it had. No other
    address changes. *)
Theorem open_then_close_balanced `{H : DaqhatsH} (address : Z)
    (w w1 : World) :
  mcc172_open address w = Some (RESULT_SUCCESS, w1) ->
  (forall dev, devices_at_open w !! address = Some dev ->
               scan_info dev = None /\ 0 <= spi_fd dev
               /\ 1 <= handle_count dev <= 65535) ->
  exists w2,
    mcc172_close address w1 = Some (RESULT_SUCCESS, w2)
    /\ (handle_count <$> _devices w2 !! address)
       = (handle_count <$> devices_at_open w !! address)
    /\ (forall a, a <> address ->
                  _devices w2 !! a = devices_at_open w !! a).
Proof.
  intros Hopen Hwf.
  destruct (mcc172_open_success address w w1 Hopen)
    as (Ha & Hinit & dev1 & Hdev1 & Hothers & Hcase).
  assert (Hfacts :
    scan_info dev1 = None /\ 0 <= spi_fd dev1
    /\ (handle_count <$>
          (if u16 (handle_count dev1 - 1) =? 0 then None
           else Some (set_handle_count (u16 (handle_count dev1 - 1))
                        (set_scan_info None dev1))))
       = (handle_count <$> devices_at_open w !! address)).
  { destruct (devices_at_open w !! address) as [dev|] eqn:Hdev.
    - destruct (Hwf dev eq_refl) as (Hscan & Hfd & Hcount).
      destruct Hcase as (Hc & Hf & _ & Hs).
      split; [congruence|]. split; [lia|].
      rewrite Hc.
      assert (Hback : u16 (u16 (handle_count dev + 1) - 1) = handle_count dev).
      { unfold u16, wrap. change (2 ^ 16) with 65536.
        destruct (Z.eq_dec (handle_count dev) 65535) as [->|Hne];
          [reflexivity|].
        rewrite (Z.mod_small (handle_count dev + 1)) by lia.
        replace (handle_count dev + 1 - 1) with (handle_count dev) by lia.
        apply Z.mod_small. lia. }
      rewrite Hback.
      destruct (Z.eqb_spec (handle_count dev) 0) as [|_]; [lia|].
      reflexivity.
    - destruct Hcase as (Hc & Hf & Hs & _).
      split; [exact Hs|]. split; [exact Hf|]. rewrite Hc. reflexivity. }
  destruct Hfacts as (Hscan & Hfd & Hcount).
  assert (Hcheck : _check_addr address w1 = true).
  { apply check_addr_true. split; [exact Ha|]. split; [exact Hinit|].
    exists dev1. auto. }
  destruct (close_idle_returns address w1 dev1 Hcheck Hdev1 Hscan)
    as (w2 & Hclose).
  exists w2. split; [exact Hclose|].
  destruct (close_effect address w1 w2 _ dev1 Hcheck Hdev1 Hclose)
    as (_ & _ & Hothers2 & Hdev2).
  split.
  - rewrite Hdev2. exact Hcount.
  - intros a Hne. rewrite (Hothers2 a Hne). apply Hothers. exact Hne.
Qed.

Lemma open_then_close_balanced_witness :
  exists w1 w2,
    mcc172_open (H := sample_header) 0 (closed_world [silent; silent])
    = Some (RESULT_SUCCESS, w1)
    /\ mcc172_close (H := sample_header) 0 w1 = Some (RESULT_SUCCESS, w2)
    /\ (handle_count <$> _devices w2 !! 0) = None.
Proof.
  destruct (mcc172_open (H := sample_header) 0 (closed_world [silent; silent]))
    as [[r w1]|] eqn:Hrun; [|vm_compute in Hrun; discriminate].
  assert (Hr : r = RESULT_SUCCESS)
    by (vm_compute in Hrun; inversion Hrun; reflexivity).
  subst r.
  destruct (open_then_close_balanced (H := sample_header) 0
              (closed_world [silent; silent]) w1 Hrun)
    as (w2 & Hclose & Hcount & _).
  { intros dev Hdev. discriminate Hdev. }
  exists w1, w2. auto.
Defined.

(** ** Calibration coefficients and identification strings *)

Section Coefficients.

Context `{H : DaqhatsH}.

Lemma float_at_insert (l : list float) (i j : Z) (x : float) :
  0 <= i -> 0 <= j -> Z.of_nat (length l) > i ->
  float_at (<[Z.to_nat i := x]> l) j
  = if j =? i then x else float_at l j.
Proof.
  intros Hi Hj Hlen. unfold float_at.
  destruct (Z.eqb_spec j i) as [->|Hne].
  - rewrite list_lookup_insert_eq by lia. reflexivity.
  - rewrite list_lookup_insert_ne by lia. reflexivity.
Qed.

Lemma coefficient_read_runs (address channel : Z) (s o : float) (w : World)
    (dev : mcc172Device) :
  _check_addr address w = true ->
  _devices w !! address = Some dev ->
  channel < NUM_CHANNELS ->
  mcc172_calibration_coefficient_read address channel (Some s) (Some o) w
  = Some ((RESULT_SUCCESS,
           (Some (float_at (Factory.slopes (factory_data dev)) channel),
            Some (float_at (Factory.offsets (factory_data dev)) channel))),
          w).
Proof.
  intros Hcheck Hdev Hch.
  unfold mcc172_calibration_coefficient_read, bind, get.
  rewrite Hcheck.
  assert (Hlt : (channel >=? NUM_CHANNELS) = false)
    by (rewrite Z.geb_leb; apply Z.leb_gt; exact Hch).
  rewrite Hlt. cbn. unfold the_device. rewrite Hdev. reflexivity.
Qed.

End Coefficients.

(** Coefficients written are the coefficients read. After a successful
    [mcc172_calibration_coefficient_write] for a channel, and with no scan
    having been started, [mcc172_calibration_coefficient_read] returns the
    written slope and offset for that channel and, for the other channel,
    what it returned before the write. *)
Theorem coefficient_write_then_read `{H : DaqhatsH} (address channel : Z)
    (slope offset : float) (w w' : World) (dev : mcc172Device) :
  mcc172_calibration_coefficient_write address channel slope offset w
  = Some (RESULT_SUCCESS, w') ->
  _devices w !! address = Some dev ->
  coefficient_arrays (factory_data dev) ->
  0 <= channel ->
  forall (ch : Z) (s o : float),
    0 <= ch < NUM_CHANNELS ->
    mcc172_calibration_coefficient_read address ch (Some s) (Some o) w
    = Some ((RESULT_SUCCESS,
             (Some (float_at (Factory.slopes (factory_data dev)) ch),
              Some (float_at (Factory.offsets (factory_data dev)) ch))), w)
    /\ mcc172_calibration_coefficient_read address ch (Some s) (Some o) w'
       = Some ((RESULT_SUCCESS,
                (Some (if ch =? channel then slope
                       else float_at (Factory.slopes (factory_data dev)) ch),
                 Some (if ch =? channel then offset
                       else float_at (Factory.offsets (factory_data dev)) ch))),
               w').
Proof.
  intros Hrun Hdev (Hls & Hlo) Hch0 ch s o Hch.
  unfold mcc172_calibration_coefficient_write in Hrun.
  unfold bind at 1, get in Hrun.
  destruct (_check_addr address w) eqn:Hcheck; [|discriminate].
  destruct (Z.geb_spec channel NUM_CHANNELS) as [|Hlt]; [discriminate|].
  cbn [negb orb] in Hrun.
  run Hrun as d w1 E. unfold the_device in E. rewrite Hdev in E.
  inversion E; subst d w1; clear E.
  destruct (negb (is_null (scan_info dev))); [discriminate|].
  run Hrun as u w1 E. unfold store_device, modify in E.
  inversion E; subst u w1; clear E. inversion Hrun; subst w'; clear Hrun.
  split; [apply coefficient_read_runs; auto; lia|].
  rewrite (coefficient_read_runs address ch s o _
             (set_factory_data
                (Factory.mk_factory_data (Factory.serial (factory_data dev))
                   (Factory.cal_date (factory_data dev))
                   (<[Z.to_nat channel := slope]>
                      (Factory.slopes (factory_data dev)))
                   (<[Z.to_nat channel := offset]>
                      (Factory.offsets (factory_data dev))))
                dev)).
  - cbn [factory_data set_factory_data Factory.slopes Factory.offsets].
    rewrite !float_at_insert by (unfold NUM_CHANNELS in *; lia).
    reflexivity.
  - apply check_addr_true in Hcheck.
    destruct Hcheck as (Ha & Hinit & dev0 & Hdev0 & Hfd).
    rewrite Hdev in Hdev0. inversion Hdev0; subst dev0.
    apply check_addr_true. split; [exact Ha|]. split; [exact Hinit|].
    eexists. cbn. rewrite lookup_insert_eq. split; [reflexivity|exact Hfd].
  - cbn. apply lookup_insert_eq.
  - lia.
Qed.

Lemma coefficient_write_then_read_witness :
  exists w',
    mcc172_calibration_coefficient_write (H := sample_header) 0 1
      1.5%float 0.25%float (open_world [])
    = Some (RESULT_SUCCESS, w')
    /\ mcc172_calibration_coefficient_read (H := sample_header) 0 1
         (Some 0%float) (Some 0%float) w'
       = Some ((RESULT_SUCCESS, (Some 1.5%float, Some 0.25%float)), w')
    /\ mcc172_calibration_coefficient_read (H := sample_header) 0 0
         (Some 0%float) (Some 0%float) w'
       = Some ((RESULT_SUCCESS, (Some 1%float, Some 0%float)), w').
Proof.
  destruct (mcc172_calibration_coefficient_write (H := sample_header) 0 1
              1.5%float 0.25%float (open_world []))
    as [[r w']|] eqn:Hrun; [|vm_compute in Hrun; discriminate].
  assert (Hr : r = RESULT_SUCCESS)
    by (vm_compute in Hrun; inversion Hrun; reflexivity).
  subst r. exists w'. split; [reflexivity|].
  pose proof (coefficient_write_then_read (H := sample_header) 0 1
                1.5%float 0.25%float (open_world []) w' open_device Hrun
                eq_refl (conj eq_refl eq_refl) ltac:(lia)) as Hread.
  split.
  - exact (proj2 (Hread 1 0%float 0%float ltac:(vm_compute; split; congruence))).
  - exact (proj2 (Hread 0 0%float 0%float ltac:(vm_compute; split; congruence))).
Defined.

(** ** From the EEPROM to the API *)

Lemma substring_all (s : string) :
  forall n : nat, (String.length s <= n)%nat -> substring 0 n s = s.
Proof.
  induction s as [|c s IH]; intros n Hn.
  - destruct n; reflexivity.
  - destruct n as [|n]; [cbn in Hn; lia|].
    cbn. rewrite IH by (cbn in Hn; lia). reflexivity.
Qed.

Lemma substring_length (s : string) :
  forall n : nat,
    String.length (substring 0 n s) = Nat.min n (String.length s).
Proof.
  induction s as [|c s IH]; intros n.
  - destruct n; reflexivity.
  - destruct n as [|n]; [reflexivity|]. cbn. rewrite IH. reflexivity.
Qed.

Section Eeprom.

Context `{H : DaqhatsH}.

Lemma calloc_keeps_parser (ok : bool) (w w' : World) :
  calloc w = Some (ok, w') -> cJSON_Parse (env w') = cJSON_Parse (env w).
Proof.
  unfold calloc, pop. destruct (heap (env w)); [discriminate|].
  intros Hr. inversion Hr. reflexivity.
Qed.

Lemma open_spidev_keeps_parser (fd : Z) (w w' : World) :
  open_spidev w = Some (fd, w') -> cJSON_Parse (env w') = cJSON_Parse (env w).
Proof.
  unfold open_spidev, pop. destruct (spidev (env w)); [discriminate|].
  intros Hr. inversion Hr. reflexivity.
Qed.

(** The factory data that the first-open branch stores: the decoded
    document when the EEPROM holds one, the defaults when the EEPROM holds
    nothing. *)
Lemma open_first_factory_data (address : Z) (w w' : World) :
  open_first address w = Some (None, w') ->
  exists dev,
    _devices w' !! address = Some dev
    /\ 0 <= spi_fd dev
    /\ (eeprom (env w) address = None ->
        factory_data dev = _set_defaults (factory_data zeroed_device))
    /\ (forall custom hp s d a b ms c e mo,
          eeprom (env w) address = Some (HAT_ID_MCC_172, custom) ->
          0 < u16 (Z.of_nat (length custom)) ->
          heap (env w) = true :: hp ->
          cJSON_Parse (env w) (Some custom)
          = Some (factory_document s d (a :: b :: ms) (c :: e :: mo)) ->
          factory_data dev
          = Factory.mk_factory_data (strncpy s SERIAL_SIZE)
              (strncpy d CAL_DATE_SIZE) [a; b] [c; e]).
Proof.
  unfold open_first. intros Hrun.
  run Hrun as r w1 E.
  assert (Hr :
    cJSON_Parse (env w1) = cJSON_Parse (env w)
    /\ (eeprom (env w) address = None -> r = inr (0, None))
    /\ (forall custom hp,
          eeprom (env w) address = Some (HAT_ID_MCC_172, custom) ->
          heap (env w) = true :: hp ->
          r = inr (u16 (Z.of_nat (length custom)), Some custom))).
  { unfold read_eeprom, bind, _hat_info in E.
    destruct (eeprom (env w) address) as [[id custom]|].
    - destruct (id =? HAT_ID_MCC_172) eqn:Hid.
      + destruct (calloc w) as [[ok w2]|] eqn:Ec; [|discriminate].
        inversion E; subst r w2; clear E.
        split; [exact (calloc_keeps_parser _ _ _ Ec)|].
        split; [discriminate|].
        intros custom' hp Heq Hheap. inversion Heq; subst custom'.
        unfold calloc, pop in Ec. rewrite Hheap in Ec. inversion Ec.
        reflexivity.
      + inversion E; subst. split; [reflexivity|]. split; [discriminate|].
        intros custom' hp Heq. inversion Heq; subst.
        rewrite Z.eqb_refl in Hid. discriminate.
    - inversion E; subst. split; [reflexivity|]. split; [reflexivity|].
      discriminate. }
  clear E. destruct Hr as (Hp1 & Hnone & Hsome).
  destruct r as [err|[custom_size custom_data]]; [discriminate|].
  run Hrun as ok w2 E. pose proof (calloc_keeps_parser _ _ _ E) as Hp2.
  clear E. destruct ok; cbn [negb] in Hrun; [|discriminate].
  run Hrun as u w3 E. unfold store_device, modify in E.
  inversion E; subst u w3; clear E.
  run Hrun as fd w4 E. pose proof (open_spidev_keeps_parser _ _ _ E) as Hp4.
  cbn in Hp4. clear E.
  destruct (fd <? 0) eqn:Hfd.
  { run Hrun as u w5 E. inversion Hrun. }
  apply Z.ltb_ge in Hfd.
  unfold bind at 1, get in Hrun.
  run Hrun as u w5 E. unfold store_device, modify in E.
  inversion E; subst u w5; clear E. inversion Hrun; subst w'; clear Hrun.
  eexists. cbn. split; [apply lookup_insert_eq|]. cbn.
  split; [exact Hfd|]. split.
  - intros Hblank. specialize (Hnone Hblank). inversion Hnone; subst.
    reflexivity.
  - intros custom hp s d a b ms c e mo Heeprom Hsize Hheap Hparse.
    specialize (Hsome custom hp Heeprom Hheap). inversion Hsome; subst.
    assert (Hgt : (u16 (Z.of_nat (length custom)) >? 0) = true)
      by (rewrite Z.gtb_ltb; apply Z.ltb_lt; exact Hsize).
    rewrite Hgt, Hp4, Hp2, Hp1, Hparse.
    match goal with
    | |- context [_parse_factory_data _ ?data] =>
        destruct (parse_factory_document_result s d (a :: b :: ms)
                    (c :: e :: mo) data eq_refl eq_refl) as (Hok & _)
    end.
    rewrite (Hok a b ms c e mo eq_refl eq_refl). reflexivity.
Qed.

End Eeprom.

Section EepromApi.

Context `{H : DaqhatsH}.

(** The factory data of the device after a successful first open. *)
Lemma open_factory_data (address : Z) (w w' : World) :
  devices_at_open w !! address = None ->
  mcc172_open address w = Some (RESULT_SUCCESS, w') ->
  exists dev,
    _check_addr address w' = true
    /\ _devices w' !! address = Some dev
    /\ (eeprom (env w) address = None ->
        factory_data dev = _set_defaults (factory_data zeroed_device))
    /\ (forall custom hp s d a b ms c e mo,
          eeprom (env w) address = Some (HAT_ID_MCC_172, custom) ->
          0 < u16 (Z.of_nat (length custom)) ->
          heap (env w) = true :: hp ->
          cJSON_Parse (env w) (Some custom)
          = Some (factory_document s d (a :: b :: ms) (c :: e :: mo)) ->
          factory_data dev
          = Factory.mk_factory_data (strncpy s SERIAL_SIZE)
              (strncpy d CAL_DATE_SIZE) [a; b] [c; e]).
Proof.
  intros Hclosed Hopen.
  destruct (mcc172_open_success address w w' Hopen)
    as (Ha & Hinit & dev' & Hdev' & _ & Hcase).
  rewrite Hclosed in Hcase. destruct Hcase as (_ & Hfd' & _ & _).
  exists dev'. split.
  { apply check_addr_true. split; [exact Ha|]. split; [exact Hinit|].
    exists dev'. auto. }
  split; [exact Hdev'|].
  unfold mcc172_open in Hopen.
  run Hopen as u w0 E. unfold _mcc172_lib_init, modify in E.
  assert (Hw0 : env w0 = env w /\ _devices w0 = devices_at_open w).
  { inversion E. unfold devices_at_open.
    destruct (_mcc172_lib_initialized w); split; reflexivity. }
  clear E. destruct Hw0 as (Henv & Hdevs).
  destruct (address >=? MAX_NUMBER_HATS); [discriminate|].
  run Hopen as d w1 E. unfold device in E. inversion E; subst d w1; clear E.
  rewrite Hdevs, Hclosed in Hopen.
  run Hopen as early w2 E.
  destruct early as [err|].
  { apply open_first_effect in E. destruct E as (_ & _ & Hcase).
    inversion Hopen; subst err.
    destruct Hcase as [(Hne & _)|(Hne & _)]; discriminate. }
  destruct (open_first_factory_data address w0 w2 E)
    as (dev & Hdev & _ & Hblank & Hdoc).
  destruct (id_handshake_success 2 address w2 w' dev Hopen Hdev)
    as (_ & (v & Hdev'') & _).
  rewrite Hdev' in Hdev''. inversion Hdev''; subst dev'.
  rewrite Henv in Hblank, Hdoc. split; [exact Hblank|exact Hdoc].
Qed.

Lemma serial_runs (address : Z) (buffer : string) (w : World)
    (dev : mcc172Device) :
  _check_addr address w = true ->
  _devices w !! address = Some dev ->
  Z.of_nat (String.length (Factory.serial (factory_data dev))) < SERIAL_SIZE ->
  mcc172_serial address (Some buffer) w
  = Some ((RESULT_SUCCESS, Some (Factory.serial (factory_data dev))), w).
Proof.
  intros Hcheck Hdev Hlen. unfold mcc172_serial, bind, get.
  rewrite Hcheck. cbn. unfold the_device. rewrite Hdev.
  unfold strcpy_field.
  destruct (Z.ltb_spec (Z.of_nat (String.length (Factory.serial (factory_data dev))))
              SERIAL_SIZE); [reflexivity|lia].
Qed.

Lemma calibration_date_runs (address : Z) (buffer : string) (w : World)
    (dev : mcc172Device) :
  _check_addr address w = true ->
  _devices w !! address = Some dev ->
  Z.of_nat (String.length (Factory.cal_date (factory_data dev)))
  < CAL_DATE_SIZE ->
  mcc172_calibration_date address (Some buffer) w
  = Some ((RESULT_SUCCESS, Some (Factory.cal_date (factory_data dev))), w).
Proof.
  intros Hcheck Hdev Hlen. unfold mcc172_calibration_date, bind, get.
  rewrite Hcheck. cbn. unfold the_device. rewrite Hdev.
  unfold strcpy_field.
  destruct (Z.ltb_spec
              (Z.of_nat (String.length (Factory.cal_date (factory_data dev))))
              CAL_DATE_SIZE); [reflexivity|lia].
Qed.

End EepromApi.

(** From the EEPROM to the API. When the first [mcc172_open] of an address
    succeeds on a board whose EEPROM names the MCC 172 and holds the factory
    document (serial [s], date [d], slopes [a], [b], offsets [c], [e]), then
    [mcc172_serial] returns [s] if it has at most 8 characters,
    [mcc172_calibration_date] returns [d] if it has at most 10, and
    [mcc172_calibration_coefficient_read] returns ([a], [c]) for channel 0
    and ([b], [e]) for channel 1. *)
Theorem open_exposes_eeprom_data `{H : DaqhatsH} (address : Z)
    (w w' : World) (custom : list byte) (hp : list bool) (s d : string)
    (a b c e : float) (ms mo : list float) :
  devices_at_open w !! address = None ->
  eeprom (env w) address = Some (HAT_ID_MCC_172, custom) ->
  0 < u16 (Z.of_nat (length custom)) ->
  heap (env w) = true :: hp ->
  cJSON_Parse (env w) (Some custom)
  = Some (factory_document s d (a :: b :: ms) (c :: e :: mo)) ->
  mcc172_open address w = Some (RESULT_SUCCESS, w') ->
  (forall buffer,
     (String.length s <= 8)%nat ->
     mcc172_serial address (Some buffer) w'
     = Some ((RESULT_SUCCESS, Some s), w'))
  /\ (forall buffer,
        (String.length d <= 10)%nat ->
        mcc172_calibration_date address (Some buffer) w'
        = Some ((RESULT_SUCCESS, Some d), w'))
  /\ (forall x y,
        mcc172_calibration_coefficient_read address 0 (Some x) (Some y) w'
        = Some ((RESULT_SUCCESS, (Some a, Some c)), w'))
  /\ (forall x y,
        mcc172_calibration_coefficient_read address 1 (Some x) (Some y) w'
        = Some ((RESULT_SUCCESS, (Some b, Some e)), w')).
Proof.
  intros Hclosed Heeprom Hsize Hheap Hparse Hopen.
  destruct (open_factory_data address w w' Hclosed Hopen)
    as (dev & Hcheck & Hdev & _ & Hdoc).
  specialize (Hdoc custom hp s d a b ms c e mo Heeprom Hsize Hheap Hparse).
  repeat split.
  - intros buffer Hlen.
    rewrite (serial_runs address buffer w' dev Hcheck Hdev); rewrite Hdoc;
      cbn [Factory.serial]; unfold strncpy, SERIAL_SIZE;
      rewrite substring_all by lia; [reflexivity|lia].
  - intros buffer Hlen.
    rewrite (calibration_date_runs address buffer w' dev Hcheck Hdev);
      rewrite Hdoc; cbn [Factory.cal_date]; unfold strncpy, CAL_DATE_SIZE;
      rewrite substring_all by lia; [reflexivity|lia].
  - intros x y.
    rewrite (coefficient_read_runs address 0 x y w' dev Hcheck Hdev)
      by (unfold NUM_CHANNELS; lia).
    rewrite Hdoc. reflexivity.
  - intros x y.
    rewrite (coefficient_read_runs address 1 x y w' dev Hcheck Hdev)
      by (unfold NUM_CHANNELS; lia).
    rewrite Hdoc. reflexivity.
Qed.

(** A board whose EEPROM holds the factory document of the C file's
    comment with a serial number and coefficients of its own; the device
    never answers the ID command. *)
Definition eeprom_world : World :=
  {| _devices := ∅; _mcc172_lib_initialized := false; threads := ∅;
     env :=
       {| spi_bus := [silent; silent]; heap := replicate 64 true;
          spidev := [3]; pthread_attr := [0]; pthread_new := [(0, 1)];
          monotonic := []; scheduler := [];
          eeprom := fun _ => Some (0x0145, [x7b; x7d]);
          cJSON_Parse := fun _ =>
            Some (factory_document "01A2B3C4" "2019-03-18"
                    [1.5%float; 0.5%float] [0.25%float; (-0.25)%float]);
          fptoui32 := fun _ => 0 |} |}.

Lemma open_exposes_eeprom_data_witness :
  exists w',
    mcc172_open (H := sample_header) 0 eeprom_world
    = Some (RESULT_SUCCESS, w')
    /\ mcc172_serial (H := sample_header) 0 (Some EmptyString) w'
       = Some ((RESULT_SUCCESS, Some "01A2B3C4"%string), w')
    /\ mcc172_calibration_coefficient_read (H := sample_header) 0 1
         (Some 0%float) (Some 0%float) w'
       = Some ((RESULT_SUCCESS, (Some 0.5%float, Some (-0.25)%float)), w').
Proof.
  destruct (mcc172_open (H := sample_header) 0 eeprom_world)
    as [[r w']|] eqn:Hrun; [|vm_compute in Hrun; discriminate].
  assert (Hr : r = RESULT_SUCCESS)
    by (vm_compute in Hrun; inversion Hrun; reflexivity).
  subst r. exists w'. split; [reflexivity|].
  destruct (open_exposes_eeprom_data (H := sample_header) 0 eeprom_world w'
              [x7b; x7d] (replicate 63 true) "01A2B3C4" "2019-03-18"
              1.5%float 0.5%float 0.25%float (-0.25)%float [] []
              eq_refl eq_refl ltac:(vm_compute; reflexivity) eq_refl eq_refl
              Hrun)
    as (Hserial & _ & _ & Hcoef).
  split; [apply Hserial; cbn; lia|apply Hcoef].
Defined.

(** A blank EEPROM. When the first [mcc172_open] of an address succeeds on
    a board whose EEPROM holds no information, the device has the default
    factory data: serial "00000000", date "1970-01-01", slope 1.0 and
    offset 0.0 on both channels. *)
Theorem open_blank_eeprom_defaults `{H : DaqhatsH} (address : Z)
    (w w' : World) :
  devices_at_open w !! address = None ->
  eeprom (env w) address = None ->
  mcc172_open address w = Some (RESULT_SUCCESS, w') ->
  (forall buffer,
     mcc172_serial address (Some buffer) w'
     = Some ((RESULT_SUCCESS, Some "00000000"%string), w'))
  /\ (forall buffer,
        mcc172_calibration_date address (Some buffer) w'
        = Some ((RESULT_SUCCESS, Some "1970-01-01"%string), w'))
  /\ (forall channel x y,
        0 <= channel < NUM_CHANNELS ->
        mcc172_calibration_coefficient_read address channel (Some x)
          (Some y) w'
        = Some ((RESULT_SUCCESS, (Some 1%float, Some 0%float)), w')).
Proof.
  intros Hclosed Hblank Hopen.
  destruct (open_factory_data address w w' Hclosed Hopen)
    as (dev & Hcheck & Hdev & Hdefaults & _).
  specialize (Hdefaults Hblank).
  repeat split.
  - intros buffer.
    rewrite (serial_runs address buffer w' dev Hcheck Hdev); rewrite Hdefaults;
      [reflexivity|vm_compute; reflexivity].
  - intros buffer.
    rewrite (calibration_date_runs address buffer w' dev Hcheck Hdev);
      rewrite Hdefaults; [reflexivity|vm_compute; reflexivity].
  - intros channel x y Hch.
    rewrite (coefficient_read_runs address channel x y w' dev Hcheck Hdev)
      by lia.
    rewrite Hdefaults. unfold NUM_CHANNELS in Hch.
    assert (Hcases : channel = 0 \/ channel = 1) by lia.
    destruct Hcases as [-> | ->]; reflexivity.
Qed.

Lemma open_blank_eeprom_defaults_witness :
  exists w',
    mcc172_open (H := sample_header) 0 (closed_world [silent; silent])
    = Some (RESULT_SUCCESS, w')
    /\ mcc172_serial (H := sample_header) 0 (Some EmptyString) w'
       = Some ((RESULT_SUCCESS, Some "00000000"%string), w').
Proof.
  destruct (mcc172_open (H := sample_header) 0 (closed_world [silent; silent]))
    as [[r w']|] eqn:Hrun; [|vm_compute in Hrun; discriminate].
  assert (Hr : r = RESULT_SUCCESS)
    by (vm_compute in Hrun; inversion Hrun; reflexivity).
  subst r. exists w'. split; [reflexivity|].
  destruct (open_blank_eeprom_defaults (H := sample_header) 0
              (closed_world [silent; silent]) w' eq_refl eq_refl Hrun)
    as (Hserial & _).
  apply Hserial.
Defined.

(** ** The status of a scan *)

(** Polling with [mcc172_a_in_scan_read]. With an active scan session, a
    read of 0 samples per channel copies nothing, leaves the ring and the
    whole state as they are, returns Success whatever the timeout, and
    reports the same status word as [mcc172_a_in_scan_status]: the bits of
    the hardware overrun, buffer overrun, triggered and running flags. *)
Theorem scan_read_zero_reports_status `{H : DaqhatsH} (address : Z)
    (w : World) (dev : mcc172Device) (info : mcc172ScanThreadInfo)
    (status : Z) (timeout : float) (buffer : option (list float))
    (buffer_size_samples : Z) (samples_read_per_channel : option Z) :
  _check_addr address w = true ->
  _devices w !! address = Some dev ->
  scan_info dev = Some info ->
  0 <= buffer_size_samples ->
  let word :=
    u16 (Z.lor (Z.lor (Z.lor (Z.lor 0
           (if hw_overrun info then STATUS_HW_OVERRUN else 0))
           (if buffer_overrun info then STATUS_BUFFER_OVERRUN else 0))
           (if triggered info then STATUS_TRIGGERED else 0))
           (if scan_running info then STATUS_RUNNING else 0)) in
  mcc172_a_in_scan_status address (Some status) None w
  = Some ((RESULT_SUCCESS, (Some word, None)), w)
  /\ mcc172_a_in_scan_read address (Some status) 0 timeout buffer
       buffer_size_samples samples_read_per_channel w
     = Some ((RESULT_SUCCESS,
              {| out_status := Some word; out_buffer := buffer;
                 out_samples_read_per_channel :=
                   (fun _ => 0) <$> samples_read_per_channel |}), w).
Proof.
  intros Hcheck Hdev Hinfo Hsize word.
  assert (Hword :
    word
    = u16 (let stat := 0 in
           let stat :=
             if hw_overrun info then Z.lor stat STATUS_HW_OVERRUN else stat in
           let stat :=
             if buffer_overrun info then Z.lor stat STATUS_BUFFER_OVERRUN
             else stat in
           let stat :=
             if triggered info then Z.lor stat STATUS_TRIGGERED else stat in
           if scan_running info then Z.lor stat STATUS_RUNNING else stat)).
  { subst word. cbv zeta.
    destruct (hw_overrun info), (buffer_overrun info), (triggered info),
      (scan_running info); rewrite ?Z.lor_0_r; reflexivity. }
  split.
  - unfold mcc172_a_in_scan_status, bind, get. rewrite Hcheck. cbn.
    unfold the_device. rewrite Hdev, Hinfo. cbn. rewrite Hword. reflexivity.
  - unfold mcc172_a_in_scan_read.
    unfold bind at 1, get. rewrite Hcheck. cbn [negb orb is_null andb].
    change (0 >? 0) with false. cbn [andb orb].
    unfold bind at 1, the_device at 1. rewrite Hdev, Hinfo.
    change (0 =? -1) with false. cbn iota.
    change (u32 (0 * channel_count info)) with 0.
    assert (Hlt : (buffer_size_samples <? 0) = false)
      by (apply Z.ltb_ge; exact Hsize).
    rewrite Hlt. change (0 =? 0) with true. cbn [negb].
    unfold bind at 1, get. unfold bind at 1, ret at 1.
    unfold bind at 1. rewrite (the_info_run address w info)
      by (exists dev; auto).
    cbn [timed_out stat samples_to_read samples_read user_buffer andb].
    rewrite !andb_false_r. cbn iota. unfold ret. rewrite Hword.
    reflexivity.
Qed.

Lemma scan_read_zero_reports_status_witness :
  mcc172_a_in_scan_read (H := sample_header) 0 (Some 0) 0 1%float None 0
    (Some 7) odd_depth_world
  = Some ((RESULT_SUCCESS,
           {| out_status := Some 12; out_buffer := None;
              out_samples_read_per_channel := Some 0 |}), odd_depth_world).
Proof.
  destruct (scan_read_zero_reports_status (H := sample_header) 0
              odd_depth_world
              (set_scan_info
                 (Some (set_triggered true (set_thread_running true
                          (set_buffer_depth 3 (set_write_index 3
                             (set_scan_buffer
                                (<[0 := 1%float]> (<[1 := 2%float]>
                                   (<[2 := 3%float]> ∅)))
                                sample_session))))))
                 open_device)
              (set_triggered true (set_thread_running true
                 (set_buffer_depth 3 (set_write_index 3
                    (set_scan_buffer
                       (<[0 := 1%float]> (<[1 := 2%float]>
                          (<[2 := 3%float]> ∅)))
                       sample_session)))))
              0 1%float None 0 (Some 7) eq_refl eq_refl eq_refl ltac:(lia))
    as (_ & Hread).
  exact Hread.
Defined.

(** ** Starting a scan *)

Section Start.

Context `{H : DaqhatsH}.

Variables (address : Z) (w : World) (dev0 : mcc172Device).

Hypothesis Hdev0 : _devices w !! address = Some dev0.
Hypothesis Hidle : scan_info dev0 = None.

(** Between the allocation of the session and the end of
    [mcc172_a_in_scan_start]: the device holds the session [info] and
    nothing else has changed. *)
Definition starting (info : mcc172ScanThreadInfo) (w1 : World) : Prop :=
  _devices w1 = <[address := set_scan_info (Some info) dev0]> (_devices w)
  /\ _mcc172_lib_initialized w1 = _mcc172_lib_initialized w
  /\ threads w1 = threads w.

Lemma starting_same_state (info : mcc172ScanThreadInfo) (w1 w2 : World) :
  same_driver_state w1 w2 -> starting info w1 -> starting info w2.
Proof.
  intros (Hd & Hi & Ht) (Hd1 & Hi1 & Ht1). repeat split; congruence.
Qed.

Lemma starting_update (info : mcc172ScanThreadInfo)
    (f : mcc172ScanThreadInfo -> mcc172ScanThreadInfo) (w1 w2 : World)
    (u : unit) :
  starting info w1 -> update_info address f w1 = Some (u, w2) ->
  starting (f info) w2.
Proof.
  intros (Hd1 & Hi1 & Ht1) Hup. apply update_info_spec in Hup.
  destruct Hup as (dev & info' & Hdev & Hinfo & ->).
  rewrite Hd1, lookup_insert_eq in Hdev. inversion Hdev; subst dev.
  cbn in Hinfo. inversion Hinfo; subst info'.
  split; [|split; assumption]. cbn. rewrite Hd1, insert_insert_eq.
  reflexivity.
Qed.

Lemma starting_drop (info : mcc172ScanThreadInfo) (w1 w2 : World)
    (u : unit) :
  starting info w1 -> drop_session address w1 = Some (u, w2) ->
  same_driver_state w w2.
Proof.
  intros (Hd1 & Hi1 & Ht1) Hdrop.
  unfold drop_session, bind, the_device in Hdrop.
  rewrite Hd1, lookup_insert_eq in Hdrop.
  unfold store_device, modify in Hdrop. inversion Hdrop; subst w2.
  split; [|split; assumption]. cbn.
  rewrite Hd1, insert_insert_eq.
  change (set_scan_info None (set_scan_info (Some info) dev0))
    with (set_scan_info None dev0).
  rewrite (scan_info_none_eta dev0 Hidle).
  apply insert_id. exact Hdev0.
Qed.

End Start.

Section StartOutcome.

Context `{H : DaqhatsH}.

(** The session that a successful start leaves, from the device's factory
    data, the arguments, the sample rate the clock reported and the thread
    handle. *)
Definition started_session (dev0 : mcc172Device) (channel_mask
    samples_per_channel opts : Z) (rate : float) (thread : Z)
    : mcc172ScanThreadInfo :=
  let '(info, n) :=
    snapshot_channels channel_mask (factory_data dev0)
      (set_options (u16 opts) Scan.zeroed) in
  set_scan_running true
    (set_handle thread
       (set_read_threshold (scan_read_threshold rate n)
          (set_scan_buffer_bytes
             (size_t
                (scan_buffer_size opts samples_per_channel rate n
                 * sizeof_double))
             (set_scan_buffer ∅
                (set_buffer_size
                   (scan_buffer_size opts samples_per_channel rate n)
                   (set_channel_index 0 (set_channel_count n info))))))).

(** The two outcomes of [mcc172_a_in_scan_start]: Success with the session
    installed and the thread created, or another result with the driver's
    state as it was. *)
Lemma scan_start_outcome (address channel_mask samples_per_channel opts : Z)
    (w w' : World) (r : ResultCode) :
  mcc172_a_in_scan_start address channel_mask samples_per_channel opts w
  = Some (r, w') ->
  (r = RESULT_SUCCESS
   /\ _check_addr address w = true
   /\ (channel_mask <> 0 /\ channel_mask < Z.shiftl 1 NUM_CHANNELS)
   /\ exists dev0 rate thread,
        _devices w !! address = Some dev0
        /\ scan_info dev0 = None
        /\ _devices w'
           = <[address :=
                 set_scan_info
                   (Some (started_session dev0 channel_mask
                            samples_per_channel opts rate thread))
                   dev0]> (_devices w)
        /\ _mcc172_lib_initialized w' = _mcc172_lib_initialized w
        /\ threads w' = <[address := ThreadEntry]> (threads w))
  \/ (r <> RESULT_SUCCESS /\ same_driver_state w w').
Proof.
  intros Hrun. unfold mcc172_a_in_scan_start in Hrun.
  unfold bind at 1, get in Hrun.
  destruct (_check_addr address w) eqn:Hcheck; cbn [negb orb] in Hrun.
  2:{ inversion Hrun; subst. right. split; [discriminate|].
      apply same_driver_state_refl. }
  destruct (channel_mask =? 0) eqn:Hm0; cbn [orb] in Hrun.
  { inversion Hrun; subst. right. split; [discriminate|].
    apply same_driver_state_refl. }
  destruct (channel_mask >=? Z.shiftl 1 NUM_CHANNELS) eqn:Hm4;
    cbn [orb] in Hrun.
  { inversion Hrun; subst. right. split; [discriminate|].
    apply same_driver_state_refl. }
  destruct ((samples_per_channel =? 0) && _).
  { inversion Hrun; subst. right. split; [discriminate|].
    apply same_driver_state_refl. }
  run Hrun as d wa E.
  unfold the_device in E.
  destruct (_devices w !! address) as [dev0|] eqn:Hdev0; [|discriminate].
  inversion E; subst d wa; clear E.
  destruct (scan_info dev0) as [busy|] eqn:Hidle; cbn [is_null negb] in Hrun.
  { inversion Hrun; subst. right. split; [discriminate|].
    apply same_driver_state_refl. }
  run Hrun as ok wa E. apply pop_same_state in E.
  destruct ok; cbn [negb] in Hrun.
  2:{ inversion Hrun; subst. right. split; [discriminate|exact E]. }
  destruct (snapshot_channels channel_mask (factory_data dev0)
              (set_options (u16 opts) Scan.zeroed)) as [info0 n] eqn:Hsnap.
  run Hrun as u wb E1. unfold store_device, modify in E1.
  inversion E1; subst u wb; clear E1.
  assert (S0 : starting address w dev0
                 (set_channel_index 0 (set_channel_count n info0))
                 (set_devices
                    (<[address :=
                         set_scan_info
                           (Some (set_channel_index 0
                                    (set_channel_count n info0))) dev0]>
                       (_devices wa)) wa)).
  { destruct E as (Hd & Hi & Ht). repeat split; cbn; congruence. }
  clear E.
  unfold bind at 1, get in Hrun.
  run Hrun as sync w1 E. apply wait_for_sync_same_state in E.
  apply (starting_same_state _ _ _ _ _ _ E) in S0. clear E.
  destruct sync as [result rate].
  destruct (bool_decide_reflect (result = RESULT_SUCCESS)) as [->|Hne];
    cbn [negb] in Hrun.
  2:{ run Hrun as u w2 E. inversion Hrun; subst. right.
      split; [exact Hne|].
      exact (starting_drop address w dev0 Hdev0 Hidle _ _ _ _ S0 E). }
  run Hrun as u w2 E.
  pose proof (starting_update _ _ _ _ _ _ _ _ S0 E) as S1. clear E S0.
  run Hrun as ok w3 E. apply pop_same_state in E.
  apply (starting_same_state _ _ _ _ _ _ E) in S1. clear E.
  destruct ok; cbn [negb] in Hrun.
  2:{ run Hrun as u' w4 E. inversion Hrun; subst. right.
      split; [discriminate|].
      exact (starting_drop address w dev0 Hdev0 Hidle _ _ _ _ S1 E). }
  run Hrun as u' w4 E.
  pose proof (starting_update _ _ _ _ _ _ _ _ S1 E) as S2. clear E S1.
  cbn [channel_count set_buffer_size set_channel_index set_channel_count]
    in S2.
  run Hrun as attr w5 E. apply pop_same_state in E.
  apply (starting_same_state _ _ _ _ _ _ E) in S2. clear E.
  destruct (negb (attr =? 0)).
  { run Hrun as u'' w6 E. inversion Hrun; subst. right.
    split; [discriminate|].
    exact (starting_drop address w dev0 Hdev0 Hidle _ _ _ _ S2 E). }
  run Hrun as rr w6 E. apply spi_transfer_same_state in E.
  apply (starting_same_state _ _ _ _ _ _ E) in S2. clear E.
  destruct (bool_decide_reflect (rr.1 = RESULT_SUCCESS)) as [Hok|Hne];
    cbn [negb] in Hrun.
  2:{ run Hrun as u'' w7 E. inversion Hrun; subst. right.
      split; [exact Hne|].
      exact (starting_drop address w dev0 Hdev0 Hidle _ _ _ _ S2 E). }
  run Hrun as ok w7 E. apply pop_same_state in E.
  apply (starting_same_state _ _ _ _ _ _ E) in S2. clear E.
  destruct ok; cbn [negb] in Hrun; [|discriminate].
  run Hrun as created w8 E. apply pop_same_state in E.
  apply (starting_same_state _ _ _ _ _ _ E) in S2. clear E.
  destruct created as [created thread].
  destruct (negb (created =? 0)).
  { run Hrun as r1 w9 E. run Hrun as u'' w10 E'. inversion Hrun; subst.
    right. split; [discriminate|].
    unfold mcc172_a_in_scan_stop in E. unfold bind at 1, get in E.
    assert (Hsame : same_driver_state w8 w9).
    { destruct (negb (_check_addr address w8)).
      - inversion E. apply same_driver_state_refl.
      - run E as rr' w11 E''. apply spi_transfer_same_state in E''.
        inversion E; subst. exact E''. }
    apply (starting_same_state _ _ _ _ _ _ Hsame) in S2.
    exact (starting_drop address w dev0 Hdev0 Hidle _ _ _ _ S2 E'). }
  run Hrun as u'' w9 E. unfold set_thread_pc, modify in E.
  inversion E; subst u'' w9; clear E.
  run Hrun as u'' w9 E.
  destruct S2 as (Hd & Hi & Ht).
  apply update_info_spec in E.
  destruct E as (dev & info' & Hdev & Hinfo & ->).
  cbn in Hdev. rewrite Hd, lookup_insert_eq in Hdev.
  inversion Hdev; subst dev. cbn in Hinfo. injection Hinfo as <-.
  unfold ret in Hrun. injection Hrun as <- <-. left.
  split; [reflexivity|]. split; [reflexivity|]. split.
  { apply Z.eqb_neq in Hm0. rewrite Z.geb_leb in Hm4. apply Z.leb_gt in Hm4.
    split; assumption. }
  exists dev0, rate, thread.
  split; [reflexivity|]. split; [exact Hidle|].
  unfold started_session. rewrite Hsnap. cbn.
  split; [rewrite Hd, insert_insert_eq; reflexivity|].
  split; [exact Hi|]. rewrite Ht. reflexivity.
Qed.

End StartOutcome.

(** A scan start that fails leaves nothing behind. Whenever
    [mcc172_a_in_scan_start] returns a result other than Success (a
    rejected argument, Busy, an allocation failure, a clock read or start
    command that the device refuses, no thread), the device table, the
    initialisation flag and the threads are exactly as before the call: no
    session stays allocated and a later start is not refused as Busy on its
    account. *)
Theorem scan_start_failure_leaves_state `{H : DaqhatsH}
    (address channel_mask samples_per_channel opts : Z) (w w' : World)
    (r : ResultCode) :
  mcc172_a_in_scan_start address channel_mask samples_per_channel opts w
  = Some (r, w') ->
  r <> RESULT_SUCCESS ->
  same_driver_state w w'.
Proof.
  intros Hrun Hfail. apply scan_start_outcome in Hrun.
  destruct Hrun as [(Hr & _)|(_ & Hsame)]; [contradiction|exact Hsame].
Qed.

(** The device refuses the start command with status 0x03. *)
Definition refused_start_bus : list SpiEnv :=
  [answers [xdb; x15; x00; x02; x00; x80; x00];
   answers [xdb; x11; x03; x00; x00]].

Lemma scan_start_failure_leaves_state_witness :
  exists w',
    mcc172_a_in_scan_start (H := sample_header) 0 3 0 16
      (open_world refused_start_bus) = Some (RESULT_BUSY, w')
    /\ _devices w' = _devices (open_world refused_start_bus).
Proof.
  destruct (mcc172_a_in_scan_start (H := sample_header) 0 3 0 16
              (open_world refused_start_bus))
    as [[r w']|] eqn:Hrun; [|vm_compute in Hrun; discriminate].
  assert (Hr : r = RESULT_BUSY)
    by (vm_compute in Hrun; inversion Hrun; reflexivity).
  subst r. exists w'. split; [reflexivity|].
  destruct (scan_start_failure_leaves_state (H := sample_header) 0 3 0 16
              (open_world refused_start_bus) w' RESULT_BUSY Hrun
              ltac:(discriminate)) as (Hd & _).
  exact Hd.
Defined.

Section Started.

Context `{H : DaqhatsH}.

Lemma channel_mask_cases (channel_mask : Z) :
  0 <= channel_mask -> channel_mask <> 0 ->
  channel_mask < Z.shiftl 1 NUM_CHANNELS ->
  channel_mask = 1 \/ channel_mask = 2 \/ channel_mask = 3.
Proof. change (Z.shiftl 1 NUM_CHANNELS) with 4. lia. Qed.

(** The read threshold is a non-zero multiple of the channel count and no
    larger than one transfer of samples. *)
Lemma scan_read_threshold_bounds (rate : float) (n : Z) :
  1 <= n <= NUM_CHANNELS ->
  1 <= scan_read_threshold rate n <= MAX_SAMPLES_READ
  /\ scan_read_threshold rate n mod n = 0.
Proof.
  intros Hn. unfold scan_read_threshold.
  set (t0 := u16 (Double.to_Z (rate / 10)%float)).
  assert (Ht0 : 0 <= t0 < 65536)
    by (subst t0; unfold u16, wrap; apply Z.mod_pos_bound; reflexivity).
  change MAX_SAMPLES_READ with 1363. unfold NUM_CHANNELS in Hn.
  set (t1 := if t0 >? 1363 then 1363 else t0).
  assert (Ht1 : 0 <= t1 <= 1363)
    by (subst t1; destruct (Z.gtb_spec t0 1363); lia).
  unfold COUNT_NORMALIZE.
  assert (Hq : 0 <= t1 / n * n <= t1).
  { pose proof (Z.mul_div_le t1 n ltac:(lia)).
    pose proof (Z.div_pos t1 n ltac:(lia) ltac:(lia)). nia. }
  assert (Hu : u16 (t1 / n * n) = t1 / n * n)
    by (unfold u16, wrap; apply Z.mod_small; change (2 ^ 16) with 65536; lia).
  rewrite Hu.
  destruct (Z.eqb_spec (t1 / n * n) 0) as [Hz|Hnz].
  - split; [lia|]. apply Z.mod_same. lia.
  - split; [lia|]. apply Z.mod_mul. lia.
Qed.

End Started.

Section StartedSession.

Context `{H : DaqhatsH}.

(** The session of a successful start, by the three masks. *)
Lemma started_session_fields (dev0 : mcc172Device) (channel_mask
    samples_per_channel opts : Z) (rate : float) (thread : Z) :
  channel_mask = 1 \/ channel_mask = 2 \/ channel_mask = 3 ->
  let info :=
    started_session dev0 channel_mask samples_per_channel opts rate thread in
  let selected := List.filter (Z.testbit channel_mask) [0; 1] in
  (write_index info = 0 /\ read_index info = 0 /\ buffer_depth info = 0
   /\ samples_transferred info = 0 /\ scan_buffer info = ∅)
  /\ (hw_overrun info = false /\ buffer_overrun info = false
      /\ triggered info = false /\ stop_thread info = false
      /\ thread_running info = false /\ scan_running info = true)
  /\ options info = u16 opts
  /\ handle info = thread
  /\ channel_count info = Z.of_nat (length selected)
  /\ (forall (i : nat) (ch : Z),
        selected !! i = Some ch ->
        channels info !! i = Some ch
        /\ slopes info !! i
           = Some (float_at (Factory.slopes (factory_data dev0)) ch)
        /\ offsets info !! i
           = Some (float_at (Factory.offsets (factory_data dev0)) ch))
  /\ buffer_size info
     = scan_buffer_size opts samples_per_channel rate (channel_count info)
  /\ read_threshold info = scan_read_threshold rate (channel_count info).
Proof.
  intros Hmask info selected. subst info selected.
  unfold started_session, snapshot_channels.
  change (seqZ 0 NUM_CHANNELS) with [0; 1].
  destruct Hmask as [->|[->| ->]];
    cbv -[float_at scan_buffer_size scan_read_threshold u16 factory_data
          Factory.slopes Factory.offsets];
    repeat match goal with |- _ /\ _ => split end; try reflexivity;
    intros i ch Hsel; destruct i as [|[|j]]; inversion Hsel; subst;
    repeat match goal with |- _ /\ _ => split end; reflexivity.
Qed.

End StartedSession.

(** The session of a successful start. After [mcc172_a_in_scan_start]
    returns Success the device holds a session whose producer thread is
    created and not yet scheduled; the ring is empty (indices, depth and
    transfer count 0), no overrun or trigger is recorded, the scan is marked
    running; the channel count is 1 or 2, and the read threshold is a
    non-zero multiple of it no larger than [MAX_SAMPLES_READ]. The API shows
    the same: [mcc172_a_in_scan_channel_count] and
    [mcc172_a_in_scan_buffer_size] return the session's values and
    [mcc172_a_in_scan_status] reports RUNNING alone with 0 samples. *)
Theorem scan_start_installs_session `{H : DaqhatsH}
    (address channel_mask samples_per_channel opts : Z) (w w' : World) :
  mcc172_a_in_scan_start address channel_mask samples_per_channel opts w
  = Some (RESULT_SUCCESS, w') ->
  0 <= channel_mask ->
  exists info,
    has_session address w' info
    /\ threads w' !! address = Some ThreadEntry
    /\ (write_index info = 0 /\ read_index info = 0 /\ buffer_depth info = 0
        /\ samples_transferred info = 0 /\ scan_buffer info = ∅)
    /\ (hw_overrun info = false /\ buffer_overrun info = false
        /\ triggered info = false /\ stop_thread info = false
        /\ thread_running info = false /\ scan_running info = true)
    /\ 1 <= channel_count info <= NUM_CHANNELS
    /\ (1 <= read_threshold info <= MAX_SAMPLES_READ
        /\ read_threshold info mod channel_count info = 0)
    /\ mcc172_a_in_scan_channel_count address w'
       = Some (channel_count info, w')
    /\ (forall p,
          mcc172_a_in_scan_buffer_size address (Some p) w'
          = Some ((RESULT_SUCCESS, Some (buffer_size info)), w'))
    /\ (forall s d,
          mcc172_a_in_scan_status address (Some s) (Some d) w'
          = Some ((RESULT_SUCCESS, (Some (u16 STATUS_RUNNING), Some 0)), w')).
Proof.
  intros Hrun Hmask. apply scan_start_outcome in Hrun.
  destruct Hrun as [(_ & Hcheck & (Hm0 & Hm4) & dev0 & rate & thread & Hdev0
                     & Hidle & Hd & Hi & Ht)|(Hne & _)];
    [|contradiction].
  pose proof (channel_mask_cases channel_mask Hmask Hm0 Hm4) as Hcases.
  destruct (started_session_fields dev0 channel_mask samples_per_channel opts
              rate thread Hcases)
    as (Hring & Hflags & _ & _ & Hcount & _ & Hsize & Hthreshold).
  set (info := started_session dev0 channel_mask samples_per_channel opts
                 rate thread) in *.
  assert (Hcc : 1 <= channel_count info <= NUM_CHANNELS).
  { rewrite Hcount. destruct Hcases as [->|[->| ->]]; vm_compute;
      split; discriminate. }
  assert (Hdev' : _devices w' !! address
                  = Some (set_scan_info (Some info) dev0))
    by (rewrite Hd; apply lookup_insert_eq).
  assert (Hcheck' : _check_addr address w' = true).
  { apply check_addr_true in Hcheck.
    destruct Hcheck as (Ha & Hinit & dev & Hdev & Hfd).
    rewrite Hdev0 in Hdev. inversion Hdev; subst dev.
    apply check_addr_true. split; [exact Ha|]. split; [congruence|].
    eexists. split; [exact Hdev'|exact Hfd]. }
  exists info.
  split; [eexists; split; [exact Hdev'|reflexivity]|].
  split; [rewrite Ht; apply lookup_insert_eq|].
  split; [exact Hring|]. split; [exact Hflags|]. split; [exact Hcc|].
  split; [rewrite Hthreshold; apply scan_read_threshold_bounds; exact Hcc|].
  split; [|split].
  - unfold mcc172_a_in_scan_channel_count, bind, get, the_device.
    rewrite Hcheck'. cbn. rewrite Hdev'. reflexivity.
  - intros p. unfold mcc172_a_in_scan_buffer_size, bind, get, the_device.
    rewrite Hcheck'. cbn. rewrite Hdev'. reflexivity.
  - intros s d. unfold mcc172_a_in_scan_status, bind, get, the_device.
    rewrite Hcheck'. cbn. rewrite Hdev'. cbn.
    destruct Hring as (_ & _ & Hdepth & _).
    destruct Hflags as (Hhw & Hbo & Htr & _ & _ & Hrunning).
    rewrite Hdepth, Hhw, Hbo, Htr, Hrunning.
    destruct (Z.eqb_spec (channel_count info) 0) as [Hz|_]; [lia|].
    reflexivity.
Qed.

Lemma scan_start_installs_session_witness :
  exists w' info,
    mcc172_a_in_scan_start (H := sample_header) 0 3 0 16
      (open_world start_bus) = Some (RESULT_SUCCESS, w')
    /\ has_session 0 w' info
    /\ channel_count info = 2
    /\ mcc172_a_in_scan_channel_count (H := sample_header) 0 w'
       = Some (channel_count info, w').
Proof.
  destruct (mcc172_a_in_scan_start (H := sample_header) 0 3 0 16
              (open_world start_bus))
    as [[r w']|] eqn:Hrun; [|vm_compute in Hrun; discriminate].
  assert (Hr : r = RESULT_SUCCESS)
    by (vm_compute in Hrun; inversion Hrun; reflexivity).
  subst r.
  destruct (scan_start_installs_session (H := sample_header) 0 3 0 16
              (open_world start_bus) w' Hrun ltac:(lia))
    as (info & Hs & _ & _ & _ & _ & _ & Hapi & _).
  exists w', info. split; [reflexivity|]. split; [exact Hs|].
  split; [|exact Hapi].
  assert (Hc : (fun '(_, w) =>
                  channel_count <$> (_devices w !! 0 ≫= scan_info))
                 <$> mcc172_a_in_scan_start (H := sample_header) 0 3 0 16
                       (open_world start_bus)
               = Some (Some 2)) by (vm_compute; reflexivity).
  rewrite Hrun in Hc. cbn in Hc.
  destruct Hs as (dev & Hdev & Hinfo). rewrite Hdev in Hc. cbn in Hc.
  rewrite Hinfo in Hc. cbn in Hc. inversion Hc. reflexivity.
Defined.

(** A scan works on the coefficients it started with. After a successful
    [mcc172_a_in_scan_start] the session lists the channels of the mask in
    ascending order, and holds for each of them the slope and offset that
    the device's factory data had for that channel when the scan was
    started. *)
Theorem scan_start_snapshots_coefficients `{H : DaqhatsH}
    (address channel_mask samples_per_channel opts : Z) (w w' : World) :
  mcc172_a_in_scan_start address channel_mask samples_per_channel opts w
  = Some (RESULT_SUCCESS, w') ->
  0 <= channel_mask ->
  exists dev0 info,
    _devices w !! address = Some dev0
    /\ has_session address w' info
    /\ let selected := List.filter (Z.testbit channel_mask) [0; 1] in
       channel_count info = Z.of_nat (length selected)
       /\ (forall (i : nat) (ch : Z),
             selected !! i = Some ch ->
             channels info !! i = Some ch
             /\ slopes info !! i
                = Some (float_at (Factory.slopes (factory_data dev0)) ch)
             /\ offsets info !! i
                = Some (float_at (Factory.offsets (factory_data dev0)) ch)).
Proof.
  intros Hrun Hmask. apply scan_start_outcome in Hrun.
  destruct Hrun as [(_ & Hcheck & (Hm0 & Hm4) & dev0 & rate & thread & Hdev0
                     & Hidle & Hd & Hi & Ht)|(Hne & _)];
    [|contradiction].
  pose proof (channel_mask_cases channel_mask Hmask Hm0 Hm4) as Hcases.
  destruct (started_session_fields dev0 channel_mask samples_per_channel opts
              rate thread Hcases)
    as (_ & _ & _ & _ & Hcount & Hsel & _).
  exists dev0, (started_session dev0 channel_mask samples_per_channel opts
                  rate thread).
  split; [exact Hdev0|]. split.
  - eexists. split; [rewrite Hd; apply lookup_insert_eq|reflexivity].
  - split; [exact Hcount|exact Hsel].
Qed.

Lemma scan_start_snapshots_coefficients_witness :
  exists w' info,
    mcc172_a_in_scan_start (H := sample_header) 0 2 100 0
      (open_world start_bus) = Some (RESULT_SUCCESS, w')
    /\ has_session 0 w' info
    /\ channel_count info = 1
    /\ channels info !! 0%nat = Some 1.
Proof.
  destruct (mcc172_a_in_scan_start (H := sample_header) 0 2 100 0
              (open_world start_bus))
    as [[r w']|] eqn:Hrun; [|vm_compute in Hrun; discriminate].
  assert (Hr : r = RESULT_SUCCESS)
    by (vm_compute in Hrun; inversion Hrun; reflexivity).
  subst r.
  destruct (scan_start_snapshots_coefficients (H := sample_header) 0 2 100 0
              (open_world start_bus) w' Hrun ltac:(lia))
    as (dev0 & info & _ & Hs & Hcount & Hsel).
  exists w', info. split; [reflexivity|]. split; [exact Hs|].
  split; [exact Hcount|].
  exact (proj1 (Hsel 0%nat 1 eq_refl)).
Defined.

(** ** Invariants of the producer thread *)

Section ReadScanData.

Context `{H : DaqhatsH}.

(** [_a_in_read_scan_data] either fails and leaves the session alone, or
    returns Success after the conversion loop has run over the bytes
    received. *)
Lemma read_scan_data_effect (address sample_count : Z)
    (scaled calibrated : bool) (buffer : Z) (w w' : World) (r : ResultCode)
    (info : mcc172ScanThreadInfo) :
  has_session address w info ->
  _a_in_read_scan_data address sample_count scaled calibrated (Some buffer) w
  = Some (r, w') ->
  threads w' = threads w
  /\ ((r <> RESULT_SUCCESS /\ has_session address w' info)
      \/ (r = RESULT_SUCCESS
          /\ exists rx,
               has_session address w'
                 (read_samples rx (Z.to_nat sample_count) 0 scaled
                    calibrated buffer info))).
Proof.
  intros Hs Hrun. unfold _a_in_read_scan_data in Hrun.
  unfold bind at 1, get in Hrun.
  destruct (negb (_check_addr address w) || is_null (Some buffer)).
  { inversion Hrun; subst. split; [reflexivity|]. left.
    split; [discriminate|exact Hs]. }
  run Hrun as ok w1 E. apply pop_same_state in E.
  destruct E as (Hd1 & _ & Ht1).
  apply (has_session_same_devices _ _ _ _ Hd1) in Hs.
  destruct ok; cbn [negb] in Hrun.
  2:{ inversion Hrun; subst. split; [exact Ht1|]. left.
      split; [discriminate|exact Hs]. }
  run Hrun as rr w2 E. apply spi_transfer_same_state in E.
  destruct E as (Hd2 & _ & Ht2).
  apply (has_session_same_devices _ _ _ _ Hd2) in Hs.
  destruct rr as [ret_ rx_data].
  destruct (bool_decide_reflect (ret_ = RESULT_SUCCESS)) as [->|Hne];
    cbn [negb] in Hrun.
  2:{ inversion Hrun; subst. split; [congruence|]. left.
      split; [exact Hne|exact Hs]. }
  run Hrun as u w3 E.
  pose proof (has_session_update _ _ _ _ _ _ Hs E) as Hs'.
  apply update_info_spec in E. destruct E as (? & ? & _ & _ & ->).
  inversion Hrun; subst. split; [cbn; congruence|]. right.
  split; [reflexivity|]. exists (default [] rx_data). exact Hs'.
Qed.

(** The number of samples that the producer asks for in one round is at
    most what the device offers, at most what one transfer carries, and
    never negative. *)
Lemma choose_read_count_bounds (scan_running : bool)
    (available_samples max_read_now read_threshold : Z) :
  0 <= available_samples -> 0 <= max_read_now ->
  0 <= choose_read_count scan_running available_samples max_read_now
         read_threshold
    <= MAX_SAMPLES_READ
  /\ choose_read_count scan_running available_samples max_read_now
       read_threshold <= available_samples
  /\ choose_read_count scan_running available_samples max_read_now
       read_threshold <= max_read_now.
Proof.
  intros Ha Hm. unfold choose_read_count. change MAX_SAMPLES_READ with 1363.
  destruct (negb scan_running || _ || _); [|lia].
  destruct (Z.ltb_spec max_read_now available_samples);
    match goal with
    | |- context [?a >? 1363] => destruct (Z.gtb_spec a 1363)
    end; lia.
Qed.

End ReadScanData.

Section ProducerInvariant.

Context `{H : DaqhatsH}.

Variable address : Z.

(** A property of the session that the thread's flag assignments keep, and
    that a write keeps when it is no longer than one transfer and ends at or
    before the end of the ring. *)
Variable P : mcc172ScanThreadInfo -> Prop.

Hypothesis P_thread_running :
  forall b i, P i -> P (set_thread_running b i).
Hypothesis P_hw_overrun : forall b i, P i -> P (set_hw_overrun b i).
Hypothesis P_triggered : forall b i, P i -> P (set_triggered b i).
Hypothesis P_scan_running : forall b i, P i -> P (set_scan_running b i).
Hypothesis P_write :
  forall rx n scaled calibrated i,
    P i -> 0 <= n <= MAX_SAMPLES_READ ->
    n <= u32 (buffer_size i - write_index i) ->
    P (fst (commit_read n
              (read_samples rx (Z.to_nat n) 0 scaled calibrated
                 (write_index i) i))).

Definition session_holds (w : World) : Prop :=
  exists info, has_session address w info /\ P info.

Lemma session_holds_same (w w' : World) :
  _devices w' = _devices w -> session_holds w -> session_holds w'.
Proof.
  intros Hd (info & Hs & HP). exists info.
  split; [exact (has_session_same_devices _ _ _ _ Hd Hs)|exact HP].
Qed.

Lemma session_holds_update
    (f : mcc172ScanThreadInfo -> mcc172ScanThreadInfo) (w w' : World)
    (u : unit) :
  (forall i, P i -> P (f i)) ->
  session_holds w -> update_info address f w = Some (u, w') ->
  session_holds w'.
Proof.
  intros Hf (info & Hs & HP) Hup. exists (f info).
  split; [exact (has_session_update _ _ _ _ _ _ Hs Hup)|apply Hf; exact HP].
Qed.

Lemma u16_byte_pair (lo hi : Z) :
  0 <= u16 (Z.shiftl hi 8 + lo).
Proof. unfold u16, wrap. apply Z.mod_pos_bound. reflexivity. Qed.

Lemma round_keeps (l l' : ThreadLocals) (w w' : World) :
  session_holds w ->
  scan_thread_round address l w = Some (l', w') ->
  session_holds w'.
Proof.
  intros Hh Hrun. unfold scan_thread_round in Hrun.
  run Hrun as r w1 E. apply spi_transfer_same_state in E.
  destruct E as (Hd1 & _). apply (session_holds_same _ _ Hd1) in Hh.
  destruct r as [result rx].
  destruct (negb (bool_decide (result = RESULT_SUCCESS))).
  { inversion Hrun; subst. exact Hh. }
  run Hrun as u w2 E.
  apply (session_holds_update _ _ _ _
           ltac:(intros i Hi; apply P_triggered, P_hw_overrun; exact Hi)
           Hh) in E.
  clear Hh. rename E into Hh.
  run Hrun as info w3 E. apply the_info_session in E.
  destruct E as (-> & Hsession).
  assert (HPinfo : P info).
  { destruct Hh as (i & Hi & HPi).
    rewrite (has_session_unique _ _ _ _ Hsession Hi). exact HPi. }
  destruct (hw_overrun info).
  { run Hrun as u' w4 E.
    apply (session_holds_update _ _ _ _
             ltac:(intros i Hi; apply P_scan_running; exact Hi) Hh) in E.
    inversion Hrun; subst. exact E. }
  destruct (negb (triggered info)).
  { inversion Hrun; subst. exact Hh. }
  match type of Hrun with
  | context [choose_read_count ?a ?b ?c ?d] =>
      pose proof (choose_read_count_bounds a b c d
                    (u16_byte_pair _ _) (u16_byte_pair _ _)) as (Hrc & _);
      remember (choose_read_count a b c d) as rc eqn:Hrceq
  end.
  clear Hrceq.
  run Hrun as after w4 E.
  assert (Hafter : session_holds w4).
  { destruct (rc >? 0).
    - set (space := u32 (buffer_size info - write_index info)) in *.
      assert (Hspace : 0 <= space)
        by (subst space; unfold u32, wrap; apply Z.mod_pos_bound; reflexivity).
      remember (if space <? rc then u16 space else rc) as rc' eqn:Hrc'.
      assert (Hrc'b : 0 <= rc' <= MAX_SAMPLES_READ /\ rc' <= space).
      { subst rc'. change MAX_SAMPLES_READ with 1363 in *.
        destruct (Z.ltb_spec space rc).
        - assert (u16 space = space) as ->
            by (unfold u16, wrap; apply Z.mod_small;
                change (2 ^ 16) with 65536; lia).
          lia.
        - lia. }
      clear Hrc'.
      run E as err w5 E1.
      destruct (read_scan_data_effect _ _ _ _ _ _ _ _ _ Hsession E1)
        as (_ & Hcase).
      clear E1.
      run E as overrun w6 E2. inversion E; subst after w6; clear E.
      destruct Hcase as [(Hne & Hs5)|(-> & rxb & Hs5)].
      + rewrite bool_decide_eq_false_2 in E2 by exact Hne.
        inversion E2; subst. exists info. split; assumption.
      + rewrite bool_decide_eq_true_2 in E2 by reflexivity.
        run E2 as i w7 E3. apply the_info_session in E3.
        destruct E3 as (-> & Hi).
        pose proof (has_session_unique _ _ _ _ Hi Hs5) as ->. clear Hi.
        pose proof (P_write rxb rc' (scaled l) (calibrated l) info HPinfo
                      (proj1 Hrc'b) (proj2 Hrc'b)) as HP'.
        destruct (commit_read rc' _) as [info4 ov] eqn:Hcommit.
        cbn [fst] in HP'.
        run E2 as u' w7 E3.
        pose proof (has_session_update _ _ _ _ _ _ Hs5 E3) as Hs6.
        inversion E2; subst. exists info4. split; assumption.
    - inversion E; subst after w4; clear E. exact Hh. }
  clear E Hh.
  destruct after as [[[rc_ done_] sleep_] count_].
  destruct (negb _ && (_ =? rc_)).
  - run Hrun as u' w5 E.
    apply (session_holds_update _ _ _ _
             ltac:(intros i Hi; apply P_scan_running; exact Hi) Hafter) in E.
    inversion Hrun; subst. exact E.
  - run Hrun as u' w5 E. inversion E; subst u' w5; clear E.
    inversion Hrun; subst. exact Hafter.
Qed.

Lemma step_keeps (w w' : World) (u : unit) :
  session_holds w ->
  scan_thread_step address w = Some (u, w') ->
  session_holds w'.
Proof.
  intros Hh Hrun. unfold scan_thread_step in Hrun.
  run Hrun as pc w1 E. unfold thread_pc in E. inversion E; subst pc w1.
  clear E.
  destruct (threads w !! address) as [[|l|]|].
  - (* entry *)
    run Hrun as l w1 E. unfold set_thread_pc, modify in Hrun.
    inversion Hrun; subst. apply (session_holds_same w1); [reflexivity|].
    unfold scan_thread_entry in E. unfold bind at 1, get in E.
    destruct (negb (_check_addr address w) || _).
    { inversion E; subst. exact Hh. }
    run E as u' w2 E1.
    apply (session_holds_update _ _ _ _
             ltac:(intros i Hi; apply P_hw_overrun, P_thread_running;
                   exact Hi) Hh) in E1.
    run E as info w3 E2. apply the_info_session in E2.
    destruct E2 as (-> & _). inversion E; subst. exact E1.
  - (* loop *)
    run Hrun as info w1 E. apply the_info_session in E.
    destruct E as (-> & _).
    destruct (negb (stop_thread info) && negb (done l)).
    + run Hrun as l' w1 E. unfold set_thread_pc, modify in Hrun.
      inversion Hrun; subst. apply (session_holds_same w1); [reflexivity|].
      eapply round_keeps; eassumption.
    + run Hrun as u' w1 E. unfold set_thread_pc, modify in Hrun.
      inversion Hrun; subst. apply (session_holds_same w1); [reflexivity|].
      unfold scan_thread_exit in E.
      run E as info' w2 E1. apply the_info_session in E1.
      destruct E1 as (-> & _).
      run E as u'' w2 E1.
      assert (Hh2 : session_holds w2).
      { destruct (scan_running info').
        - run E1 as r w3 E2. inversion E1; subst.
          unfold mcc172_a_in_scan_stop in E2. unfold bind at 1, get in E2.
          destruct (negb (_check_addr address w)).
          + inversion E2; subst. exact Hh.
          + run E2 as rr w4 E3. apply spi_transfer_same_state in E3.
            destruct E3 as (Hd & _). inversion E2; subst.
            exact (session_holds_same _ _ Hd Hh).
        - inversion E1; subst. exact Hh. }
      exact (session_holds_update _ _ _ _
               ltac:(intros i Hi; apply P_thread_running; exact Hi) Hh2 E).
  - inversion Hrun; subst. exact Hh.
  - inversion Hrun; subst. exact Hh.
Qed.

Lemma steps_keep (n : nat) :
  forall (w w' : World) (u : unit),
    session_holds w ->
    scan_thread_steps n address w = Some (u, w') ->
    session_holds w'.
Proof.
  induction n as [|n IH]; intros w w' u Hh Hrun.
  - inversion Hrun; subst. exact Hh.
  - cbn [scan_thread_steps] in Hrun. run Hrun as u1 w1 E.
    eapply IH; [|exact Hrun]. eapply step_keeps; eassumption.
Qed.

End ProducerInvariant.

(** *** The ring *)

(** The write index is inside the ring (or at its end, for a ring of size
    0), every sample stored lies inside the ring, and the block that the
    ring lives in has the byte count that [mcc172_a_in_scan_start] passes
    to [calloc]. *)
Definition ring_inv `{H : DaqhatsH} (i : mcc172ScanThreadInfo) : Prop :=
  0 <= write_index i <= buffer_size i
  /\ buffer_size i < 2 ^ 32
  /\ scan_buffer_bytes i = size_t (buffer_size i * sizeof_double)
  /\ forall (k : Z) (x : float),
       scan_buffer i !! k = Some x -> 0 <= k < buffer_size i.

Section Ring.

Context `{H : DaqhatsH}.

(** The conversion loop stores at [buffer + count], [buffer + count + 1],
    ... and nowhere else. *)
Lemma read_samples_keys (todo : nat) :
  forall (ptr : list byte) (count : Z) (scaled calibrated : bool)
         (buffer : Z) (info : mcc172ScanThreadInfo) (k : Z) (x : float),
    0 <= count -> count + Z.of_nat todo <= 65535 ->
    scan_buffer (read_samples ptr todo count scaled calibrated buffer info)
      !! k = Some x ->
    (exists y, scan_buffer info !! k = Some y)
    \/ buffer + count <= k < buffer + count + Z.of_nat todo.
Proof.
  induction todo as [|todo IH];
    intros ptr count scaled calibrated buffer info k x Hc Hfit Hk.
  - left. exists x. exact Hk.
  - cbn [read_samples] in Hk.
    assert (Hu : u16 (count + 1) = count + 1)
      by (unfold u16, wrap; apply Z.mod_small;
          change (2 ^ 16) with 65536; lia).
    rewrite Hu in Hk.
    apply IH in Hk; [|lia|lia].
    destruct Hk as [(y & Hy)|Hrange]; [|right; lia].
    cbn in Hy.
    destruct (Z.eq_dec k (buffer + count)) as [->|Hne].
    + right. lia.
    + rewrite lookup_insert_ne in Hy by congruence. left. exists y. exact Hy.
Qed.

(** The conversion loop leaves the block that the ring lives in alone. *)
Lemma read_samples_block (todo : nat) :
  forall (ptr : list byte) (count : Z) (scaled calibrated : bool)
         (buffer : Z) (info : mcc172ScanThreadInfo),
    scan_buffer_bytes
      (read_samples ptr todo count scaled calibrated buffer info)
    = scan_buffer_bytes info.
Proof.
  induction todo as [|todo IH];
    intros ptr count scaled calibrated buffer info; [reflexivity|].
  cbn [read_samples]. rewrite IH. destruct info. reflexivity.
Qed.

Lemma commit_read_ring (n : Z) (i : mcc172ScanThreadInfo) :
  let i' := fst (commit_read n i) in
  write_index i'
  = (if u32 (write_index i + n) >=? buffer_size i then 0
     else u32 (write_index i + n))
  /\ buffer_size i' = buffer_size i
  /\ scan_buffer i' = scan_buffer i
  /\ scan_buffer_bytes i' = scan_buffer_bytes i.
Proof.
  unfold commit_read. cbn.
  match goal with
  | |- context [if ?c then set_scan_running _ _ else _] => destruct c
  end; cbn; repeat split.
Qed.

Lemma ring_inv_write (rx : list byte) (n : Z) (scaled calibrated : bool)
    (i : mcc172ScanThreadInfo) :
  ring_inv i -> 0 <= n <= MAX_SAMPLES_READ ->
  n <= u32 (buffer_size i - write_index i) ->
  ring_inv (fst (commit_read n
                   (read_samples rx (Z.to_nat n) 0 scaled calibrated
                      (write_index i) i))).
Proof.
  intros (Hwi & Hsize & Hblock & Hkeys) Hn Hspace.
  change MAX_SAMPLES_READ with 1363 in Hn.
  change (2 ^ 32) with 4294967296 in Hsize.
  rewrite u32_small in Hspace by lia.
  pose proof (read_samples_counters (Z.to_nat n) rx 0 scaled calibrated
                (write_index i) i) as (Hs & _ & Hw & _).
  assert (Hkeys1 :
    forall k x,
      scan_buffer (read_samples rx (Z.to_nat n) 0 scaled calibrated
                     (write_index i) i) !! k = Some x ->
      0 <= k < buffer_size i).
  { intros k x Hk.
    apply (read_samples_keys (Z.to_nat n) rx 0 scaled calibrated
             (write_index i) i k x ltac:(lia) ltac:(lia)) in Hk.
    destruct Hk as [(y & Hy)|Hrange]; [exact (Hkeys k y Hy)|lia]. }
  set (i1 := read_samples rx (Z.to_nat n) 0 scaled calibrated
               (write_index i) i) in *.
  destruct (commit_read_ring n i1) as (Hw' & Hs' & Hb' & Hbytes').
  unfold ring_inv. rewrite Hw', Hs', Hb', Hbytes', Hs, Hw.
  rewrite (u32_small (write_index i + n)) by lia.
  change (2 ^ 32) with 4294967296.
  split; [|split; [lia|split; [|exact Hkeys1]]].
  - destruct (Z.geb_spec (write_index i + n) (buffer_size i)); lia.
  - subst i1. rewrite read_samples_block. exact Hblock.
Qed.

Lemma ring_inv_flags :
  (forall b i, ring_inv i -> ring_inv (set_thread_running b i))
  /\ (forall b i, ring_inv i -> ring_inv (set_hw_overrun b i))
  /\ (forall b i, ring_inv i -> ring_inv (set_triggered b i))
  /\ (forall b i, ring_inv i -> ring_inv (set_scan_running b i))
  /\ (forall d r i, ring_inv i ->
                    ring_inv (set_buffer_depth d (set_read_index r i))).
Proof.
  repeat match goal with |- _ /\ _ => split end; intros;
    match goal with
    | Hr : ring_inv ?i |- _ => destruct i; exact Hr
    end.
Qed.

End Ring.

Section ReaderInvariant.

Context `{H : DaqhatsH}.

Variable address : Z.
Variable P : mcc172ScanThreadInfo -> Prop.

Hypothesis P_thread_running :
  forall b i, P i -> P (set_thread_running b i).
Hypothesis P_hw_overrun : forall b i, P i -> P (set_hw_overrun b i).
Hypothesis P_triggered : forall b i, P i -> P (set_triggered b i).
Hypothesis P_scan_running : forall b i, P i -> P (set_scan_running b i).
Hypothesis P_write :
  forall rx n scaled calibrated i,
    P i -> 0 <= n <= MAX_SAMPLES_READ ->
    n <= u32 (buffer_size i - write_index i) ->
    P (fst (commit_read n
              (read_samples rx (Z.to_nat n) 0 scaled calibrated
                 (write_index i) i))).
Hypothesis P_read :
  forall d r i, P i -> P (set_buffer_depth d (set_read_index r i)).

(** The reader changes the session through its read index and depth
    alone. *)
Lemma read_chunk_session (l l' : ReadLocals)
    (info info' : mcc172ScanThreadInfo) :
  read_chunk l info = Some (l', info') ->
  exists d r, info' = set_buffer_depth d (set_read_index r info).
Proof.
  unfold read_chunk. destruct (user_buffer l) as [buffer|]; [|discriminate].
  destruct (_ <? _); intros Hr; inversion Hr; eexists _, _; reflexivity.
Qed.

Lemma read_loop_keeps (rounds : nat) :
  forall (no_timeout : bool) (timeout_us : Z) (l l' : ReadLocals)
         (w w' : World),
    session_holds address P w ->
    read_loop rounds address no_timeout timeout_us l w = Some (l', w') ->
    session_holds address P w'.
Proof.
  induction rounds as [|rounds IH];
    intros no_timeout timeout_us l l' w w' Hh Hrun; [discriminate|].
  cbn [read_loop] in Hrun.
  run Hrun as info w1 E. apply the_info_session in E.
  destruct E as (-> & Hsession).
  assert (HPinfo : P info).
  { destruct Hh as (i & Hi & HPi).
    rewrite (has_session_unique _ _ _ _ Hsession Hi). exact HPi. }
  run Hrun as l1 w1 E.
  assert (Hh1 : session_holds address P w1).
  { destruct (buffer_depth info >=? channel_count info).
    - destruct (read_chunk l info) as [[l2 info2]|] eqn:Hchunk;
        [|discriminate].
      apply read_chunk_session in Hchunk. destruct Hchunk as (d & r & ->).
      run E as u w2 E1.
      pose proof (has_session_update _ _ _ _ _ _ Hsession E1) as Hs2.
      inversion E; subst. eexists. split; [exact Hs2|].
      apply P_read. exact HPinfo.
    - inversion E; subst. exact Hh. }
  clear E Hh.
  run Hrun as n w2 E. apply pop_same_state in E. destruct E as (Hd2 & _).
  apply (session_holds_same _ _ _ _ Hd2) in Hh1.
  run Hrun as u w3 E.
  apply (steps_keep address P P_thread_running P_hw_overrun P_triggered
           P_scan_running P_write n _ _ _ Hh1) in E.
  clear Hh1.
  run Hrun as timed_out_ w4 E1.
  assert (Hh4 : session_holds address P w4).
  { destruct (negb no_timeout).
    - run E1 as t w5 E2. apply pop_same_state in E2.
      destruct E2 as (Hd & _). inversion E1; subst.
      exact (session_holds_same _ _ _ _ Hd E).
    - inversion E1; subst. exact E. }
  clear E E1.
  run Hrun as info4 w5 E. apply the_info_session in E.
  destruct E as (-> & _).
  match type of Hrun with
  | (if ?c then _ else _) _ = _ => destruct c
  end.
  - eapply IH; eassumption.
  - inversion Hrun; subst. exact Hh4.
Qed.

Lemma scan_read_keeps (status : option Z) (samples_per_channel : Z)
    (timeout : float) (buffer : option (list float))
    (buffer_size_samples : Z) (samples_read_per_channel : option Z)
    (w w' : World) (r : ResultCode * ReadOut) :
  session_holds address P w ->
  mcc172_a_in_scan_read address status samples_per_channel timeout buffer
    buffer_size_samples samples_read_per_channel w = Some (r, w') ->
  session_holds address P w'.
Proof.
  intros Hh Hrun. unfold mcc172_a_in_scan_read in Hrun.
  unfold bind at 1, get in Hrun.
  destruct (negb (_check_addr address w) || _ || _).
  { inversion Hrun; subst. exact Hh. }
  run Hrun as dev w1 E. unfold the_device in E.
  destruct (_devices w !! address); [|discriminate].
  inversion E; subst; clear E.
  destruct (scan_info dev) as [info|].
  2:{ inversion Hrun; subst. exact Hh. }
  unfold bind at 1, get in Hrun.
  run Hrun as l w2 E.
  assert (Hh2 : session_holds address P w2).
  { destruct (negb _).
    - eapply read_loop_keeps; eassumption.
    - inversion E; subst. exact Hh. }
  clear E Hh.
  run Hrun as info2 w3 E. apply the_info_session in E.
  destruct E as (-> & _).
  match type of Hrun with
  | (if ?c then _ else _) _ = _ => destruct c
  end; inversion Hrun; subst; exact Hh2.
Qed.

End ReaderInvariant.

(** The channel snapshot leaves the ring's write index alone. *)
Lemma snapshot_write_index (channel_mask : Z) (data : mcc172FactoryData)
    (info : mcc172ScanThreadInfo) :
  write_index (fst (snapshot_channels channel_mask data info))
  = write_index info.
Proof.
  unfold snapshot_channels.
  change (seqZ 0 NUM_CHANNELS) with [0; 1]. cbn [fold_left].
  destruct (negb (Z.land channel_mask (Z.shiftl 1 0) =? 0));
    destruct (negb (Z.land channel_mask (Z.shiftl 1 1) =? 0));
    reflexivity.
Qed.

(** The scan never leaves its ring. A successful
    [mcc172_a_in_scan_start] installs a session whose write index is inside
    the ring, whose ring holds no sample outside [0, buffer_size), and
    whose block has the byte count that was passed to [calloc]: the
    [size_t] product [buffer_size * sizeof(double)]. Every scheduling step
    of the producer thread and every call of [mcc172_a_in_scan_read] (with
    the producer steps that run while it waits) keeps it so. When the
    product fits a [size_t], every sample stored lies inside the allocated
    block. *)
Theorem scan_stays_inside_ring `{H : DaqhatsH} (address : Z) :
  (forall channel_mask samples_per_channel opts w w',
     mcc172_a_in_scan_start address channel_mask samples_per_channel opts w
     = Some (RESULT_SUCCESS, w') ->
     session_holds address ring_inv w')
  /\ (forall n w w',
        session_holds address ring_inv w ->
        scan_thread_steps n address w = Some (tt, w') ->
        session_holds address ring_inv w')
  /\ (forall status samples_per_channel timeout buffer buffer_size_samples
             samples_read_per_channel w w' r,
        session_holds address ring_inv w ->
        mcc172_a_in_scan_read address status samples_per_channel timeout
          buffer buffer_size_samples samples_read_per_channel w
        = Some (r, w') ->
        session_holds address ring_inv w')
  /\ (forall info k x,
        ring_inv info ->
        buffer_size info * sizeof_double <= SIZE_MAX ->
        scan_buffer info !! k = Some x ->
        0 <= k /\ (k + 1) * sizeof_double <= scan_buffer_bytes info).
Proof.
  destruct ring_inv_flags as (F1 & F2 & F3 & F4 & F5).
  split; [|split; [|split]].
  - intros channel_mask samples_per_channel opts w w' Hrun.
    apply scan_start_outcome in Hrun.
    destruct Hrun as [(_ & _ & _ & dev0 & rate & thread & Hdev0 & _ & Hd & _)
                     |(Hne & _)]; [|contradiction].
    eexists. split.
    + eexists. split; [rewrite Hd; apply lookup_insert_eq|reflexivity].
    + unfold started_session.
      destruct (snapshot_channels _ _ _) as [info0 n] eqn:Hsnap.
      pose proof (snapshot_write_index channel_mask (factory_data dev0)
                    (set_options (u16 opts) Scan.zeroed)) as Hwi.
      rewrite Hsnap in Hwi. cbn in Hwi.
      unfold ring_inv. cbn. rewrite Hwi.
      split; [|split; [|split]].
      * split; [lia|]. unfold scan_buffer_size, u32, wrap.
        apply Z.mod_pos_bound. reflexivity.
      * unfold scan_buffer_size, u32, wrap. apply Z.mod_pos_bound.
        reflexivity.
      * reflexivity.
      * intros k x Hk. rewrite lookup_empty in Hk. discriminate.
  - intros n w w' Hh Hrun.
    exact (steps_keep address ring_inv F1 F2 F3 F4 ring_inv_write n w w' tt
             Hh Hrun).
  - intros status samples_per_channel timeout buffer buffer_size_samples
      samples_read_per_channel w w' r Hh Hrun.
    exact (scan_read_keeps address ring_inv F1 F2 F3 F4 ring_inv_write F5 _
             _ _ _ _ _ _ _ _ Hh Hrun).
  - intros info k x (Hwi & _ & Hblock & Hkeys) Hfit Hk.
    apply Hkeys in Hk. rewrite Hblock. unfold size_t, sizeof_double in *.
    rewrite Z.mod_small by lia. lia.
Qed.

(** The sample scan of two channels: its start leaves a ring of 200000
    samples in a block of 1600000 bytes, which fits the 32-bit [size_t] of
    the sample target. *)
Lemma scan_stays_inside_ring_witness :
  exists w',
    mcc172_a_in_scan_start (H := sample_header) 0 3 0 16
      (open_world start_bus)
    = Some (RESULT_SUCCESS, w')
    /\ has_session 0 w' sample_session
    /\ ring_inv (H := sample_header) sample_session
    /\ buffer_size sample_session * sizeof_double
       <= SIZE_MAX (DaqhatsH := sample_header).
Proof.
  pose proof start_gives_sample_session as Hex.
  change [answers [xdb; x15; x00; x02; x00; x80; x00];
          answers [xdb; x11; x00; x00; x00]] with start_bus in Hex.
  destruct (mcc172_a_in_scan_start (H := sample_header) 0 3 0 16
              (open_world start_bus)) as [[r w']|] eqn:Hrun;
    [|discriminate Hex].
  cbn in Hex. inversion Hex as [[Hr Hinfo]]. subst r.
  destruct (scan_stays_inside_ring (H := sample_header) 0)
    as (Hstart & _).
  destruct (Hstart 3 0 16 (open_world start_bus) w' Hrun)
    as (info & (dev & Hdev & Hsession) & Hinv).
  rewrite Hdev in Hinfo. cbn in Hinfo. rewrite Hsession in Hinfo.
  inversion Hinfo; subst info.
  exists w'. split; [reflexivity|]. split; [exists dev; auto|].
  split; [exact Hinv|]. vm_compute. discriminate.
Defined.

(** The byte count is a [size_t]: on a target whose [size_t] has 32 bits a
    finite scan of 2^29 + 16 samples on one channel starts with a ring of
    536870928 samples in a block of 128 bytes. *)
Example scan_start_block_wraps :
  (fun '(r, w) =>
     (r, (fun i => (buffer_size i, scan_buffer_bytes i))
           <$> (_devices w !! 0 ≫= scan_info)))
    <$> mcc172_a_in_scan_start (H := sample_header) 0 1 536870928 0
          (open_world start_bus)
  = Some (RESULT_SUCCESS, Some (536870928, 128)).
Proof. vm_compute. reflexivity. Qed.

(** ** What the producer stores *)

Section Samples.

Lemma byte_at_drop (ptr : list byte) (n : nat) (i : Z) :
  0 <= i -> byte_at (drop n ptr) i = byte_at ptr (Z.of_nat n + i).
Proof.
  intros Hi. unfold byte_at. rewrite lookup_drop.
  replace (Z.to_nat (Z.of_nat n + i)) with (n + Z.to_nat i)%nat by lia.
  reflexivity.
Qed.

(** Sample [j] of a received block: its three bytes, converted with the
    coefficients of the channel whose turn it is. *)
Definition converted_sample (scaled calibrated : bool)
    (info : mcc172ScanThreadInfo) (ptr : list byte) (j : Z) : float :=
  let turn := (channel_index info + j) mod channel_count info in
  sample_output scaled calibrated
    (float_at (slopes info) turn) (float_at (offsets info) turn)
    (sample_value (byte_at ptr (SAMPLE_SIZE_BYTES * j))
       (byte_at ptr (SAMPLE_SIZE_BYTES * j + 1))
       (byte_at ptr (SAMPLE_SIZE_BYTES * j + 2))).

(** The conversion loop: sample [j] goes to [buffer[count + j]], the
    channel index rotates, and nothing else of the ring changes. *)
Lemma read_samples_places (todo : nat) :
  forall (ptr : list byte) (count : Z) (scaled calibrated : bool)
         (buffer : Z) (info : mcc172ScanThreadInfo),
    0 < channel_count info <= 255 ->
    0 <= channel_index info < channel_count info ->
    0 <= count -> count + Z.of_nat todo <= 65535 ->
    let info' := read_samples ptr todo count scaled calibrated buffer info in
    (forall j, 0 <= j < Z.of_nat todo ->
       scan_buffer info' !! (buffer + count + j)
       = Some (converted_sample scaled calibrated info ptr j))
    /\ (forall k, ~ (buffer + count <= k < buffer + count + Z.of_nat todo) ->
          scan_buffer info' !! k = scan_buffer info !! k)
    /\ channel_index info'
       = (channel_index info + Z.of_nat todo) mod channel_count info
    /\ slopes info' = slopes info /\ offsets info' = offsets info
    /\ channel_count info' = channel_count info.
Proof.
  induction todo as [|todo IH];
    intros ptr count scaled calibrated buffer info Hcc Hci Hcount Hend info'.
  { subst info'. cbn [read_samples].
    split; [intros; lia|]. split; [reflexivity|].
    split; [|auto].
    rewrite Z.add_0_r, Z.mod_small by lia. reflexivity. }
  subst info'. cbn [read_samples].
  set (x := sample_output _ _ _ _ _).
  set (info1 := set_channel_index _ _).
  assert (Hu16 : u16 (count + 1) = count + 1)
    by (unfold u16, wrap; apply Z.mod_small; change (2 ^ 16) with 65536;
        lia).
  rewrite Hu16.
  assert (Hcc1 : channel_count info1 = channel_count info)
    by (destruct info; reflexivity).
  assert (Hsl1 : slopes info1 = slopes info) by (destruct info; reflexivity).
  assert (Hof1 : offsets info1 = offsets info)
    by (destruct info; reflexivity).
  assert (Hbuf1 : scan_buffer info1
                  = <[buffer + count := x]> (scan_buffer info))
    by (destruct info; reflexivity).
  assert (Hci1 : channel_index info1
                 = (channel_index info + 1) mod channel_count info).
  { assert (Hu8 : u8 (channel_index info + 1) = channel_index info + 1)
      by (unfold u8, wrap; apply Z.mod_small; change (2 ^ 8) with 256; lia).
    replace (channel_index info1)
      with (if u8 (channel_index info + 1) >=? channel_count info
            then 0 else u8 (channel_index info + 1))
      by (destruct info; reflexivity).
    rewrite Hu8.
    destruct (Z.geb_spec (channel_index info + 1) (channel_count info)).
    - replace (channel_index info + 1) with (channel_count info) by lia.
      rewrite Z.mod_same by lia. reflexivity.
    - rewrite Z.mod_small by lia. reflexivity. }
  destruct (IH (drop (Z.to_nat SAMPLE_SIZE_BYTES) ptr) (count + 1) scaled
              calibrated buffer info1)
    as (Hput & Hrest & Hidx & Hsl & Hof & Hcnt).
  { rewrite Hcc1. exact Hcc. }
  { rewrite Hci1, Hcc1. apply Z.mod_pos_bound. lia. }
  { lia. }
  { lia. }
  rewrite Hcc1 in *. rewrite Hci1 in Hidx.
  split; [|split; [|split; [|split; [|split]]]].
  - intros j Hj. destruct (Z.eq_dec j 0) as [->|Hnz].
    + rewrite Z.add_0_r, Hrest by lia. rewrite Hbuf1, lookup_insert_eq.
      unfold converted_sample.
      rewrite Z.add_0_r, Z.mod_small by lia.
      rewrite Z.mul_0_r. reflexivity.
    + replace (buffer + count + j) with (buffer + (count + 1) + (j - 1))
        by lia.
      rewrite Hput by lia. f_equal. unfold converted_sample.
      rewrite Hci1, Hcc1, Hsl1, Hof1.
      rewrite Z.add_mod_idemp_l by lia.
      replace (channel_index info + 1 + (j - 1))
        with (channel_index info + j) by lia.
      change (Z.to_nat SAMPLE_SIZE_BYTES) with 3%nat.
      unfold SAMPLE_SIZE_BYTES.
      rewrite !byte_at_drop by lia.
      replace (Z.of_nat 3 + 3 * (j - 1)) with (3 * j) by lia.
      replace (Z.of_nat 3 + (3 * (j - 1) + 1)) with (3 * j + 1) by lia.
      replace (Z.of_nat 3 + (3 * (j - 1) + 2)) with (3 * j + 2) by lia.
      reflexivity.
  - intros k Hk. rewrite Hrest by lia.
    rewrite Hbuf1, lookup_insert_ne by lia. reflexivity.
  - rewrite Hidx. rewrite Z.add_mod_idemp_l by lia. f_equal. lia.
  - congruence.
  - congruence.
  - exact Hcnt.
Qed.

End Samples.

Section StoredSamples.

Context `{H : DaqhatsH}.

Lemma read_scan_data_samples (address sample_count : Z)
    (scaled calibrated : bool) (buffer : Z) (P noise : list byte)
    (w : World) (bus : list SpiEnv) (heap' : list bool)
    (info : mcc172ScanThreadInfo) :
  _check_addr address w = true ->
  has_session address w info ->
  0 <= sample_count <= MAX_SAMPLES_READ ->
  Z.of_nat (length P) = sample_count * SAMPLE_SIZE_BYTES ->
  heap (env w) = true :: true :: true :: true :: heap' ->
  spi_bus (env w)
  = answers (reply_frame (byte_of_Z CMD_AINSCANDATA)
               (byte_of_Z FW_RES_SUCCESS) P ++ noise) :: bus ->
  exists w',
    _a_in_read_scan_data address sample_count scaled calibrated
      (Some buffer) w
    = Some (RESULT_SUCCESS, w')
    /\ has_session address w'
         (read_samples P (Z.to_nat sample_count) 0 scaled calibrated buffer
            info)
    /\ spi_bus (env w') = bus.
Proof.
  intros Hcheck Hs Hn HP Hheap Hbus.
  change MAX_SAMPLES_READ with 1363 in *. unfold SAMPLE_SIZE_BYTES in *.
  unfold _a_in_read_scan_data, bind at 1, get.
  rewrite Hcheck. cbn [negb orb is_null].
  unfold bind at 1, calloc, pop. rewrite Hheap. cbn [negb].
  set (w1 := set_env _ w).
  assert (Hu : u16 (sample_count * 3) = Z.of_nat (length P))
    by (unfold u16, wrap; rewrite Z.mod_small;
        change (2 ^ 16) with 65536; lia).
  cbv zeta. unfold SAMPLE_SIZE_BYTES. rewrite Hu.
  unfold bind at 1.
  rewrite (spi_transfer_payload address (byte_of_Z CMD_AINSCANDATA)
             (Some [byte_of_Z sample_count;
                    byte_of_Z (Z.shiftr sample_count 8)]) 2
             (replicate (Z.to_nat (sample_count * 3)) x00) P noise
             (40 * MSEC) 1 w1 bus heap').
  - cbn [negb bool_decide]. rewrite bool_decide_eq_true_2 by reflexivity.
    cbn [negb default id]. unfold id.
    set (w2 := set_env _ w1).
    assert (Hs2 : has_session address w2 info)
      by (apply (has_session_same_devices address w); [reflexivity|exact Hs]).
    destruct (update_info_run address
                (read_samples P (Z.to_nat sample_count) 0 scaled calibrated
                   buffer) w2 info Hs2) as (w3 & Hup & _).
    exists w3. unfold bind at 1. rewrite Hup.
    split; [reflexivity|]. split.
    + exact (has_session_update _ _ _ _ _ _ Hs2 Hup).
    + apply update_info_spec in Hup.
      destruct Hup as (? & ? & _ & _ & ->). reflexivity.
  - exact Hcheck.
  - unfold MAX_TX_DATA_SIZE. lia.
  - discriminate.
  - rewrite length_replicate. lia.
  - lia.
  - reflexivity.
  - exact Hbus.
Qed.

End StoredSamples.

(** What one data transfer stores. On a session whose channel index is
    inside its channel count, when the device answers the scan-data command
    with a reply of status 0 that carries [sample_count] samples of three
    bytes, [_a_in_read_scan_data] returns Success and the ring holds, at
    [buffer + j], sample [j] of the reply: its 24-bit code converted with
    the slope and offset saved for the channel whose turn it is, the turns
    going round the scan's channels from the session's channel index. The
    rest of the ring is as before, and the channel index has advanced by
    [sample_count] turns. *)
Theorem read_scan_data_stores_samples `{H : DaqhatsH}
    (address sample_count : Z) (scaled calibrated : bool) (buffer : Z)
    (P noise : list byte) (w : World) (bus : list SpiEnv)
    (heap' : list bool) (info : mcc172ScanThreadInfo) :
  _check_addr address w = true ->
  has_session address w info ->
  0 < channel_count info <= 255 ->
  0 <= channel_index info < channel_count info ->
  0 <= sample_count <= MAX_SAMPLES_READ ->
  Z.of_nat (length P) = sample_count * SAMPLE_SIZE_BYTES ->
  heap (env w) = true :: true :: true :: true :: heap' ->
  spi_bus (env w)
  = answers (reply_frame (byte_of_Z CMD_AINSCANDATA)
               (byte_of_Z FW_RES_SUCCESS) P ++ noise) :: bus ->
  exists w' info',
    _a_in_read_scan_data address sample_count scaled calibrated
      (Some buffer) w
    = Some (RESULT_SUCCESS, w')
    /\ has_session address w' info'
    /\ (forall j, 0 <= j < sample_count ->
          scan_buffer info' !! (buffer + j)
          = Some (converted_sample scaled calibrated info P j))
    /\ (forall k, ~ (buffer <= k < buffer + sample_count) ->
          scan_buffer info' !! k = scan_buffer info !! k)
    /\ channel_index info'
       = (channel_index info + sample_count) mod channel_count info.
Proof.
  intros Hcheck Hs Hcc Hci Hn HP Hheap Hbus.
  destruct (read_scan_data_samples address sample_count scaled calibrated
              buffer P noise w bus heap' info Hcheck Hs Hn HP Hheap Hbus)
    as (w' & Hrun & Hs' & _).
  exists w', (read_samples P (Z.to_nat sample_count) 0 scaled calibrated
                buffer info).
  split; [exact Hrun|]. split; [exact Hs'|].
  change MAX_SAMPLES_READ with 1363 in Hn.
  destruct (read_samples_places (Z.to_nat sample_count) P 0 scaled calibrated
              buffer info Hcc Hci ltac:(lia) ltac:(lia))
    as (Hput & Hrest & Hidx & _).
  rewrite Z2Nat.id in * by lia.
  split; [|split].
  - intros j Hj. rewrite <- (Hput j Hj). f_equal. lia.
  - intros k Hk. apply Hrest. lia.
  - exact Hidx.
Qed.

(** A reply with the two samples 1 and -2, and the two-channel session that
    receives it. *)
Definition two_samples : list byte := [x00; x00; x01; xff; xff; xfe].

Definition two_sample_world : World :=
  scanning_world sample_session
    [answers ([xdb; x13; x00; x06; x00] ++ two_samples)].

(** The two samples land at ring indices 10 and 11, the first converted for
    channel 0 and the second for channel 1. *)
Lemma read_scan_data_stores_samples_witness :
  exists w' info',
    _a_in_read_scan_data (H := sample_header) 0 2 true true (Some 10)
      two_sample_world
    = Some (RESULT_SUCCESS, w')
    /\ has_session 0 w' info'
    /\ (forall j, 0 <= j < 2 ->
          scan_buffer info' !! (10 + j)
          = Some (converted_sample true true sample_session two_samples j))
    /\ (forall k, ~ (10 <= k < 10 + 2) ->
          scan_buffer info' !! k = scan_buffer sample_session !! k)
    /\ channel_index info'
       = (channel_index sample_session + 2) mod channel_count sample_session.
Proof.
  apply (read_scan_data_stores_samples (H := sample_header) 0 2 true true 10
           two_samples [] two_sample_world [] (replicate 60 true)
           sample_session).
  - reflexivity.
  - eexists. split; reflexivity.
  - cbn. lia.
  - cbn. lia.
  - vm_compute. split; discriminate.
  - reflexivity.
  - reflexivity.
  - reflexivity.
Defined.

(** ** What the reader copies *)

Section Copy.

Lemma memcpy_slice (dst : list float) (at_ i n : Z) (buf : gmap Z float) :
  0 <= at_ -> 0 <= n -> at_ + n <= Z.of_nat (length dst) ->
  length (memcpy dst at_ (ring_slice buf i n) n) = length dst
  /\ (forall j, 0 <= j < n ->
        memcpy dst at_ (ring_slice buf i n) n !! Z.to_nat (at_ + j)
        = Some (ring_get buf (i + j)))
  /\ (forall k : nat, ~ (at_ <= Z.of_nat k < at_ + n) ->
        memcpy dst at_ (ring_slice buf i n) n !! k = dst !! k).
Proof.
  intros Hat Hn Hfit. unfold memcpy, ring_slice.
  assert (Hlen : length ((fun k => ring_get buf k) <$> seqZ i n)
                 = Z.to_nat n)
    by (rewrite length_fmap, length_seqZ; reflexivity).
  rewrite take_ge by lia.
  split; [apply length_inserts|]. split.
  - intros j Hj. rewrite list_lookup_inserts by lia.
    rewrite list_lookup_fmap.
    replace (Z.to_nat (at_ + j) - Z.to_nat at_)%nat with (Z.to_nat j) by lia.
    rewrite lookup_seqZ_lt by lia. cbn. rewrite Z2Nat.id by lia.
    reflexivity.
  - intros k Hk.
    destruct (Nat.lt_ge_cases k (Z.to_nat at_)).
    + apply list_lookup_inserts_lt. exact H.
    + apply list_lookup_inserts_ge. lia.
Qed.

End Copy.

Section Chunk.

Lemma count_normalize_bounds (x c : Z) :
  0 <= x -> 0 < c -> 0 <= COUNT_NORMALIZE x c <= x.
Proof.
  intros Hx Hc. unfold COUNT_NORMALIZE.
  pose proof (Z.div_pos x c Hx Hc).
  pose proof (Z.mul_div_le x c Hc). nia.
Qed.

Lemma u32_id (z : Z) : 0 <= z < 2 ^ 32 -> u32 z = z.
Proof. intros Hz. unfold u32, wrap. apply Z.mod_small. exact Hz. Qed.

Lemma reader_update_fields (d r : Z) (i : mcc172ScanThreadInfo) :
  buffer_depth (set_buffer_depth d (set_read_index r i)) = d
  /\ read_index (set_buffer_depth d (set_read_index r i)) = r
  /\ scan_buffer (set_buffer_depth d (set_read_index r i)) = scan_buffer i
  /\ write_index (set_buffer_depth d (set_read_index r i)) = write_index i
  /\ channel_count (set_buffer_depth d (set_read_index r i))
     = channel_count i.
Proof. destruct i. repeat split. Qed.

(** The copy of one chunk out of the ring, step by step. *)
Lemma read_chunk_copies (l : ReadLocals) (info : mcc172ScanThreadInfo)
    (buffer : list float) :
  let current_read :=
    COUNT_NORMALIZE (MIN (buffer_depth info) (samples_to_read l))
      (channel_count info) in
  user_buffer l = Some buffer ->
  0 < channel_count info ->
  0 <= read_index info < buffer_size info ->
  0 <= buffer_depth info <= buffer_size info ->
  buffer_size info < 2 ^ 32 ->
  0 <= samples_to_read l < 2 ^ 32 ->
  0 <= samples_read l ->
  samples_read l + current_read <= Z.of_nat (length buffer) ->
  Z.of_nat (length buffer) < 2 ^ 32 ->
  exists l' info' buffer',
    read_chunk l info = Some (l', info')
    /\ user_buffer l' = Some buffer'
    /\ length buffer' = length buffer
    /\ (forall j, 0 <= j < current_read ->
          buffer' !! Z.to_nat (samples_read l + j)
          = Some (ring_get (scan_buffer info)
                    ((read_index info + j) mod buffer_size info)))
    /\ (forall k : nat,
          ~ (samples_read l <= Z.of_nat k < samples_read l + current_read) ->
          buffer' !! k = buffer !! k)
    /\ samples_read l' = samples_read l + current_read
    /\ samples_to_read l' = samples_to_read l - current_read
    /\ buffer_depth info' = buffer_depth info - current_read
    /\ read_index info'
       = (read_index info + current_read) mod buffer_size info
    /\ scan_buffer info' = scan_buffer info
    /\ write_index info' = write_index info
    /\ channel_count info' = channel_count info.
Proof.
  intros current_read Hbuf Hcc Hri Hdepth Hsize Htodo Hread Hfit Hlen.
  assert (Hmin : 0 <= MIN (buffer_depth info) (samples_to_read l)
                 /\ MIN (buffer_depth info) (samples_to_read l)
                    <= buffer_depth info
                 /\ MIN (buffer_depth info) (samples_to_read l)
                    <= samples_to_read l)
    by (unfold MIN; destruct (Z.ltb_spec (buffer_depth info)
                                (samples_to_read l)); lia).
  pose proof (count_normalize_bounds _ _ (proj1 Hmin) Hcc) as Hcr.
  fold current_read in Hcr.
  unfold read_chunk. rewrite Hbuf. fold current_read.
  rewrite (u32_id (buffer_size info - read_index info)) by lia.
  set (max_read := buffer_size info - read_index info).
  destruct (Z.ltb_spec max_read current_read) as [Hwrap|Hflat].
  - (* two copies *)
    rewrite (u32_id (samples_read l + max_read)) by lia.
    rewrite (u32_id (samples_read l + max_read + (current_read - max_read)))
      by lia.
    rewrite (u32_id (current_read - max_read)) by lia.
    rewrite (u32_id (samples_to_read l - current_read)) by lia.
    rewrite (u32_id (buffer_depth info - current_read)) by lia.
    destruct (memcpy_slice buffer (samples_read l) (read_index info) max_read
                (scan_buffer info)) as (Hl1 & Hput1 & Hrest1);
      [lia | lia | lia |].
    set (buffer1 := memcpy buffer _ _ max_read) in *.
    destruct (memcpy_slice buffer1 (samples_read l + max_read) 0
                (current_read - max_read) (scan_buffer info))
      as (Hl2 & Hput2 & Hrest2); [lia | lia | lia |].
    set (buffer2 := memcpy buffer1 _ _ _) in *.
    eexists _, _, buffer2. split; [reflexivity|].
    cbn [user_buffer samples_read samples_to_read].
    destruct (reader_update_fields (buffer_depth info - current_read)
                (current_read - max_read) info) as (-> & -> & -> & -> & ->).
    split; [reflexivity|]. split; [congruence|].
    split; [|split; [|split; [|split; [|split; [|split; [|split; [|split]]]]]]].
    + intros j Hj. destruct (Z.lt_ge_cases j max_read) as [Hlt|Hge].
      * rewrite Hrest2 by lia. rewrite Hput1 by lia.
        rewrite Z.mod_small by lia. reflexivity.
      * replace (samples_read l + j)
          with (samples_read l + max_read + (j - max_read)) by lia.
        rewrite Hput2 by lia. do 2 f_equal.
        apply (Z.mod_unique _ _ 1); lia.
    + intros k Hk. rewrite Hrest2 by lia. apply Hrest1. lia.
    + lia.
    + reflexivity.
    + reflexivity.
    + apply (Z.mod_unique _ _ 1); lia.
    + reflexivity.
    + reflexivity.
    + reflexivity.
  - (* one copy *)
    rewrite (u32_id (read_index info + current_read)) by lia.
    rewrite (u32_id (samples_read l + current_read)) by lia.
    rewrite (u32_id (samples_to_read l - current_read)) by lia.
    rewrite (u32_id (buffer_depth info - current_read)) by lia.
    destruct (memcpy_slice buffer (samples_read l) (read_index info)
                current_read (scan_buffer info)) as (Hl1 & Hput1 & Hrest1);
      [lia | lia | lia |].
    set (buffer1 := memcpy buffer _ _ current_read) in *.
    eexists _, _, buffer1. split; [reflexivity|].
    cbn [user_buffer samples_read samples_to_read].
    destruct (reader_update_fields (buffer_depth info - current_read)
                (if read_index info + current_read >=? buffer_size info
                 then 0 else read_index info + current_read) info)
      as (-> & -> & -> & -> & ->).
    split; [reflexivity|]. split; [exact Hl1|].
    split; [|split; [|split; [|split; [|split; [|split; [|split; [|split]]]]]]].
    + intros j Hj. rewrite Hput1 by lia.
      rewrite Z.mod_small by lia. reflexivity.
    + exact Hrest1.
    + reflexivity.
    + reflexivity.
    + reflexivity.
    + destruct (Z.geb_spec (read_index info + current_read)
                  (buffer_size info)).
      * apply (Z.mod_unique _ _ 1); lia.
      * rewrite Z.mod_small by lia. reflexivity.
    + reflexivity.
    + reflexivity.
    + reflexivity.
Qed.

End Chunk.

Section ReadAvailable.

Context `{H : DaqhatsH}.

(** One round of the reader's loop when the ring already holds all that is
    asked for and the producer is not scheduled meanwhile. *)
Lemma read_loop_available (rounds : nat) (address : Z) (no_timeout : bool)
    (timeout_us : Z) (l : ReadLocals) (w : World)
    (info : mcc172ScanThreadInfo) (ub : list float) (sched : list nat) :
  has_session address w info ->
  user_buffer l = Some ub ->
  samples_read l = 0 ->
  0 < channel_count info ->
  (exists per_channel,
     0 < per_channel
     /\ samples_to_read l = per_channel * channel_count info) ->
  samples_to_read l <= buffer_depth info <= buffer_size info ->
  buffer_size info < 2 ^ 32 ->
  0 <= read_index info < buffer_size info ->
  samples_to_read l <= Z.of_nat (length ub) ->
  Z.of_nat (length ub) < 2 ^ 32 ->
  scheduler (env w) = 0%nat :: sched ->
  (no_timeout = false -> monotonic (env w) <> []) ->
  exists l' w' info' ub',
    read_loop (S rounds) address no_timeout timeout_us l w = Some (l', w')
    /\ has_session address w' info'
    /\ samples_to_read l' = 0
    /\ samples_read l' = samples_to_read l
    /\ user_buffer l' = Some ub'
    /\ length ub' = length ub
    /\ (forall j, 0 <= j < samples_to_read l ->
          ub' !! Z.to_nat j
          = Some (ring_get (scan_buffer info)
                    ((read_index info + j) mod buffer_size info)))
    /\ (forall k : nat, ~ (Z.of_nat k < samples_to_read l) ->
          ub' !! k = ub !! k)
    /\ buffer_depth info' = buffer_depth info - samples_to_read l
    /\ read_index info'
       = (read_index info + samples_to_read l) mod buffer_size info
    /\ scan_buffer info' = scan_buffer info
    /\ write_index info' = write_index info
    /\ channel_count info' = channel_count info.
Proof.
  intros Hs Hub Hread Hcc (per_channel & Hper & HN) Hdepth Hsize Hri Hfit
    Hlen Hsched Hclock.
  assert (Hcur : COUNT_NORMALIZE
                   (MIN (buffer_depth info) (samples_to_read l))
                   (channel_count info)
                 = samples_to_read l).
  { unfold MIN.
    destruct (Z.ltb_spec (buffer_depth info) (samples_to_read l)); [lia|].
    unfold COUNT_NORMALIZE. rewrite HN, Z.div_mul by lia. reflexivity. }
  destruct (read_chunk_copies l info ub Hub Hcc Hri)
    as (l1 & info1 & ub' & Hchunk & Hub1 & Hlen1 & Hput & Hrest & Hsr & Hst
        & Hd1 & Hri1 & Hbuf1 & Hwi1 & Hcc1);
    try rewrite Hcur; try nia.
  rewrite Hcur in *. rewrite Hread in *.
  cbn [read_loop].
  unfold bind at 1. rewrite (the_info_run _ _ _ Hs).
  destruct (Z.geb_spec (buffer_depth info) (channel_count info)); [|nia].
  rewrite Hchunk.
  destruct (update_info_run address (fun _ => info1) w info Hs)
    as (w1 & Hup & _).
  pose proof (has_session_update _ _ _ _ _ _ Hs Hup) as Hs1.
  cbv beta in Hs1.
  unfold bind at 1. unfold bind at 1. rewrite Hup.
  apply update_info_spec in Hup. destruct Hup as (? & ? & _ & _ & Hw1).
  assert (Henv1 : env w1 = env w) by (rewrite Hw1; reflexivity).
  unfold ret at 1.
  unfold bind at 1, next_schedule, pop. rewrite Henv1, Hsched.
  set (w2 := set_env _ w1).
  assert (Hs2 : has_session address w2 info1)
    by (apply (has_session_same_devices address w1); [reflexivity|exact Hs1]).
  cbn [scan_thread_steps]. unfold bind at 1, ret at 1.
  assert (Hput0 : forall j, 0 <= j < samples_to_read l ->
            ub' !! Z.to_nat j
            = Some (ring_get (scan_buffer info)
                      ((read_index info + j) mod buffer_size info)))
    by (intros j Hj; rewrite <- (Hput j Hj); reflexivity).
  assert (Hrest0 : forall k : nat, ~ (Z.of_nat k < samples_to_read l) ->
            ub' !! k = ub !! k)
    by (intros k Hk; apply Hrest; lia).
  destruct no_timeout; cbn [negb].
  - unfold bind at 1, ret at 1.
    unfold bind at 1. rewrite (the_info_run _ _ _ Hs2).
    cbn [samples_to_read]. rewrite Hst, Z.sub_diag.
    cbn [Z.gtb Z.compare andb].
    eexists _, w2, info1, ub'. split; [reflexivity|].
    cbn [samples_to_read samples_read user_buffer].
    rewrite Hsr, Hub1.
    repeat match goal with |- _ /\ _ => split end; auto; lia.
  - destruct (monotonic (env w)) as [|t ts] eqn:Hmono;
      [exfalso; apply Hclock; reflexivity|].
    unfold bind at 1. unfold bind at 1, _difftime_us, pop.
    replace (monotonic (env w2)) with (t :: ts)
      by (subst w2; cbn; symmetry; exact Hmono).
    set (w3 := set_env _ w2). unfold ret at 1.
    assert (Hs3 : has_session address w3 info1)
      by (apply (has_session_same_devices address w2);
          [reflexivity|exact Hs2]).
    unfold bind at 1. rewrite (the_info_run _ _ _ Hs3).
    cbn [samples_to_read]. rewrite Hst, Z.sub_diag.
    cbn [Z.gtb Z.compare andb].
    eexists _, w3, info1, ub'. split; [reflexivity|].
    cbn [samples_to_read samples_read user_buffer].
    rewrite Hsr, Hub1.
    repeat match goal with |- _ /\ _ => split end; auto; lia.
Qed.

End ReadAvailable.

(** Reading what is there. When the ring of a session holds at least
    [samples_per_channel] samples for each channel, the caller's buffer has
    room for them and the producer is not scheduled during the call,
    [mcc172_a_in_scan_read] returns Success with [samples_per_channel] as
    the count read. The caller's buffer then starts with the oldest samples
    of the ring in the order they were stored, from the read index on and
    wrapping at the end of the ring; the rest of the buffer is untouched.
    The session's depth has dropped by the number of samples delivered and
    its read index has advanced by as many, modulo the ring size. *)
Theorem scan_read_returns_oldest_samples `{H : DaqhatsH}
    (address samples_per_channel buffer_size_samples status0 count0 : Z)
    (timeout : float) (ub : list float) (w : World)
    (info : mcc172ScanThreadInfo) (sched : list nat) :
  _check_addr address w = true ->
  has_session address w info ->
  0 < channel_count info ->
  0 < samples_per_channel ->
  samples_per_channel * channel_count info <= buffer_depth info ->
  buffer_depth info <= buffer_size info ->
  buffer_size info < 2 ^ 32 ->
  0 <= read_index info < buffer_size info ->
  samples_per_channel * channel_count info <= buffer_size_samples ->
  samples_per_channel * channel_count info <= Z.of_nat (length ub) ->
  Z.of_nat (length ub) < 2 ^ 32 ->
  scheduler (env w) = 0%nat :: sched ->
  ((timeout <? 0)%float = false -> monotonic (env w) <> []) ->
  exists w' out info' ub',
    mcc172_a_in_scan_read address (Some status0) samples_per_channel timeout
      (Some ub) buffer_size_samples (Some count0) w
    = Some ((RESULT_SUCCESS, out), w')
    /\ out_samples_read_per_channel out = Some samples_per_channel
    /\ out_buffer out = Some ub'
    /\ length ub' = length ub
    /\ (forall j, 0 <= j < samples_per_channel * channel_count info ->
          ub' !! Z.to_nat j
          = Some (ring_get (scan_buffer info)
                    ((read_index info + j) mod buffer_size info)))
    /\ (forall k : nat,
          ~ (Z.of_nat k < samples_per_channel * channel_count info) ->
          ub' !! k = ub !! k)
    /\ has_session address w' info'
    /\ buffer_depth info'
       = buffer_depth info - samples_per_channel * channel_count info
    /\ read_index info'
       = (read_index info + samples_per_channel * channel_count info)
         mod buffer_size info
    /\ scan_buffer info' = scan_buffer info.
Proof.
  intros Hcheck Hs Hcc Hspc Hdepth Hsize Hmax Hri Hroom Hfit Hlen Hsched
    Hclock.
  set (N := samples_per_channel * channel_count info) in *.
  assert (HN : 0 < N) by (subst N; nia).
  unfold mcc172_a_in_scan_read. unfold bind at 1, get.
  rewrite Hcheck. cbn [negb orb is_null].
  destruct (Z.eqb_spec buffer_size_samples 0) as [|_]; [lia|].
  rewrite andb_false_r.
  pose proof Hs as (dev & Hdev & Hinfo).
  unfold bind at 1, the_device. rewrite Hdev, Hinfo.
  destruct (Z.eqb_spec samples_per_channel (-1)) as [|_]; [lia|].
  fold N. rewrite (u32_id N) by lia.
  destruct (Z.ltb_spec buffer_size_samples N) as [|_]; [lia|].
  destruct (Z.eqb_spec N 0) as [|_]; [lia|]. cbn [negb].
  unfold bind at 1, get. unfold bind at 1.
  set (l0 := {| samples_to_read := N; samples_read := 0;
                timed_out := false; error := false; stat := 0;
                user_buffer := Some ub |}).
  destruct (read_loop_available (length (scheduler (env w))) address
              (timeout <? 0)%float
              (if (timeout <? 0)%float then 0
               else double_to_u32 (env w) (timeout * 1e6)%float)
              l0 w info ub sched Hs eq_refl eq_refl Hcc)
    as (l' & w' & info' & ub' & Hrun & Hs' & Hst & Hsr & Hub & Hlen' & Hput
        & Hrest & Hd & Hri' & Hbuf & _ & Hcc'); try (cbn; lia); try assumption.
  { exists samples_per_channel. split; [lia|reflexivity]. }
  rewrite Hrun. unfold bind at 1. rewrite (the_info_run _ _ _ Hs').
  rewrite Hst. cbn [Z.gtb Z.compare]. rewrite andb_false_r.
  unfold ret. eexists w', _, info', ub'. split; [reflexivity|].
  cbn [out_samples_read_per_channel out_buffer fmap option_fmap option_map].
  rewrite Hcc', Hsr. cbn [samples_to_read l0].
  unfold N at 1. rewrite Z.div_mul by lia.
  repeat match goal with |- _ /\ _ => split end; auto.
Qed.

(** A full ring of 4 samples whose oldest sample is at index 3, on a
    session of two channels; the producer is not scheduled. *)
Definition full_ring : mcc172ScanThreadInfo :=
  set_scan_buffer {[ 0 := 20%float; 1 := 30%float; 2 := 40%float;
                     3 := 10%float ]}
    (set_read_index 3 (set_write_index 3
       (set_buffer_depth 4 (set_buffer_size 4 sample_session)))).

Definition full_ring_world : World :=
  {| _devices := {[ 0 := set_scan_info (Some full_ring) open_device ]};
     _mcc172_lib_initialized := true;
     threads := ∅;
     env := set_scheduler [0%nat] quiet_env |}.

(** One sample per channel comes from ring indices 3 and 0. *)
Lemma scan_read_returns_oldest_samples_witness :
  exists w' out info' ub',
    mcc172_a_in_scan_read (H := sample_header) 0 (Some 0) 1 (-1)%float
      (Some [0%float; 0%float; 0%float]) 3 (Some 0) full_ring_world
    = Some ((RESULT_SUCCESS, out), w')
    /\ out_samples_read_per_channel out = Some 1
    /\ out_buffer out = Some ub'
    /\ length ub' = 3%nat
    /\ (forall j, 0 <= j < 1 * channel_count full_ring ->
          ub' !! Z.to_nat j
          = Some (ring_get (scan_buffer full_ring)
                    ((read_index full_ring + j) mod buffer_size full_ring)))
    /\ (forall k : nat,
          ~ (Z.of_nat k < 1 * channel_count full_ring) ->
          ub' !! k = [0%float; 0%float; 0%float] !! k)
    /\ has_session 0 w' info'
    /\ buffer_depth info' = buffer_depth full_ring - 1 * channel_count full_ring
    /\ read_index info'
       = (read_index full_ring + 1 * channel_count full_ring)
         mod buffer_size full_ring
    /\ scan_buffer info' = scan_buffer full_ring.
Proof.
  apply (scan_read_returns_oldest_samples (H := sample_header) 0 1 3 0 0
           (-1)%float [0%float; 0%float; 0%float] full_ring_world full_ring
           []).
  - reflexivity.
  - eexists. split; reflexivity.
  - cbn. lia.
  - lia.
  - cbn. lia.
  - cbn. lia.
  - cbn. lia.
  - cbn. lia.
  - cbn. lia.
  - cbn. lia.
  - cbn. lia.
  - reflexivity.
  - intros Hneg. vm_compute in Hneg. discriminate.
Defined.

(** ** Calls on a board that is not open, and calls that only ask *)

(** An address that [_check_addr] refuses. Every call of the API that takes
    an address returns BadParameter (the channel count: 0) at once: the
    driver's state is untouched, nothing is allocated and nothing is sent on
    the bus, and the out-parameters hold what the caller put there. *)
Theorem closed_address_is_refused `{H : DaqhatsH} (address : Z) (w : World) :
  _check_addr address w = false ->
  mcc172_close address w = Some (RESULT_BAD_PARAMETER, w)
  /\ mcc172_a_in_scan_cleanup address w = Some (RESULT_BAD_PARAMETER, w)
  /\ mcc172_a_in_scan_stop address w = Some (RESULT_BAD_PARAMETER, w)
  /\ mcc172_reset address w = Some (RESULT_BAD_PARAMETER, w)
  /\ mcc172_a_in_scan_channel_count address w = Some (0, w)
  /\ (forall count,
        mcc172_blink_led address count w = Some (RESULT_BAD_PARAMETER, w))
  /\ (forall version,
        mcc172_firmware_version address version w
        = Some ((RESULT_BAD_PARAMETER, version), w))
  /\ (forall buffer,
        mcc172_serial address buffer w
        = Some ((RESULT_BAD_PARAMETER, buffer), w)
        /\ mcc172_calibration_date address buffer w
           = Some ((RESULT_BAD_PARAMETER, buffer), w))
  /\ (forall channel slope offset,
        mcc172_calibration_coefficient_read address channel slope offset w
        = Some ((RESULT_BAD_PARAMETER, (slope, offset)), w))
  /\ (forall channel slope offset,
        mcc172_calibration_coefficient_write address channel slope offset w
        = Some (RESULT_BAD_PARAMETER, w))
  /\ (forall channel config,
        mcc172_IEPE_config_read address channel config w
        = Some ((RESULT_BAD_PARAMETER, config), w))
  /\ (forall channel config,
        mcc172_IEPE_config_write address channel config w
        = Some (RESULT_BAD_PARAMETER, w))
  /\ (forall clock_source rate synced,
        mcc172_a_in_clock_config_read address clock_source rate synced w
        = Some ((RESULT_BAD_PARAMETER, (clock_source, rate, synced)), w))
  /\ (forall clock_source rate,
        mcc172_a_in_clock_config_write address clock_source rate w
        = Some (RESULT_BAD_PARAMETER, w))
  /\ (forall source mode,
        mcc172_trigger_config address source mode w
        = Some (RESULT_BAD_PARAMETER, w))
  /\ (forall channel_mask samples_per_channel options,
        mcc172_a_in_scan_start address channel_mask samples_per_channel
          options w
        = Some (RESULT_BAD_PARAMETER, w))
  /\ (forall buffer_size_samples,
        mcc172_a_in_scan_buffer_size address buffer_size_samples w
        = Some ((RESULT_BAD_PARAMETER, buffer_size_samples), w))
  /\ (forall status samples_per_channel,
        mcc172_a_in_scan_status address status samples_per_channel w
        = Some ((RESULT_BAD_PARAMETER, (status, samples_per_channel)), w))
  /\ (forall status samples_per_channel timeout buffer buffer_size_samples
             samples_read_per_channel,
        mcc172_a_in_scan_read address status samples_per_channel timeout
          buffer buffer_size_samples samples_read_per_channel w
        = Some ((RESULT_BAD_PARAMETER,
                 {| out_status := status; out_buffer := buffer;
                    out_samples_read_per_channel :=
                      samples_read_per_channel |}), w))
  /\ (forall clock sync trigger,
        mcc172_test_signals_read address clock sync trigger w
        = Some ((RESULT_BAD_PARAMETER, (clock, sync, trigger)), w))
  /\ (forall mode clock sync,
        mcc172_test_signals_write address mode clock sync w
        = Some (RESULT_BAD_PARAMETER, w)).
Proof.
  intros Hclosed.
  repeat match goal with
         | |- _ /\ _ => split
         | |- forall _, _ => intro
         end;
    unfold mcc172_close, mcc172_a_in_scan_cleanup, mcc172_a_in_scan_stop,
      mcc172_reset, mcc172_a_in_scan_channel_count, mcc172_blink_led,
      mcc172_firmware_version, mcc172_serial, mcc172_calibration_date,
      mcc172_calibration_coefficient_read,
      mcc172_calibration_coefficient_write, mcc172_IEPE_config_read,
      mcc172_IEPE_config_write, mcc172_a_in_clock_config_read,
      mcc172_a_in_clock_config_write, mcc172_trigger_config,
      mcc172_a_in_scan_start, mcc172_a_in_scan_buffer_size,
      mcc172_a_in_scan_status, mcc172_a_in_scan_read,
      mcc172_test_signals_read, mcc172_test_signals_write;
    unfold bind at 1, get; rewrite Hclosed; reflexivity.
Qed.

(** Address 1 of a driver that holds board 0 alone. *)
Lemma closed_address_is_refused_witness :
  _check_addr (H := sample_header) 1 (open_world []) = false
  /\ mcc172_close (H := sample_header) 1 (open_world [])
     = Some (RESULT_BAD_PARAMETER, open_world [])
  /\ mcc172_a_in_scan_read (H := sample_header) 1 (Some 0) 1 0%float
       (Some [0%float]) 1 (Some 0) (open_world [])
     = Some ((RESULT_BAD_PARAMETER,
              {| out_status := Some 0; out_buffer := Some [0%float];
                 out_samples_read_per_channel := Some 0 |}),
             open_world []).
Proof.
  destruct (closed_address_is_refused (H := sample_header) 1
              (open_world []) eq_refl)
    as (Hclose & _ & _ & _ & _ & _ & _ & _ & _ & _ & _ & _ & _ & _ & _ & _
        & _ & _ & Hread & _).
  split; [reflexivity|]. split; [exact Hclose|apply Hread].
Defined.

Section Queries.

Context `{H : DaqhatsH}.

Lemma query_ret {A} (a : A) : preserves same_driver_state (ret a).
Proof. intros w a' w' Hr. inversion Hr. apply same_driver_state_refl. Qed.

Lemma query_undefined {A} : preserves same_driver_state (@undefined A).
Proof. intros w a w' Hr. discriminate. Qed.

Lemma query_get : preserves same_driver_state get.
Proof. intros w a w' Hr. inversion Hr. apply same_driver_state_refl. Qed.

Lemma query_bind {A B} (m : M A) (k : A -> M B) :
  preserves same_driver_state m ->
  (forall a, preserves same_driver_state (k a)) ->
  preserves same_driver_state (bind m k).
Proof.
  intros Hm Hk w b w' Hrun. unfold bind in Hrun.
  destruct (m w) as [[a w1]|] eqn:E; [|discriminate].
  eapply same_driver_state_trans;
    [exact (Hm _ _ _ E)|exact (Hk _ _ _ _ Hrun)].
Qed.

Lemma query_spi_transfer (address : Z) (command : byte)
    (tx_data : option (list byte)) (tx_data_count : Z)
    (rx_data : option (list byte)) (rx_data_count : Z)
    (reply_timeout_us retry_us : Z) :
  preserves same_driver_state
    (_spi_transfer address command tx_data tx_data_count rx_data
       rx_data_count reply_timeout_us retry_us).
Proof. intros w a w' Hr. eapply spi_transfer_same_state. exact Hr. Qed.

Lemma query_the_device (address : Z) :
  preserves same_driver_state (the_device address).
Proof.
  intros w a w' Hr. unfold the_device in Hr.
  destruct (_devices w !! address); inversion Hr.
  apply same_driver_state_refl.
Qed.

Lemma query_strcpy_field (field : string) (n : Z) :
  preserves same_driver_state (strcpy_field field n).
Proof.
  unfold strcpy_field. destruct (_ <? _);
    [apply query_ret|apply query_undefined].
Qed.

End Queries.

(** One rule per construct of the calls that only ask or only send. *)
Ltac query :=
  repeat first
    [ apply query_ret | apply query_undefined | apply query_get
    | apply query_spi_transfer | apply query_the_device
    | apply query_strcpy_field
    | apply query_bind; [|intros ?]
    | match goal with
      | |- preserves _ (if ?c then _ else _) => destruct c
      | |- preserves _ (match ?x with _ => _ end) => destruct x
      end ].

(** Calls that leave the driver as it is. Whatever the device answers and
    whatever they return, the calls that query the board or the driver
    ([mcc172_is_open], firmware version, serial, calibration date and
    coefficients, IEPE and clock configuration, scan buffer size, channel
    count and status, test signals) and the calls that only send a command
    ([mcc172_blink_led], [mcc172_reset], [mcc172_a_in_scan_stop],
    [mcc172_test_signals_write], and the IEPE and clock configuration
    writes) change neither the table of devices, a scan session included,
    nor the library flag, nor any producer thread. *)
Theorem queries_keep_driver_state `{H : DaqhatsH} (address : Z) :
  preserves same_driver_state (mcc172_is_open address)
  /\ preserves same_driver_state (mcc172_reset address)
  /\ preserves same_driver_state (mcc172_a_in_scan_stop address)
  /\ preserves same_driver_state (mcc172_a_in_scan_channel_count address)
  /\ (forall count,
        preserves same_driver_state (mcc172_blink_led address count))
  /\ (forall version,
        preserves same_driver_state
          (mcc172_firmware_version address version))
  /\ (forall buffer,
        preserves same_driver_state (mcc172_serial address buffer)
        /\ preserves same_driver_state
             (mcc172_calibration_date address buffer))
  /\ (forall channel slope offset,
        preserves same_driver_state
          (mcc172_calibration_coefficient_read address channel slope
             offset))
  /\ (forall channel config,
        preserves same_driver_state
          (mcc172_IEPE_config_read address channel config))
  /\ (forall channel config,
        preserves same_driver_state
          (mcc172_IEPE_config_write address channel config))
  /\ (forall clock_source rate synced,
        preserves same_driver_state
          (mcc172_a_in_clock_config_read address clock_source rate synced))
  /\ (forall clock_source rate,
        preserves same_driver_state
          (mcc172_a_in_clock_config_write address clock_source rate))
  /\ (forall buffer_size_samples,
        preserves same_driver_state
          (mcc172_a_in_scan_buffer_size address buffer_size_samples))
  /\ (forall status samples_per_channel,
        preserves same_driver_state
          (mcc172_a_in_scan_status address status samples_per_channel))
  /\ (forall clock sync trigger,
        preserves same_driver_state
          (mcc172_test_signals_read address clock sync trigger))
  /\ (forall mode clock sync,
        preserves same_driver_state
          (mcc172_test_signals_write address mode clock sync)).
Proof.
  repeat match goal with
         | |- _ /\ _ => split
         | |- forall _, _ => intro
         end;
    unfold mcc172_is_open, mcc172_reset, mcc172_a_in_scan_stop,
      mcc172_a_in_scan_channel_count, mcc172_blink_led,
      mcc172_firmware_version, mcc172_serial, mcc172_calibration_date,
      mcc172_calibration_coefficient_read, mcc172_IEPE_config_read,
      mcc172_IEPE_config_write, mcc172_a_in_clock_config_read,
      mcc172_a_in_clock_config_write, mcc172_a_in_scan_buffer_size,
      mcc172_a_in_scan_status, mcc172_test_signals_read,
      mcc172_test_signals_write;
    query.
Qed.

(** ** Trigger settings *)

(** The trigger settings are recorded before they are sent. On an open
    board without a scan, [mcc172_trigger_config] with a valid source and
    mode stores both in the driver's device record and then sends them:
    whatever the transfer returns, a failure included, the record holds
    the new settings; nothing else of the driver's state changes. *)
Theorem trigger_config_records_settings `{H : DaqhatsH}
    (address source mode : Z) (w w' : World) (r : ResultCode)
    (dev : mcc172Device) :
  _check_addr address w = true ->
  _devices w !! address = Some dev ->
  scan_info dev = None ->
  source <= 2 ->
  mode <= TRIG_ACTIVE_LOW ->
  mcc172_trigger_config address source mode w = Some (r, w') ->
  _devices w'
  = <[address := set_trigger_mode mode (set_trigger_source source dev)]>
      (_devices w)
  /\ _mcc172_lib_initialized w' = _mcc172_lib_initialized w
  /\ threads w' = threads w.
Proof.
  intros Hcheck Hdev Hidle Hsource Hmode Hrun.
  unfold mcc172_trigger_config in Hrun. unfold bind at 1, get in Hrun.
  rewrite Hcheck in Hrun. cbn [negb orb] in Hrun.
  destruct (Z.gtb_spec source 2) as [|_]; [lia|].
  destruct (Z.gtb_spec mode TRIG_ACTIVE_LOW) as [|_]; [lia|].
  cbn [orb] in Hrun.
  unfold bind at 1, the_device in Hrun. rewrite Hdev, Hidle in Hrun.
  cbn [is_null negb] in Hrun.
  unfold bind at 1, store_device, modify in Hrun.
  run Hrun as rr w1 E. apply spi_transfer_same_state in E.
  destruct E as (Hd & Hi & Ht). inversion Hrun; subst.
  rewrite Hd, Hi, Ht. repeat split.
Qed.

(** The device never answers: the call returns Timeout, and the record
    holds source 1 and mode 2 all the same. *)
Lemma trigger_config_records_settings_witness :
  exists w',
    mcc172_trigger_config (H := sample_header) 0 1 2 (open_world [silent])
    = Some (RESULT_TIMEOUT, w')
    /\ _devices w'
       = <[0 := set_trigger_mode 2 (set_trigger_source 1 open_device)]>
           (_devices (open_world [silent]))
    /\ _mcc172_lib_initialized w' = true
    /\ threads w' = ∅.
Proof.
  destruct (mcc172_trigger_config (H := sample_header) 0 1 2
              (open_world [silent]))
    as [[r w']|] eqn:Hrun; [|vm_compute in Hrun; discriminate].
  pose proof (trigger_config_records_settings (H := sample_header) 0 1 2
                (open_world [silent]) w' r open_device eq_refl eq_refl
                eq_refl ltac:(lia) ltac:(cbn; lia) Hrun) as Hrec.
  assert (Hr : r = RESULT_TIMEOUT).
  { vm_compute in Hrun. inversion Hrun. reflexivity. }
  subst r. exists w'. split; [reflexivity|exact Hrec].
Defined.

(** ** Status bits read from the board *)

Section Bits.

Lemma land_shiftr_bit (x n : Z) :
  0 <= n -> Z.land (Z.shiftr x n) 1 = Z.b2z (Z.testbit x n).
Proof.
  intros Hn. change 1 with (Z.ones 1). rewrite Z.land_ones by lia.
  change (2 ^ 1) with 2. rewrite <- Z.bit0_mod.
  rewrite Z.shiftr_spec by lia. reflexivity.
Qed.

Context `{H : DaqhatsH}.

Lemma one_byte_reply (address : Z) (command : Z) (b : byte)
    (noise : list byte) (w : World) (bus : list SpiEnv)
    (heap' : list bool) :
  _check_addr address w = true ->
  heap (env w) = true :: true :: true :: heap' ->
  spi_bus (env w)
  = answers (reply_frame (byte_of_Z command) (byte_of_Z FW_RES_SUCCESS) [b]
             ++ noise) :: bus ->
  _spi_transfer address (byte_of_Z command) None 0 (Some [x00]) 1
    (20 * MSEC) 0 w
  = Some ((RESULT_SUCCESS, Some [b]),
          set_env (set_spi_bus bus (set_heap heap' (env w))) w).
Proof.
  intros Hcheck Hheap Hbus.
  apply (spi_transfer_payload address (byte_of_Z command) None 0 [x00] [b]
           noise (20 * MSEC) 0 w bus heap').
  - exact Hcheck.
  - unfold MAX_TX_DATA_SIZE. lia.
  - intros Hne. exfalso. apply Hne. reflexivity.
  - reflexivity.
  - cbn. lia.
  - exact Hheap.
  - exact Hbus.
Qed.

End Bits.

(** Reading bits back. When the device answers the query with status 0 and
    one byte, [mcc172_IEPE_config_read] returns Success with bit [channel]
    of that byte as the configuration, and [mcc172_test_signals_read]
    returns Success with its bits 0, 1 and 2 as clock, sync and trigger;
    the values handed back are 0 or 1. *)
Theorem bit_queries_decode_reply `{H : DaqhatsH} (address : Z) (b : byte)
    (noise : list byte) (w : World) (bus : list SpiEnv)
    (heap' : list bool) :
  _check_addr address w = true ->
  heap (env w) = true :: true :: true :: heap' ->
  (forall channel config,
     0 <= channel < NUM_CHANNELS ->
     spi_bus (env w)
     = answers (reply_frame (byte_of_Z CMD_IEPECONFIG_R)
                  (byte_of_Z FW_RES_SUCCESS) [b] ++ noise) :: bus ->
     mcc172_IEPE_config_read address channel (Some config) w
     = Some ((RESULT_SUCCESS,
              Some (Z.b2z (Z.testbit (byte_val b) channel))),
             set_env (set_spi_bus bus (set_heap heap' (env w))) w))
  /\ (forall clock sync trigger,
        spi_bus (env w)
        = answers (reply_frame (byte_of_Z CMD_TESTSIGNAL_R)
                     (byte_of_Z FW_RES_SUCCESS) [b] ++ noise) :: bus ->
        mcc172_test_signals_read address (Some clock) (Some sync)
          (Some trigger) w
        = Some ((RESULT_SUCCESS,
                 (Some (Z.b2z (Z.testbit (byte_val b) 0)),
                  Some (Z.b2z (Z.testbit (byte_val b) 1)),
                  Some (Z.b2z (Z.testbit (byte_val b) 2)))),
                set_env (set_spi_bus bus (set_heap heap' (env w))) w)).
Proof.
  intros Hcheck Hheap. split.
  - intros channel config Hch Hbus.
    unfold mcc172_IEPE_config_read. unfold bind at 1, get.
    rewrite Hcheck. cbn [negb orb is_null].
    destruct (Z.geb_spec channel NUM_CHANNELS) as [|_]; [lia|].
    cbn [orb]. unfold bind at 1.
    rewrite (one_byte_reply address CMD_IEPECONFIG_R b noise w bus heap'
               Hcheck Hheap Hbus).
    rewrite bool_decide_eq_true_2 by reflexivity.
    unfold ret. do 4 f_equal.
    apply land_shiftr_bit. lia.
  - intros clock sync trigger Hbus.
    unfold mcc172_test_signals_read. unfold bind at 1, get.
    rewrite Hcheck. cbn [negb orb is_null]. unfold bind at 1.
    rewrite (one_byte_reply address CMD_TESTSIGNAL_R b noise w bus heap'
               Hcheck Hheap Hbus).
    rewrite bool_decide_eq_true_2 by reflexivity.
    unfold ret. cbn [default byte_at].
    rewrite <- (land_shiftr_bit (byte_val b) 0) by lia.
    rewrite <- (land_shiftr_bit (byte_val b) 1) by lia.
    rewrite <- (land_shiftr_bit (byte_val b) 2) by lia.
    rewrite Z.shiftr_0_r. reflexivity.
Qed.

(** The byte 0x06 read as the IEPE configuration of channel 1 and as the
    test signals. *)
Lemma bit_queries_decode_reply_witness :
  fst <$> mcc172_IEPE_config_read (H := sample_header) 0 1 (Some 0)
            (open_world [answers [xdb; x43; x00; x01; x00; x06]])
  = Some (RESULT_SUCCESS, Some 1)
  /\ fst <$> mcc172_test_signals_read (H := sample_header) 0 (Some 0)
               (Some 0) (Some 0)
               (open_world [answers [xdb; x45; x00; x01; x00; x06]])
     = Some (RESULT_SUCCESS, (Some 0, Some 1, Some 1)).
Proof.
  split.
  - rewrite (proj1 (bit_queries_decode_reply (H := sample_header) 0 x06 []
                      (open_world [answers [xdb; x43; x00; x01; x00; x06]])
                      [] (replicate 61 true) eq_refl eq_refl)
               1 0 ltac:(unfold NUM_CHANNELS; lia) eq_refl).
    reflexivity.
  - rewrite (proj2 (bit_queries_decode_reply (H := sample_header) 0 x06 []
                      (open_world [answers [xdb; x45; x00; x01; x00; x06]])
                      [] (replicate 61 true) eq_refl eq_refl)
               0 0 0 eq_refl).
    reflexivity.
Defined.
